(** * ZBRAIN hospital patient-flow simulator: embedding and verification

    A shallow embedding of [zbrain_simulator.py]: the staff cost
    accumulators, the bounded units, the metrics tracker, the tiered
    transport broker, the event handlers of [HospitalSimulator._process_event]
    and the event loop of [HospitalSimulator.run].

    Conventions of the embedding.
    - Simulated time and money are Python floats in the source; they are
      idealised here as exact rationals ([Q]).  Python ints are [Z].
    - A Python exception is a value [Raise e] of the [result] monad.
    - Every call into [random] and [uuid] takes its outcome from a record
      of draws handed to the handler, so a theorem that quantifies over the
      draws covers every behaviour of the generator.
    - The simulator is taken with its default, empty [patient_to_trace],
      under which the per-patient debug trace records nothing; the trace and
      the printing are left out. *)

From Stdlib Require Import QArith Qround Lqa.
From stdpp Require Import gmap strings list sorting pretty.

Local Open Scope Z_scope.

(** ** Python exceptions as a result monad *)

Inductive PyError : Type :=
  | AttributeError | KeyError | TypeError | ValueError | IndexError.

Inductive result (A : Type) : Type :=
  | Ok (a : A)
  | Raise (e : PyError).
Arguments Ok {A} a.
Arguments Raise {A} e.

Definition result_bind {A B : Type} (f : A → result B) (m : result A) : result B :=
  match m with
  | Ok a => f a
  | Raise e => Raise e
  end.

#[global] Instance result_mret : MRet result := λ A a, Ok a.
#[global] Instance result_mbind : MBind result := λ A B f m, result_bind f m.

(** ** Rational helpers (Python float comparisons and truncation) *)

Definition Qltb (a b : Q) : bool := negb (Qle_bool b a).
Definition Qmin (a b : Q) : Q := if Qle_bool a b then a else b.
Definition Qmax (a b : Q) : Q := if Qle_bool b a then a else b.

(** [x % m] on floats with a positive modulus. *)
Definition Qmod (x : Q) (m : Z) : Q := (x - inject_Z (m * Qfloor (x / inject_Z m)))%Q.

(** [int(x)] truncates towards zero. *)
Definition py_int (x : Q) : Z :=
  if Qle_bool 0 x then Qfloor x else Qceiling x.

(** Truthiness of an optional timestamp: [None] and [0] are both false. *)
Definition truthy (o : option Q) : bool :=
  match o with
  | Some q => negb (Qeq_bool q 0)
  | None => false
  end.

(** [random.randint(lo, hi)]: the draw [raw] is folded into the closed range;
    an empty range is a [ValueError]. *)
Definition randint (range : Z * Z) (raw : Z) : result Z :=
  let '(lo, hi) := range in
  if hi <? lo then Raise ValueError else Ok (lo + raw mod (hi - lo + 1)).

(** ** [heapq]: the array heap of the Python standard library

    [lt] is the [<] of the stored items and may raise.  Index lookups are
    always in range in these loops; the fallback of [default] is never used. *)

Section Heapq.
Context {A : Type} (lt : A → A → result bool).

(** The body of [_siftdown]'s loop; [pos] strictly decreases, so [pos]
    units of fuel are enough. *)
Fixpoint siftdown_loop (fuel : nat) (heap : list A) (startpos pos : nat)
    (newitem : A) : result (list A) :=
  match fuel with
  | O => Ok (<[pos := newitem]> heap)
  | S fuel' =>
      if decide (startpos < pos)%nat then
        let parentpos := ((pos - 1) / 2)%nat in
        let parent := default newitem (heap !! parentpos) in
        b ← lt newitem parent;
        if b : bool then
          siftdown_loop fuel' (<[pos := parent]> heap) startpos parentpos newitem
        else Ok (<[pos := newitem]> heap)
      else Ok (<[pos := newitem]> heap)
  end.

Definition siftdown (heap : list A) (startpos pos : nat) : result (list A) :=
  match heap !! pos with
  | None => Raise IndexError
  | Some newitem => siftdown_loop pos heap startpos pos newitem
  end.

Definition heappush (heap : list A) (item : A) : result (list A) :=
  siftdown (heap ++ [item]) 0 (length heap).

(** The first loop of [_siftup]: bubble the smaller child up until a leaf;
    returns the heap and the position of the hole. *)
Fixpoint siftup_loop (fuel : nat) (heap : list A) (endpos pos : nat)
    (newitem : A) : result (list A * nat) :=
  match fuel with
  | O => Ok (heap, pos)
  | S fuel' =>
      let childpos := (2 * pos + 1)%nat in
      if decide (childpos < endpos)%nat then
        let rightpos := (childpos + 1)%nat in
        childpos' ←
          (if decide (rightpos < endpos)%nat then
             b ← lt (default newitem (heap !! childpos))
                    (default newitem (heap !! rightpos));
             Ok (if b : bool then childpos else rightpos)
           else Ok childpos);
        siftup_loop fuel' (<[pos := default newitem (heap !! childpos')]> heap)
          endpos childpos' newitem
      else Ok (heap, pos)
  end.

Definition siftup (heap : list A) (pos : nat) : result (list A) :=
  match heap !! pos with
  | None => Raise IndexError
  | Some newitem =>
      '(heap', pos') ← siftup_loop (length heap) heap (length heap) pos newitem;
      siftdown (<[pos' := newitem]> heap') pos pos'
  end.

(** [heappop]: returns the popped item and the remaining heap. *)
Definition heappop (heap : list A) : result (A * list A) :=
  match last heap with
  | None => Raise IndexError
  | Some lastelt =>
      let heap' := removelast heap in
      match heap' with
      | [] => Ok (lastelt, [])
      | returnitem :: _ =>
          heap'' ← siftup (<[0%nat := lastelt]> heap') 0;
          Ok (returnitem, heap'')
      end
  end.

(** [heapify]: [for i in reversed(range(n // 2)): _siftup(x, i)]. *)
Fixpoint heapify_from (i : nat) (heap : list A) : result (list A) :=
  match i with
  | O => Ok heap
  | S i' => heap' ← siftup heap i'; heapify_from i' heap'
  end.

Definition heapify (heap : list A) : result (list A) :=
  heapify_from (length heap / 2)%nat heap.
End Heapq.

(** ** Closed enumerations for the strings of the source *)

Inductive Acuity : Type := CRITICAL | URGENT_ADMIT | URGENT_OBS | NON_URGENT.

Inductive StaffType : Type :=
  | PHYSICIAN | NURSE | TECH | RADIOLOGIST | TRANSPORT | VOLUNTEER_TRANSPORT.

Inductive UnitName : Type :=
  | ED | INPATIENT | CDU | IMAGING_CT | IMAGING_MRI | LAB | RADIOLOGY.

Inductive Modality : Type := CT | MRI.

Inductive ReportClass : Type := ROUTINE | REPORT_CRITICAL.

Inductive TransportType : Type := PULLEY | PAID_STAFF | VOLUNTEER.

#[global] Instance Acuity_eq_dec : EqDecision Acuity.
Proof. solve_decision. Defined.
#[global] Instance StaffType_eq_dec : EqDecision StaffType.
Proof. solve_decision. Defined.
#[global] Instance UnitName_eq_dec : EqDecision UnitName.
Proof. solve_decision. Defined.
#[global] Instance Modality_eq_dec : EqDecision Modality.
Proof. solve_decision. Defined.
#[global] Instance TransportType_eq_dec : EqDecision TransportType.
Proof. solve_decision. Defined.

(** [patient.status] *)
Inductive Status : Type :=
  | St_ARRIVED | St_TRIAGING | St_ED_TRIAGE_COMPLETE | St_ED_IN_BED
  | St_PHYSICIAN_ASSESSMENT | St_ED_WAIT_FOR_PHYSICIAN | St_ED_WAIT_FOR_BED
  | St_IMAGING_PENDING | St_LAB_PENDING
  | St_TRANSFER_TO_IMAGING_PENDING | St_ED_WAIT_FOR_IMAGING_MACHINE
  | St_IN_TRANSIT_TO_IMAGING | St_ED_WAIT_FOR_TRANSPORT_TO_IMAGING
  | St_IMAGING_PROCESSING | St_IMAGING_WAIT_FOR_TECH | St_IMAGING_REPORT_PENDING
  | St_IMAGING_REPORTING | St_IMAGING_REPORT_WAIT_FOR_RADIOLOGIST
  | St_DIAGNOSTICS_COMPLETE
  | St_TRANSFER_TO_LAB_PENDING | St_ED_WAIT_FOR_LAB_CAPACITY
  | St_IN_TRANSIT_TO_LAB | St_ED_WAIT_FOR_TRANSPORT_TO_LAB
  | St_LAB_PROCESSING | St_LAB_WAIT_FOR_TECH
  | St_ADMIT_INPATIENT_PENDING | St_ADMIT_CDU_PENDING | St_DISCHARGE_PENDING_ORDER
  | St_ED_BOARDING | St_ED_WAIT_FOR_TRANSPORT
  | St_IN_TRANSIT_TO_INPATIENT | St_IN_TRANSIT_TO_CDU
  | St_INPATIENT_STAY | St_CDU_OBSERVATION
  | St_CDU_DISCHARGE_PENDING | St_CDU_TO_INPATIENT
  | St_DISCHARGE_PROCESS | St_DISCHARGE_PROCESSING | St_DISCHARGE_WAIT_FOR_NURSE
  | St_DISCHARGED.

#[global] Instance Status_eq_dec : EqDecision Status.
Proof. solve_decision. Defined.

(** The second component of an event-queue tuple. *)
Inductive EventKind : Type :=
  | SCHEDULE_PATIENT_ARRIVAL | PATIENT_ARRIVAL | ED_TRIAGE_COMPLETE | ASSIGN_ED_BED
  | ED_PHYSICIAN_RETRY | ED_PHYSICIAN_ASSESSMENT_COMPLETE
  | IMAGING_ORDERED | TRANSFER_TO_IMAGING
  | PULLEY_TRANSPORT_COMPLETE | STAFF_TRANSPORT_COMPLETE
  | IMAGING_STARTED | IMAGING_COMPLETE | IMAGING_REPORT_RETRY | IMAGING_REPORT_COMPLETE
  | LAB_ORDERED | TRANSFER_TO_LAB | LAB_STARTED | LAB_COMPLETE
  | RE_EVALUATE_AFTER_DIAGNOSTICS
  | ADMIT_TO_INPATIENT | ADMIT_TO_CDU
  | CDU_OBSERVATION_COMPLETE | INPATIENT_PATIENT_CHECK
  | DISCHARGE_ORDERED | DISCHARGE_PROCESS_RETRY | DISCHARGE_PROCESS_COMPLETE
  | AI_STAFFING_ADJUSTMENT
  | CDU_OCCUPANCY_METRIC_CHECK | INPATIENT_OCCUPANCY_METRIC_CHECK
  | PULLEY_UTILIZATION_METRIC_CHECK.

#[global] Instance EventKind_eq_dec : EqDecision EventKind.
Proof. solve_decision. Defined.

(** The Python string of an event kind; the heap compares these strings. *)
Definition event_kind_name (k : EventKind) : string :=
  match k with
  | SCHEDULE_PATIENT_ARRIVAL => "SCHEDULE_PATIENT_ARRIVAL"
  | PATIENT_ARRIVAL => "PATIENT_ARRIVAL"
  | ED_TRIAGE_COMPLETE => "ED_TRIAGE_COMPLETE"
  | ASSIGN_ED_BED => "ASSIGN_ED_BED"
  | ED_PHYSICIAN_RETRY => "ED_PHYSICIAN_RETRY"
  | ED_PHYSICIAN_ASSESSMENT_COMPLETE => "ED_PHYSICIAN_ASSESSMENT_COMPLETE"
  | IMAGING_ORDERED => "IMAGING_ORDERED"
  | TRANSFER_TO_IMAGING => "TRANSFER_TO_IMAGING"
  | PULLEY_TRANSPORT_COMPLETE => "PULLEY_TRANSPORT_COMPLETE"
  | STAFF_TRANSPORT_COMPLETE => "STAFF_TRANSPORT_COMPLETE"
  | IMAGING_STARTED => "IMAGING_STARTED"
  | IMAGING_COMPLETE => "IMAGING_COMPLETE"
  | IMAGING_REPORT_RETRY => "IMAGING_REPORT_RETRY"
  | IMAGING_REPORT_COMPLETE => "IMAGING_REPORT_COMPLETE"
  | LAB_ORDERED => "LAB_ORDERED"
  | TRANSFER_TO_LAB => "TRANSFER_TO_LAB"
  | LAB_STARTED => "LAB_STARTED"
  | LAB_COMPLETE => "LAB_COMPLETE"
  | RE_EVALUATE_AFTER_DIAGNOSTICS => "RE_EVALUATE_AFTER_DIAGNOSTICS"
  | ADMIT_TO_INPATIENT => "ADMIT_TO_INPATIENT"
  | ADMIT_TO_CDU => "ADMIT_TO_CDU"
  | CDU_OBSERVATION_COMPLETE => "CDU_OBSERVATION_COMPLETE"
  | INPATIENT_PATIENT_CHECK => "INPATIENT_PATIENT_CHECK"
  | DISCHARGE_ORDERED => "DISCHARGE_ORDERED"
  | DISCHARGE_PROCESS_RETRY => "DISCHARGE_PROCESS_RETRY"
  | DISCHARGE_PROCESS_COMPLETE => "DISCHARGE_PROCESS_COMPLETE"
  | AI_STAFFING_ADJUSTMENT => "AI_STAFFING_ADJUSTMENT"
  | CDU_OCCUPANCY_METRIC_CHECK => "CDU_OCCUPANCY_METRIC_CHECK"
  | INPATIENT_OCCUPANCY_METRIC_CHECK => "INPATIENT_OCCUPANCY_METRIC_CHECK"
  | PULLEY_UTILIZATION_METRIC_CHECK => "PULLEY_UTILIZATION_METRIC_CHECK"
  end.

Definition unit_str (u : UnitName) : string :=
  match u with
  | ED => "ED" | INPATIENT => "INPATIENT" | CDU => "CDU"
  | IMAGING_CT => "IMAGING_CT" | IMAGING_MRI => "IMAGING_MRI"
  | LAB => "LAB" | RADIOLOGY => "RADIOLOGY"
  end.

(** [str(patient.current_unit)] inside an f-string. *)
Definition opt_unit_str (u : option UnitName) : string :=
  match u with Some n => unit_str n | None => "None" end.

Definition modality_str (m : Modality) : string :=
  match m with CT => "CT" | MRI => "MRI" end.

(** ** [class Config]

    The class attributes as a record: [Config_base] is the class itself, a
    subclass instance handed to the simulator is another record value. *)

Record Config : Type := Build_Config {
  SIM_DAYS : Z;
  SIM_MINUTES_PER_DAY : Z;
  TICK_INTERVAL_MINUTES : Z;
  SIM_START_TIME : Z;
  SIM_END_TIME : Z;
  PATIENT_ARRIVAL_RATE : Q;
  PHYSICIAN_COST : Q;
  NURSE_COST : Q;
  TECH_COST : Q;
  RADIOLOGIST_COST : Q;
  TRANSPORT_COST : Q;
  VOLUNTEER_COST : Q;
  OVERTIME_MULTIPLIER : Q;
  UNIT_CAPACITY : UnitName → Z;
  STAFF_PER_UNIT : list (UnitName * list (StaffType * Z));
  TRANSPORT_STAFF : Z;
  VOLUNTEER_TRANSPORT_STAFF : Z;
  VOLUNTEER_TRANSFER_PROCESS_TIME : Z * Z;
  VOLUNTEER_ACUITY_ELIGIBILITY : list Acuity;
  VOLUNTEER_HOURS_START : Z;
  VOLUNTEER_HOURS_END : Z;
  PULLEY_SYSTEM_CAPACITY : Z;
  PULLEY_TRANSFER_PROCESS_TIME : Z * Z;
  PULLEY_ELIGIBLE_UNITS : list UnitName;
  PULLEY_ELIGIBLE_DESTINATIONS : list UnitName;
  INPATIENT_BEDS : Z;
  CDU_BEDS : Z;
  CDU_CRITERIA_MATCH : Q;
  CDU_OBSERVATION_TIME : Z * Z;
  IMAGING_PROCESSING_TIME : Modality → Z * Z;
  IMAGING_REPORTING_TIME : ReportClass → Z * Z;
  LAB_PROCESSING_TIME : Z * Z;
  AI_CRITICAL_REDUCTION : Q;
  AI_ROUTINE_PRELIM_REDUCTION : Q;
  AI_STAFFING_ADJUSTMENT_INTERVAL_MINUTES : Z;
  AI_DISCHARGE_REDUCTION : Q;
  PATIENT_ACUITY : Acuity → Q;
  TRANSPORT_PRIORITY : Acuity → Z;
  ED_TRIAGE_TIME : Z * Z;
  ED_PHYSICIAN_ASSESSMENT_TIME : Acuity → Z * Z;
  INPATIENT_STAY_TIME : Acuity → Z * Z;
  DISCHARGE_PROCESS_TIME : Z * Z;
  TRANSFER_PROCESS_TIME : Z * Z;
  INPATIENT_CDU_CHECK_INTERVAL : Z;
  AMENITIES_COST_PER_PATIENT_VISIT : Q;
  SATISFACTION_AMENITIES_BONUS : Z;
  AI_ENTERTAINMENT_MONTHLY_COST : Q;
  SATISFACTION_ENTERTAINMENT_BONUS : Z
}.

Definition Config_base : Config := {|
  SIM_DAYS := 7;
  SIM_MINUTES_PER_DAY := 24 * 60;
  TICK_INTERVAL_MINUTES := 5;
  SIM_START_TIME := 0;
  SIM_END_TIME := 7 * (24 * 60);
  PATIENT_ARRIVAL_RATE := 2 # 5;
  PHYSICIAN_COST := 3;
  NURSE_COST := 1;
  TECH_COST := 1 # 2;
  RADIOLOGIST_COST := 5 # 2;
  TRANSPORT_COST := 3 # 5;
  VOLUNTEER_COST := 0;
  OVERTIME_MULTIPLIER := 3 # 2;
  UNIT_CAPACITY := λ u,
    match u with
    | ED => 45 | INPATIENT => 165 | CDU => 0 | IMAGING_CT => 2
    | IMAGING_MRI => 1 | LAB => 5 | RADIOLOGY => 1
    end;
  STAFF_PER_UNIT :=
    [ (ED, [(NURSE, 14); (PHYSICIAN, 8)]);
      (INPATIENT, [(NURSE, 30); (PHYSICIAN, 7)]);
      (CDU, [(NURSE, 4); (PHYSICIAN, 1)]);
      (RADIOLOGY, [(RADIOLOGIST, 6)]);
      (IMAGING_CT, [(TECH, 6)]);
      (IMAGING_MRI, [(TECH, 4)]);
      (LAB, [(TECH, 5)]) ];
  TRANSPORT_STAFF := 25;
  VOLUNTEER_TRANSPORT_STAFF := 0;
  VOLUNTEER_TRANSFER_PROCESS_TIME := (20, 40);
  VOLUNTEER_ACUITY_ELIGIBILITY := [URGENT_OBS; NON_URGENT];
  VOLUNTEER_HOURS_START := 8 * 60;
  VOLUNTEER_HOURS_END := 17 * 60;
  PULLEY_SYSTEM_CAPACITY := 0;
  PULLEY_TRANSFER_PROCESS_TIME := (5, 10);
  PULLEY_ELIGIBLE_UNITS := [ED];
  PULLEY_ELIGIBLE_DESTINATIONS := [IMAGING_CT; IMAGING_MRI];
  INPATIENT_BEDS := 165;
  CDU_BEDS := 20;
  CDU_CRITERIA_MATCH := 4 # 5;
  CDU_OBSERVATION_TIME := (10 * 60, 20 * 60);
  IMAGING_PROCESSING_TIME := λ m, match m with CT => (10, 20) | MRI => (20, 40) end;
  IMAGING_REPORTING_TIME := λ c,
    match c with ROUTINE => (120, 360) | REPORT_CRITICAL => (60, 120) end;
  LAB_PROCESSING_TIME := (60, 180);
  AI_CRITICAL_REDUCTION := 3 # 10;
  AI_ROUTINE_PRELIM_REDUCTION := 3 # 20;
  AI_STAFFING_ADJUSTMENT_INTERVAL_MINUTES := 60;
  AI_DISCHARGE_REDUCTION := 1 # 10;
  PATIENT_ACUITY := λ a,
    match a with
    | CRITICAL => 1 # 10 | URGENT_ADMIT => 1 # 5
    | URGENT_OBS => 3 # 10 | NON_URGENT => 2 # 5
    end;
  TRANSPORT_PRIORITY := λ a,
    match a with CRITICAL => 1 | URGENT_ADMIT => 2 | URGENT_OBS => 3 | NON_URGENT => 4 end;
  ED_TRIAGE_TIME := (10, 30);
  ED_PHYSICIAN_ASSESSMENT_TIME := λ a,
    match a with
    | CRITICAL => (30, 60) | URGENT_ADMIT => (20, 45)
    | URGENT_OBS => (15, 30) | NON_URGENT => (10, 20)
    end;
  INPATIENT_STAY_TIME := λ a,
    match a with
    | CRITICAL => (3600, 8640) | URGENT_ADMIT => (2160, 5760)
    | URGENT_OBS => (1152, 3600) | NON_URGENT => (1152, 3600)
    end;
  DISCHARGE_PROCESS_TIME := (90, 150);
  TRANSFER_PROCESS_TIME := (15, 30);
  INPATIENT_CDU_CHECK_INTERVAL := 30;
  AMENITIES_COST_PER_PATIENT_VISIT := 5 # 2;
  SATISFACTION_AMENITIES_BONUS := 10;
  AI_ENTERTAINMENT_MONTHLY_COST := 5000;
  SATISFACTION_ENTERTAINMENT_BONUS := 15
|}.

(** ** [class Patient]

    A patient is held in [HospitalSimulator.patients] under its [id]; every
    other reference to the object (unit occupants, unit queue, events) is
    that id.  The record therefore carries no [id] field: the id of a
    patient is the key under which the store holds it. *)

Record PatientEvent : Type := Build_PatientEvent {
  pe_time : Q;
  pe_type : string;
  pe_unit_id : option string
}.

Record Patient : Type := Build_Patient {
  arrival_time : Q;
  acuity : Acuity;
  events : list PatientEvent;
  current_unit : option UnitName;
  status : Status;
  needs_imaging : bool;
  imaging_type : option Modality;
  imaging_start_time : option Q;
  imaging_result_time : option Q;
  needs_lab : bool;
  lab_start_time : option Q;
  lab_result_time : option Q;
  discharge_order_time : option Q;
  actual_discharge_time : option Q;
  assigned_staff_id : option string;
  boarding_start_time : option Q;
  imaging_order_unit_id : option UnitName;
  discharge_requested : bool;
  ed_disposition_time : option Q;
  transport_request_time : option Q;
  transport_assigned_time : option Q;
  transport_type : option TransportType
}.

Definition set_events (v : list PatientEvent) (r : Patient) : Patient :=
  {| arrival_time := arrival_time r; acuity := acuity r; events := v;
     current_unit := current_unit r; status := status r;
     needs_imaging := needs_imaging r; imaging_type := imaging_type r;
     imaging_start_time := imaging_start_time r;
     imaging_result_time := imaging_result_time r; needs_lab := needs_lab r;
     lab_start_time := lab_start_time r; lab_result_time := lab_result_time r;
     discharge_order_time := discharge_order_time r;
     actual_discharge_time := actual_discharge_time r;
     assigned_staff_id := assigned_staff_id r;
     boarding_start_time := boarding_start_time r;
     imaging_order_unit_id := imaging_order_unit_id r;
     discharge_requested := discharge_requested r;
     ed_disposition_time := ed_disposition_time r;
     transport_request_time := transport_request_time r;
     transport_assigned_time := transport_assigned_time r;
     transport_type := transport_type r |}.
Definition set_current_unit (v : option UnitName) (r : Patient) : Patient :=
  {| arrival_time := arrival_time r; acuity := acuity r; events := events r;
     current_unit := v; status := status r; needs_imaging := needs_imaging r;
     imaging_type := imaging_type r; imaging_start_time := imaging_start_time r;
     imaging_result_time := imaging_result_time r; needs_lab := needs_lab r;
     lab_start_time := lab_start_time r; lab_result_time := lab_result_time r;
     discharge_order_time := discharge_order_time r;
     actual_discharge_time := actual_discharge_time r;
     assigned_staff_id := assigned_staff_id r;
     boarding_start_time := boarding_start_time r;
     imaging_order_unit_id := imaging_order_unit_id r;
     discharge_requested := discharge_requested r;
     ed_disposition_time := ed_disposition_time r;
     transport_request_time := transport_request_time r;
     transport_assigned_time := transport_assigned_time r;
     transport_type := transport_type r |}.
Definition set_status (v : Status) (r : Patient) : Patient :=
  {| arrival_time := arrival_time r; acuity := acuity r; events := events r;
     current_unit := current_unit r; status := v; needs_imaging := needs_imaging r;
     imaging_type := imaging_type r; imaging_start_time := imaging_start_time r;
     imaging_result_time := imaging_result_time r; needs_lab := needs_lab r;
     lab_start_time := lab_start_time r; lab_result_time := lab_result_time r;
     discharge_order_time := discharge_order_time r;
     actual_discharge_time := actual_discharge_time r;
     assigned_staff_id := assigned_staff_id r;
     boarding_start_time := boarding_start_time r;
     imaging_order_unit_id := imaging_order_unit_id r;
     discharge_requested := discharge_requested r;
     ed_disposition_time := ed_disposition_time r;
     transport_request_time := transport_request_time r;
     transport_assigned_time := transport_assigned_time r;
     transport_type := transport_type r |}.
Definition set_needs_imaging (v : bool) (r : Patient) : Patient :=
  {| arrival_time := arrival_time r; acuity := acuity r; events := events r;
     current_unit := current_unit r; status := status r; needs_imaging := v;
     imaging_type := imaging_type r; imaging_start_time := imaging_start_time r;
     imaging_result_time := imaging_result_time r; needs_lab := needs_lab r;
     lab_start_time := lab_start_time r; lab_result_time := lab_result_time r;
     discharge_order_time := discharge_order_time r;
     actual_discharge_time := actual_discharge_time r;
     assigned_staff_id := assigned_staff_id r;
     boarding_start_time := boarding_start_time r;
     imaging_order_unit_id := imaging_order_unit_id r;
     discharge_requested := discharge_requested r;
     ed_disposition_time := ed_disposition_time r;
     transport_request_time := transport_request_time r;
     transport_assigned_time := transport_assigned_time r;
     transport_type := transport_type r |}.
Definition set_imaging_type (v : option Modality) (r : Patient) : Patient :=
  {| arrival_time := arrival_time r; acuity := acuity r; events := events r;
     current_unit := current_unit r; status := status r;
     needs_imaging := needs_imaging r; imaging_type := v;
     imaging_start_time := imaging_start_time r;
     imaging_result_time := imaging_result_time r; needs_lab := needs_lab r;
     lab_start_time := lab_start_time r; lab_result_time := lab_result_time r;
     discharge_order_time := discharge_order_time r;
     actual_discharge_time := actual_discharge_time r;
     assigned_staff_id := assigned_staff_id r;
     boarding_start_time := boarding_start_time r;
     imaging_order_unit_id := imaging_order_unit_id r;
     discharge_requested := discharge_requested r;
     ed_disposition_time := ed_disposition_time r;
     transport_request_time := transport_request_time r;
     transport_assigned_time := transport_assigned_time r;
     transport_type := transport_type r |}.
Definition set_imaging_start_time (v : option Q) (r : Patient) : Patient :=
  {| arrival_time := arrival_time r; acuity := acuity r; events := events r;
     current_unit := current_unit r; status := status r;
     needs_imaging := needs_imaging r; imaging_type := imaging_type r;
     imaging_start_time := v; imaging_result_time := imaging_result_time r;
     needs_lab := needs_lab r; lab_start_time := lab_start_time r;
     lab_result_time := lab_result_time r;
     discharge_order_time := discharge_order_time r;
     actual_discharge_time := actual_discharge_time r;
     assigned_staff_id := assigned_staff_id r;
     boarding_start_time := boarding_start_time r;
     imaging_order_unit_id := imaging_order_unit_id r;
     discharge_requested := discharge_requested r;
     ed_disposition_time := ed_disposition_time r;
     transport_request_time := transport_request_time r;
     transport_assigned_time := transport_assigned_time r;
     transport_type := transport_type r |}.
Definition set_imaging_result_time (v : option Q) (r : Patient) : Patient :=
  {| arrival_time := arrival_time r; acuity := acuity r; events := events r;
     current_unit := current_unit r; status := status r;
     needs_imaging := needs_imaging r; imaging_type := imaging_type r;
     imaging_start_time := imaging_start_time r; imaging_result_time := v;
     needs_lab := needs_lab r; lab_start_time := lab_start_time r;
     lab_result_time := lab_result_time r;
     discharge_order_time := discharge_order_time r;
     actual_discharge_time := actual_discharge_time r;
     assigned_staff_id := assigned_staff_id r;
     boarding_start_time := boarding_start_time r;
     imaging_order_unit_id := imaging_order_unit_id r;
     discharge_requested := discharge_requested r;
     ed_disposition_time := ed_disposition_time r;
     transport_request_time := transport_request_time r;
     transport_assigned_time := transport_assigned_time r;
     transport_type := transport_type r |}.
Definition set_needs_lab (v : bool) (r : Patient) : Patient :=
  {| arrival_time := arrival_time r; acuity := acuity r; events := events r;
     current_unit := current_unit r; status := status r;
     needs_imaging := needs_imaging r; imaging_type := imaging_type r;
     imaging_start_time := imaging_start_time r;
     imaging_result_time := imaging_result_time r; needs_lab := v;
     lab_start_time := lab_start_time r; lab_result_time := lab_result_time r;
     discharge_order_time := discharge_order_time r;
     actual_discharge_time := actual_discharge_time r;
     assigned_staff_id := assigned_staff_id r;
     boarding_start_time := boarding_start_time r;
     imaging_order_unit_id := imaging_order_unit_id r;
     discharge_requested := discharge_requested r;
     ed_disposition_time := ed_disposition_time r;
     transport_request_time := transport_request_time r;
     transport_assigned_time := transport_assigned_time r;
     transport_type := transport_type r |}.
Definition set_lab_start_time (v : option Q) (r : Patient) : Patient :=
  {| arrival_time := arrival_time r; acuity := acuity r; events := events r;
     current_unit := current_unit r; status := status r;
     needs_imaging := needs_imaging r; imaging_type := imaging_type r;
     imaging_start_time := imaging_start_time r;
     imaging_result_time := imaging_result_time r; needs_lab := needs_lab r;
     lab_start_time := v; lab_result_time := lab_result_time r;
     discharge_order_time := discharge_order_time r;
     actual_discharge_time := actual_discharge_time r;
     assigned_staff_id := assigned_staff_id r;
     boarding_start_time := boarding_start_time r;
     imaging_order_unit_id := imaging_order_unit_id r;
     discharge_requested := discharge_requested r;
     ed_disposition_time := ed_disposition_time r;
     transport_request_time := transport_request_time r;
     transport_assigned_time := transport_assigned_time r;
     transport_type := transport_type r |}.
Definition set_lab_result_time (v : option Q) (r : Patient) : Patient :=
  {| arrival_time := arrival_time r; acuity := acuity r; events := events r;
     current_unit := current_unit r; status := status r;
     needs_imaging := needs_imaging r; imaging_type := imaging_type r;
     imaging_start_time := imaging_start_time r;
     imaging_result_time := imaging_result_time r; needs_lab := needs_lab r;
     lab_start_time := lab_start_time r; lab_result_time := v;
     discharge_order_time := discharge_order_time r;
     actual_discharge_time := actual_discharge_time r;
     assigned_staff_id := assigned_staff_id r;
     boarding_start_time := boarding_start_time r;
     imaging_order_unit_id := imaging_order_unit_id r;
     discharge_requested := discharge_requested r;
     ed_disposition_time := ed_disposition_time r;
     transport_request_time := transport_request_time r;
     transport_assigned_time := transport_assigned_time r;
     transport_type := transport_type r |}.
Definition set_discharge_order_time (v : option Q) (r : Patient) : Patient :=
  {| arrival_time := arrival_time r; acuity := acuity r; events := events r;
     current_unit := current_unit r; status := status r;
     needs_imaging := needs_imaging r; imaging_type := imaging_type r;
     imaging_start_time := imaging_start_time r;
     imaging_result_time := imaging_result_time r; needs_lab := needs_lab r;
     lab_start_time := lab_start_time r; lab_result_time := lab_result_time r;
     discharge_order_time := v; actual_discharge_time := actual_discharge_time r;
     assigned_staff_id := assigned_staff_id r;
     boarding_start_time := boarding_start_time r;
     imaging_order_unit_id := imaging_order_unit_id r;
     discharge_requested := discharge_requested r;
     ed_disposition_time := ed_disposition_time r;
     transport_request_time := transport_request_time r;
     transport_assigned_time := transport_assigned_time r;
     transport_type := transport_type r |}.
Definition set_actual_discharge_time (v : option Q) (r : Patient) : Patient :=
  {| arrival_time := arrival_time r; acuity := acuity r; events := events r;
     current_unit := current_unit r; status := status r;
     needs_imaging := needs_imaging r; imaging_type := imaging_type r;
     imaging_start_time := imaging_start_time r;
     imaging_result_time := imaging_result_time r; needs_lab := needs_lab r;
     lab_start_time := lab_start_time r; lab_result_time := lab_result_time r;
     discharge_order_time := discharge_order_time r; actual_discharge_time := v;
     assigned_staff_id := assigned_staff_id r;
     boarding_start_time := boarding_start_time r;
     imaging_order_unit_id := imaging_order_unit_id r;
     discharge_requested := discharge_requested r;
     ed_disposition_time := ed_disposition_time r;
     transport_request_time := transport_request_time r;
     transport_assigned_time := transport_assigned_time r;
     transport_type := transport_type r |}.
Definition set_assigned_staff_id (v : option string) (r : Patient) : Patient :=
  {| arrival_time := arrival_time r; acuity := acuity r; events := events r;
     current_unit := current_unit r; status := status r;
     needs_imaging := needs_imaging r; imaging_type := imaging_type r;
     imaging_start_time := imaging_start_time r;
     imaging_result_time := imaging_result_time r; needs_lab := needs_lab r;
     lab_start_time := lab_start_time r; lab_result_time := lab_result_time r;
     discharge_order_time := discharge_order_time r;
     actual_discharge_time := actual_discharge_time r; assigned_staff_id := v;
     boarding_start_time := boarding_start_time r;
     imaging_order_unit_id := imaging_order_unit_id r;
     discharge_requested := discharge_requested r;
     ed_disposition_time := ed_disposition_time r;
     transport_request_time := transport_request_time r;
     transport_assigned_time := transport_assigned_time r;
     transport_type := transport_type r |}.
Definition set_boarding_start_time (v : option Q) (r : Patient) : Patient :=
  {| arrival_time := arrival_time r; acuity := acuity r; events := events r;
     current_unit := current_unit r; status := status r;
     needs_imaging := needs_imaging r; imaging_type := imaging_type r;
     imaging_start_time := imaging_start_time r;
     imaging_result_time := imaging_result_time r; needs_lab := needs_lab r;
     lab_start_time := lab_start_time r; lab_result_time := lab_result_time r;
     discharge_order_time := discharge_order_time r;
     actual_discharge_time := actual_discharge_time r;
     assigned_staff_id := assigned_staff_id r; boarding_start_time := v;
     imaging_order_unit_id := imaging_order_unit_id r;
     discharge_requested := discharge_requested r;
     ed_disposition_time := ed_disposition_time r;
     transport_request_time := transport_request_time r;
     transport_assigned_time := transport_assigned_time r;
     transport_type := transport_type r |}.
Definition set_imaging_order_unit_id (v : option UnitName) (r : Patient) : Patient :=
  {| arrival_time := arrival_time r; acuity := acuity r; events := events r;
     current_unit := current_unit r; status := status r;
     needs_imaging := needs_imaging r; imaging_type := imaging_type r;
     imaging_start_time := imaging_start_time r;
     imaging_result_time := imaging_result_time r; needs_lab := needs_lab r;
     lab_start_time := lab_start_time r; lab_result_time := lab_result_time r;
     discharge_order_time := discharge_order_time r;
     actual_discharge_time := actual_discharge_time r;
     assigned_staff_id := assigned_staff_id r;
     boarding_start_time := boarding_start_time r; imaging_order_unit_id := v;
     discharge_requested := discharge_requested r;
     ed_disposition_time := ed_disposition_time r;
     transport_request_time := transport_request_time r;
     transport_assigned_time := transport_assigned_time r;
     transport_type := transport_type r |}.
Definition set_discharge_requested (v : bool) (r : Patient) : Patient :=
  {| arrival_time := arrival_time r; acuity := acuity r; events := events r;
     current_unit := current_unit r; status := status r;
     needs_imaging := needs_imaging r; imaging_type := imaging_type r;
     imaging_start_time := imaging_start_time r;
     imaging_result_time := imaging_result_time r; needs_lab := needs_lab r;
     lab_start_time := lab_start_time r; lab_result_time := lab_result_time r;
     discharge_order_time := discharge_order_time r;
     actual_discharge_time := actual_discharge_time r;
     assigned_staff_id := assigned_staff_id r;
     boarding_start_time := boarding_start_time r;
     imaging_order_unit_id := imaging_order_unit_id r; discharge_requested := v;
     ed_disposition_time := ed_disposition_time r;
     transport_request_time := transport_request_time r;
     transport_assigned_time := transport_assigned_time r;
     transport_type := transport_type r |}.
Definition set_ed_disposition_time (v : option Q) (r : Patient) : Patient :=
  {| arrival_time := arrival_time r; acuity := acuity r; events := events r;
     current_unit := current_unit r; status := status r;
     needs_imaging := needs_imaging r; imaging_type := imaging_type r;
     imaging_start_time := imaging_start_time r;
     imaging_result_time := imaging_result_time r; needs_lab := needs_lab r;
     lab_start_time := lab_start_time r; lab_result_time := lab_result_time r;
     discharge_order_time := discharge_order_time r;
     actual_discharge_time := actual_discharge_time r;
     assigned_staff_id := assigned_staff_id r;
     boarding_start_time := boarding_start_time r;
     imaging_order_unit_id := imaging_order_unit_id r;
     discharge_requested := discharge_requested r; ed_disposition_time := v;
     transport_request_time := transport_request_time r;
     transport_assigned_time := transport_assigned_time r;
     transport_type := transport_type r |}.
Definition set_transport_request_time (v : option Q) (r : Patient) : Patient :=
  {| arrival_time := arrival_time r; acuity := acuity r; events := events r;
     current_unit := current_unit r; status := status r;
     needs_imaging := needs_imaging r; imaging_type := imaging_type r;
     imaging_start_time := imaging_start_time r;
     imaging_result_time := imaging_result_time r; needs_lab := needs_lab r;
     lab_start_time := lab_start_time r; lab_result_time := lab_result_time r;
     discharge_order_time := discharge_order_time r;
     actual_discharge_time := actual_discharge_time r;
     assigned_staff_id := assigned_staff_id r;
     boarding_start_time := boarding_start_time r;
     imaging_order_unit_id := imaging_order_unit_id r;
     discharge_requested := discharge_requested r;
     ed_disposition_time := ed_disposition_time r; transport_request_time := v;
     transport_assigned_time := transport_assigned_time r;
     transport_type := transport_type r |}.
Definition set_transport_assigned_time (v : option Q) (r : Patient) : Patient :=
  {| arrival_time := arrival_time r; acuity := acuity r; events := events r;
     current_unit := current_unit r; status := status r;
     needs_imaging := needs_imaging r; imaging_type := imaging_type r;
     imaging_start_time := imaging_start_time r;
     imaging_result_time := imaging_result_time r; needs_lab := needs_lab r;
     lab_start_time := lab_start_time r; lab_result_time := lab_result_time r;
     discharge_order_time := discharge_order_time r;
     actual_discharge_time := actual_discharge_time r;
     assigned_staff_id := assigned_staff_id r;
     boarding_start_time := boarding_start_time r;
     imaging_order_unit_id := imaging_order_unit_id r;
     discharge_requested := discharge_requested r;
     ed_disposition_time := ed_disposition_time r;
     transport_request_time := transport_request_time r; transport_assigned_time := v;
     transport_type := transport_type r |}.
Definition set_transport_type (v : option TransportType) (r : Patient) : Patient :=
  {| arrival_time := arrival_time r; acuity := acuity r; events := events r;
     current_unit := current_unit r; status := status r;
     needs_imaging := needs_imaging r; imaging_type := imaging_type r;
     imaging_start_time := imaging_start_time r;
     imaging_result_time := imaging_result_time r; needs_lab := needs_lab r;
     lab_start_time := lab_start_time r; lab_result_time := lab_result_time r;
     discharge_order_time := discharge_order_time r;
     actual_discharge_time := actual_discharge_time r;
     assigned_staff_id := assigned_staff_id r;
     boarding_start_time := boarding_start_time r;
     imaging_order_unit_id := imaging_order_unit_id r;
     discharge_requested := discharge_requested r;
     ed_disposition_time := ed_disposition_time r;
     transport_request_time := transport_request_time r;
     transport_assigned_time := transport_assigned_time r; transport_type := v |}.

(** [Patient.__init__]; the acuity is the outcome of [random.choices]. *)
Definition new_Patient (sim_time : Q) (drawn_acuity : Acuity) : Patient :=
  {| arrival_time := sim_time; acuity := drawn_acuity; events := [];
     current_unit := Some ED; status := St_ARRIVED;
     needs_imaging := false; imaging_type := None;
     imaging_start_time := None; imaging_result_time := None;
     needs_lab := false; lab_start_time := None; lab_result_time := None;
     discharge_order_time := None; actual_discharge_time := None;
     assigned_staff_id := None; boarding_start_time := None;
     imaging_order_unit_id := None; discharge_requested := false;
     ed_disposition_time := None; transport_request_time := None;
     transport_assigned_time := None; transport_type := None |}.

(** [Patient.add_event] *)
Definition add_event (time : Q) (type_ : string) (unit_id : option string)
    (p : Patient) : Patient :=
  set_events (events p ++ [Build_PatientEvent time type_ unit_id]) p.

(** ** [class Staff] *)

Record Staff : Type := Build_Staff {
  staff_id : string;
  type : StaffType;
  busy_until : Q;
  last_assignment_start_time : option Q;
  current_assignment_details : option string;
  last_assigned_unit : option UnitName;
  total_normal_cost : Q;
  total_overtime_cost : Q
}.

Definition set_busy_until (v : Q) (r : Staff) : Staff :=
  {| staff_id := staff_id r; type := type r; busy_until := v;
     last_assignment_start_time := last_assignment_start_time r;
     current_assignment_details := current_assignment_details r;
     last_assigned_unit := last_assigned_unit r;
     total_normal_cost := total_normal_cost r;
     total_overtime_cost := total_overtime_cost r |}.
Definition set_last_assignment_start_time (v : option Q) (r : Staff) : Staff :=
  {| staff_id := staff_id r; type := type r; busy_until := busy_until r;
     last_assignment_start_time := v;
     current_assignment_details := current_assignment_details r;
     last_assigned_unit := last_assigned_unit r;
     total_normal_cost := total_normal_cost r;
     total_overtime_cost := total_overtime_cost r |}.
Definition set_current_assignment_details (v : option string) (r : Staff) : Staff :=
  {| staff_id := staff_id r; type := type r; busy_until := busy_until r;
     last_assignment_start_time := last_assignment_start_time r;
     current_assignment_details := v; last_assigned_unit := last_assigned_unit r;
     total_normal_cost := total_normal_cost r;
     total_overtime_cost := total_overtime_cost r |}.
Definition set_last_assigned_unit (v : option UnitName) (r : Staff) : Staff :=
  {| staff_id := staff_id r; type := type r; busy_until := busy_until r;
     last_assignment_start_time := last_assignment_start_time r;
     current_assignment_details := current_assignment_details r;
     last_assigned_unit := v; total_normal_cost := total_normal_cost r;
     total_overtime_cost := total_overtime_cost r |}.
Definition set_total_normal_cost (v : Q) (r : Staff) : Staff :=
  {| staff_id := staff_id r; type := type r; busy_until := busy_until r;
     last_assignment_start_time := last_assignment_start_time r;
     current_assignment_details := current_assignment_details r;
     last_assigned_unit := last_assigned_unit r; total_normal_cost := v;
     total_overtime_cost := total_overtime_cost r |}.
Definition set_total_overtime_cost (v : Q) (r : Staff) : Staff :=
  {| staff_id := staff_id r; type := type r; busy_until := busy_until r;
     last_assignment_start_time := last_assignment_start_time r;
     current_assignment_details := current_assignment_details r;
     last_assigned_unit := last_assigned_unit r;
     total_normal_cost := total_normal_cost r; total_overtime_cost := v |}.

(** [Staff.__init__] *)
Definition new_Staff (staff_type : StaffType) (id : string) : Staff :=
  {| staff_id := id; type := staff_type; busy_until := 0;
     last_assignment_start_time := None; current_assignment_details := None;
     last_assigned_unit := None; total_normal_cost := 0; total_overtime_cost := 0 |}.

(** [Staff.is_free] *)
Definition is_free (s : Staff) (sim_time : Q) : bool := Qle_bool (busy_until s) sim_time.

(** The per-minute rate looked up on the class [Config]:
    [Config.VOLUNTEER_COST] for volunteers, [getattr(Config, TYPE_COST)] otherwise. *)
Definition cost_per_minute (t : StaffType) : Q :=
  match t with
  | VOLUNTEER_TRANSPORT => VOLUNTEER_COST Config_base
  | PHYSICIAN => PHYSICIAN_COST Config_base
  | NURSE => NURSE_COST Config_base
  | TECH => TECH_COST Config_base
  | RADIOLOGIST => RADIOLOGIST_COST Config_base
  | TRANSPORT => TRANSPORT_COST Config_base
  end.

(** The block both accrual methods run on [duration_worked]. *)
Definition add_assignment_cost (duration_worked : Q) (s : Staff) : Staff :=
  if Qltb 0 duration_worked then
    let assignment_cost := (cost_per_minute (type s) * duration_worked)%Q in
    let overtime_fraction := (1 # 5)%Q in
    let s1 :=
      set_total_overtime_cost
        (total_overtime_cost s
         + assignment_cost * overtime_fraction * OVERTIME_MULTIPLIER Config_base)%Q s in
    set_total_normal_cost
      (total_normal_cost s1 + assignment_cost * (1 - overtime_fraction))%Q s1
  else s.

(** [Staff.accrue_cost_for_completed_task] *)
Definition accrue_cost_for_completed_task (current_sim_time : Q) (s : Staff) : Staff :=
  match last_assignment_start_time s with
  | Some start =>
      if Qle_bool (busy_until s) current_sim_time then
        let s1 := add_assignment_cost (busy_until s - start)%Q s in
        set_last_assigned_unit None
          (set_current_assignment_details None
             (set_last_assignment_start_time None s1))
      else s
  | None => s
  end.

(** [Staff.assign] *)
Definition assign (sim_time duration : Q) (assignment_details : string)
    (unit_name : option UnitName) (s : Staff) : Staff :=
  let s1 := accrue_cost_for_completed_task sim_time s in
  set_last_assigned_unit unit_name
    (set_current_assignment_details (Some assignment_details)
       (set_last_assignment_start_time (Some sim_time)
          (set_busy_until (sim_time + duration)%Q s1))).

(** [Staff.accrue_remaining_cost] *)
Definition accrue_remaining_cost (final_sim_time : Q) (s : Staff) : Staff :=
  match last_assignment_start_time s with
  | Some start =>
      let s1 := add_assignment_cost (Qmin final_sim_time (busy_until s) - start)%Q s in
      set_last_assignment_start_time None s1
  | None => s
  end.

(** ** [class Unit]

    [queue] is a [heapq] of patients ordered by [Patient.__lt__], that is by
    arrival time; an entry is the patient's id with that (immutable) time. *)

Record QueueEntry : Type := Build_QueueEntry {
  qe_id : string;
  qe_arrival_time : Q
}.

Definition patient_lt (a b : QueueEntry) : result bool :=
  Ok (Qltb (qe_arrival_time a) (qe_arrival_time b)).

Record Unit : Type := Build_Unit {
  name : UnitName;
  capacity : Z;
  patients_in_unit : gset string;
  queue : list QueueEntry;
  staff_assigned : list (StaffType * list string)
}.

Definition set_patients_in_unit (v : gset string) (r : Unit) : Unit :=
  {| name := name r; capacity := capacity r; patients_in_unit := v; queue := queue r;
     staff_assigned := staff_assigned r |}.
Definition set_queue (v : list QueueEntry) (r : Unit) : Unit :=
  {| name := name r; capacity := capacity r; patients_in_unit := patients_in_unit r;
     queue := v; staff_assigned := staff_assigned r |}.
Definition set_staff_assigned (v : list (StaffType * list string)) (r : Unit) : Unit :=
  {| name := name r; capacity := capacity r; patients_in_unit := patients_in_unit r;
     queue := queue r; staff_assigned := v |}.

(** [Unit.__init__] *)
Definition new_Unit (unit_name : UnitName) (cap : Z)
    (staff_config : list (StaffType * Z)) : Unit :=
  {| name := unit_name; capacity := cap; patients_in_unit := ∅; queue := [];
     staff_assigned := (λ '(t, _), (t, [])) <$> staff_config |}.

(** [patient in self.queue] (equality of patients is equality of ids). *)
Definition in_queue (pid : string) (q : list QueueEntry) : bool :=
  existsb (λ e, String.eqb (qe_id e) pid) q.

(** [self.queue.remove(patient)]: drops the first equal entry. *)
Fixpoint queue_remove (pid : string) (q : list QueueEntry) : list QueueEntry :=
  match q with
  | [] => []
  | e :: q' => if String.eqb (qe_id e) pid then q' else e :: queue_remove pid q'
  end.

(** [Unit.admit_patient]; returns the flag, the unit and the patient. *)
Definition admit_patient (u : Unit) (pid : string) (patient : Patient) (sim_time : Q)
    : result (bool * Unit * Patient) :=
  if Z.of_nat (size (patients_in_unit u)) <? capacity u then
    let u1 := set_patients_in_unit ({[pid]} ∪ patients_in_unit u) u in
    u2 ← (if in_queue pid (queue u1) then
            q ← heapify patient_lt (queue_remove pid (queue u1));
            Ok (set_queue q u1)
          else Ok u1);
    let p1 := set_current_unit (Some (name u)) patient in
    Ok (true, u2,
        add_event sim_time ("ADMITTED_TO_" +:+ unit_str (name u))
          (Some (unit_str (name u))) p1)
  else Ok (false, u, patient).

(** [Unit.add_patient_to_queue] *)
Definition add_patient_to_queue (u : Unit) (pid : string) (patient : Patient)
    (sim_time : Q) : result (Unit * Patient) :=
  if in_queue pid (queue u) then Ok (u, patient)
  else
    q ← heappush patient_lt (queue u) (Build_QueueEntry pid (arrival_time patient));
    Ok (set_queue q u,
        add_event sim_time ("QUEUED_FOR_" +:+ unit_str (name u))
          (Some (unit_str (name u))) patient).

(** [Unit.discharge_patient] *)
Definition discharge_patient (u : Unit) (pid : string) (patient : Patient)
    (sim_time : Q) : bool * Unit * Patient :=
  if decide (pid ∈ patients_in_unit u) then
    (true, set_patients_in_unit (patients_in_unit u ∖ {[pid]}) u,
     add_event sim_time ("DISCHARGED_FROM_" +:+ unit_str (name u))
       (Some (unit_str (name u))) patient)
  else (false, u, patient).

(** [self.units]: a dict with one unit per name, as a function tabulated
    over the seven names. *)
Definition unit_table (f : UnitName → Unit) : UnitName → Unit :=
  let u_ed := f ED in
  let u_inpatient := f INPATIENT in
  let u_cdu := f CDU in
  let u_ct := f IMAGING_CT in
  let u_mri := f IMAGING_MRI in
  let u_lab := f LAB in
  let u_radiology := f RADIOLOGY in
  λ n,
    match n with
    | ED => u_ed | INPATIENT => u_inpatient | CDU => u_cdu
    | IMAGING_CT => u_ct | IMAGING_MRI => u_mri | LAB => u_lab
    | RADIOLOGY => u_radiology
    end.

(** The dict after the unit under [n] has been replaced by [u]. *)
Definition update_unit (n : UnitName) (u : Unit) (us : UnitName → Unit) : UnitName → Unit :=
  unit_table (λ m, if decide (m = n) then u else us m).

(** ** [class MetricsTracker] *)

Record MetricsTracker : Type := Build_MetricsTracker {
  ed_los_list : list Q;
  ed_boarding_times : list Q;
  total_ed_boarding_time : Q;
  cdu_conversion_count : Z;
  cdu_total_patients : Z;
  cdu_occupancy_times : list (Q * Z);
  inpatient_occupancy_times : list (Q * Z);
  overall_imaging_tat : list Q;
  critical_imaging_tat : list Q;
  ed_cdu_imaging_tat : list Q;
  total_patient_count : Z;
  patient_satisfaction_scores : list Q;
  total_hospital_los_list : list Q;
  transfer_times_to_admit : list Z;
  ed_wait_times_for_transport : list Q;
  pulley_utilization_times : list (Q * Z);
  volunteer_transport_count : Z;
  paid_transport_count : Z;
  pulley_transport_count : Z;
  total_amenities_cost : Q;
  total_ai_entertainment_cost : Q
}.

Definition set_ed_los_list (v : list Q) (r : MetricsTracker) : MetricsTracker :=
  {| ed_los_list := v; ed_boarding_times := ed_boarding_times r;
     total_ed_boarding_time := total_ed_boarding_time r;
     cdu_conversion_count := cdu_conversion_count r;
     cdu_total_patients := cdu_total_patients r;
     cdu_occupancy_times := cdu_occupancy_times r;
     inpatient_occupancy_times := inpatient_occupancy_times r;
     overall_imaging_tat := overall_imaging_tat r;
     critical_imaging_tat := critical_imaging_tat r;
     ed_cdu_imaging_tat := ed_cdu_imaging_tat r;
     total_patient_count := total_patient_count r;
     patient_satisfaction_scores := patient_satisfaction_scores r;
     total_hospital_los_list := total_hospital_los_list r;
     transfer_times_to_admit := transfer_times_to_admit r;
     ed_wait_times_for_transport := ed_wait_times_for_transport r;
     pulley_utilization_times := pulley_utilization_times r;
     volunteer_transport_count := volunteer_transport_count r;
     paid_transport_count := paid_transport_count r;
     pulley_transport_count := pulley_transport_count r;
     total_amenities_cost := total_amenities_cost r;
     total_ai_entertainment_cost := total_ai_entertainment_cost r |}.
Definition set_ed_boarding_times (v : list Q) (r : MetricsTracker) : MetricsTracker :=
  {| ed_los_list := ed_los_list r; ed_boarding_times := v;
     total_ed_boarding_time := total_ed_boarding_time r;
     cdu_conversion_count := cdu_conversion_count r;
     cdu_total_patients := cdu_total_patients r;
     cdu_occupancy_times := cdu_occupancy_times r;
     inpatient_occupancy_times := inpatient_occupancy_times r;
     overall_imaging_tat := overall_imaging_tat r;
     critical_imaging_tat := critical_imaging_tat r;
     ed_cdu_imaging_tat := ed_cdu_imaging_tat r;
     total_patient_count := total_patient_count r;
     patient_satisfaction_scores := patient_satisfaction_scores r;
     total_hospital_los_list := total_hospital_los_list r;
     transfer_times_to_admit := transfer_times_to_admit r;
     ed_wait_times_for_transport := ed_wait_times_for_transport r;
     pulley_utilization_times := pulley_utilization_times r;
     volunteer_transport_count := volunteer_transport_count r;
     paid_transport_count := paid_transport_count r;
     pulley_transport_count := pulley_transport_count r;
     total_amenities_cost := total_amenities_cost r;
     total_ai_entertainment_cost := total_ai_entertainment_cost r |}.
Definition set_total_ed_boarding_time (v : Q) (r : MetricsTracker) : MetricsTracker :=
  {| ed_los_list := ed_los_list r; ed_boarding_times := ed_boarding_times r;
     total_ed_boarding_time := v; cdu_conversion_count := cdu_conversion_count r;
     cdu_total_patients := cdu_total_patients r;
     cdu_occupancy_times := cdu_occupancy_times r;
     inpatient_occupancy_times := inpatient_occupancy_times r;
     overall_imaging_tat := overall_imaging_tat r;
     critical_imaging_tat := critical_imaging_tat r;
     ed_cdu_imaging_tat := ed_cdu_imaging_tat r;
     total_patient_count := total_patient_count r;
     patient_satisfaction_scores := patient_satisfaction_scores r;
     total_hospital_los_list := total_hospital_los_list r;
     transfer_times_to_admit := transfer_times_to_admit r;
     ed_wait_times_for_transport := ed_wait_times_for_transport r;
     pulley_utilization_times := pulley_utilization_times r;
     volunteer_transport_count := volunteer_transport_count r;
     paid_transport_count := paid_transport_count r;
     pulley_transport_count := pulley_transport_count r;
     total_amenities_cost := total_amenities_cost r;
     total_ai_entertainment_cost := total_ai_entertainment_cost r |}.
Definition set_cdu_conversion_count (v : Z) (r : MetricsTracker) : MetricsTracker :=
  {| ed_los_list := ed_los_list r; ed_boarding_times := ed_boarding_times r;
     total_ed_boarding_time := total_ed_boarding_time r; cdu_conversion_count := v;
     cdu_total_patients := cdu_total_patients r;
     cdu_occupancy_times := cdu_occupancy_times r;
     inpatient_occupancy_times := inpatient_occupancy_times r;
     overall_imaging_tat := overall_imaging_tat r;
     critical_imaging_tat := critical_imaging_tat r;
     ed_cdu_imaging_tat := ed_cdu_imaging_tat r;
     total_patient_count := total_patient_count r;
     patient_satisfaction_scores := patient_satisfaction_scores r;
     total_hospital_los_list := total_hospital_los_list r;
     transfer_times_to_admit := transfer_times_to_admit r;
     ed_wait_times_for_transport := ed_wait_times_for_transport r;
     pulley_utilization_times := pulley_utilization_times r;
     volunteer_transport_count := volunteer_transport_count r;
     paid_transport_count := paid_transport_count r;
     pulley_transport_count := pulley_transport_count r;
     total_amenities_cost := total_amenities_cost r;
     total_ai_entertainment_cost := total_ai_entertainment_cost r |}.
Definition set_cdu_total_patients (v : Z) (r : MetricsTracker) : MetricsTracker :=
  {| ed_los_list := ed_los_list r; ed_boarding_times := ed_boarding_times r;
     total_ed_boarding_time := total_ed_boarding_time r;
     cdu_conversion_count := cdu_conversion_count r; cdu_total_patients := v;
     cdu_occupancy_times := cdu_occupancy_times r;
     inpatient_occupancy_times := inpatient_occupancy_times r;
     overall_imaging_tat := overall_imaging_tat r;
     critical_imaging_tat := critical_imaging_tat r;
     ed_cdu_imaging_tat := ed_cdu_imaging_tat r;
     total_patient_count := total_patient_count r;
     patient_satisfaction_scores := patient_satisfaction_scores r;
     total_hospital_los_list := total_hospital_los_list r;
     transfer_times_to_admit := transfer_times_to_admit r;
     ed_wait_times_for_transport := ed_wait_times_for_transport r;
     pulley_utilization_times := pulley_utilization_times r;
     volunteer_transport_count := volunteer_transport_count r;
     paid_transport_count := paid_transport_count r;
     pulley_transport_count := pulley_transport_count r;
     total_amenities_cost := total_amenities_cost r;
     total_ai_entertainment_cost := total_ai_entertainment_cost r |}.
Definition set_cdu_occupancy_times (v : list (Q * Z)) (r : MetricsTracker) : MetricsTracker :=
  {| ed_los_list := ed_los_list r; ed_boarding_times := ed_boarding_times r;
     total_ed_boarding_time := total_ed_boarding_time r;
     cdu_conversion_count := cdu_conversion_count r;
     cdu_total_patients := cdu_total_patients r; cdu_occupancy_times := v;
     inpatient_occupancy_times := inpatient_occupancy_times r;
     overall_imaging_tat := overall_imaging_tat r;
     critical_imaging_tat := critical_imaging_tat r;
     ed_cdu_imaging_tat := ed_cdu_imaging_tat r;
     total_patient_count := total_patient_count r;
     patient_satisfaction_scores := patient_satisfaction_scores r;
     total_hospital_los_list := total_hospital_los_list r;
     transfer_times_to_admit := transfer_times_to_admit r;
     ed_wait_times_for_transport := ed_wait_times_for_transport r;
     pulley_utilization_times := pulley_utilization_times r;
     volunteer_transport_count := volunteer_transport_count r;
     paid_transport_count := paid_transport_count r;
     pulley_transport_count := pulley_transport_count r;
     total_amenities_cost := total_amenities_cost r;
     total_ai_entertainment_cost := total_ai_entertainment_cost r |}.
Definition set_inpatient_occupancy_times (v : list (Q * Z)) (r : MetricsTracker) : MetricsTracker :=
  {| ed_los_list := ed_los_list r; ed_boarding_times := ed_boarding_times r;
     total_ed_boarding_time := total_ed_boarding_time r;
     cdu_conversion_count := cdu_conversion_count r;
     cdu_total_patients := cdu_total_patients r;
     cdu_occupancy_times := cdu_occupancy_times r; inpatient_occupancy_times := v;
     overall_imaging_tat := overall_imaging_tat r;
     critical_imaging_tat := critical_imaging_tat r;
     ed_cdu_imaging_tat := ed_cdu_imaging_tat r;
     total_patient_count := total_patient_count r;
     patient_satisfaction_scores := patient_satisfaction_scores r;
     total_hospital_los_list := total_hospital_los_list r;
     transfer_times_to_admit := transfer_times_to_admit r;
     ed_wait_times_for_transport := ed_wait_times_for_transport r;
     pulley_utilization_times := pulley_utilization_times r;
     volunteer_transport_count := volunteer_transport_count r;
     paid_transport_count := paid_transport_count r;
     pulley_transport_count := pulley_transport_count r;
     total_amenities_cost := total_amenities_cost r;
     total_ai_entertainment_cost := total_ai_entertainment_cost r |}.
Definition set_overall_imaging_tat (v : list Q) (r : MetricsTracker) : MetricsTracker :=
  {| ed_los_list := ed_los_list r; ed_boarding_times := ed_boarding_times r;
     total_ed_boarding_time := total_ed_boarding_time r;
     cdu_conversion_count := cdu_conversion_count r;
     cdu_total_patients := cdu_total_patients r;
     cdu_occupancy_times := cdu_occupancy_times r;
     inpatient_occupancy_times := inpatient_occupancy_times r;
     overall_imaging_tat := v; critical_imaging_tat := critical_imaging_tat r;
     ed_cdu_imaging_tat := ed_cdu_imaging_tat r;
     total_patient_count := total_patient_count r;
     patient_satisfaction_scores := patient_satisfaction_scores r;
     total_hospital_los_list := total_hospital_los_list r;
     transfer_times_to_admit := transfer_times_to_admit r;
     ed_wait_times_for_transport := ed_wait_times_for_transport r;
     pulley_utilization_times := pulley_utilization_times r;
     volunteer_transport_count := volunteer_transport_count r;
     paid_transport_count := paid_transport_count r;
     pulley_transport_count := pulley_transport_count r;
     total_amenities_cost := total_amenities_cost r;
     total_ai_entertainment_cost := total_ai_entertainment_cost r |}.
Definition set_critical_imaging_tat (v : list Q) (r : MetricsTracker) : MetricsTracker :=
  {| ed_los_list := ed_los_list r; ed_boarding_times := ed_boarding_times r;
     total_ed_boarding_time := total_ed_boarding_time r;
     cdu_conversion_count := cdu_conversion_count r;
     cdu_total_patients := cdu_total_patients r;
     cdu_occupancy_times := cdu_occupancy_times r;
     inpatient_occupancy_times := inpatient_occupancy_times r;
     overall_imaging_tat := overall_imaging_tat r; critical_imaging_tat := v;
     ed_cdu_imaging_tat := ed_cdu_imaging_tat r;
     total_patient_count := total_patient_count r;
     patient_satisfaction_scores := patient_satisfaction_scores r;
     total_hospital_los_list := total_hospital_los_list r;
     transfer_times_to_admit := transfer_times_to_admit r;
     ed_wait_times_for_transport := ed_wait_times_for_transport r;
     pulley_utilization_times := pulley_utilization_times r;
     volunteer_transport_count := volunteer_transport_count r;
     paid_transport_count := paid_transport_count r;
     pulley_transport_count := pulley_transport_count r;
     total_amenities_cost := total_amenities_cost r;
     total_ai_entertainment_cost := total_ai_entertainment_cost r |}.
Definition set_ed_cdu_imaging_tat (v : list Q) (r : MetricsTracker) : MetricsTracker :=
  {| ed_los_list := ed_los_list r; ed_boarding_times := ed_boarding_times r;
     total_ed_boarding_time := total_ed_boarding_time r;
     cdu_conversion_count := cdu_conversion_count r;
     cdu_total_patients := cdu_total_patients r;
     cdu_occupancy_times := cdu_occupancy_times r;
     inpatient_occupancy_times := inpatient_occupancy_times r;
     overall_imaging_tat := overall_imaging_tat r;
     critical_imaging_tat := critical_imaging_tat r; ed_cdu_imaging_tat := v;
     total_patient_count := total_patient_count r;
     patient_satisfaction_scores := patient_satisfaction_scores r;
     total_hospital_los_list := total_hospital_los_list r;
     transfer_times_to_admit := transfer_times_to_admit r;
     ed_wait_times_for_transport := ed_wait_times_for_transport r;
     pulley_utilization_times := pulley_utilization_times r;
     volunteer_transport_count := volunteer_transport_count r;
     paid_transport_count := paid_transport_count r;
     pulley_transport_count := pulley_transport_count r;
     total_amenities_cost := total_amenities_cost r;
     total_ai_entertainment_cost := total_ai_entertainment_cost r |}.
Definition set_patient_satisfaction_scores (v : list Q) (r : MetricsTracker) : MetricsTracker :=
  {| ed_los_list := ed_los_list r; ed_boarding_times := ed_boarding_times r;
     total_ed_boarding_time := total_ed_boarding_time r;
     cdu_conversion_count := cdu_conversion_count r;
     cdu_total_patients := cdu_total_patients r;
     cdu_occupancy_times := cdu_occupancy_times r;
     inpatient_occupancy_times := inpatient_occupancy_times r;
     overall_imaging_tat := overall_imaging_tat r;
     critical_imaging_tat := critical_imaging_tat r;
     ed_cdu_imaging_tat := ed_cdu_imaging_tat r;
     total_patient_count := total_patient_count r; patient_satisfaction_scores := v;
     total_hospital_los_list := total_hospital_los_list r;
     transfer_times_to_admit := transfer_times_to_admit r;
     ed_wait_times_for_transport := ed_wait_times_for_transport r;
     pulley_utilization_times := pulley_utilization_times r;
     volunteer_transport_count := volunteer_transport_count r;
     paid_transport_count := paid_transport_count r;
     pulley_transport_count := pulley_transport_count r;
     total_amenities_cost := total_amenities_cost r;
     total_ai_entertainment_cost := total_ai_entertainment_cost r |}.
Definition set_total_hospital_los_list (v : list Q) (r : MetricsTracker) : MetricsTracker :=
  {| ed_los_list := ed_los_list r; ed_boarding_times := ed_boarding_times r;
     total_ed_boarding_time := total_ed_boarding_time r;
     cdu_conversion_count := cdu_conversion_count r;
     cdu_total_patients := cdu_total_patients r;
     cdu_occupancy_times := cdu_occupancy_times r;
     inpatient_occupancy_times := inpatient_occupancy_times r;
     overall_imaging_tat := overall_imaging_tat r;
     critical_imaging_tat := critical_imaging_tat r;
     ed_cdu_imaging_tat := ed_cdu_imaging_tat r;
     total_patient_count := total_patient_count r;
     patient_satisfaction_scores := patient_satisfaction_scores r;
     total_hospital_los_list := v;
     transfer_times_to_admit := transfer_times_to_admit r;
     ed_wait_times_for_transport := ed_wait_times_for_transport r;
     pulley_utilization_times := pulley_utilization_times r;
     volunteer_transport_count := volunteer_transport_count r;
     paid_transport_count := paid_transport_count r;
     pulley_transport_count := pulley_transport_count r;
     total_amenities_cost := total_amenities_cost r;
     total_ai_entertainment_cost := total_ai_entertainment_cost r |}.
Definition set_transfer_times_to_admit (v : list Z) (r : MetricsTracker) : MetricsTracker :=
  {| ed_los_list := ed_los_list r; ed_boarding_times := ed_boarding_times r;
     total_ed_boarding_time := total_ed_boarding_time r;
     cdu_conversion_count := cdu_conversion_count r;
     cdu_total_patients := cdu_total_patients r;
     cdu_occupancy_times := cdu_occupancy_times r;
     inpatient_occupancy_times := inpatient_occupancy_times r;
     overall_imaging_tat := overall_imaging_tat r;
     critical_imaging_tat := critical_imaging_tat r;
     ed_cdu_imaging_tat := ed_cdu_imaging_tat r;
     total_patient_count := total_patient_count r;
     patient_satisfaction_scores := patient_satisfaction_scores r;
     total_hospital_los_list := total_hospital_los_list r;
     transfer_times_to_admit := v;
     ed_wait_times_for_transport := ed_wait_times_for_transport r;
     pulley_utilization_times := pulley_utilization_times r;
     volunteer_transport_count := volunteer_transport_count r;
     paid_transport_count := paid_transport_count r;
     pulley_transport_count := pulley_transport_count r;
     total_amenities_cost := total_amenities_cost r;
     total_ai_entertainment_cost := total_ai_entertainment_cost r |}.
Definition set_ed_wait_times_for_transport (v : list Q) (r : MetricsTracker) : MetricsTracker :=
  {| ed_los_list := ed_los_list r; ed_boarding_times := ed_boarding_times r;
     total_ed_boarding_time := total_ed_boarding_time r;
     cdu_conversion_count := cdu_conversion_count r;
     cdu_total_patients := cdu_total_patients r;
     cdu_occupancy_times := cdu_occupancy_times r;
     inpatient_occupancy_times := inpatient_occupancy_times r;
     overall_imaging_tat := overall_imaging_tat r;
     critical_imaging_tat := critical_imaging_tat r;
     ed_cdu_imaging_tat := ed_cdu_imaging_tat r;
     total_patient_count := total_patient_count r;
     patient_satisfaction_scores := patient_satisfaction_scores r;
     total_hospital_los_list := total_hospital_los_list r;
     transfer_times_to_admit := transfer_times_to_admit r;
     ed_wait_times_for_transport := v;
     pulley_utilization_times := pulley_utilization_times r;
     volunteer_transport_count := volunteer_transport_count r;
     paid_transport_count := paid_transport_count r;
     pulley_transport_count := pulley_transport_count r;
     total_amenities_cost := total_amenities_cost r;
     total_ai_entertainment_cost := total_ai_entertainment_cost r |}.
Definition set_pulley_utilization_times (v : list (Q * Z)) (r : MetricsTracker) : MetricsTracker :=
  {| ed_los_list := ed_los_list r; ed_boarding_times := ed_boarding_times r;
     total_ed_boarding_time := total_ed_boarding_time r;
     cdu_conversion_count := cdu_conversion_count r;
     cdu_total_patients := cdu_total_patients r;
     cdu_occupancy_times := cdu_occupancy_times r;
     inpatient_occupancy_times := inpatient_occupancy_times r;
     overall_imaging_tat := overall_imaging_tat r;
     critical_imaging_tat := critical_imaging_tat r;
     ed_cdu_imaging_tat := ed_cdu_imaging_tat r;
     total_patient_count := total_patient_count r;
     patient_satisfaction_scores := patient_satisfaction_scores r;
     total_hospital_los_list := total_hospital_los_list r;
     transfer_times_to_admit := transfer_times_to_admit r;
     ed_wait_times_for_transport := ed_wait_times_for_transport r;
     pulley_utilization_times := v;
     volunteer_transport_count := volunteer_transport_count r;
     paid_transport_count := paid_transport_count r;
     pulley_transport_count := pulley_transport_count r;
     total_amenities_cost := total_amenities_cost r;
     total_ai_entertainment_cost := total_ai_entertainment_cost r |}.
Definition set_volunteer_transport_count (v : Z) (r : MetricsTracker) : MetricsTracker :=
  {| ed_los_list := ed_los_list r; ed_boarding_times := ed_boarding_times r;
     total_ed_boarding_time := total_ed_boarding_time r;
     cdu_conversion_count := cdu_conversion_count r;
     cdu_total_patients := cdu_total_patients r;
     cdu_occupancy_times := cdu_occupancy_times r;
     inpatient_occupancy_times := inpatient_occupancy_times r;
     overall_imaging_tat := overall_imaging_tat r;
     critical_imaging_tat := critical_imaging_tat r;
     ed_cdu_imaging_tat := ed_cdu_imaging_tat r;
     total_patient_count := total_patient_count r;
     patient_satisfaction_scores := patient_satisfaction_scores r;
     total_hospital_los_list := total_hospital_los_list r;
     transfer_times_to_admit := transfer_times_to_admit r;
     ed_wait_times_for_transport := ed_wait_times_for_transport r;
     pulley_utilization_times := pulley_utilization_times r;
     volunteer_transport_count := v; paid_transport_count := paid_transport_count r;
     pulley_transport_count := pulley_transport_count r;
     total_amenities_cost := total_amenities_cost r;
     total_ai_entertainment_cost := total_ai_entertainment_cost r |}.
Definition set_paid_transport_count (v : Z) (r : MetricsTracker) : MetricsTracker :=
  {| ed_los_list := ed_los_list r; ed_boarding_times := ed_boarding_times r;
     total_ed_boarding_time := total_ed_boarding_time r;
     cdu_conversion_count := cdu_conversion_count r;
     cdu_total_patients := cdu_total_patients r;
     cdu_occupancy_times := cdu_occupancy_times r;
     inpatient_occupancy_times := inpatient_occupancy_times r;
     overall_imaging_tat := overall_imaging_tat r;
     critical_imaging_tat := critical_imaging_tat r;
     ed_cdu_imaging_tat := ed_cdu_imaging_tat r;
     total_patient_count := total_patient_count r;
     patient_satisfaction_scores := patient_satisfaction_scores r;
     total_hospital_los_list := total_hospital_los_list r;
     transfer_times_to_admit := transfer_times_to_admit r;
     ed_wait_times_for_transport := ed_wait_times_for_transport r;
     pulley_utilization_times := pulley_utilization_times r;
     volunteer_transport_count := volunteer_transport_count r;
     paid_transport_count := v; pulley_transport_count := pulley_transport_count r;
     total_amenities_cost := total_amenities_cost r;
     total_ai_entertainment_cost := total_ai_entertainment_cost r |}.
Definition set_pulley_transport_count (v : Z) (r : MetricsTracker) : MetricsTracker :=
  {| ed_los_list := ed_los_list r; ed_boarding_times := ed_boarding_times r;
     total_ed_boarding_time := total_ed_boarding_time r;
     cdu_conversion_count := cdu_conversion_count r;
     cdu_total_patients := cdu_total_patients r;
     cdu_occupancy_times := cdu_occupancy_times r;
     inpatient_occupancy_times := inpatient_occupancy_times r;
     overall_imaging_tat := overall_imaging_tat r;
     critical_imaging_tat := critical_imaging_tat r;
     ed_cdu_imaging_tat := ed_cdu_imaging_tat r;
     total_patient_count := total_patient_count r;
     patient_satisfaction_scores := patient_satisfaction_scores r;
     total_hospital_los_list := total_hospital_los_list r;
     transfer_times_to_admit := transfer_times_to_admit r;
     ed_wait_times_for_transport := ed_wait_times_for_transport r;
     pulley_utilization_times := pulley_utilization_times r;
     volunteer_transport_count := volunteer_transport_count r;
     paid_transport_count := paid_transport_count r; pulley_transport_count := v;
     total_amenities_cost := total_amenities_cost r;
     total_ai_entertainment_cost := total_ai_entertainment_cost r |}.
Definition set_total_amenities_cost (v : Q) (r : MetricsTracker) : MetricsTracker :=
  {| ed_los_list := ed_los_list r; ed_boarding_times := ed_boarding_times r;
     total_ed_boarding_time := total_ed_boarding_time r;
     cdu_conversion_count := cdu_conversion_count r;
     cdu_total_patients := cdu_total_patients r;
     cdu_occupancy_times := cdu_occupancy_times r;
     inpatient_occupancy_times := inpatient_occupancy_times r;
     overall_imaging_tat := overall_imaging_tat r;
     critical_imaging_tat := critical_imaging_tat r;
     ed_cdu_imaging_tat := ed_cdu_imaging_tat r;
     total_patient_count := total_patient_count r;
     patient_satisfaction_scores := patient_satisfaction_scores r;
     total_hospital_los_list := total_hospital_los_list r;
     transfer_times_to_admit := transfer_times_to_admit r;
     ed_wait_times_for_transport := ed_wait_times_for_transport r;
     pulley_utilization_times := pulley_utilization_times r;
     volunteer_transport_count := volunteer_transport_count r;
     paid_transport_count := paid_transport_count r;
     pulley_transport_count := pulley_transport_count r; total_amenities_cost := v;
     total_ai_entertainment_cost := total_ai_entertainment_cost r |}.
Definition set_total_ai_entertainment_cost (v : Q) (r : MetricsTracker) : MetricsTracker :=
  {| ed_los_list := ed_los_list r; ed_boarding_times := ed_boarding_times r;
     total_ed_boarding_time := total_ed_boarding_time r;
     cdu_conversion_count := cdu_conversion_count r;
     cdu_total_patients := cdu_total_patients r;
     cdu_occupancy_times := cdu_occupancy_times r;
     inpatient_occupancy_times := inpatient_occupancy_times r;
     overall_imaging_tat := overall_imaging_tat r;
     critical_imaging_tat := critical_imaging_tat r;
     ed_cdu_imaging_tat := ed_cdu_imaging_tat r;
     total_patient_count := total_patient_count r;
     patient_satisfaction_scores := patient_satisfaction_scores r;
     total_hospital_los_list := total_hospital_los_list r;
     transfer_times_to_admit := transfer_times_to_admit r;
     ed_wait_times_for_transport := ed_wait_times_for_transport r;
     pulley_utilization_times := pulley_utilization_times r;
     volunteer_transport_count := volunteer_transport_count r;
     paid_transport_count := paid_transport_count r;
     pulley_transport_count := pulley_transport_count r;
     total_amenities_cost := total_amenities_cost r;
     total_ai_entertainment_cost := v |}.

(** [MetricsTracker.__init__] *)
Definition new_MetricsTracker : MetricsTracker :=
  {| ed_los_list := []; ed_boarding_times := []; total_ed_boarding_time := 0;
     cdu_conversion_count := 0; cdu_total_patients := 0;
     cdu_occupancy_times := []; inpatient_occupancy_times := [];
     overall_imaging_tat := []; critical_imaging_tat := []; ed_cdu_imaging_tat := [];
     total_patient_count := 0; patient_satisfaction_scores := [];
     total_hospital_los_list := []; transfer_times_to_admit := [];
     ed_wait_times_for_transport := []; pulley_utilization_times := [];
     volunteer_transport_count := 0; paid_transport_count := 0;
     pulley_transport_count := 0; total_amenities_cost := 0;
     total_ai_entertainment_cost := 0 |}.

Definition add_ed_los (los : Q) (m : MetricsTracker) : MetricsTracker :=
  set_ed_los_list (ed_los_list m ++ [los]) m.

Definition add_ed_boarding_time (boarding_time : Q) (m : MetricsTracker) : MetricsTracker :=
  let m1 := set_ed_boarding_times (ed_boarding_times m ++ [boarding_time]) m in
  set_total_ed_boarding_time (total_ed_boarding_time m1 + boarding_time)%Q m1.

Definition add_cdu_conversion (converted : bool) (m : MetricsTracker) : MetricsTracker :=
  let m1 := set_cdu_total_patients (cdu_total_patients m + 1) m in
  if converted then set_cdu_conversion_count (cdu_conversion_count m1 + 1) m1 else m1.

(** The test shared by the three occupancy recorders: the series is empty or
    its last count differs from the sample. *)
Definition count_changed (series : list (Q * Z)) (sample : Z) : bool :=
  match last series with
  | None => true
  | Some (_, c) => negb (c =? sample)
  end.

Definition add_cdu_occupancy (sim_time : Q) (patients_in_cdu : Z)
    (m : MetricsTracker) : MetricsTracker :=
  if count_changed (cdu_occupancy_times m) patients_in_cdu then
    set_cdu_occupancy_times (cdu_occupancy_times m ++ [(sim_time, patients_in_cdu)]) m
  else m.

Definition add_inpatient_occupancy (sim_time : Q) (patients_in_inpatient : Z)
    (m : MetricsTracker) : MetricsTracker :=
  if count_changed (inpatient_occupancy_times m) patients_in_inpatient then
    set_inpatient_occupancy_times
      (inpatient_occupancy_times m ++ [(sim_time, patients_in_inpatient)]) m
  else m.

Definition add_pulley_utilization (sim_time : Q) (current_utilization : Z)
    (m : MetricsTracker) : MetricsTracker :=
  if count_changed (pulley_utilization_times m) current_utilization then
    set_pulley_utilization_times
      (pulley_utilization_times m ++ [(sim_time, current_utilization)]) m
  else m.

Definition add_overall_imaging_tat (tat : Q) (m : MetricsTracker) : MetricsTracker :=
  set_overall_imaging_tat (overall_imaging_tat m ++ [tat]) m.

Definition add_critical_imaging_tat (tat : Q) (m : MetricsTracker) : MetricsTracker :=
  set_critical_imaging_tat (critical_imaging_tat m ++ [tat]) m.

Definition add_ed_cdu_imaging_tat (tat : Q) (m : MetricsTracker) : MetricsTracker :=
  set_ed_cdu_imaging_tat (ed_cdu_imaging_tat m ++ [tat]) m.

Definition add_patient_satisfaction_score (score : Q) (m : MetricsTracker)
    : MetricsTracker :=
  set_patient_satisfaction_scores (patient_satisfaction_scores m ++ [score]) m.

Definition add_total_hospital_los (los : Q) (m : MetricsTracker) : MetricsTracker :=
  set_total_hospital_los_list (total_hospital_los_list m ++ [los]) m.

Definition add_transfer_time_to_admit (transfer_time : Z) (m : MetricsTracker)
    : MetricsTracker :=
  set_transfer_times_to_admit (transfer_times_to_admit m ++ [transfer_time]) m.

Definition add_ed_wait_time_for_transport (wait_time : Q) (m : MetricsTracker)
    : MetricsTracker :=
  set_ed_wait_times_for_transport (ed_wait_times_for_transport m ++ [wait_time]) m.

Definition add_transport_type_count (transport : option TransportType)
    (m : MetricsTracker) : MetricsTracker :=
  match transport with
  | Some VOLUNTEER => set_volunteer_transport_count (volunteer_transport_count m + 1) m
  | Some PAID_STAFF => set_paid_transport_count (paid_transport_count m + 1) m
  | Some PULLEY => set_pulley_transport_count (pulley_transport_count m + 1) m
  | None => m
  end.

(** [MetricsTracker.calculate_weighted_average_occupancy].  The loop runs over
    the indices [1 .. len-1]; the closing term reads [Config.SIM_END_TIME]. *)
Definition occ_time (l : list (Q * Z)) (i : nat) : Q := (nth i l (0%Q, 0)).1.
Definition occ_count (l : list (Q * Z)) (i : nat) : Z := (nth i l (0%Q, 0)).2.

(** One pass of the loop body at index [i]. *)
Definition occupancy_step (l : list (Q * Z)) (weighted_patient_minutes : Q) (i : nat) : Q :=
  let time_diff := (occ_time l i - occ_time l (i - 1))%Q in
  (weighted_patient_minutes + inject_Z (occ_count l (i - 1)) * time_diff)%Q.

Definition calculate_weighted_average_occupancy (occupancy_times_list : list (Q * Z))
    (total_sim_time_span : Z) : Q :=
  let n := length occupancy_times_list in
  if decide (1 < n)%nat then
    let weighted_patient_minutes :=
      fold_left (occupancy_step occupancy_times_list) (seq 1 (n - 1)) 0%Q in
    let weighted_patient_minutes :=
      (weighted_patient_minutes
       + inject_Z (occ_count occupancy_times_list (n - 1))
         * (inject_Z (SIM_END_TIME Config_base) - occ_time occupancy_times_list (n - 1)))%Q in
    if 0 <? total_sim_time_span then
      (weighted_patient_minutes / inject_Z total_sim_time_span)%Q
    else 0%Q
  else
    match occupancy_times_list with
    | (_, c) :: _ => inject_Z c
    | [] => 0%Q
    end.

(** The occupancy part of [MetricsTracker.report]. *)
Record OccupancyReport : Type := Build_OccupancyReport {
  cdu_avg_occupancy : Q;
  cdu_avg_utilization : Q;
  avg_inpatient_occupancy : Q;
  inpatient_avg_utilization : Q;
  pulley_avg_occupancy : Q;
  pulley_avg_utilization : Q
}.

Definition utilization (avg : Q) (beds : Z) : Q :=
  if 0 <? beds then (avg / inject_Z beds * 100)%Q else 0%Q.

Definition report (m : MetricsTracker) : OccupancyReport :=
  let total_sim_time_span := SIM_END_TIME Config_base - SIM_START_TIME Config_base in
  let avg_cdu_occupancy :=
    calculate_weighted_average_occupancy (cdu_occupancy_times m) total_sim_time_span in
  let avg_inpatient_occupancy :=
    calculate_weighted_average_occupancy (inpatient_occupancy_times m) total_sim_time_span in
  let avg_pulley_utilization :=
    calculate_weighted_average_occupancy (pulley_utilization_times m) total_sim_time_span in
  {| cdu_avg_occupancy := avg_cdu_occupancy;
     cdu_avg_utilization := utilization avg_cdu_occupancy (CDU_BEDS Config_base);
     avg_inpatient_occupancy := avg_inpatient_occupancy;
     inpatient_avg_utilization :=
       utilization avg_inpatient_occupancy (INPATIENT_BEDS Config_base);
     pulley_avg_occupancy := avg_pulley_utilization;
     pulley_avg_utilization :=
       utilization avg_pulley_utilization (PULLEY_SYSTEM_CAPACITY Config_base) |}.

(** ** The event queue

    An entry is the tuple [(fire_time, event_kind, patient_id, payload)]; the
    only payload of the source is [{'duration': d}]. *)

Record Event : Type := Build_Event {
  fire_time : Q;
  kind : EventKind;
  patient_id : option string;
  event_data : option Z
}.

(** [a < b] on the last component once every earlier one is equal: equal
    payloads make the tuples equal, unequal ones (two dicts, or a dict and
    [None]) cannot be ordered. *)
Definition event_data_lt (a b : option Z) : result bool :=
  match a, b with
  | None, None => Ok false
  | Some x, Some y => if x =? y then Ok false else Raise TypeError
  | _, _ => Raise TypeError
  end.

(** Python's tuple comparison: the first differing component decides. *)
Definition event_lt (a b : Event) : result bool :=
  if negb (Qeq_bool (fire_time a) (fire_time b)) then
    Ok (Qltb (fire_time a) (fire_time b))
  else if negb (String.eqb (event_kind_name (kind a)) (event_kind_name (kind b))) then
    Ok (String.ltb (event_kind_name (kind a)) (event_kind_name (kind b)))
  else
    match patient_id a, patient_id b with
    | None, None => event_data_lt (event_data a) (event_data b)
    | Some x, Some y =>
        if String.eqb x y then event_data_lt (event_data a) (event_data b)
        else Ok (String.ltb x y)
    | _, _ => Raise TypeError
    end.

(** ** [class HospitalSimulator] *)

Record HospitalSimulator : Type := Build_HospitalSimulator {
  config : Config;
  sim_time : Q;
  total_sim_minutes : Z;
  patients : gmap string Patient;
  event_queue : list Event;
  units : UnitName → Unit;
  all_staff : list Staff;
  metrics : MetricsTracker;
  enable_cdu : bool;
  enable_ai_imaging : bool;
  enable_ai_staffing : bool;
  enable_amenities : bool;
  enable_ai_entertainment : bool;
  ai_staffing_next_adjustment_time : Z;
  pulley_in_use : Z
}.

Definition set_sim_time (v : Q) (r : HospitalSimulator) : HospitalSimulator :=
  {| config := config r; sim_time := v; total_sim_minutes := total_sim_minutes r;
     patients := patients r; event_queue := event_queue r; units := units r;
     all_staff := all_staff r; metrics := metrics r; enable_cdu := enable_cdu r;
     enable_ai_imaging := enable_ai_imaging r;
     enable_ai_staffing := enable_ai_staffing r;
     enable_amenities := enable_amenities r;
     enable_ai_entertainment := enable_ai_entertainment r;
     ai_staffing_next_adjustment_time := ai_staffing_next_adjustment_time r;
     pulley_in_use := pulley_in_use r |}.
Definition set_patients (v : gmap string Patient) (r : HospitalSimulator) : HospitalSimulator :=
  {| config := config r; sim_time := sim_time r;
     total_sim_minutes := total_sim_minutes r; patients := v;
     event_queue := event_queue r; units := units r; all_staff := all_staff r;
     metrics := metrics r; enable_cdu := enable_cdu r;
     enable_ai_imaging := enable_ai_imaging r;
     enable_ai_staffing := enable_ai_staffing r;
     enable_amenities := enable_amenities r;
     enable_ai_entertainment := enable_ai_entertainment r;
     ai_staffing_next_adjustment_time := ai_staffing_next_adjustment_time r;
     pulley_in_use := pulley_in_use r |}.
Definition set_event_queue (v : list Event) (r : HospitalSimulator) : HospitalSimulator :=
  {| config := config r; sim_time := sim_time r;
     total_sim_minutes := total_sim_minutes r; patients := patients r;
     event_queue := v; units := units r; all_staff := all_staff r;
     metrics := metrics r; enable_cdu := enable_cdu r;
     enable_ai_imaging := enable_ai_imaging r;
     enable_ai_staffing := enable_ai_staffing r;
     enable_amenities := enable_amenities r;
     enable_ai_entertainment := enable_ai_entertainment r;
     ai_staffing_next_adjustment_time := ai_staffing_next_adjustment_time r;
     pulley_in_use := pulley_in_use r |}.
Definition set_units (v : UnitName → Unit) (r : HospitalSimulator) : HospitalSimulator :=
  {| config := config r; sim_time := sim_time r;
     total_sim_minutes := total_sim_minutes r; patients := patients r;
     event_queue := event_queue r; units := v; all_staff := all_staff r;
     metrics := metrics r; enable_cdu := enable_cdu r;
     enable_ai_imaging := enable_ai_imaging r;
     enable_ai_staffing := enable_ai_staffing r;
     enable_amenities := enable_amenities r;
     enable_ai_entertainment := enable_ai_entertainment r;
     ai_staffing_next_adjustment_time := ai_staffing_next_adjustment_time r;
     pulley_in_use := pulley_in_use r |}.
Definition set_all_staff (v : list Staff) (r : HospitalSimulator) : HospitalSimulator :=
  {| config := config r; sim_time := sim_time r;
     total_sim_minutes := total_sim_minutes r; patients := patients r;
     event_queue := event_queue r; units := units r; all_staff := v;
     metrics := metrics r; enable_cdu := enable_cdu r;
     enable_ai_imaging := enable_ai_imaging r;
     enable_ai_staffing := enable_ai_staffing r;
     enable_amenities := enable_amenities r;
     enable_ai_entertainment := enable_ai_entertainment r;
     ai_staffing_next_adjustment_time := ai_staffing_next_adjustment_time r;
     pulley_in_use := pulley_in_use r |}.
Definition set_metrics (v : MetricsTracker) (r : HospitalSimulator) : HospitalSimulator :=
  {| config := config r; sim_time := sim_time r;
     total_sim_minutes := total_sim_minutes r; patients := patients r;
     event_queue := event_queue r; units := units r; all_staff := all_staff r;
     metrics := v; enable_cdu := enable_cdu r;
     enable_ai_imaging := enable_ai_imaging r;
     enable_ai_staffing := enable_ai_staffing r;
     enable_amenities := enable_amenities r;
     enable_ai_entertainment := enable_ai_entertainment r;
     ai_staffing_next_adjustment_time := ai_staffing_next_adjustment_time r;
     pulley_in_use := pulley_in_use r |}.
Definition set_ai_staffing_next_adjustment_time (v : Z) (r : HospitalSimulator) : HospitalSimulator :=
  {| config := config r; sim_time := sim_time r;
     total_sim_minutes := total_sim_minutes r; patients := patients r;
     event_queue := event_queue r; units := units r; all_staff := all_staff r;
     metrics := metrics r; enable_cdu := enable_cdu r;
     enable_ai_imaging := enable_ai_imaging r;
     enable_ai_staffing := enable_ai_staffing r;
     enable_amenities := enable_amenities r;
     enable_ai_entertainment := enable_ai_entertainment r;
     ai_staffing_next_adjustment_time := v; pulley_in_use := pulley_in_use r |}.
Definition set_pulley_in_use (v : Z) (r : HospitalSimulator) : HospitalSimulator :=
  {| config := config r; sim_time := sim_time r;
     total_sim_minutes := total_sim_minutes r; patients := patients r;
     event_queue := event_queue r; units := units r; all_staff := all_staff r;
     metrics := metrics r; enable_cdu := enable_cdu r;
     enable_ai_imaging := enable_ai_imaging r;
     enable_ai_staffing := enable_ai_staffing r;
     enable_amenities := enable_amenities r;
     enable_ai_entertainment := enable_ai_entertainment r;
     ai_staffing_next_adjustment_time := ai_staffing_next_adjustment_time r;
     pulley_in_use := v |}.

(** The outcomes of the calls into [random] and [uuid] made while one event
    is handled, in the order of the calls. *)
Record Draws : Type := Build_Draws {
  randint_raw : Z;
  random1 : Q;
  random2 : Q;
  random3 : Q;
  choice_is_CT : bool;
  expovariate : Q;
  uuid4 : string;
  drawn_acuity : Acuity
}.

(** [heapq.heappush(self.event_queue, (time, kind, patient_id, payload))] *)
Definition push_event (time : Q) (k : EventKind) (pid : option string)
    (payload : option Z) (s : HospitalSimulator) : result HospitalSimulator :=
  q ← heappush event_lt (event_queue s) (Build_Event time k pid payload);
  Ok (set_event_queue q s).

(** In-place mutation of the unit stored under [n]. *)
Definition put_unit (n : UnitName) (u : Unit) (s : HospitalSimulator) : HospitalSimulator :=
  set_units (update_unit n u (units s)) s.

(** Writing the handler's patient back to the store. *)
Definition store_patient (pid : string) (patient : Patient) (s : HospitalSimulator)
    : HospitalSimulator :=
  set_patients (<[pid := patient]> (patients s)) s.

Definition tick (s : HospitalSimulator) : Q :=
  inject_Z (TICK_INTERVAL_MINUTES (config s)).

(** [HospitalSimulator._get_free_bed]; [None] is a name that is no key of
    [self.units]. *)
Definition _get_free_bed (s : HospitalSimulator) (unit_name : option UnitName) : bool :=
  match unit_name with
  | Some n => Z.of_nat (size (patients_in_unit (units s n))) <? capacity (units s n)
  | None => false
  end.

(** [HospitalSimulator._get_patient_satisfaction_score] *)
Definition _get_patient_satisfaction_score (s : HospitalSimulator) (ed_los : Q) : Q :=
  let max_los_for_score := 480%Q in
  let min_los_for_score := 30%Q in
  let base_score :=
    if Qle_bool ed_los min_los_for_score then 100%Q
    else if Qle_bool max_los_for_score ed_los then 1%Q
    else (100 - ((ed_los - min_los_for_score)
                 / (max_los_for_score - min_los_for_score)) * 99)%Q in
  let base_score :=
    if enable_amenities s
    then (base_score + inject_Z (SATISFACTION_AMENITIES_BONUS (config s)))%Q
    else base_score in
  let base_score :=
    if enable_ai_entertainment s
    then (base_score + inject_Z (SATISFACTION_ENTERTAINMENT_BONUS (config s)))%Q
    else base_score in
  Qmax 1 (Qmin 100 base_score).

(** [HospitalSimulator._adjust_ai_staffing] *)
Definition _adjust_ai_staffing (s : HospitalSimulator) : result HospitalSimulator :=
  let next :=
    ai_staffing_next_adjustment_time s
    + AI_STAFFING_ADJUSTMENT_INTERVAL_MINUTES (config s) in
  let s1 := set_ai_staffing_next_adjustment_time next s in
  if next <? total_sim_minutes s1 then
    push_event (inject_Z next) AI_STAFFING_ADJUSTMENT None None s1
  else Ok s1.

(** [HospitalSimulator._determine_patient_disposition]; [u] is the outcome of
    the [random.random()] call (made only on the CDU-eligible branches). *)
Definition _determine_patient_disposition (u : Q) (pid : string) (patient : Patient)
    (event_time : Q) (s : HospitalSimulator) : result (Patient * HospitalSimulator) :=
  let '(patient, s) :=
    match ed_disposition_time patient with
    | None =>
        let ed_los_val := (event_time - arrival_time patient)%Q in
        let m := add_ed_los ed_los_val (metrics s) in
        let m := add_patient_satisfaction_score
                   (_get_patient_satisfaction_score s ed_los_val) m in
        (set_ed_disposition_time (Some event_time) patient, set_metrics m s)
    | Some _ => (patient, s)
    end in
  match acuity patient with
  | CRITICAL | URGENT_ADMIT =>
      s ← push_event event_time ADMIT_TO_INPATIENT (Some pid) None s;
      Ok (set_status St_ADMIT_INPATIENT_PENDING patient, s)
  | URGENT_OBS =>
      if enable_cdu s && Qltb u (CDU_CRITERIA_MATCH (config s)) then
        s ← push_event event_time ADMIT_TO_CDU (Some pid) None s;
        Ok (set_status St_ADMIT_CDU_PENDING patient, s)
      else
        s ← push_event event_time ADMIT_TO_INPATIENT (Some pid) None s;
        Ok (set_status St_ADMIT_INPATIENT_PENDING patient, s)
  | NON_URGENT =>
      if enable_cdu s && Qltb u (CDU_CRITERIA_MATCH (config s) * (1 # 2))%Q then
        s ← push_event event_time ADMIT_TO_CDU (Some pid) None s;
        Ok (set_status St_ADMIT_CDU_PENDING patient, s)
      else
        s ← push_event event_time DISCHARGE_ORDERED (Some pid) None s;
        Ok (set_status St_DISCHARGE_PENDING_ORDER patient, s)
  end.

(** [min(staff, key=lambda s: s.busy_until)]: the first staff member with
    the least [busy_until]. *)
Fixpoint min_by_busy_until (l : list Staff) : option Staff :=
  match l with
  | [] => None
  | s :: l' =>
      match min_by_busy_until l' with
      | Some m => if Qltb (busy_until m) (busy_until s) then Some m else Some s
      | None => Some s
      end
  end.

(** [sorted(staff, key=lambda s: (priority, s.busy_until))[0]]: the sort is
    stable, so its head is the first staff member with the least key. *)
Definition priority_key_lt (a b : Z * Q) : bool :=
  (a.1 <? b.1) || ((a.1 =? b.1) && Qltb a.2 b.2).

Fixpoint sorted_head (priority : Z) (l : list Staff) : option Staff :=
  match l with
  | [] => None
  | s :: l' =>
      match sorted_head priority l' with
      | Some m =>
          if priority_key_lt (priority, busy_until m) (priority, busy_until s)
          then Some m else Some s
      | None => Some s
      end
  end.

(** The mutation of one [Staff] object, seen through [self.all_staff]. *)
Definition update_staff (sid : string) (f : Staff → Staff) (l : list Staff) : list Staff :=
  (λ s, if String.eqb (staff_id s) sid then f s else s) <$> l.

Definition staff_by_id (l : list Staff) (sid : string) : option Staff :=
  find (λ s, String.eqb (staff_id s) sid) l.

Definition roster (u : Unit) (t : StaffType) : option (list string) :=
  snd <$> find (λ e, bool_decide (e.1 = t)) (staff_assigned u).

(** [HospitalSimulator._find_and_assign_staff]; every caller passes
    [patient.id] as [patient_id], so [self.patients[patient_id]] is the
    caller's patient.  Returns the selected staff member after [assign]. *)
Definition _find_and_assign_staff (staff_type : StaffType)
    (preferred_unit_name : option UnitName) (sim_time : Q) (duration : Z)
    (assignment_details : string) (pid : string) (patient : Patient)
    (s : HospitalSimulator) : option Staff * Patient * HospitalSimulator :=
  let preferred_ids :=
    match preferred_unit_name with
    | Some n => default [] (roster (units s n) staff_type)
    | None => []
    end in
  let staff_pool := omap (staff_by_id (all_staff s)) preferred_ids in
  let all_staff_of_type :=
    filter (λ x, type x = staff_type) (all_staff s) in
  let staff_pool :=
    staff_pool
    ++ filter (λ x, staff_id x ∉ (staff_id <$> staff_pool)) all_staff_of_type in
  let available_staff := filter (λ x, is_free x sim_time = true) staff_pool in
  match min_by_busy_until available_staff with
  | Some selected_staff =>
      let assigned :=
        assign sim_time (inject_Z duration) assignment_details preferred_unit_name
          selected_staff in
      let s1 :=
        set_all_staff
          (update_staff (staff_id selected_staff) (λ _, assigned) (all_staff s)) s in
      let patient1 :=
        if String.eqb pid "" then patient
        else set_assigned_staff_id (Some (staff_id selected_staff)) patient in
      (Some assigned, patient1, s1)
  | None => (None, patient, s)
  end.

(** [HospitalSimulator._request_transport_resource]; [raw] is the draw of
    the one [random.randint] call of the chosen branch.  Returns the tuple
    [(transport_type, staff_id, duration)] with the patient and the state. *)
Definition _request_transport_resource (raw : Z) (pid : string) (patient : Patient)
    (event_time : Q) (destination_unit_name : UnitName) (s : HospitalSimulator)
    : result (option TransportType * option string * option Z
              * Patient * HospitalSimulator) :=
  let current_minute_of_day := Qmod event_time (SIM_MINUTES_PER_DAY (config s)) in
  let is_volunteer_hours :=
    Qle_bool (inject_Z (VOLUNTEER_HOURS_START (config s))) current_minute_of_day
    && Qltb current_minute_of_day (inject_Z (VOLUNTEER_HOURS_END (config s))) in
  let paid_transport_staff := filter (λ x, type x = TRANSPORT) (all_staff s) in
  let volunteer_transport_staff :=
    filter (λ x, type x = VOLUNTEER_TRANSPORT) (all_staff s) in
  let available_paid_staff :=
    filter (λ x, is_free x event_time = true) paid_transport_staff in
  let available_volunteer_staff :=
    filter (λ x, is_free x event_time = true) volunteer_transport_staff in
  let staffed (selected_staff : Staff) (range : Z * Z) (details : string)
      (transport : TransportType) :=
    duration ← randint range raw;
    let assigned :=
      assign event_time (inject_Z duration) details (current_unit patient)
        selected_staff in
    let s1 :=
      set_all_staff
        (update_staff (staff_id selected_staff) (λ _, assigned) (all_staff s)) s in
    let patient1 :=
      set_transport_type (Some transport)
        (set_transport_assigned_time (Some event_time)
           (set_assigned_staff_id (Some (staff_id selected_staff)) patient)) in
    s2 ← push_event (event_time + inject_Z duration)%Q STAFF_TRANSPORT_COMPLETE
           (Some pid) (Some duration) s1;
    Ok (Some transport, Some (staff_id selected_staff), Some duration, patient1, s2) in
  (* Attempt 1: pulley system *)
  if bool_decide (current_unit patient ∈ (Some <$> PULLEY_ELIGIBLE_UNITS (config s)))
     && bool_decide (destination_unit_name ∈ PULLEY_ELIGIBLE_DESTINATIONS (config s))
     && (pulley_in_use s <? PULLEY_SYSTEM_CAPACITY (config s)) then
    let s1 := set_pulley_in_use (pulley_in_use s + 1) s in
    duration ← randint (PULLEY_TRANSFER_PROCESS_TIME (config s)) raw;
    let patient1 :=
      set_transport_assigned_time (Some event_time)
        (set_transport_type (Some PULLEY) patient) in
    s2 ← push_event (event_time + inject_Z duration)%Q PULLEY_TRANSPORT_COMPLETE
           (Some pid) (Some duration) s1;
    Ok (Some PULLEY, None, Some duration, patient1, s2)
  else
  (* Attempt 2: paid staff for CRITICAL patients *)
  match (if bool_decide (acuity patient = CRITICAL)
         then min_by_busy_until available_paid_staff else None) with
  | Some selected_staff =>
      staffed selected_staff (TRANSFER_PROCESS_TIME (config s))
        ("Transport Patient " +:+ pid +:+ " to " +:+ unit_str destination_unit_name)
        PAID_STAFF
  | None =>
  (* Attempt 3: volunteers, for eligible acuities during volunteer hours *)
  match (if is_volunteer_hours
            && bool_decide (acuity patient ∈ VOLUNTEER_ACUITY_ELIGIBILITY (config s))
         then min_by_busy_until available_volunteer_staff else None) with
  | Some selected_staff =>
      staffed selected_staff (VOLUNTEER_TRANSFER_PROCESS_TIME (config s))
        ("Volunteer Transport Patient " +:+ pid +:+ " to "
         +:+ unit_str destination_unit_name)
        VOLUNTEER
  | None =>
  (* Attempt 4: paid staff for all other cases *)
  match sorted_head (TRANSPORT_PRIORITY Config_base (acuity patient))
          available_paid_staff with
  | Some selected_staff =>
      staffed selected_staff (TRANSFER_PROCESS_TIME (config s))
        ("Transport Patient " +:+ pid +:+ " to " +:+ unit_str destination_unit_name)
        PAID_STAFF
  | None =>
  (* Fail: no transport available *)
      Ok (None, None, None, patient, s)
  end end end.

(** ** The branches of [HospitalSimulator._process_event]

    Each branch takes the draws [d], the event time, the patient found under
    the event's [patient_id] and the state; it writes the patient back last. *)

(** [patient = self.patients.get(patient_id)] *)
Definition get_patient (s : HospitalSimulator) (pid : option string)
    : option (string * Patient) :=
  match pid with
  | Some i => match patients s !! i with Some p => Some (i, p) | None => None end
  | None => None
  end.

(** Attribute access on [patient]: [None] has no attributes. *)
Definition deref {A : Type} (o : option A) : result A :=
  match o with Some a => Ok a | None => Raise AttributeError end.

(** The unit a patient is recorded in, when it is a key of [self.units] and
    holds the patient: the guard in front of every [discharge_patient]. *)
Definition leave_current_unit (pid : string) (patient : Patient) (event_time : Q)
    (s : HospitalSimulator) : Patient * HospitalSimulator :=
  match current_unit patient with
  | Some n =>
      if decide (pid ∈ patients_in_unit (units s n)) then
        let '(_, u, patient1) := discharge_patient (units s n) pid patient event_time in
        (patient1, put_unit n u s)
      else (patient, s)
  | None => (patient, s)
  end.

Definition process_SCHEDULE_PATIENT_ARRIVAL (d : Draws) (s : HospitalSimulator)
    : result HospitalSimulator :=
  let new_patient_time := (sim_time s + expovariate d)%Q in
  s1 ← (if Qltb new_patient_time (inject_Z (total_sim_minutes s))
        then push_event new_patient_time PATIENT_ARRIVAL None None s
        else Ok s);
  push_event (sim_time s1 + tick s1)%Q SCHEDULE_PATIENT_ARRIVAL None None s1.

Definition process_PATIENT_ARRIVAL (d : Draws) (event_time : Q) (s : HospitalSimulator)
    : result HospitalSimulator :=
  let pid := uuid4 d in
  let new_patient := new_Patient event_time (drawn_acuity d) in
  let s1 := store_patient pid new_patient s in
  '(u, new_patient) ← add_patient_to_queue (units s1 ED) pid new_patient event_time;
  let s2 := put_unit ED u s1 in
  let new_patient := add_event event_time "ARRIVED_AT_ED" (Some "ED") new_patient in
  let s3 :=
    set_metrics
      (if enable_amenities s2 then
         set_total_amenities_cost
           (total_amenities_cost (metrics s2)
            + AMENITIES_COST_PER_PATIENT_VISIT (config s2))%Q (metrics s2)
       else metrics s2) s2 in
  triage ← randint (ED_TRIAGE_TIME (config s3)) (randint_raw d);
  s4 ← push_event (event_time + inject_Z triage)%Q ED_TRIAGE_COMPLETE (Some pid) None s3;
  Ok (store_patient pid (set_status St_TRIAGING new_patient) s4).

Definition process_ED_TRIAGE_COMPLETE (event_time : Q) (pid : string) (patient : Patient)
    (s : HospitalSimulator) : result HospitalSimulator :=
  if decide (status patient = St_TRIAGING) then
    let patient :=
      add_event event_time "ED_TRIAGE_COMPLETE_EVENT" (Some "ED")
        (set_status St_ED_TRIAGE_COMPLETE patient) in
    s1 ← push_event event_time ASSIGN_ED_BED (Some pid) None s;
    Ok (store_patient pid patient s1)
  else Ok s.

(** The physician request shared by [ASSIGN_ED_BED] and [ED_PHYSICIAN_RETRY];
    [first] tells the former, which also logs the wait. *)
Definition request_physician (first : bool) (d : Draws) (event_time : Q) (pid : string)
    (patient : Patient) (s : HospitalSimulator) : result HospitalSimulator :=
  physician_assessment_duration ←
    randint (ED_PHYSICIAN_ASSESSMENT_TIME (config s) (acuity patient)) (randint_raw d);
  let '(free_physician, patient, s1) :=
    _find_and_assign_staff PHYSICIAN (Some ED) event_time physician_assessment_duration
      ("Assess Patient " +:+ pid) pid patient s in
  match free_physician with
  | Some physician =>
      s2 ← push_event (busy_until physician) ED_PHYSICIAN_ASSESSMENT_COMPLETE
             (Some pid) None s1;
      Ok (store_patient pid (set_status St_PHYSICIAN_ASSESSMENT patient) s2)
  | None =>
      s2 ← push_event (event_time + tick s1)%Q ED_PHYSICIAN_RETRY (Some pid) None s1;
      if first then
        Ok (store_patient pid
              (add_event event_time "ED_WAIT_FOR_PHYSICIAN" (Some "ED")
                 (set_status St_ED_WAIT_FOR_PHYSICIAN patient)) s2)
      else Ok (store_patient pid patient s2)
  end.

Definition process_ASSIGN_ED_BED (d : Draws) (event_time : Q) (pid : string)
    (patient : Patient) (s : HospitalSimulator) : result HospitalSimulator :=
  let ed_unit := units s ED in
  if _get_free_bed s (Some ED) && negb (bool_decide (pid ∈ patients_in_unit ed_unit)) then
    '(_, u, patient) ← admit_patient ed_unit pid patient event_time;
    let s1 := put_unit ED u s in
    let patient :=
      set_status St_ED_IN_BED
        (add_event event_time "ED_BED_ASSIGNED" (Some "ED") patient) in
    request_physician true d event_time pid patient s1
  else
    let patient :=
      if decide (status patient = St_ED_WAIT_FOR_BED) then patient
      else
        add_event event_time "ED_WAIT_FOR_BED_QUEUED" (Some "ED")
          (set_status St_ED_WAIT_FOR_BED
             (set_boarding_start_time (Some event_time) patient)) in
    s1 ← push_event (event_time + tick s)%Q ASSIGN_ED_BED (Some pid) None s;
    Ok (store_patient pid patient s1).

Definition process_ED_PHYSICIAN_RETRY (d : Draws) (event_time : Q) (pid : string)
    (patient : Patient) (s : HospitalSimulator) : result HospitalSimulator :=
  if bool_decide (status patient = St_ED_WAIT_FOR_PHYSICIAN)
     && bool_decide (current_unit patient = Some ED) then
    request_physician false d event_time pid patient s
  else Ok s.

Definition process_ED_PHYSICIAN_ASSESSMENT_COMPLETE (d : Draws) (event_time : Q)
    (pid : string) (patient : Patient) (s : HospitalSimulator)
    : result HospitalSimulator :=
  let '(patient, s) :=
    match boarding_start_time patient with
    | Some b =>
        if truthy (Some b) then
          (set_boarding_start_time None patient,
           set_metrics (add_ed_boarding_time (event_time - b)%Q (metrics s)) s)
        else (patient, s)
    | None => (patient, s)
    end in
  let patient :=
    add_event event_time "ED_PHYSICIAN_ASSESSMENT_COMPLETE_EVENT" (Some "ED") patient in
  let patient := set_needs_imaging (Qltb (random1 d) (3 # 10)) patient in
  let patient := set_needs_lab (Qltb (random2 d) (2 # 5)) patient in
  if needs_imaging patient then
    let patient :=
      set_imaging_order_unit_id (current_unit patient)
        (set_imaging_type (Some (if choice_is_CT d then CT else MRI)) patient) in
    s1 ← push_event event_time IMAGING_ORDERED (Some pid) None s;
    Ok (store_patient pid (set_status St_IMAGING_PENDING patient) s1)
  else if needs_lab patient then
    let patient := set_imaging_order_unit_id (current_unit patient) patient in
    s1 ← push_event event_time LAB_ORDERED (Some pid) None s;
    Ok (store_patient pid (set_status St_LAB_PENDING patient) s1)
  else
    '(patient, s1) ← _determine_patient_disposition (random3 d) pid patient event_time s;
    Ok (store_patient pid patient s1).

Definition process_IMAGING_ORDERED (event_time : Q) (pid : string) (patient : Patient)
    (s : HospitalSimulator) : result HospitalSimulator :=
  let patient :=
    add_event event_time "IMAGING_ORDERED_EVENT" (unit_str <$> current_unit patient)
      patient in
  let patient := set_imaging_start_time (Some event_time) patient in
  let patient := set_transport_request_time (Some event_time) patient in
  s1 ← push_event event_time TRANSFER_TO_IMAGING (Some pid) None s;
  Ok (store_patient pid (set_status St_TRANSFER_TO_IMAGING_PENDING patient) s1).

(** The body shared by [TRANSFER_TO_IMAGING] and [TRANSFER_TO_LAB]:
    [target] is the unit aimed at ([None] when its name is no unit), [k] the
    event to retry, and the three statuses are those of the two waits and of
    the transit. *)
Definition transfer_to (target : option UnitName) (k : EventKind)
    (wait_capacity wait_transport in_transit : Status)
    (wait_capacity_label wait_transport_label : string)
    (d : Draws) (event_time : Q) (pid : string) (patient : Patient)
    (s : HospitalSimulator) : result HospitalSimulator :=
  match (if _get_free_bed s target then target else None) with
  | None =>
      s1 ← push_event (event_time + tick s)%Q k (Some pid) None s;
      let patient :=
        if decide (status patient = wait_capacity) then patient
        else
          add_event event_time wait_capacity_label (unit_str <$> current_unit patient)
            (set_status wait_capacity patient) in
      Ok (store_patient pid patient s1)
  | Some unit_name =>
      '(transport, _, _, patient, s1) ←
        _request_transport_resource (randint_raw d) pid patient event_time unit_name s;
      match transport with
      | Some _ =>
          let '(patient, s2) := leave_current_unit pid patient event_time s1 in
          let patient := set_current_unit (Some unit_name) patient in
          Ok (store_patient pid (set_status in_transit patient) s2)
      | None =>
          s2 ← push_event (event_time + tick s1)%Q k (Some pid) None s1;
          let patient :=
            if decide (status patient = wait_transport) then patient
            else
              add_event event_time wait_transport_label
                (unit_str <$> current_unit patient)
                (set_status wait_transport patient) in
          Ok (store_patient pid patient s2)
      end
  end.

(** [f'IMAGING_{patient.imaging_type}'] as a key of [self.units]. *)
Definition imaging_unit (m : option Modality) : option UnitName :=
  match m with
  | Some CT => Some IMAGING_CT
  | Some MRI => Some IMAGING_MRI
  | None => None
  end.

Definition process_TRANSFER_TO_IMAGING (d : Draws) (event_time : Q) (pid : string)
    (patient : Patient) (s : HospitalSimulator) : result HospitalSimulator :=
  transfer_to (imaging_unit (imaging_type patient)) TRANSFER_TO_IMAGING
    St_ED_WAIT_FOR_IMAGING_MACHINE St_ED_WAIT_FOR_TRANSPORT_TO_IMAGING
    St_IN_TRANSIT_TO_IMAGING
    "ED_WAIT_FOR_IMAGING_MACHINE" "ED_WAIT_FOR_TRANSPORT_TO_IMAGING"
    d event_time pid patient s.

Definition process_TRANSFER_TO_LAB (d : Draws) (event_time : Q) (pid : string)
    (patient : Patient) (s : HospitalSimulator) : result HospitalSimulator :=
  transfer_to (Some LAB) TRANSFER_TO_LAB
    St_ED_WAIT_FOR_LAB_CAPACITY St_ED_WAIT_FOR_TRANSPORT_TO_LAB St_IN_TRANSIT_TO_LAB
    "ED_WAIT_FOR_LAB_CAPACITY" "ED_WAIT_FOR_TRANSPORT_TO_LAB"
    d event_time pid patient s.

(** [PULLEY_TRANSPORT_COMPLETE] and [STAFF_TRANSPORT_COMPLETE]; [is_pulley]
    tells which event fired. *)
Definition process_TRANSPORT_COMPLETE (is_pulley : bool) (d : Draws) (event_time : Q)
    (payload : option Z) (pid : string) (patient : Patient) (s : HospitalSimulator)
    : result HospitalSimulator :=
  let duration_of_transport := default 0 payload in
  let patient :=
    add_event event_time ("ARRIVED_AT_" +:+ opt_unit_str (current_unit patient))
      (unit_str <$> current_unit patient) patient in
  let m := add_transport_type_count (transport_type patient) (metrics s) in
  let m := add_transfer_time_to_admit duration_of_transport m in
  let s :=
    set_pulley_in_use (if is_pulley then pulley_in_use s - 1 else pulley_in_use s) s in
  let m :=
    match transport_request_time patient, transport_assigned_time patient with
    | Some requested, Some assigned =>
        if bool_decide (transport_type patient ≠ Some PULLEY)
        then add_ed_wait_time_for_transport (assigned - requested)%Q m
        else m
    | _, _ => m
    end in
  let s := set_metrics m s in
  if decide (status patient = St_IN_TRANSIT_TO_IMAGING) then
    s1 ← push_event event_time IMAGING_STARTED (Some pid) None s;
    Ok (store_patient pid patient s1)
  else if decide (status patient = St_IN_TRANSIT_TO_LAB) then
    s1 ← push_event event_time LAB_STARTED (Some pid) None s;
    Ok (store_patient pid patient s1)
  else if bool_decide (status patient = St_IN_TRANSIT_TO_INPATIENT)
          || bool_decide (status patient = St_IN_TRANSIT_TO_CDU) then
    match current_unit patient with
    | None => Raise KeyError
    | Some target_unit_name =>
        let target_unit := units s target_unit_name in
        '(_, u, patient) ← admit_patient target_unit pid patient event_time;
        let s := put_unit target_unit_name u s in
        let patient :=
          add_event event_time ("ADMITTED_TO_" +:+ unit_str target_unit_name)
            (Some (unit_str target_unit_name)) patient in
        let '(patient, s) :=
          match boarding_start_time patient with
          | Some b =>
              if truthy (Some b) && bool_decide (current_unit patient = Some ED) then
                (set_boarding_start_time None patient,
                 set_metrics (add_ed_boarding_time (event_time - b)%Q (metrics s)) s)
              else (patient, s)
          | None => (patient, s)
          end in
        match target_unit_name with
        | INPATIENT =>
            stay_duration ←
              randint (INPATIENT_STAY_TIME (config s) (acuity patient)) (randint_raw d);
            s1 ← push_event (event_time + inject_Z stay_duration)%Q
                   INPATIENT_PATIENT_CHECK (Some pid) None s;
            s2 ← push_event
                   (event_time + inject_Z (INPATIENT_CDU_CHECK_INTERVAL (config s1)))%Q
                   INPATIENT_PATIENT_CHECK (Some pid) None s1;
            Ok (store_patient pid (set_status St_INPATIENT_STAY patient) s2)
        | CDU =>
            cdu_obs_duration ← randint (CDU_OBSERVATION_TIME (config s)) (randint_raw d);
            s1 ← push_event (event_time + inject_Z cdu_obs_duration)%Q
                   CDU_OBSERVATION_COMPLETE (Some pid) None s;
            Ok (store_patient pid (set_status St_CDU_OBSERVATION patient) s1)
        | _ => Ok (store_patient pid patient s)
        end
    end
  else Ok (store_patient pid patient s).

(** [int(duration * (1 - reduction))] when the AI flag is on. *)
Definition ai_reduced (enabled : bool) (reduction : Q) (duration : Z) : Z :=
  if enabled then py_int (inject_Z duration * (1 - reduction))%Q else duration.

Definition imaging_reduction (s : HospitalSimulator) (patient : Patient) : Q :=
  if decide (acuity patient = CRITICAL) then AI_CRITICAL_REDUCTION (config s)
  else AI_ROUTINE_PRELIM_REDUCTION (config s).

Definition process_IMAGING_STARTED (d : Draws) (event_time : Q) (pid : string)
    (patient : Patient) (s : HospitalSimulator) : result HospitalSimulator :=
  let imaging_unit_name := current_unit patient in
  match imaging_type patient with
  | None => Raise KeyError
  | Some modality =>
      imaging_duration ←
        randint (IMAGING_PROCESSING_TIME (config s) modality) (randint_raw d);
      let imaging_duration :=
        ai_reduced (enable_ai_imaging s) (imaging_reduction s patient) imaging_duration in
      let '(imaging_tech, patient, s1) :=
        _find_and_assign_staff TECH imaging_unit_name event_time imaging_duration
          ("Perform " +:+ modality_str modality +:+ " for Patient " +:+ pid)
          pid patient s in
      match imaging_tech with
      | Some tech =>
          s2 ← push_event (busy_until tech) IMAGING_COMPLETE (Some pid) None s1;
          Ok (store_patient pid (set_status St_IMAGING_PROCESSING patient) s2)
      | None =>
          s2 ← push_event (event_time + tick s1)%Q IMAGING_STARTED (Some pid) None s1;
          Ok (store_patient pid
                (add_event event_time "IMAGING_WAIT_FOR_TECH"
                   (unit_str <$> imaging_unit_name)
                   (set_status St_IMAGING_WAIT_FOR_TECH patient)) s2)
      end
  end.

(** The radiologist request shared by [IMAGING_COMPLETE] and
    [IMAGING_REPORT_RETRY]; [first] tells the former. *)
Definition request_radiologist (first : bool) (d : Draws) (event_time : Q)
    (pid : string) (patient : Patient) (s : HospitalSimulator)
    : result HospitalSimulator :=
  let report_time_range :=
    if decide (acuity patient = CRITICAL)
    then IMAGING_REPORTING_TIME (config s) REPORT_CRITICAL
    else IMAGING_REPORTING_TIME (config s) ROUTINE in
  report_duration ← randint report_time_range (randint_raw d);
  let report_duration :=
    ai_reduced (enable_ai_imaging s) (imaging_reduction s patient) report_duration in
  let details :=
    if first
    then "Report " +:+ String.substring 0 4 pid +:+ " for Patient " +:+ pid
    else "Report " +:+ from_option modality_str "None" (imaging_type patient)
         +:+ " for Patient " +:+ pid in
  let '(radiologist, patient, s1) :=
    _find_and_assign_staff RADIOLOGIST (Some RADIOLOGY) event_time report_duration
      details pid patient s in
  match radiologist with
  | Some r =>
      s2 ← push_event (busy_until r) IMAGING_REPORT_COMPLETE (Some pid) None s1;
      Ok (store_patient pid (set_status St_IMAGING_REPORTING patient) s2)
  | None =>
      s2 ← push_event (event_time + tick s1)%Q IMAGING_REPORT_RETRY (Some pid) None s1;
      if first then
        Ok (store_patient pid
              (add_event event_time "IMAGING_REPORT_WAIT_FOR_RADIOLOGIST"
                 (Some "RADIOLOGY")
                 (set_status St_IMAGING_REPORT_WAIT_FOR_RADIOLOGIST patient)) s2)
      else Ok (store_patient pid patient s2)
  end.

Definition process_IMAGING_COMPLETE (d : Draws) (event_time : Q) (pid : string)
    (patient : Patient) (s : HospitalSimulator) : result HospitalSimulator :=
  match current_unit patient with
  | None => Raise KeyError
  | Some imaging_unit_name =>
      let '(_, u, patient) :=
        discharge_patient (units s imaging_unit_name) pid patient event_time in
      let s := put_unit imaging_unit_name u s in
      let patient :=
        add_event event_time "IMAGING_COMPLETE_EVENT" (Some (unit_str imaging_unit_name))
          patient in
      let patient := set_status St_IMAGING_REPORT_PENDING patient in
      request_radiologist true d event_time pid patient s
  end.

Definition process_IMAGING_REPORT_RETRY (d : Draws) (event_time : Q) (pid : string)
    (patient : Patient) (s : HospitalSimulator) : result HospitalSimulator :=
  if decide (status patient = St_IMAGING_REPORT_WAIT_FOR_RADIOLOGIST) then
    request_radiologist false d event_time pid patient s
  else Ok s.

Definition process_IMAGING_REPORT_COMPLETE (event_time : Q) (pid : string)
    (patient : Patient) (s : HospitalSimulator) : result HospitalSimulator :=
  let patient := set_imaging_result_time (Some event_time) patient in
  let patient :=
    add_event event_time "IMAGING_REPORT_COMPLETE_EVENT"
      (unit_str <$> imaging_order_unit_id patient) patient in
  match imaging_start_time patient with
  | None => Raise TypeError
  | Some started =>
      let tat := (event_time - started)%Q in
      let m := add_overall_imaging_tat tat (metrics s) in
      let m := if decide (acuity patient = CRITICAL)
               then add_critical_imaging_tat tat m else m in
      let m := if bool_decide (imaging_order_unit_id patient ∈ [Some ED; Some CDU])
               then add_ed_cdu_imaging_tat tat m else m in
      let s := set_metrics m s in
      let patient := set_needs_imaging false patient in
      let patient := set_current_unit (imaging_order_unit_id patient) patient in
      s1 ← push_event event_time RE_EVALUATE_AFTER_DIAGNOSTICS (Some pid) None s;
      Ok (store_patient pid (set_status St_DIAGNOSTICS_COMPLETE patient) s1)
  end.

Definition process_LAB_ORDERED (event_time : Q) (pid : string) (patient : Patient)
    (s : HospitalSimulator) : result HospitalSimulator :=
  let patient :=
    add_event event_time "LAB_ORDERED_EVENT" (unit_str <$> current_unit patient)
      patient in
  let patient := set_lab_start_time (Some event_time) patient in
  let patient := set_transport_request_time (Some event_time) patient in
  s1 ← push_event event_time TRANSFER_TO_LAB (Some pid) None s;
  Ok (store_patient pid (set_status St_TRANSFER_TO_LAB_PENDING patient) s1).

Definition process_LAB_STARTED (d : Draws) (event_time : Q) (pid : string)
    (patient : Patient) (s : HospitalSimulator) : result HospitalSimulator :=
  lab_duration ← randint (LAB_PROCESSING_TIME (config s)) (randint_raw d);
  let '(lab_tech, patient, s1) :=
    _find_and_assign_staff TECH (Some LAB) event_time lab_duration
      ("Perform Lab for Patient " +:+ pid) pid patient s in
  match lab_tech with
  | Some tech =>
      '(_, u, patient) ← admit_patient (units s1 LAB) pid patient event_time;
      let s2 := put_unit LAB u s1 in
      s3 ← push_event (busy_until tech) LAB_COMPLETE (Some pid) None s2;
      Ok (store_patient pid (set_status St_LAB_PROCESSING patient) s3)
  | None =>
      s2 ← push_event (event_time + tick s1)%Q LAB_STARTED (Some pid) None s1;
      Ok (store_patient pid
            (add_event event_time "LAB_WAIT_FOR_TECH" (Some "LAB")
               (set_status St_LAB_WAIT_FOR_TECH patient)) s2)
  end.

Definition process_LAB_COMPLETE (event_time : Q) (pid : string) (patient : Patient)
    (s : HospitalSimulator) : result HospitalSimulator :=
  let '(_, u, patient) := discharge_patient (units s LAB) pid patient event_time in
  let s := put_unit LAB u s in
  let patient := set_lab_result_time (Some event_time) patient in
  let patient := add_event event_time "LAB_COMPLETE_EVENT" (Some "LAB") patient in
  let patient := set_needs_lab false patient in
  let patient := set_current_unit (imaging_order_unit_id patient) patient in
  s1 ← push_event event_time RE_EVALUATE_AFTER_DIAGNOSTICS (Some pid) None s;
  Ok (store_patient pid (set_status St_DIAGNOSTICS_COMPLETE patient) s1).

Definition process_RE_EVALUATE_AFTER_DIAGNOSTICS (d : Draws) (event_time : Q)
    (pid : string) (patient : Patient) (s : HospitalSimulator)
    : result HospitalSimulator :=
  if needs_imaging patient then
    s1 ← push_event event_time IMAGING_ORDERED (Some pid) None s;
    Ok (store_patient pid (set_status St_IMAGING_PENDING patient) s1)
  else if needs_lab patient then
    s1 ← push_event event_time LAB_ORDERED (Some pid) None s;
    Ok (store_patient pid (set_status St_LAB_PENDING patient) s1)
  else
    '(patient, s1) ← _determine_patient_disposition (random1 d) pid patient event_time s;
    Ok (store_patient pid patient s1).

(** [ADMIT_TO_INPATIENT] and [ADMIT_TO_CDU]; [k] is the event that fired. *)
Definition process_ADMIT (k : EventKind) (d : Draws) (event_time : Q) (pid : string)
    (patient : Patient) (s : HospitalSimulator) : result HospitalSimulator :=
  let target_unit_name := if decide (k = ADMIT_TO_INPATIENT) then INPATIENT else CDU in
  if negb (_get_free_bed s (Some target_unit_name)) then
    s1 ← push_event (event_time + tick s)%Q k (Some pid) None s;
    let patient :=
      if bool_decide (current_unit patient = Some ED)
         && bool_decide (status patient ≠ St_ED_BOARDING) then
        add_event event_time "ED_BOARDING" (Some "ED")
          (set_status St_ED_BOARDING
             (set_boarding_start_time (Some event_time) patient))
      else patient in
    Ok (store_patient pid patient s1)
  else
    let patient := set_transport_request_time (Some event_time) patient in
    '(transport, _, _, patient, s1) ←
      _request_transport_resource (randint_raw d) pid patient event_time
        target_unit_name s;
    match transport with
    | Some _ =>
        let '(patient, s2) := leave_current_unit pid patient event_time s1 in
        let patient := set_current_unit (Some target_unit_name) patient in
        let in_transit :=
          match target_unit_name with
          | INPATIENT => St_IN_TRANSIT_TO_INPATIENT
          | _ => St_IN_TRANSIT_TO_CDU
          end in
        Ok (store_patient pid (set_status in_transit patient) s2)
    | None =>
        s2 ← push_event (event_time + tick s1)%Q k (Some pid) None s1;
        let patient :=
          if bool_decide (current_unit patient = Some ED)
             && bool_decide (status patient ≠ St_ED_WAIT_FOR_TRANSPORT) then
            add_event event_time "ED_WAIT_FOR_TRANSPORT" (Some "ED")
              (set_status St_ED_WAIT_FOR_TRANSPORT patient)
          else patient in
        Ok (store_patient pid patient s2)
    end.

Definition process_CDU_OBSERVATION_COMPLETE (d : Draws) (event_time : Q)
    (found : option (string * Patient)) (s : HospitalSimulator)
    : result HospitalSimulator :=
  match found with
  | Some (pid, patient) =>
      if decide (current_unit patient = Some CDU) then
        let patient :=
          add_event event_time "CDU_OBSERVATION_COMPLETE_EVENT" (Some "CDU") patient in
        let discharge_probability := random1 d in
        if Qltb discharge_probability (4 # 5) then
          let s := set_metrics (add_cdu_conversion true (metrics s)) s in
          s1 ← push_event event_time DISCHARGE_ORDERED (Some pid) None s;
          Ok (store_patient pid (set_status St_CDU_DISCHARGE_PENDING patient) s1)
        else
          let s := set_metrics (add_cdu_conversion false (metrics s)) s in
          s1 ← push_event event_time ADMIT_TO_INPATIENT (Some pid) None s;
          Ok (store_patient pid (set_status St_CDU_TO_INPATIENT patient) s1)
      else Ok s
  | None => Ok s
  end.

Definition process_INPATIENT_PATIENT_CHECK (d : Draws) (event_time : Q)
    (found : option (string * Patient)) (s : HospitalSimulator)
    : result HospitalSimulator :=
  match found with
  | Some (pid, patient) =>
      if bool_decide (current_unit patient = Some INPATIENT)
         && bool_decide (status patient = St_INPATIENT_STAY)
         && negb (discharge_requested patient) then
        let admit_events :=
          filter
            (λ e, String.prefix "ADMITTED_TO_" (pe_type e) = true
                  ∧ pe_unit_id e = Some "INPATIENT")
            (events patient) in
        match admit_events with
        | first_admit :: _ =>
            let admit_event_time := pe_time first_admit in
            let current_stay_duration := (event_time - admit_event_time)%Q in
            let '(min_stay_time, _) := INPATIENT_STAY_TIME (config s) (acuity patient) in
            '(patient, s) ←
              (if Qle_bool (inject_Z min_stay_time) current_stay_duration
                  && Qltb (random1 d) (17 # 20) then
                 s1 ← push_event event_time DISCHARGE_ORDERED (Some pid) None s;
                 Ok (set_status St_DISCHARGE_PENDING_ORDER
                       (set_discharge_requested true patient), s1)
               else Ok (patient, s));
            s ← (if discharge_requested patient then Ok s
                 else
                   push_event
                     (event_time + inject_Z (INPATIENT_CDU_CHECK_INTERVAL (config s)))%Q
                     INPATIENT_PATIENT_CHECK (Some pid) None s);
            Ok (store_patient pid patient s)
        | [] => Ok s
        end
      else Ok s
  | None => Ok s
  end.

(** The nurse request shared by [DISCHARGE_ORDERED] and
    [DISCHARGE_PROCESS_RETRY]; [first] tells the former. *)
Definition request_nurse (first : bool) (d : Draws) (event_time : Q) (pid : string)
    (patient : Patient) (s : HospitalSimulator) : result HospitalSimulator :=
  discharge_duration ← randint (DISCHARGE_PROCESS_TIME (config s)) (randint_raw d);
  let discharge_duration :=
    ai_reduced (enable_ai_staffing s) (AI_DISCHARGE_REDUCTION (config s))
      discharge_duration in
  let '(discharge_nurse, patient, s1) :=
    _find_and_assign_staff NURSE (current_unit patient) event_time discharge_duration
      ("Discharge Patient " +:+ pid) pid patient s in
  match discharge_nurse with
  | Some nurse =>
      s2 ← push_event (busy_until nurse) DISCHARGE_PROCESS_COMPLETE (Some pid) None s1;
      Ok (store_patient pid (set_status St_DISCHARGE_PROCESSING patient) s2)
  | None =>
      s2 ← push_event (event_time + tick s1)%Q DISCHARGE_PROCESS_RETRY (Some pid) None s1;
      if first then
        Ok (store_patient pid
              (add_event event_time "DISCHARGE_WAIT_FOR_NURSE"
                 (unit_str <$> current_unit patient)
                 (set_status St_DISCHARGE_WAIT_FOR_NURSE patient)) s2)
      else Ok (store_patient pid patient s2)
  end.

Definition process_DISCHARGE_ORDERED (d : Draws) (event_time : Q) (pid : string)
    (patient : Patient) (s : HospitalSimulator) : result HospitalSimulator :=
  let patient :=
    if truthy (discharge_order_time patient) then patient
    else
      set_status St_DISCHARGE_PROCESS
        (add_event event_time "DISCHARGE_ORDERED_EVENT"
           (unit_str <$> current_unit patient)
           (set_discharge_order_time (Some event_time) patient)) in
  request_nurse true d event_time pid patient s.

Definition process_DISCHARGE_PROCESS_RETRY (d : Draws) (event_time : Q) (pid : string)
    (patient : Patient) (s : HospitalSimulator) : result HospitalSimulator :=
  if decide (status patient = St_DISCHARGE_WAIT_FOR_NURSE) then
    request_nurse false d event_time pid patient s
  else Ok s.

Definition process_DISCHARGE_PROCESS_COMPLETE (event_time : Q) (pid : string)
    (patient : Patient) (s : HospitalSimulator) : result HospitalSimulator :=
  let '(patient, s) := leave_current_unit pid patient event_time s in
  let patient := set_actual_discharge_time (Some event_time) patient in
  let patient := add_event event_time "PATIENT_DISCHARGED_ACTUAL" (Some "EXIT") patient in
  let patient := set_status St_DISCHARGED patient in
  let s :=
    set_metrics
      (add_total_hospital_los (event_time - arrival_time patient)%Q (metrics s)) s in
  Ok (store_patient pid patient s).

Definition process_AI_STAFFING_ADJUSTMENT (s : HospitalSimulator)
    : result HospitalSimulator :=
  if enable_ai_staffing s then _adjust_ai_staffing s else Ok s.

Definition process_CDU_OCCUPANCY_METRIC_CHECK (event_time : Q) (s : HospitalSimulator)
    : result HospitalSimulator :=
  if enable_cdu s then
    let s :=
      set_metrics
        (add_cdu_occupancy event_time
           (Z.of_nat (size (patients_in_unit (units s CDU)))) (metrics s)) s in
    push_event (event_time + inject_Z (INPATIENT_CDU_CHECK_INTERVAL (config s)))%Q
      CDU_OCCUPANCY_METRIC_CHECK None None s
  else Ok s.

Definition process_INPATIENT_OCCUPANCY_METRIC_CHECK (event_time : Q)
    (s : HospitalSimulator) : result HospitalSimulator :=
  let s :=
    set_metrics
      (add_inpatient_occupancy event_time
         (Z.of_nat (size (patients_in_unit (units s INPATIENT)))) (metrics s)) s in
  push_event (event_time + inject_Z (INPATIENT_CDU_CHECK_INTERVAL (config s)))%Q
    INPATIENT_OCCUPANCY_METRIC_CHECK None None s.

Definition process_PULLEY_UTILIZATION_METRIC_CHECK (event_time : Q)
    (s : HospitalSimulator) : result HospitalSimulator :=
  let s :=
    set_metrics (add_pulley_utilization event_time (pulley_in_use s) (metrics s)) s in
  push_event (event_time + tick s)%Q PULLEY_UTILIZATION_METRIC_CHECK None None s.

(** [HospitalSimulator._process_event] *)
Definition _process_event (d : Draws) (event_time : Q) (event_type : EventKind)
    (pid : option string) (payload : option Z) (s : HospitalSimulator)
    : result HospitalSimulator :=
  let s := set_sim_time event_time s in
  let found := get_patient s pid in
  let with_patient (branch : string → Patient → HospitalSimulator → result HospitalSimulator) :=
    '(i, patient) ← deref found; branch i patient s in
  match event_type with
  | SCHEDULE_PATIENT_ARRIVAL => process_SCHEDULE_PATIENT_ARRIVAL d s
  | PATIENT_ARRIVAL => process_PATIENT_ARRIVAL d event_time s
  | ED_TRIAGE_COMPLETE => with_patient (process_ED_TRIAGE_COMPLETE event_time)
  | ASSIGN_ED_BED => with_patient (process_ASSIGN_ED_BED d event_time)
  | ED_PHYSICIAN_RETRY => with_patient (process_ED_PHYSICIAN_RETRY d event_time)
  | ED_PHYSICIAN_ASSESSMENT_COMPLETE =>
      with_patient (process_ED_PHYSICIAN_ASSESSMENT_COMPLETE d event_time)
  | IMAGING_ORDERED => with_patient (process_IMAGING_ORDERED event_time)
  | TRANSFER_TO_IMAGING => with_patient (process_TRANSFER_TO_IMAGING d event_time)
  | PULLEY_TRANSPORT_COMPLETE =>
      with_patient (process_TRANSPORT_COMPLETE true d event_time payload)
  | STAFF_TRANSPORT_COMPLETE =>
      with_patient (process_TRANSPORT_COMPLETE false d event_time payload)
  | IMAGING_STARTED => with_patient (process_IMAGING_STARTED d event_time)
  | IMAGING_COMPLETE => with_patient (process_IMAGING_COMPLETE d event_time)
  | IMAGING_REPORT_RETRY => with_patient (process_IMAGING_REPORT_RETRY d event_time)
  | IMAGING_REPORT_COMPLETE => with_patient (process_IMAGING_REPORT_COMPLETE event_time)
  | LAB_ORDERED => with_patient (process_LAB_ORDERED event_time)
  | TRANSFER_TO_LAB => with_patient (process_TRANSFER_TO_LAB d event_time)
  | LAB_STARTED => with_patient (process_LAB_STARTED d event_time)
  | LAB_COMPLETE => with_patient (process_LAB_COMPLETE event_time)
  | RE_EVALUATE_AFTER_DIAGNOSTICS =>
      with_patient (process_RE_EVALUATE_AFTER_DIAGNOSTICS d event_time)
  | ADMIT_TO_INPATIENT | ADMIT_TO_CDU =>
      with_patient (process_ADMIT event_type d event_time)
  | CDU_OBSERVATION_COMPLETE => process_CDU_OBSERVATION_COMPLETE d event_time found s
  | INPATIENT_PATIENT_CHECK => process_INPATIENT_PATIENT_CHECK d event_time found s
  | DISCHARGE_ORDERED => with_patient (process_DISCHARGE_ORDERED d event_time)
  | DISCHARGE_PROCESS_RETRY => with_patient (process_DISCHARGE_PROCESS_RETRY d event_time)
  | DISCHARGE_PROCESS_COMPLETE =>
      with_patient (process_DISCHARGE_PROCESS_COMPLETE event_time)
  | AI_STAFFING_ADJUSTMENT => process_AI_STAFFING_ADJUSTMENT s
  | CDU_OCCUPANCY_METRIC_CHECK => process_CDU_OCCUPANCY_METRIC_CHECK event_time s
  | INPATIENT_OCCUPANCY_METRIC_CHECK =>
      process_INPATIENT_OCCUPANCY_METRIC_CHECK event_time s
  | PULLEY_UTILIZATION_METRIC_CHECK =>
      process_PULLEY_UTILIZATION_METRIC_CHECK event_time s
  end.

(** ** Construction and the event loop *)

(** [HospitalSimulator._initialize_units] *)
Definition _initialize_units (cfg : Config) (cdu_enabled : bool) : UnitName → Unit :=
  unit_table (λ unit_name,
    let staff_config :=
      default [] (snd <$> find (λ e, bool_decide (e.1 = unit_name)) (STAFF_PER_UNIT cfg)) in
    match unit_name with
    | CDU => new_Unit CDU (if cdu_enabled then CDU_BEDS cfg else 0) staff_config
    | _ => new_Unit unit_name (UNIT_CAPACITY cfg unit_name) staff_config
    end).

(** [self.units[unit_name].staff_assigned[staff_type].append(staff)] *)
Definition append_to_roster (t : StaffType) (sid : string) (u : Unit) : Unit :=
  set_staff_assigned
    ((λ e : StaffType * list string,
        if bool_decide (e.1 = t) then (e.1, e.2 ++ [sid]) else e) <$> staff_assigned u) u.

(** [for _ in range(count)]: hire [count] staff of one type, rostered in
    [unit_name] when given; [ids] is the stream of [uuid4] outcomes and the
    first component of the state the number of ids consumed. *)
Fixpoint hire (count : nat) (t : StaffType) (unit_name : option UnitName)
    (ids : nat → string) (st : nat * list Staff * (UnitName → Unit))
    : nat * list Staff * (UnitName → Unit) :=
  match count with
  | O => st
  | S count' =>
      let '(next, staff, us) := st in
      let member := new_Staff t (ids next) in
      let us1 :=
        match unit_name with
        | Some n => update_unit n (append_to_roster t (ids next) (us n)) us
        | None => us
        end in
      hire count' t unit_name ids (S next, staff ++ [member], us1)
  end.

(** [HospitalSimulator._initialize_staff] *)
Definition _initialize_staff (cfg : Config) (ids : nat → string) (us : UnitName → Unit)
    : list Staff * (UnitName → Unit) :=
  let st :=
    fold_left
      (λ st '(unit_name, staff_config),
         fold_left
           (λ st '(t, count), hire (Z.to_nat count) t (Some unit_name) ids st)
           staff_config st)
      (STAFF_PER_UNIT cfg) (O, [], us) in
  let st := hire (Z.to_nat (TRANSPORT_STAFF cfg)) TRANSPORT None ids st in
  let '(_, staff, us1) :=
    hire (Z.to_nat (VOLUNTEER_TRANSPORT_STAFF cfg)) VOLUNTEER_TRANSPORT None ids st in
  (staff, us1).

(** [HospitalSimulator.__init__] *)
Definition new_HospitalSimulator (cfg : Config) (ids : nat → string)
    (cdu ai_imaging ai_staffing amenities ai_entertainment : bool) : HospitalSimulator :=
  let '(staff, us) := _initialize_staff cfg ids (_initialize_units cfg cdu) in
  {| config := cfg; sim_time := inject_Z (SIM_START_TIME cfg);
     total_sim_minutes := SIM_END_TIME cfg;
     patients := ∅; event_queue := []; units := us; all_staff := staff;
     metrics := new_MetricsTracker;
     enable_cdu := cdu; enable_ai_imaging := ai_imaging;
     enable_ai_staffing := ai_staffing; enable_amenities := amenities;
     enable_ai_entertainment := ai_entertainment;
     ai_staffing_next_adjustment_time := AI_STAFFING_ADJUSTMENT_INTERVAL_MINUTES cfg;
     pulley_in_use := 0 |}.

(** The four pushes that open [HospitalSimulator.run]. *)
Definition seed_events (s : HospitalSimulator) : result HospitalSimulator :=
  s1 ← push_event (sim_time s) SCHEDULE_PATIENT_ARRIVAL None None s;
  s2 ← (if enable_cdu s1
        then push_event (sim_time s1 + tick s1)%Q CDU_OCCUPANCY_METRIC_CHECK None None s1
        else Ok s1);
  s3 ← push_event (sim_time s2 + tick s2)%Q INPATIENT_OCCUPANCY_METRIC_CHECK None None s2;
  push_event (sim_time s3 + tick s3)%Q PULLEY_UTILIZATION_METRIC_CHECK None None s3.

(** One test of the [while] condition and, when it holds, one pass through
    the loop body; [None] when the loop is over. *)
Definition loop_iteration (d : Draws) (s : HospitalSimulator)
    : result (option HospitalSimulator) :=
  if bool_decide (event_queue s ≠ [])
     && Qltb (sim_time s) (inject_Z (total_sim_minutes s)) then
    '(e, q) ← heappop event_lt (event_queue s);
    let s1 := set_event_queue q s in
    if Qltb (inject_Z (total_sim_minutes s1)) (fire_time e) then Ok (Some s1)
    else
      let s2 := set_sim_time (fire_time e) s1 in
      s3 ← _process_event d (fire_time e) (kind e) (patient_id e) (event_data e) s2;
      Ok (Some s3)
  else Ok None.

(** The state at the event boundary reached after [n] passes (or at the end
    of the loop when it comes earlier), and whether the loop is over;
    [draws i] serves the [i]-th pass. *)
Fixpoint event_loop (n : nat) (draws : nat → Draws) (s : HospitalSimulator)
    : result (bool * HospitalSimulator) :=
  match n with
  | O => Ok (false, s)
  | S n' =>
      r ← loop_iteration (draws O) s;
      match r with
      | None => Ok (true, s)
      | Some s1 => event_loop n' (λ i, draws (S i)) s1
      end
  end.

(** What [run] does once the loop is over. *)
Definition finish_run (s : HospitalSimulator) : HospitalSimulator :=
  let s1 :=
    set_all_staff
      (accrue_remaining_cost (inject_Z (total_sim_minutes s + 1)) <$> all_staff s) s in
  if enable_ai_entertainment s1 then
    let months_simulated := (inject_Z (SIM_DAYS (config s1)) / 30)%Q in
    set_metrics
      (set_total_ai_entertainment_cost
         (months_simulated * AI_ENTERTAINMENT_MONTHLY_COST (config s1))%Q (metrics s1)) s1
  else s1.

(** [HospitalSimulator.run], with [fuel] passes of the loop at most: [None]
    when the loop is still running after them. *)
Definition run (fuel : nat) (draws : nat → Draws) (s : HospitalSimulator)
    : result (option HospitalSimulator) :=
  s0 ← seed_events s;
  '(over, s1) ← event_loop fuel draws s0;
  Ok (if over : bool then Some (finish_run s1) else None).

(** * Specification-side definitions

    The statements below compare the embedding with these definitions, which
    follow the wording of the specification rather than the code. *)

(** A fixed simulator used to instantiate the theorems: the base
    configuration with every feature switched on. *)
Definition demo_ids (n : nat) : string := "staff-" +:+ pretty n.

Definition demo_simulator : HospitalSimulator :=
  new_HospitalSimulator Config_base demo_ids true true true true true.

(** ** Patient satisfaction *)

(** [base] is the base score of an ED length of stay [L]. *)
Definition is_base_score (L base : Q) : Prop :=
  ((L <= 30)%Q → base == 100) ∧
  ((480 <= L)%Q → base == 1) ∧
  ((30 < L)%Q ∧ (L < 480)%Q → base == 100 - ((L - 30) / 450) * 99).

(** [r] is [x] clamped into [[1, 100]]. *)
Definition is_clamped (x r : Q) : Prop :=
  (1 <= r)%Q ∧ (r <= 100)%Q ∧
  ((x < 1)%Q → r == 1) ∧ ((100 < x)%Q → r == 100) ∧
  ((1 <= x)%Q ∧ (x <= 100)%Q → r == x).

Definition satisfaction_bonus (amenities entertainment : bool) : Q :=
  ((if amenities then 10 else 0) + (if entertainment then 15 else 0))%Q.

(** ** Time-weighted occupancy *)

(** The sum over consecutive points of [c_{i-1} * (t_i - t_{i-1})]. *)
Fixpoint stepwise_area (l : list (Q * Z)) : Q :=
  match l with
  | (t0, c0) :: rest =>
      match rest with
      | (t1, _) :: _ => (inject_Z c0 * (t1 - t0) + stepwise_area rest)%Q
      | [] => 0%Q
      end
  | [] => 0%Q
  end.

(** The time-weighted average of a series over the horizon [H]. *)
Definition time_weighted_average (H : Q) (l : list (Q * Z)) : Q :=
  match l with
  | [] => 0%Q
  | [(_, c)] => inject_Z c
  | _ =>
      match last l with
      | Some (tn, cn) => ((1 / H) * (stepwise_area l + inject_Z cn * (H - tn)))%Q
      | None => 0%Q
      end
  end.

Definition utilization_percentage (average : Q) (cap : Z) : Q :=
  if decide (0 < cap) then (100 * average / inject_Z cap)%Q else 0%Q.

(** ** Staff cost *)

(** A work history: the assignments [(start, duration, details, unit)] a
    staff member receives, in order. *)
Definition work (history : list (Q * Q * string * option UnitName)) (s : Staff) : Staff :=
  fold_left (λ s '(start, duration, details, unit_name),
               assign start duration details unit_name s) history s.

(** Every assignment is handed out when the staff member is free (as both
    selectors of the simulator do) and lasts a non-negative time; [busy] is
    the time until which the staff member is busy beforehand. *)
Fixpoint assigned_when_free (busy : Q) (history : list (Q * Q * string * option UnitName))
    : Prop :=
  match history with
  | [] => True
  | (start, duration, _, _) :: rest =>
      (busy <= start)%Q ∧ (0 <= duration)%Q ∧ assigned_when_free (start + duration) rest
  end.

(** The minutes worked by the time [final]: every assignment but the last
    in full, the last one up to [final]. *)
Fixpoint worked_minutes (final : Q) (history : list (Q * Q * string * option UnitName))
    : Q :=
  match history with
  | [] => 0%Q
  | (start, duration, _, _) :: rest =>
      match rest with
      | [] => Qmax 0 (Qmin final (start + duration) - start)
      | _ :: _ => (duration + worked_minutes final rest)%Q
      end
  end.

(** The sum of the durations of a history. *)
Definition total_duration (history : list (Q * Q * string * option UnitName)) : Q :=
  fold_right (λ '(_, duration, _, _) acc, (duration + acc)%Q) 0%Q history.

Definition total_cost (s : Staff) : Q := (total_normal_cost s + total_overtime_cost s)%Q.

(** Two assignments of one physician, the second after the first is over. *)
Definition demo_history : list (Q * Q * string * option UnitName) :=
  [ (0%Q, 10%Q, "Assess Patient a", Some ED);
    (20%Q, 5%Q, "Assess Patient b", Some ED) ].

(** ** Disposition *)

(** The disposition routine run once per element of [calls] on the same
    patient; a call is the outcome of its [random.random()] and its time. *)
Fixpoint dispositions (calls : list (Q * Q)) (pid : string) (patient : Patient)
    (s : HospitalSimulator) : result (Patient * HospitalSimulator) :=
  match calls with
  | [] => Ok (patient, s)
  | (u, event_time) :: rest =>
      '(patient1, s1) ← _determine_patient_disposition u pid patient event_time s;
      dispositions rest pid patient1 s1
  end.

Definition demo_patient : Patient := new_Patient 0 NON_URGENT.

Definition demo_calls : list (Q * Q) := [(1 # 2, 45); (1 # 2, 50); (1 # 10, 60)]%Q.

(** ** The transport priority chain *)

(** Some staff member of type [t] is free at [now]. *)
Definition free_staff (s : HospitalSimulator) (t : StaffType) (now : Q) : Prop :=
  ∃ member, member ∈ all_staff s ∧ type member = t ∧ (busy_until member <= now)%Q.

Definition pulley_viable (s : HospitalSimulator) (patient : Patient)
    (destination : UnitName) : Prop :=
  (∃ u, current_unit patient = Some u ∧ u ∈ PULLEY_ELIGIBLE_UNITS (config s)) ∧
  destination ∈ PULLEY_ELIGIBLE_DESTINATIONS (config s) ∧
  pulley_in_use s < PULLEY_SYSTEM_CAPACITY (config s).

Definition volunteer_viable (s : HospitalSimulator) (patient : Patient) (now : Q) : Prop :=
  (inject_Z (VOLUNTEER_HOURS_START (config s)) <= Qmod now 1440)%Q ∧
  (Qmod now 1440 < inject_Z (VOLUNTEER_HOURS_END (config s)))%Q ∧
  (acuity patient = URGENT_OBS ∨ acuity patient = NON_URGENT) ∧
  free_staff s VOLUNTEER_TRANSPORT now.

(** The first viable option of the chain, in the order of the specification. *)
Inductive first_viable (s : HospitalSimulator) (patient : Patient) (now : Q)
    (destination : UnitName) : option TransportType → Prop :=
  | viable_pulley :
      pulley_viable s patient destination →
      first_viable s patient now destination (Some PULLEY)
  | viable_paid_critical :
      ¬ pulley_viable s patient destination →
      acuity patient = CRITICAL → free_staff s TRANSPORT now →
      first_viable s patient now destination (Some PAID_STAFF)
  | viable_volunteer :
      ¬ pulley_viable s patient destination →
      ¬ (acuity patient = CRITICAL ∧ free_staff s TRANSPORT now) →
      volunteer_viable s patient now →
      first_viable s patient now destination (Some VOLUNTEER)
  | viable_paid :
      ¬ pulley_viable s patient destination →
      ¬ (acuity patient = CRITICAL ∧ free_staff s TRANSPORT now) →
      ¬ volunteer_viable s patient now →
      free_staff s TRANSPORT now →
      first_viable s patient now destination (Some PAID_STAFF)
  | viable_none :
      ¬ pulley_viable s patient destination →
      ¬ volunteer_viable s patient now →
      ¬ free_staff s TRANSPORT now →
      first_viable s patient now destination None.

(** The staff of one type that is free at [now], in the order of
    [all_staff]. *)
Definition available (s : HospitalSimulator) (t : StaffType) (now : Q) : list Staff :=
  filter (λ x, is_free x now = true) (filter (λ x, type x = t) (all_staff s)).

(** What a granted request leaves behind. *)
Definition transport_effect (s : HospitalSimulator) (patient : Patient) (now : Q)
    (transport : option TransportType) (staff : option string)
    (patient' : Patient) (s' : HospitalSimulator) : Prop :=
  match transport with
  | Some PULLEY =>
      staff = None ∧ pulley_in_use s' = pulley_in_use s + 1 ∧
      transport_type patient' = Some PULLEY
  | Some PAID_STAFF =>
      pulley_in_use s' = pulley_in_use s ∧ transport_type patient' = Some PAID_STAFF ∧
      ∃ member, member ∈ all_staff s ∧ type member = TRANSPORT ∧
                (busy_until member <= now)%Q ∧ staff = Some (staff_id member)
  | Some VOLUNTEER =>
      pulley_in_use s' = pulley_in_use s ∧ transport_type patient' = Some VOLUNTEER ∧
      ∃ member, member ∈ all_staff s ∧ type member = VOLUNTEER_TRANSPORT ∧
                (busy_until member <= now)%Q ∧ staff = Some (staff_id member)
  | None => staff = None ∧ patient' = patient ∧ s' = s
  end.

(** ** Unit capacity *)

Definition within_capacity (u : Unit) : Prop :=
  Z.of_nat (size (patients_in_unit u)) ≤ capacity u.

(** The capacities of a state are those the configuration gives. *)
Definition configured_capacity (cfg : Config) (cdu_enabled : bool) (n : UnitName) : Z :=
  match n with
  | CDU => if cdu_enabled then CDU_BEDS cfg else 0
  | _ => UNIT_CAPACITY cfg n
  end.

(** The state at the event boundary after [n] passes of the loop of [run]
    on a fresh simulator. *)
Definition boundary (cfg : Config) (ids : nat → string)
    (cdu ai_imaging ai_staffing amenities ai_entertainment : bool)
    (n : nat) (draws : nat → Draws) : result (bool * HospitalSimulator) :=
  s ← seed_events
        (new_HospitalSimulator cfg ids cdu ai_imaging ai_staffing amenities
           ai_entertainment);
  event_loop n draws s.

(** ** Effects of the helpers of the dispatcher *)

(** What a granted transport request has done to the state and the patient. *)
Definition transport_granted (s : HospitalSimulator) (patient : Patient) (now : Q)
    (pid : string) (way : TransportType) (patient' : Patient) (s' : HospitalSimulator)
    : Prop :=
  ∃ l q d k,
    s' = set_event_queue q
           (set_all_staff l
              (set_pulley_in_use
                 (match way with
                  | PULLEY => pulley_in_use s + 1
                  | _ => pulley_in_use s
                  end) s)) ∧
    heappush event_lt (event_queue s)
      (Build_Event (now + inject_Z d)%Q k (Some pid) (Some d)) = Ok q ∧
    k = match way with
        | PULLEY => PULLEY_TRANSPORT_COMPLETE
        | _ => STAFF_TRANSPORT_COMPLETE
        end ∧
    (way = PULLEY → pulley_in_use s < PULLEY_SYSTEM_CAPACITY (config s)) ∧
    ∃ sid,
      patient' = set_transport_type (Some way)
                   (set_transport_assigned_time (Some now)
                      (set_assigned_staff_id sid patient)).


(** Capacities and names of the units are kept, and no unit is pushed
    over its capacity. *)
Definition units_step (s s' : HospitalSimulator) : Prop :=
  ∀ n, capacity (units s' n) = capacity (units s n) ∧
       name (units s' n) = name (units s n) ∧
       (within_capacity (units s n) → within_capacity (units s' n)).

Definition demo_draws (i : nat) : Draws :=
  {| randint_raw := Z.of_nat i; random1 := 9 # 10; random2 := 9 # 10; random3 := 1 # 10;
     choice_is_CT := true; expovariate := 7 # 3;
     uuid4 := "patient-" +:+ pretty i; drawn_acuity := URGENT_OBS |}.

(** ** The pulley slots *)

(** The pulley transports under way: their completion events in the queue. *)
Definition count_pulley (q : list Event) : nat :=
  length (filter (λ e, kind e = PULLEY_TRANSPORT_COMPLETE) q).

Definition is_pulley_complete (k : EventKind) : Z :=
  match k with PULLEY_TRANSPORT_COMPLETE => 1 | _ => 0 end.

(** The counter covers the transports under way and stays within the
    capacity. *)
Definition pulley_ok (s : HospitalSimulator) : Prop :=
  Z.of_nat (count_pulley (event_queue s)) ≤ pulley_in_use s
  ∧ pulley_in_use s ≤ PULLEY_SYSTEM_CAPACITY (config s).

(** What handling an event of kind [k] does to the counter. *)
Definition pulley_step (k : EventKind) (s s' : HospitalSimulator) : Prop :=
  config s' = config s ∧
  (pulley_in_use s ≤ PULLEY_SYSTEM_CAPACITY (config s)
   → pulley_in_use s' ≤ PULLEY_SYSTEM_CAPACITY (config s)) ∧
  pulley_in_use s' - Z.of_nat (count_pulley (event_queue s'))
  = pulley_in_use s - Z.of_nat (count_pulley (event_queue s)) - is_pulley_complete k.

(** ** Scenarios *)

(** A subclass of [Config] in the manner of the source's hospital configs:
    one inpatient bed, one paid transporter, a handful of staff. *)
Definition SmallWardConfig : Config := {|
  SIM_DAYS := SIM_DAYS Config_base;
  SIM_MINUTES_PER_DAY := SIM_MINUTES_PER_DAY Config_base;
  TICK_INTERVAL_MINUTES := TICK_INTERVAL_MINUTES Config_base;
  SIM_START_TIME := SIM_START_TIME Config_base;
  SIM_END_TIME := SIM_END_TIME Config_base;
  PATIENT_ARRIVAL_RATE := PATIENT_ARRIVAL_RATE Config_base;
  PHYSICIAN_COST := PHYSICIAN_COST Config_base;
  NURSE_COST := NURSE_COST Config_base;
  TECH_COST := TECH_COST Config_base;
  RADIOLOGIST_COST := RADIOLOGIST_COST Config_base;
  TRANSPORT_COST := TRANSPORT_COST Config_base;
  VOLUNTEER_COST := VOLUNTEER_COST Config_base;
  OVERTIME_MULTIPLIER := OVERTIME_MULTIPLIER Config_base;
  UNIT_CAPACITY := λ u,
    match u with
    | ED => 2 | INPATIENT => 1 | CDU => 0 | IMAGING_CT => 1
    | IMAGING_MRI => 1 | LAB => 1 | RADIOLOGY => 1
    end;
  STAFF_PER_UNIT := [ (ED, [(NURSE, 1); (PHYSICIAN, 1)]); (INPATIENT, [(NURSE, 1)]) ];
  TRANSPORT_STAFF := 1;
  VOLUNTEER_TRANSPORT_STAFF := VOLUNTEER_TRANSPORT_STAFF Config_base;
  VOLUNTEER_TRANSFER_PROCESS_TIME := VOLUNTEER_TRANSFER_PROCESS_TIME Config_base;
  VOLUNTEER_ACUITY_ELIGIBILITY := VOLUNTEER_ACUITY_ELIGIBILITY Config_base;
  VOLUNTEER_HOURS_START := VOLUNTEER_HOURS_START Config_base;
  VOLUNTEER_HOURS_END := VOLUNTEER_HOURS_END Config_base;
  PULLEY_SYSTEM_CAPACITY := PULLEY_SYSTEM_CAPACITY Config_base;
  PULLEY_TRANSFER_PROCESS_TIME := PULLEY_TRANSFER_PROCESS_TIME Config_base;
  PULLEY_ELIGIBLE_UNITS := PULLEY_ELIGIBLE_UNITS Config_base;
  PULLEY_ELIGIBLE_DESTINATIONS := PULLEY_ELIGIBLE_DESTINATIONS Config_base;
  INPATIENT_BEDS := INPATIENT_BEDS Config_base;
  CDU_BEDS := CDU_BEDS Config_base;
  CDU_CRITERIA_MATCH := CDU_CRITERIA_MATCH Config_base;
  CDU_OBSERVATION_TIME := CDU_OBSERVATION_TIME Config_base;
  IMAGING_PROCESSING_TIME := IMAGING_PROCESSING_TIME Config_base;
  IMAGING_REPORTING_TIME := IMAGING_REPORTING_TIME Config_base;
  LAB_PROCESSING_TIME := LAB_PROCESSING_TIME Config_base;
  AI_CRITICAL_REDUCTION := AI_CRITICAL_REDUCTION Config_base;
  AI_ROUTINE_PRELIM_REDUCTION := AI_ROUTINE_PRELIM_REDUCTION Config_base;
  AI_STAFFING_ADJUSTMENT_INTERVAL_MINUTES := AI_STAFFING_ADJUSTMENT_INTERVAL_MINUTES Config_base;
  AI_DISCHARGE_REDUCTION := AI_DISCHARGE_REDUCTION Config_base;
  PATIENT_ACUITY := PATIENT_ACUITY Config_base;
  TRANSPORT_PRIORITY := TRANSPORT_PRIORITY Config_base;
  ED_TRIAGE_TIME := ED_TRIAGE_TIME Config_base;
  ED_PHYSICIAN_ASSESSMENT_TIME := ED_PHYSICIAN_ASSESSMENT_TIME Config_base;
  INPATIENT_STAY_TIME := INPATIENT_STAY_TIME Config_base;
  DISCHARGE_PROCESS_TIME := DISCHARGE_PROCESS_TIME Config_base;
  TRANSFER_PROCESS_TIME := TRANSFER_PROCESS_TIME Config_base;
  INPATIENT_CDU_CHECK_INTERVAL := INPATIENT_CDU_CHECK_INTERVAL Config_base;
  AMENITIES_COST_PER_PATIENT_VISIT := AMENITIES_COST_PER_PATIENT_VISIT Config_base;
  SATISFACTION_AMENITIES_BONUS := SATISFACTION_AMENITIES_BONUS Config_base;
  AI_ENTERTAINMENT_MONTHLY_COST := AI_ENTERTAINMENT_MONTHLY_COST Config_base;
  SATISFACTION_ENTERTAINMENT_BONUS := SATISFACTION_ENTERTAINMENT_BONUS Config_base
|}.

(** The draws of a run on the small ward: arrivals one minute apart during
    the first six passes of the loop and none afterwards, every patient
    URGENT_ADMIT, with neither imaging nor lab. *)
Definition ward_draws (i : nat) : Draws :=
  {| randint_raw := 0; random1 := 1 # 2; random2 := 9 # 10; random3 := 9 # 10;
     choice_is_CT := true;
     expovariate := if decide (i < 6)%nat then 1 else 1000000;
     uuid4 := "patient-" +:+ pretty i; drawn_acuity := URGENT_ADMIT |}.

(** A subclass that overrides [PULLEY_SYSTEM_CAPACITY] only, as the enhanced
    hospital configs of the source do. *)
Definition with_pulley_capacity (capacity : Z) (cfg : Config) : Config := {|
  SIM_DAYS := SIM_DAYS cfg;
  SIM_MINUTES_PER_DAY := SIM_MINUTES_PER_DAY cfg;
  TICK_INTERVAL_MINUTES := TICK_INTERVAL_MINUTES cfg;
  SIM_START_TIME := SIM_START_TIME cfg;
  SIM_END_TIME := SIM_END_TIME cfg;
  PATIENT_ARRIVAL_RATE := PATIENT_ARRIVAL_RATE cfg;
  PHYSICIAN_COST := PHYSICIAN_COST cfg;
  NURSE_COST := NURSE_COST cfg;
  TECH_COST := TECH_COST cfg;
  RADIOLOGIST_COST := RADIOLOGIST_COST cfg;
  TRANSPORT_COST := TRANSPORT_COST cfg;
  VOLUNTEER_COST := VOLUNTEER_COST cfg;
  OVERTIME_MULTIPLIER := OVERTIME_MULTIPLIER cfg;
  UNIT_CAPACITY := UNIT_CAPACITY cfg;
  STAFF_PER_UNIT := STAFF_PER_UNIT cfg;
  TRANSPORT_STAFF := TRANSPORT_STAFF cfg;
  VOLUNTEER_TRANSPORT_STAFF := VOLUNTEER_TRANSPORT_STAFF cfg;
  VOLUNTEER_TRANSFER_PROCESS_TIME := VOLUNTEER_TRANSFER_PROCESS_TIME cfg;
  VOLUNTEER_ACUITY_ELIGIBILITY := VOLUNTEER_ACUITY_ELIGIBILITY cfg;
  VOLUNTEER_HOURS_START := VOLUNTEER_HOURS_START cfg;
  VOLUNTEER_HOURS_END := VOLUNTEER_HOURS_END cfg;
  PULLEY_SYSTEM_CAPACITY := capacity;
  PULLEY_TRANSFER_PROCESS_TIME := PULLEY_TRANSFER_PROCESS_TIME cfg;
  PULLEY_ELIGIBLE_UNITS := PULLEY_ELIGIBLE_UNITS cfg;
  PULLEY_ELIGIBLE_DESTINATIONS := PULLEY_ELIGIBLE_DESTINATIONS cfg;
  INPATIENT_BEDS := INPATIENT_BEDS cfg;
  CDU_BEDS := CDU_BEDS cfg;
  CDU_CRITERIA_MATCH := CDU_CRITERIA_MATCH cfg;
  CDU_OBSERVATION_TIME := CDU_OBSERVATION_TIME cfg;
  IMAGING_PROCESSING_TIME := IMAGING_PROCESSING_TIME cfg;
  IMAGING_REPORTING_TIME := IMAGING_REPORTING_TIME cfg;
  LAB_PROCESSING_TIME := LAB_PROCESSING_TIME cfg;
  AI_CRITICAL_REDUCTION := AI_CRITICAL_REDUCTION cfg;
  AI_ROUTINE_PRELIM_REDUCTION := AI_ROUTINE_PRELIM_REDUCTION cfg;
  AI_STAFFING_ADJUSTMENT_INTERVAL_MINUTES := AI_STAFFING_ADJUSTMENT_INTERVAL_MINUTES cfg;
  AI_DISCHARGE_REDUCTION := AI_DISCHARGE_REDUCTION cfg;
  PATIENT_ACUITY := PATIENT_ACUITY cfg;
  TRANSPORT_PRIORITY := TRANSPORT_PRIORITY cfg;
  ED_TRIAGE_TIME := ED_TRIAGE_TIME cfg;
  ED_PHYSICIAN_ASSESSMENT_TIME := ED_PHYSICIAN_ASSESSMENT_TIME cfg;
  INPATIENT_STAY_TIME := INPATIENT_STAY_TIME cfg;
  DISCHARGE_PROCESS_TIME := DISCHARGE_PROCESS_TIME cfg;
  TRANSFER_PROCESS_TIME := TRANSFER_PROCESS_TIME cfg;
  INPATIENT_CDU_CHECK_INTERVAL := INPATIENT_CDU_CHECK_INTERVAL cfg;
  AMENITIES_COST_PER_PATIENT_VISIT := AMENITIES_COST_PER_PATIENT_VISIT cfg;
  SATISFACTION_AMENITIES_BONUS := SATISFACTION_AMENITIES_BONUS cfg;
  AI_ENTERTAINMENT_MONTHLY_COST := AI_ENTERTAINMENT_MONTHLY_COST cfg;
  SATISFACTION_ENTERTAINMENT_BONUS := SATISFACTION_ENTERTAINMENT_BONUS cfg
|}.

(** Draws under which every patient needs imaging (a CT) and no lab. *)
Definition imaging_draws (i : nat) : Draws :=
  {| randint_raw := Z.of_nat i; random1 := 1 # 10; random2 := 9 # 10; random3 := 9 # 10;
     choice_is_CT := true; expovariate := 7 # 3;
     uuid4 := "patient-" +:+ pretty i; drawn_acuity := URGENT_OBS |}.

(** A fresh simulator of the small ward, every feature switched off. *)
Definition ward : HospitalSimulator :=
  new_HospitalSimulator SmallWardConfig demo_ids false false false false false.

(** A patient who has boarded in the ED since minute 51 and is now on the
    way to an inpatient bed. *)
Definition boarded_patient : Patient :=
  set_status St_IN_TRANSIT_TO_INPATIENT
    (set_current_unit (Some INPATIENT)
       (set_boarding_start_time (Some 51%Q) (new_Patient 6 URGENT_ADMIT))).

(** The log of a patient as (time, event type) pairs. *)
Definition event_log (patient : Patient) : list (Q * string) :=
  (λ e, (pe_time e, pe_type e)) <$> events patient.

(** ** The way of a patient to the admission *)

Definition is_transport_complete (k : EventKind) : bool :=
  match k with
  | PULLEY_TRANSPORT_COMPLETE | STAFF_TRANSPORT_COMPLETE => true
  | _ => false
  end.

(** The events that carry a patient from the arrival to a bed: the handler
    of one of them pushes at most one of them, for the same patient. *)
Definition is_flow (k : EventKind) : bool :=
  match k with
  | ED_TRIAGE_COMPLETE | ASSIGN_ED_BED | ED_PHYSICIAN_RETRY
  | ED_PHYSICIAN_ASSESSMENT_COMPLETE | IMAGING_ORDERED | TRANSFER_TO_IMAGING
  | PULLEY_TRANSPORT_COMPLETE | STAFF_TRANSPORT_COMPLETE
  | IMAGING_STARTED | IMAGING_COMPLETE | IMAGING_REPORT_RETRY
  | IMAGING_REPORT_COMPLETE | LAB_ORDERED | TRANSFER_TO_LAB | LAB_STARTED
  | LAB_COMPLETE | RE_EVALUATE_AFTER_DIAGNOSTICS
  | ADMIT_TO_INPATIENT | ADMIT_TO_CDU | CDU_OBSERVATION_COMPLETE => true
  | _ => false
  end.

(** The same without the completions of a transport. *)
Definition is_step (k : EventKind) : bool :=
  is_flow k && negb (is_transport_complete k).

(** 1 when the event is of a kind in [f] and for the patient [pid]. *)
Definition weight (f : EventKind → bool) (pid : string) (e : Event) : Z :=
  if f (kind e) && bool_decide (patient_id e = Some pid) then 1 else 0.

(** The number of events of a kind in [f] queued for the patient [pid]. *)
Definition pending (f : EventKind → bool) (pid : string) (q : list Event) : Z :=
  foldr (λ e n, weight f pid e + n) 0 q.

Definition in_transit_admit (st : Status) : bool :=
  match st with
  | St_IN_TRANSIT_TO_INPATIENT | St_IN_TRANSIT_TO_CDU => true
  | _ => false
  end.

(** A patient with [flows] events of the flow queued, [steps] of them not
    the completion of a transport: at most one event of the flow is under
    way, and on the way to an inpatient or CDU bed it is the completion of
    the transport, granted at the time it was requested. *)
Definition patient_ok (flows steps : Z) (found : option Patient) : Prop :=
  match found with
  | None => flows = 0
  | Some patient =>
      flows ≤ 1 ∧
      (in_transit_admit (status patient) = true →
       steps = 0 ∧
       ∃ t, transport_request_time patient = Some t
            ∧ transport_assigned_time patient = Some t)
  end.

Definition admissions_ok (s : HospitalSimulator) : Prop :=
  ∀ pid, patient_ok (pending is_flow pid (event_queue s))
           (pending is_step pid (event_queue s)) (patients s !! pid).

(** The unit an admission event aims at. *)
Definition admit_target (k : EventKind) : UnitName :=
  if decide (k = ADMIT_TO_INPATIENT) then INPATIENT else CDU.

(** The next pass of the loop handles the completion of a transport that is
    not by pulley, for a patient on the way to an inpatient or CDU bed. *)
Definition admission_transport_due (s : HospitalSimulator) : bool :=
  match heappop event_lt (event_queue s) with
  | Ok (e, _) =>
      is_transport_complete (kind e)
      && negb (Qltb (inject_Z (total_sim_minutes s)) (fire_time e))
      && match get_patient s (patient_id e) with
         | Some (_, patient) =>
             in_transit_admit (status patient)
             && bool_decide (transport_type patient ≠ Some PULLEY)
         | None => false
         end
  | Raise _ => false
  end.

(** ** The order of the event queue *)

Section HeapOrder.
Context {A : Type} (lt : A → A → result bool).

(** [b < a] is false: [a] may come out of the heap before [b]. *)
Definition not_above (a b : A) : Prop := lt b a = Ok false.

(** Position [c] is a child of position [p] in the array. *)
Definition child (c p : nat) : Prop := c = (2 * p + 1)%nat ∨ c = (2 * p + 2)%nat.

(** The heap invariant of [heapq]: no item is smaller than its parent. *)
Definition heap_ok (heap : list A) : Prop :=
  ∀ p c x y, child c p → heap !! p = Some x → heap !! c = Some y → not_above x y.

(** A heap with a hole at [pos] that moves down: the invariant holds
    between the other positions and across the hole. *)
Definition hole_down (heap : list A) (pos : nat) : Prop :=
  (∀ p c x y, child c p → p ≠ pos → c ≠ pos →
              heap !! p = Some x → heap !! c = Some y → not_above x y) ∧
  (∀ p c x y, child pos p → child c pos →
              heap !! p = Some x → heap !! c = Some y → not_above x y).

(** A heap with a hole at [pos] that moves up with [newitem], which is not
    above the items below the hole. *)
Definition hole_up (heap : list A) (pos : nat) (newitem : A) : Prop :=
  hole_down heap pos ∧
  (∀ c y, child c pos → heap !! c = Some y → not_above newitem y).
End HeapOrder.

(** The order of Python on the tuples of the queue, where it is defined:
    the fire times decide, then the names of the event kinds as strings,
    then the patient ids. *)
Definition name_lt (a b : string) : Prop := (a ?= b)%string = Lt.

Definition event_before (a b : Event) : Prop :=
  (fire_time a < fire_time b)%Q ∨
  ((fire_time a == fire_time b)%Q ∧
   (name_lt (event_kind_name (kind a)) (event_kind_name (kind b)) ∨
    (kind a = kind b ∧
     ∃ x y, patient_id a = Some x ∧ patient_id b = Some y ∧ name_lt x y))).

(** Equal tuples. *)
Definition event_same (a b : Event) : Prop :=
  (fire_time a == fire_time b)%Q ∧ kind a = kind b ∧
  patient_id a = patient_id b ∧ event_data a = event_data b.

(** The fire times and kinds of the queued events, in the order of the array. *)
Definition queue_view (q : list Event) : list (Q * EventKind) :=
  (λ e, (fire_time e, kind e)) <$> q.

(** Draws whose first arrival comes five minutes after the start, at the
    time of the first metric checks. *)
Definition tie_draws (i : nat) : Draws :=
  {| randint_raw := 0; random1 := 1 # 2; random2 := 9 # 10; random3 := 9 # 10;
     choice_is_CT := true; expovariate := 5;
     uuid4 := "patient-" +:+ pretty i; drawn_acuity := NON_URGENT |}.

(** * More of the program: definitions *)

(** ** [MetricsTracker.reset]

    The assignments of the method, in its order ([pulley_utilization_times]
    is assigned twice). *)

Definition set_total_patient_count (v : Z) (r : MetricsTracker) : MetricsTracker :=
  {| ed_los_list := ed_los_list r; ed_boarding_times := ed_boarding_times r;
     total_ed_boarding_time := total_ed_boarding_time r;
     cdu_conversion_count := cdu_conversion_count r;
     cdu_total_patients := cdu_total_patients r;
     cdu_occupancy_times := cdu_occupancy_times r;
     inpatient_occupancy_times := inpatient_occupancy_times r;
     overall_imaging_tat := overall_imaging_tat r;
     critical_imaging_tat := critical_imaging_tat r;
     ed_cdu_imaging_tat := ed_cdu_imaging_tat r; total_patient_count := v;
     patient_satisfaction_scores := patient_satisfaction_scores r;
     total_hospital_los_list := total_hospital_los_list r;
     transfer_times_to_admit := transfer_times_to_admit r;
     ed_wait_times_for_transport := ed_wait_times_for_transport r;
     pulley_utilization_times := pulley_utilization_times r;
     volunteer_transport_count := volunteer_transport_count r;
     paid_transport_count := paid_transport_count r;
     pulley_transport_count := pulley_transport_count r;
     total_amenities_cost := total_amenities_cost r;
     total_ai_entertainment_cost := total_ai_entertainment_cost r |}.

Definition reset (m : MetricsTracker) : MetricsTracker :=
  let m := set_ed_los_list [] m in
  let m := set_ed_boarding_times [] m in
  let m := set_total_ed_boarding_time 0 m in
  let m := set_cdu_conversion_count 0 m in
  let m := set_cdu_total_patients 0 m in
  let m := set_cdu_occupancy_times [] m in
  let m := set_inpatient_occupancy_times [] m in
  let m := set_pulley_utilization_times [] m in
  let m := set_overall_imaging_tat [] m in
  let m := set_critical_imaging_tat [] m in
  let m := set_ed_cdu_imaging_tat [] m in
  let m := set_total_patient_count 0 m in
  let m := set_patient_satisfaction_scores [] m in
  let m := set_total_hospital_los_list [] m in
  let m := set_transfer_times_to_admit [] m in
  let m := set_ed_wait_times_for_transport [] m in
  let m := set_pulley_utilization_times [] m in
  let m := set_volunteer_transport_count 0 m in
  let m := set_paid_transport_count 0 m in
  let m := set_pulley_transport_count 0 m in
  let m := set_total_amenities_cost 0 m in
  set_total_ai_entertainment_cost 0 m.

(** ** Scenarios for the units *)

(** An emergency department with two beds and two patients waiting. *)
Definition demo_unit : Unit :=
  {| name := ED; capacity := 2; patients_in_unit := ∅;
     queue := [Build_QueueEntry "a" 0; Build_QueueEntry "b" 1];
     staff_assigned := [] |}.

(** ** Staff cost *)

(** The minutes a history hands out; a negative duration counts as nothing. *)
Definition assigned_minutes (history : list (Q * Q * string * option UnitName)) : Q :=
  fold_right (λ '(_, duration, _, _) acc, (Qmax 0 duration + acc)%Q) 0%Q history.

(** The minutes of the assignment in progress, which are still to be charged. *)
Definition in_progress_minutes (s : Staff) : Q :=
  match last_assignment_start_time s with
  | Some start => Qmax 0 (busy_until s - start)
  | None => 0%Q
  end.

(** ** Occupancy series *)

(** The samples of a series come in the order of their times, from [from]
    on and up to [horizon], and every count lies between 0 and [cap]. *)
Fixpoint sampled_within (from horizon : Q) (cap : Z) (l : list (Q * Z)) : Prop :=
  match l with
  | [] => True
  | (t, c) :: rest =>
      (from <= t)%Q ∧ (t <= horizon)%Q ∧ 0 ≤ c ≤ cap
      ∧ sampled_within t horizon cap rest
  end.

(** A day of the CDU: empty at minute 5, three patients from minute 65 on,
    one from minute 305 on. *)
Definition demo_series : list (Q * Z) := [(5%Q, 0); (65%Q, 3); (305%Q, 1)].

(** ** Staffing *)

(** The types of the staff in the order in which [_initialize_staff] hires
    them; [range(count)] is empty for a negative count. *)
Definition hired_types (cfg : Config) : list StaffType :=
  concat
    ((λ '(_, staff_config),
        concat ((λ '(t, count), replicate (Z.to_nat count) t)
                  <$> (staff_config : list (StaffType * Z))))
       <$> STAFF_PER_UNIT cfg)
  ++ replicate (Z.to_nat (TRANSPORT_STAFF cfg)) TRANSPORT
  ++ replicate (Z.to_nat (VOLUNTEER_TRANSPORT_STAFF cfg)) VOLUNTEER_TRANSPORT.

(** The payroll of a staff list: ids and types, in order. *)
Definition payroll (l : list Staff) : list (string * StaffType) :=
  (λ m, (staff_id m, type m)) <$> l.

(** The payroll and the rosters of two states are the same. *)
Definition same_staffing (s s' : HospitalSimulator) : Prop :=
  payroll (all_staff s') = payroll (all_staff s) ∧
  ∀ n, staff_assigned (units s' n) = staff_assigned (units s n).

(** Every roster of a unit lists staff of the type it is kept under. *)
Definition rosters_typed (s : HospitalSimulator) : Prop :=
  ∀ (n : UnitName) (t : StaffType) (r : list string) (i : string) (m : Staff),
    roster (units s n) t = Some r → i ∈ r →
    staff_by_id (all_staff s) i = Some m → type m = t.

(** The staff ids are distinct and the rosters are typed. *)
Definition staff_ok (s : HospitalSimulator) : Prop :=
  NoDup (staff_id <$> all_staff s) ∧ rosters_typed s.

(** What the hiring loops keep: [tys] are the types hired so far. *)
Definition hiring_ok (ids : nat → string) (tys : list StaffType)
    (st : nat * list Staff * (UnitName → Unit)) : Prop :=
  st.1.1 = length tys ∧
  st.1.2 = zip_with new_Staff tys (ids <$> seq 0 (length tys)) ∧
  ∀ n t r i, roster (st.2 n) t = Some r → i ∈ r →
             ∃ k, i = ids k ∧ tys !! k = Some t.

(** ** The rest of [MetricsTracker.report]

    The entries of [report_data] other than the occupancy ones; an entry
    whose name is taken by a field of the tracker or of the staff carries
    the prefix [report_]. *)

(** [sum(l)]: the additions from 0, left to right. *)
Definition Qsum (l : list Q) : Q := fold_left Qplus l 0%Q.

Definition Zsum (l : list Z) : Z := fold_left Z.add l 0.

(** [sum(l) / len(l) if l else 0] *)
Definition average (l : list Q) : Q :=
  match l with
  | [] => 0%Q
  | _ :: _ => (Qsum l / inject_Z (Z.of_nat (length l)))%Q
  end.

Record SummaryReport : Type := Build_SummaryReport {
  avg_ed_los : Q;
  avg_ed_boarding : Q;
  avg_total_hospital_los : Q;
  cdu_discharge_rate : Q;
  avg_transfer_time_to_admit : Q;
  avg_ed_wait_for_transport : Q;
  total_paid_transports : Z;
  total_volunteer_transports : Z;
  total_pulley_transports : Z;
  avg_overall_imaging_tat : Q;
  avg_critical_imaging_tat : Q;
  avg_ed_cdu_imaging_tat : Q;
  avg_patient_satisfaction_score : option Q;
  report_total_normal_cost : option Q;
  report_total_overtime_cost : option Q;
  total_staff_cost : option Q;
  report_total_amenities_cost : Q;
  report_total_ai_entertainment_cost : Q;
  total_hospital_expenses : Q
}.

(** [all_staff_members] is the optional argument of [report]: [None] and
    an empty dict are both falsy. *)
Definition report_summary (m : MetricsTracker) (all_staff_members : option (list Staff))
    : SummaryReport :=
  let avg_ed_boarding_time :=
    match ed_boarding_times m with
    | [] => 0%Q
    | _ :: _ =>
        (total_ed_boarding_time m
         / inject_Z (Z.of_nat (length (ed_boarding_times m))))%Q
    end in
  let cdu_conversion_rate :=
    if cdu_total_patients m =? 0 then 0%Q
    else (inject_Z (cdu_conversion_count m) / inject_Z (cdu_total_patients m) * 100)%Q in
  let avg_transfer_time_to_admit :=
    match transfer_times_to_admit m with
    | [] => 0%Q
    | _ :: _ =>
        (inject_Z (Zsum (transfer_times_to_admit m))
         / inject_Z (Z.of_nat (length (transfer_times_to_admit m))))%Q
    end in
  let avg_patient_satisfaction_score :=
    match patient_satisfaction_scores m with
    | [] => None
    | _ :: _ =>
        Some (Qsum (patient_satisfaction_scores m)
              / inject_Z (Z.of_nat (length (patient_satisfaction_scores m))))%Q
    end in
  let staff_members :=
    match all_staff_members with
    | Some (x :: l) => Some (x :: l)
    | _ => None
    end in
  let current_normal_staff_cost :=
    fold_left (λ acc staff_member, (acc + total_normal_cost staff_member)%Q)
      (default [] staff_members) 0%Q in
  let current_overtime_staff_cost :=
    fold_left (λ acc staff_member, (acc + total_overtime_cost staff_member)%Q)
      (default [] staff_members) 0%Q in
  let total_staff_cost :=
    match staff_members with
    | Some _ => (current_normal_staff_cost + current_overtime_staff_cost)%Q
    | None => 0%Q
    end in
  {| avg_ed_los := average (ed_los_list m);
     avg_ed_boarding := avg_ed_boarding_time;
     avg_total_hospital_los := average (total_hospital_los_list m);
     cdu_discharge_rate := cdu_conversion_rate;
     avg_transfer_time_to_admit := avg_transfer_time_to_admit;
     avg_ed_wait_for_transport := average (ed_wait_times_for_transport m);
     total_paid_transports := paid_transport_count m;
     total_volunteer_transports := volunteer_transport_count m;
     total_pulley_transports := pulley_transport_count m;
     avg_overall_imaging_tat := average (overall_imaging_tat m);
     avg_critical_imaging_tat := average (critical_imaging_tat m);
     avg_ed_cdu_imaging_tat := average (ed_cdu_imaging_tat m);
     avg_patient_satisfaction_score := avg_patient_satisfaction_score;
     report_total_normal_cost :=
       match staff_members with Some _ => Some current_normal_staff_cost | None => None end;
     report_total_overtime_cost :=
       match staff_members with
       | Some _ => Some current_overtime_staff_cost
       | None => None
       end;
     total_staff_cost :=
       match staff_members with Some _ => Some total_staff_cost | None => None end;
     report_total_amenities_cost := total_amenities_cost m;
     report_total_ai_entertainment_cost := total_ai_entertainment_cost m;
     total_hospital_expenses :=
       (total_staff_cost + total_amenities_cost m + total_ai_entertainment_cost m)%Q |}.

(** ** What a run records *)

(** No two consecutive samples of a series carry the same count. *)
Fixpoint no_repeat (l : list (Q * Z)) : Prop :=
  match l with
  | (_, c) :: rest =>
      match rest with
      | (_, c') :: _ => c ≠ c' ∧ no_repeat rest
      | [] => True
      end
  | [] => True
  end.

(** The accumulators of the tracker agree with each other; [score] is the
    score function of the simulator that records. *)
Definition metrics_ok (score : Q → Q) (m : MetricsTracker) : Prop :=
  patient_satisfaction_scores m = score <$> ed_los_list m ∧
  (total_ed_boarding_time m == Qsum (ed_boarding_times m))%Q ∧
  0 ≤ cdu_conversion_count m ≤ cdu_total_patients m ∧
  (0 ≤ volunteer_transport_count m ∧ 0 ≤ paid_transport_count m
   ∧ 0 ≤ pulley_transport_count m
   ∧ volunteer_transport_count m + paid_transport_count m + pulley_transport_count m
     ≤ Z.of_nat (length (transfer_times_to_admit m))) ∧
  total_patient_count m = 0 ∧
  no_repeat (cdu_occupancy_times m) ∧
  no_repeat (inpatient_occupancy_times m) ∧
  no_repeat (pulley_utilization_times m).

(** ** The clock *)

(** No interval and no lower end of a duration range of the configuration
    is negative, and no AI reduction exceeds the whole duration. *)
Definition durations_nonneg (cfg : Config) : Prop :=
  0 ≤ TICK_INTERVAL_MINUTES cfg ∧
  0 ≤ INPATIENT_CDU_CHECK_INTERVAL cfg ∧
  0 ≤ (ED_TRIAGE_TIME cfg).1 ∧
  (∀ a, 0 ≤ (ED_PHYSICIAN_ASSESSMENT_TIME cfg a).1) ∧
  (∀ a, 0 ≤ (INPATIENT_STAY_TIME cfg a).1) ∧
  0 ≤ (CDU_OBSERVATION_TIME cfg).1 ∧
  (∀ m, 0 ≤ (IMAGING_PROCESSING_TIME cfg m).1) ∧
  (∀ c, 0 ≤ (IMAGING_REPORTING_TIME cfg c).1) ∧
  0 ≤ (LAB_PROCESSING_TIME cfg).1 ∧
  0 ≤ (DISCHARGE_PROCESS_TIME cfg).1 ∧
  0 ≤ (TRANSFER_PROCESS_TIME cfg).1 ∧
  0 ≤ (VOLUNTEER_TRANSFER_PROCESS_TIME cfg).1 ∧
  0 ≤ (PULLEY_TRANSFER_PROCESS_TIME cfg).1 ∧
  (AI_CRITICAL_REDUCTION cfg <= 1)%Q ∧
  (AI_ROUTINE_PRELIM_REDUCTION cfg <= 1)%Q ∧
  (AI_DISCHARGE_REDUCTION cfg <= 1)%Q.

(** No adjustment of the AI staffing is queued, and nothing is queued for
    a time before the clock. *)
Definition clock_ok (s : HospitalSimulator) : Prop :=
  Forall (λ e, kind e ≠ AI_STAFFING_ADJUSTMENT) (event_queue s) ∧
  Forall (λ e, (sim_time s <= fire_time e)%Q) (event_queue s).

(** ** The patients the queue names *)

(** The events that [_process_event] handles without a patient. *)
Definition no_patient_event (k : EventKind) : bool :=
  match k with
  | SCHEDULE_PATIENT_ARRIVAL | PATIENT_ARRIVAL | AI_STAFFING_ADJUSTMENT
  | CDU_OCCUPANCY_METRIC_CHECK | INPATIENT_OCCUPANCY_METRIC_CHECK
  | PULLEY_UTILIZATION_METRIC_CHECK => true
  | _ => false
  end.

(** An event names a stored patient, or none when its kind needs none. *)
Definition names_patient (store : gmap string Patient) (e : Event) : Prop :=
  match patient_id e with
  | Some pid => is_Some (store !! pid) ∧ no_patient_event (kind e) = false
  | None => no_patient_event (kind e) = true
  end.

(** ** A run without the CDU *)

(** The events of the clinical decision unit. *)
Definition is_cdu_event (k : EventKind) : bool :=
  match k with
  | ADMIT_TO_CDU | CDU_OBSERVATION_COMPLETE | CDU_OCCUPANCY_METRIC_CHECK => true
  | _ => false
  end.

(** The patient is not recorded in the CDU and has ordered nothing from
    there. *)
Definition outside_cdu (patient : Patient) : Prop :=
  current_unit patient ≠ Some CDU ∧ imaging_order_unit_id patient ≠ Some CDU.

(** The tracker has recorded nothing about the CDU. *)
Definition cdu_idle (m : MetricsTracker) : Prop :=
  cdu_total_patients m = 0 ∧ cdu_conversion_count m = 0 ∧ cdu_occupancy_times m = [].

(** Nothing of the state has to do with the CDU. *)
Definition cdu_unused (s : HospitalSimulator) : Prop :=
  Forall (λ e, is_cdu_event (kind e) = false) (event_queue s) ∧
  map_Forall (λ _ patient, outside_cdu patient) (patients s) ∧
  cdu_idle (metrics s).

(** ** The occupancy series of a run *)

(** What handling one event at time [t] does to the inpatient and the CDU
    series: each is kept or grows by the sample of its unit. *)
Definition series_step (t : Q) (s s' : HospitalSimulator) : Prop :=
  (inpatient_occupancy_times (metrics s') = inpatient_occupancy_times (metrics s)
   ∨ inpatient_occupancy_times (metrics s')
     = inpatient_occupancy_times (metrics s)
       ++ [(t, Z.of_nat (size (patients_in_unit (units s INPATIENT))))]) ∧
  (cdu_occupancy_times (metrics s') = cdu_occupancy_times (metrics s)
   ∨ cdu_occupancy_times (metrics s')
     = cdu_occupancy_times (metrics s)
       ++ [(t, Z.of_nat (size (patients_in_unit (units s CDU))))]).

(** Both series of two trackers are the same. *)
Definition same_series (m m' : MetricsTracker) : Prop :=
  inpatient_occupancy_times m' = inpatient_occupancy_times m ∧
  cdu_occupancy_times m' = cdu_occupancy_times m.

(** Both series were sampled in time order since the start, up to the
    clock, within the capacities of the configuration. *)
Definition series_ok (cfg : Config) (cdu_enabled : bool) (s : HospitalSimulator) : Prop :=
  sampled_within (inject_Z (SIM_START_TIME cfg)) (sim_time s)
    (configured_capacity cfg cdu_enabled INPATIENT)
    (inpatient_occupancy_times (metrics s)) ∧
  sampled_within (inject_Z (SIM_START_TIME cfg)) (sim_time s)
    (configured_capacity cfg cdu_enabled CDU)
    (cdu_occupancy_times (metrics s)).

(** * Verification *)

(** ** Boolean comparisons on rationals *)

Lemma Qle_bool_false (a b : Q) : Qle_bool a b = false ↔ (b < a)%Q.
Proof.
  split; intros H.
  - apply Qnot_le_lt. intros Hle. apply Qle_bool_iff in Hle. congruence.
  - destruct (Qle_bool a b) eqn:E; [|done]. apply Qle_bool_iff in E. lra.
Qed.

Lemma Qltb_lt (a b : Q) : Qltb a b = true ↔ (a < b)%Q.
Proof. unfold Qltb. rewrite negb_true_iff. apply Qle_bool_false. Qed.

Lemma Qltb_ge (a b : Q) : Qltb a b = false ↔ (b <= a)%Q.
Proof. unfold Qltb. rewrite negb_false_iff. apply Qle_bool_iff. Qed.

(** Case analysis on every rational test of the goal. *)
Ltac Qcases :=
  repeat match goal with
  | |- context [Qle_bool ?a ?b] =>
      let E := fresh "E" in
      destruct (Qle_bool a b) eqn:E;
      [apply Qle_bool_iff in E | apply Qle_bool_false in E]
  | |- context [Qltb ?a ?b] =>
      let E := fresh "E" in
      destruct (Qltb a b) eqn:E;
      [apply Qltb_lt in E | apply Qltb_ge in E]
  end.

(** ** Running the result monad backwards *)

Lemma bind_Ok {A B : Type} (f : A → result B) (m : result A) (b : B) :
  (m ≫= f) = Ok b → ∃ a, m = Ok a ∧ f a = Ok b.
Proof. destruct m as [a|e]; [|done]. intros H. by exists a. Qed.

(** Splits a hypothesis [m ≫= f = Ok b] into the two runs. *)
Ltac bind_inv H :=
  let a := fresh "r" in
  let Ha := fresh "Hr" in
  apply bind_Ok in H; destruct H as (a & Ha & H).

Lemma push_event_inv (time : Q) (k : EventKind) (pid : option string)
    (payload : option Z) (s s' : HospitalSimulator) :
  push_event time k pid payload s = Ok s' →
  ∃ q, heappush event_lt (event_queue s) (Build_Event time k pid payload) = Ok q
       ∧ s' = set_event_queue q s.
Proof.
  unfold push_event. intros H. bind_inv H. exists r. split; [done|]. by inversion H.
Qed.

(** ** Symbolic execution of a handler

    [exec] splits every hypothesis that says a composite computation returned
    [Ok] into the runs of its parts, one goal per path. *)
Ltac exec :=
  repeat match goal with
  | H : Ok _ = Ok _ |- _ => simplify_eq H; clear H; intros; subst
  | H : Raise _ = Ok _ |- _ => discriminate H
  | H : (_ ≫= _) = Ok _ |- _ => bind_inv H
  | H : (if ?c then _ else _) = Ok _ |- _ => destruct c eqn:?
  | H : match ?x with _ => _ end = Ok _ |- _ => destruct x eqn:?
  | H : (_, _) = (_, _) |- _ => simplify_eq H; clear H; intros; subst
  | H : (if ?c then _ else _) = (_, _) |- _ => destruct c eqn:?
  | H : match ?x with _ => _ end = (_, _) |- _ => destruct x eqn:?
  end.

(** ** The heap keeps its items *)

Lemma insert_swap_head {A : Type} (l : list A) (i : nat) (a x : A) :
  (i < length l)%nat → x :: <[i := a]> l ≡ₚ a :: <[i := x]> l.
Proof.
  revert i. induction l as [|b l IH]; intros i Hi; [simpl in Hi; lia|].
  destruct i as [|i]; simpl.
  - apply Permutation_swap.
  - rewrite (Permutation_swap b x), (Permutation_swap b a).
    apply Permutation_skip, IH. simpl in Hi. lia.
Qed.

(** Moving the item at [j] into the hole at [i] moves the hole to [j]. *)
Lemma insert_move_hole {A : Type} (l : list A) (i j : nat) (x y : A) :
  i ≠ j → (i < length l)%nat → l !! j = Some y →
  <[j := x]> (<[i := y]> l) ≡ₚ <[i := x]> l.
Proof.
  revert i j. induction l as [|a l IH]; intros i j Hij Hi Hj; [done|].
  destruct i as [|i], j as [|j]; simpl in *; try done.
  - rewrite <- (list_insert_id l j y) at 2 by done.
    apply insert_swap_head. by eapply lookup_lt_Some.
  - inversion Hj; subst. apply insert_swap_head. lia.
  - apply Permutation_skip, IH; [lia|lia|done].
Qed.

Section HeapqItems.
Context {A : Type} (lt : A → A → result bool).

Lemma siftdown_loop_items (fuel : nat) (heap heap' : list A) (startpos pos : nat)
    (newitem : A) :
  (pos < length heap)%nat →
  siftdown_loop lt fuel heap startpos pos newitem = Ok heap' →
  heap' ≡ₚ <[pos := newitem]> heap.
Proof.
  revert heap pos. induction fuel as [|fuel IH]; intros heap pos Hpos H.
  - cbn in H. by inversion H.
  - cbn [siftdown_loop] in H. destruct (decide (startpos < pos)%nat) as [Hlt|];
      [|by inversion H].
    assert ((pos - 1) / 2 < pos)%nat as Hparent.
    { apply Nat.Div0.div_lt_upper_bound. lia. }
    destruct (lookup_lt_is_Some_2 heap ((pos - 1) / 2)) as [parent Hp]; [lia|].
    rewrite Hp in H. cbn [default] in H.
    bind_inv H. destruct r; [|by inversion H].
    apply IH in H; [|rewrite length_insert; lia].
    rewrite H. apply insert_move_hole; [lia|done|done].
Qed.

Lemma siftdown_items (heap heap' : list A) (startpos pos : nat) :
  siftdown lt heap startpos pos = Ok heap' → heap' ≡ₚ heap.
Proof.
  unfold siftdown. destruct (heap !! pos) as [newitem|] eqn:E; [|done].
  intros H. apply siftdown_loop_items in H; [|by eapply lookup_lt_Some].
  by rewrite list_insert_id in H.
Qed.

Lemma heappush_items (heap heap' : list A) (item : A) :
  heappush lt heap item = Ok heap' → heap' ≡ₚ item :: heap.
Proof.
  unfold heappush. intros H. apply siftdown_items in H.
  rewrite H. by rewrite Permutation_app_comm.
Qed.

Lemma siftup_loop_items (fuel : nat) (heap heap' : list A) (pos pos' : nat)
    (newitem : A) :
  (pos < length heap)%nat →
  siftup_loop lt fuel heap (length heap) pos newitem = Ok (heap', pos') →
  <[pos' := newitem]> heap' ≡ₚ <[pos := newitem]> heap ∧
  length heap' = length heap ∧ (pos ≤ pos' < length heap)%nat.
Proof.
  revert heap pos. induction fuel as [|fuel IH]; intros heap pos Hpos H.
  - cbn in H. inversion H; subst. repeat split; [done|lia..].
  - cbn [siftup_loop] in H.
    destruct (decide (2 * pos + 1 < length heap)%nat) as [Hchild|];
      [|inversion H; subst; repeat split; [done|lia..]].
    bind_inv H.
    assert (pos < r < length heap)%nat as Hr'.
    { destruct (decide (2 * pos + 1 + 1 < length heap)%nat).
      - bind_inv Hr. inversion Hr; subst. destruct r0; lia.
      - inversion Hr; subst. lia. }
    destruct (lookup_lt_is_Some_2 heap r) as [child Hc]; [lia|].
    rewrite Hc in H. cbn [default] in H.
    replace (length heap) with (length (<[pos := child]> heap)) in H at 1
      by apply length_insert.
    apply IH in H; [|rewrite length_insert; lia].
    rewrite length_insert in H. destruct H as (Hperm & Hlen & Hle).
    repeat split; [|done|lia..].
    rewrite Hperm. apply insert_move_hole; [lia|done|done].
Qed.

Lemma siftup_items (heap heap' : list A) (pos : nat) :
  siftup lt heap pos = Ok heap' → heap' ≡ₚ heap.
Proof.
  unfold siftup. destruct (heap !! pos) as [newitem|] eqn:E; [|done].
  intros H. bind_inv H. destruct r as [h p].
  apply siftup_loop_items in Hr as (Hperm & Hlen & Hle);
    [|by eapply lookup_lt_Some].
  apply siftdown_items in H. rewrite H, Hperm. by rewrite list_insert_id.
Qed.

Lemma heappop_items (heap heap' : list A) (item : A) :
  heappop lt heap = Ok (item, heap') → heap ≡ₚ item :: heap'.
Proof.
  unfold heappop. destruct (last heap) as [lastelt|] eqn:Hlast; [|done].
  apply last_Some in Hlast as [front ->].
  rewrite removelast_last. destruct front as [|returnitem front].
  - intros H. by inversion H.
  - intros H. bind_inv H. inversion H; subst.
    apply siftup_items in Hr. rewrite Hr. cbn.
    apply Permutation_skip. by rewrite Permutation_app_comm.
Qed.

Lemma heapify_from_items (i : nat) (heap heap' : list A) :
  heapify_from lt i heap = Ok heap' → heap' ≡ₚ heap.
Proof.
  revert heap. induction i as [|i IH]; intros heap H.
  - by inversion H.
  - cbn [heapify_from] in H. bind_inv H. apply siftup_items in Hr.
    apply IH in H. by rewrite H.
Qed.
End HeapqItems.

(** ** A comparison that never raises makes the heap operations total *)

Section HeapqTotal.
Context {A : Type} (lt : A → A → result bool).
Hypothesis lt_total : ∀ a b, ∃ r, lt a b = Ok r.

Lemma siftdown_loop_total (fuel : nat) (heap : list A) (startpos pos : nat)
    (newitem : A) :
  ∃ heap', siftdown_loop lt fuel heap startpos pos newitem = Ok heap'.
Proof.
  revert heap pos. induction fuel as [|fuel IH]; intros heap pos; [cbn; eauto|].
  cbn [siftdown_loop]. destruct (decide (startpos < pos)%nat); [|eauto].
  destruct (lt_total newitem (default newitem (heap !! ((pos - 1) / 2)%nat)))
    as [b Hb].
  cbv zeta. rewrite Hb. destruct b; cbn [mbind result_mbind result_bind]; eauto.
Qed.

Lemma siftdown_total (heap : list A) (startpos pos : nat) :
  (pos < length heap)%nat → ∃ heap', siftdown lt heap startpos pos = Ok heap'.
Proof.
  intros Hpos. unfold siftdown.
  destruct (lookup_lt_is_Some_2 heap pos Hpos) as [newitem ->].
  apply siftdown_loop_total.
Qed.

Lemma siftup_loop_total (fuel : nat) (heap : list A) (endpos pos : nat) (newitem : A) :
  ∃ r, siftup_loop lt fuel heap endpos pos newitem = Ok r.
Proof.
  revert heap pos. induction fuel as [|fuel IH]; intros heap pos; [cbn; eauto|].
  cbn [siftup_loop]. cbv zeta.
  destruct (decide (2 * pos + 1 < endpos)%nat); [|eauto].
  destruct (decide (2 * pos + 1 + 1 < endpos)%nat);
    [|cbn [mbind result_mbind result_bind]; apply IH].
  destruct (lt_total (default newitem (heap !! (2 * pos + 1)%nat))
              (default newitem (heap !! (2 * pos + 1 + 1)%nat)))
    as [b Hb].
  rewrite Hb. cbn [mbind result_mbind result_bind]. apply IH.
Qed.

Lemma siftup_total (heap : list A) (pos : nat) :
  (pos < length heap)%nat → ∃ heap', siftup lt heap pos = Ok heap'.
Proof.
  intros Hpos. unfold siftup.
  destruct (lookup_lt_is_Some_2 heap pos Hpos) as [newitem ->].
  destruct (siftup_loop_total (length heap) heap (length heap) pos newitem)
    as [[h p] Hloop].
  rewrite Hloop. cbn [mbind result_mbind result_bind].
  apply siftup_loop_items in Hloop as (_ & Hlen & Hle); [|done].
  apply siftdown_total. rewrite length_insert. lia.
Qed.

Lemma heapify_from_total (i : nat) (heap : list A) :
  (i ≤ length heap)%nat → ∃ heap', heapify_from lt i heap = Ok heap'.
Proof.
  revert heap. induction i as [|i IH]; intros heap Hi; [cbn; eauto|].
  cbn [heapify_from].
  destruct (siftup_total heap i) as [h Hh]; [lia|]. rewrite Hh.
  cbn [mbind result_mbind result_bind].
  apply IH. apply siftup_items, Permutation_length in Hh. lia.
Qed.

Lemma heapify_total (heap : list A) : ∃ heap', heapify lt heap = Ok heap'.
Proof.
  apply heapify_from_total. apply Nat.Div0.div_le_upper_bound. lia.
Qed.
End HeapqTotal.

(** ** What the helpers of the dispatcher leave untouched

    Each helper returns its input state with a few fields replaced. *)

Lemma set_all_staff_same (s : HospitalSimulator) : set_all_staff (all_staff s) s = s.
Proof. by destruct s. Qed.

Lemma find_and_assign_staff_inv (t : StaffType) (preferred : option UnitName)
    (sim_time : Q) (duration : Z) (details pid : string) (patient patient' : Patient)
    (s s' : HospitalSimulator) (found : option Staff) :
  _find_and_assign_staff t preferred sim_time duration details pid patient s
  = (found, patient', s') →
  (∃ l, s' = set_all_staff l s) ∧
  (patient' = patient ∨ ∃ sid, patient' = set_assigned_staff_id sid patient).
Proof.
  unfold _find_and_assign_staff. cbv zeta.
  destruct (min_by_busy_until _) as [m|]; intros H; inversion H; subst.
  - split; [eauto|]. destruct (String.eqb pid ""); eauto.
  - split; [|by left]. exists (all_staff s'). by rewrite set_all_staff_same.
Qed.

Lemma staffed_transport_inv (s : HospitalSimulator) (patient : Patient) (now : Q)
    (pid : string) (raw : Z) (range : Z * Z) (details : string)
    (way : TransportType) (member : Staff)
    (transport : option TransportType) (sid : option string) (dur : option Z)
    (patient' : Patient) (s' : HospitalSimulator) :
  way ≠ PULLEY →
  (randint range raw ≫= λ duration,
     push_event (now + inject_Z duration)%Q STAFF_TRANSPORT_COMPLETE (Some pid)
       (Some duration)
       (set_all_staff
          (update_staff (staff_id member)
             (λ _, assign now (inject_Z duration) details (current_unit patient) member)
             (all_staff s)) s)
     ≫= λ s2,
       Ok (Some way, Some (staff_id member), Some duration,
           set_transport_type (Some way)
             (set_transport_assigned_time (Some now)
                (set_assigned_staff_id (Some (staff_id member)) patient)), s2))
  = Ok (transport, sid, dur, patient', s') →
  transport = Some way ∧ transport_granted s patient now pid way patient' s'.
Proof.
  intros Hway H. exec. apply push_event_inv in Hr0 as (q & Hq & ->).
  split; [done|]. unfold transport_granted.
  eexists _, q, r, STAFF_TRANSPORT_COMPLETE.
  split; [by destruct way, s|]. split; [done|]. split; [by destruct way|].
  split; [done|eauto].
Qed.

Lemma request_transport_inv (raw : Z) (pid : string) (patient patient' : Patient)
    (now : Q) (destination : UnitName) (s s' : HospitalSimulator)
    (transport : option TransportType) (staff : option string) (duration : option Z) :
  _request_transport_resource raw pid patient now destination s
  = Ok (transport, staff, duration, patient', s') →
  match transport with
  | None => s' = s ∧ patient' = patient
  | Some way => transport_granted s patient now pid way patient' s'
  end.
Proof.
  unfold _request_transport_resource. cbv zeta.
  destruct (_ && _ && (pulley_in_use s <? _)) eqn:Hp.
  { intros H. exec. apply push_event_inv in Hr0 as (q & Hq & ->).
    exists (all_staff s), q, r, PULLEY_TRANSPORT_COMPLETE.
    split; [by destruct s|]. split; [done|]. split; [done|]. split.
    - intros _. apply andb_true_iff in Hp as [_ Hp]. by apply Z.ltb_lt.
    - exists (assigned_staff_id patient). by destruct patient. }
  destruct (if bool_decide (acuity patient = CRITICAL) then _ else None) as [m|].
  { intros H. by apply staffed_transport_inv in H as [-> H]. }
  destruct (if _ && bool_decide (acuity patient ∈ _) then _ else None) as [m|].
  { intros H. by apply staffed_transport_inv in H as [-> H]. }
  destruct (sorted_head _ _) as [m|].
  { intros H. by apply staffed_transport_inv in H as [-> H]. }
  intros H. by inversion H.
Qed.

Lemma determine_disposition_inv (u : Q) (pid : string) (patient patient' : Patient)
    (event_time : Q) (s s' : HospitalSimulator) :
  _determine_patient_disposition u pid patient event_time s = Ok (patient', s') →
  ∃ m q k st,
    s' = set_event_queue q (set_metrics m s) ∧
    heappush event_lt (event_queue s) (Build_Event event_time k (Some pid) None) = Ok q ∧
    k ∈ [ADMIT_TO_INPATIENT; ADMIT_TO_CDU; DISCHARGE_ORDERED] ∧
    (patient' = set_status st patient ∨
     patient' = set_status st (set_ed_disposition_time (Some event_time) patient)) ∧
    st ∈ [St_ADMIT_INPATIENT_PENDING; St_ADMIT_CDU_PENDING; St_DISCHARGE_PENDING_ORDER].
Proof.
  unfold _determine_patient_disposition. intros H.
  destruct (ed_disposition_time patient) as [t0|];
    cbn [acuity set_ed_disposition_time] in H;
    destruct (acuity patient); exec;
    apply push_event_inv in Hr as (qq & Hq & ->);
    match goal with
    | |- ∃ m q k st, set_event_queue _ ?x = _ ∧ _ => exists (metrics x), qq
    end;
    eexists _, _;
    (split; [first [reflexivity | by destruct s]|]);
    (split; [exact Hq|]);
    (split; [rewrite !elem_of_cons; eauto|]);
    (split; [first [by left | by right]|]);
    rewrite !elem_of_cons; eauto.
Qed.

(** Every field projection of a state built with the setters. *)
Ltac sim_fields :=
  cbn [config sim_time total_sim_minutes patients event_queue units all_staff metrics
       enable_cdu enable_ai_imaging enable_ai_staffing enable_amenities
       enable_ai_entertainment ai_staffing_next_adjustment_time pulley_in_use
       set_sim_time set_patients set_event_queue set_units set_all_staff set_metrics
       set_ai_staffing_next_adjustment_time set_pulley_in_use
       put_unit store_patient tick] in *.

(** Replaces the runs of the helpers by what they return. *)
Ltac frames :=
  repeat match goal with
  | H : push_event _ _ _ _ _ = Ok _ |- _ =>
      apply push_event_inv in H as (? & ? & ->)
  | H : _find_and_assign_staff _ _ _ _ _ _ _ _ = _ |- _ =>
      apply find_and_assign_staff_inv in H as ((? & ->) & ?)
  | H : _request_transport_resource _ _ _ _ _ _ = Ok (None, _, _, _, _) |- _ =>
      apply request_transport_inv in H as (-> & ->)
  | H : _request_transport_resource _ _ _ _ _ _ = Ok (Some _, _, _, _, _) |- _ =>
      apply request_transport_inv in H as (? & ? & ? & ? & -> & ? & ? & ? & ? & ->)
  | H : _determine_patient_disposition _ _ _ _ _ = Ok _ |- _ =>
      apply determine_disposition_inv in H as (? & ? & ? & ? & -> & ? & ? & ? & ?)
  end.

(** Opens [_process_event] on the event kind [k], one goal per branch. *)
Ltac open_handlers H k :=
  unfold _process_event in H; cbv zeta in H;
  destruct k;
    unfold process_SCHEDULE_PATIENT_ARRIVAL, process_PATIENT_ARRIVAL,
      process_ED_TRIAGE_COMPLETE, process_ASSIGN_ED_BED, process_ED_PHYSICIAN_RETRY,
      process_ED_PHYSICIAN_ASSESSMENT_COMPLETE, process_IMAGING_ORDERED,
      process_TRANSFER_TO_IMAGING, process_TRANSFER_TO_LAB, transfer_to,
      process_TRANSPORT_COMPLETE, process_IMAGING_STARTED, process_IMAGING_COMPLETE,
      process_IMAGING_REPORT_RETRY, process_IMAGING_REPORT_COMPLETE,
      process_LAB_ORDERED, process_LAB_STARTED, process_LAB_COMPLETE,
      process_RE_EVALUATE_AFTER_DIAGNOSTICS, process_ADMIT,
      process_CDU_OBSERVATION_COMPLETE, process_INPATIENT_PATIENT_CHECK,
      process_DISCHARGE_ORDERED, process_DISCHARGE_PROCESS_RETRY,
      process_DISCHARGE_PROCESS_COMPLETE, process_AI_STAFFING_ADJUSTMENT,
      process_CDU_OCCUPANCY_METRIC_CHECK, process_INPATIENT_OCCUPANCY_METRIC_CHECK,
      process_PULLEY_UTILIZATION_METRIC_CHECK, request_physician, request_radiologist,
      request_nurse, _adjust_ai_staffing, add_patient_to_queue, deref in H;
    cbv zeta in H.

(** ** The heap invariant of [heapq] *)

Section HeapqOrder.
Context {A : Type} (lt : A → A → result bool).
Hypothesis lt_asym : ∀ a b, lt a b = Ok true → not_above lt a b.
Hypothesis lt_trans : ∀ a b c, not_above lt a b → not_above lt b c → not_above lt a c.
Local Open Scope nat_scope.

Lemma child_parent (pos : nat) : 0 < pos → child pos ((pos - 1) / 2).
Proof.
  unfold child. intros H. pose proof (Nat.div_mod_eq (pos - 1) 2).
  pose proof (Nat.mod_upper_bound (pos - 1) 2). lia.
Qed.

Lemma child_inj (c p p' : nat) : child c p → child c p' → p = p'.
Proof. unfold child. lia. Qed.

Lemma child_above (c p : nat) : child c p → p < c.
Proof. unfold child. lia. Qed.

(** Filling the hole with [newitem] once its parent, if any, is not above it. *)
Lemma fill_hole_ok (heap : list A) (pos : nat) (newitem : A) :
  hole_up lt heap pos newitem →
  (∀ p x, child pos p → heap !! p = Some x → not_above lt x newitem) →
  heap_ok lt (<[pos := newitem]> heap).
Proof.
  intros [[Hrest _] Hbelow] Habove p c x y Hc Hp Hy.
  pose proof (child_above c p Hc).
  destruct (decide (p = pos)) as [->|Hp0].
  - rewrite list_lookup_insert_ne in Hy by lia.
    apply list_lookup_insert_Some in Hp as [(_ & <- & _)|[? _]]; [|done].
    by apply (Hbelow c).
  - rewrite list_lookup_insert_ne in Hp by done.
    destruct (decide (c = pos)) as [->|Hc0].
    + apply list_lookup_insert_Some in Hy as [(_ & <- & _)|[? _]]; [|done].
      by apply (Habove p).
    + rewrite list_lookup_insert_ne in Hy by done. by apply (Hrest p c).
Qed.

Lemma siftdown_loop_ok (fuel : nat) (heap heap' : list A) (pos : nat) (newitem : A) :
  pos ≤ fuel → pos < length heap →
  hole_up lt heap pos newitem →
  siftdown_loop lt fuel heap 0 pos newitem = Ok heap' →
  heap_ok lt heap'.
Proof.
  revert heap pos. induction fuel as [|fuel IH]; intros heap pos Hfuel Hlen Hole H.
  - cbn in H. simplify_eq H; intros <-. apply fill_hole_ok; [done|].
    intros p x Hc. apply child_above in Hc. lia.
  - cbn [siftdown_loop] in H. cbv zeta in H.
    destruct (decide (0 < pos)) as [Hpos|Hpos].
    + pose proof (child_parent pos Hpos) as Hc.
      pose proof (child_above _ _ Hc) as Hlt.
      destruct (lookup_lt_is_Some_2 heap ((pos - 1) / 2)) as [parent Hparent]; [lia|].
      rewrite Hparent in H. cbn [default] in H. bind_inv H. destruct r.
      * apply IH in H; [done|lia|rewrite length_insert; lia|].
        destruct Hole as [[Hrest Hacross] Hbelow].
        assert (Hnp : not_above lt newitem parent) by by apply lt_asym.
        split; [split|].
        -- intros p c x y Hcp Hp Hc0 Hx Hy.
           destruct (decide (c = pos)) as [->|Hcpos].
           { by rewrite (child_inj _ _ _ Hcp Hc) in Hp. }
           rewrite list_lookup_insert_ne in Hy by done.
           destruct (decide (p = pos)) as [->|Hppos].
           ++ apply list_lookup_insert_Some in Hx as [(_ & <- & _)|[? _]]; [|done].
              by apply (Hacross ((pos - 1) / 2) c).
           ++ rewrite list_lookup_insert_ne in Hx by done. by apply (Hrest p c).
        -- intros p c x y Hpp Hcp Hx Hy.
           pose proof (child_above _ _ Hpp).
           rewrite list_lookup_insert_ne in Hx by lia.
           assert (Hgp : not_above lt x parent).
           { apply (Hrest p ((pos - 1) / 2)); try done; lia. }
           destruct (decide (c = pos)) as [->|Hcpos].
           ++ apply list_lookup_insert_Some in Hy as [(_ & <- & _)|[? _]]; done.
           ++ rewrite list_lookup_insert_ne in Hy by done.
              apply (lt_trans _ parent); [done|].
              apply (Hrest ((pos - 1) / 2) c); try done; lia.
        -- intros c y Hcp Hy.
           destruct (decide (c = pos)) as [->|Hcpos].
           ++ apply list_lookup_insert_Some in Hy as [(_ & <- & _)|[? _]]; done.
           ++ rewrite list_lookup_insert_ne in Hy by done.
              apply (lt_trans _ parent); [done|].
              apply (Hrest ((pos - 1) / 2) c); try done; lia.
      * simplify_eq H; intros <-. apply fill_hole_ok; [done|].
        intros p x Hcp Hx. rewrite (child_inj _ _ _ Hcp Hc) in Hx.
        rewrite Hparent in Hx. by simplify_eq Hx; intros <-.
    + simplify_eq H; intros <-. apply fill_hole_ok; [done|].
      intros p x Hc. apply child_above in Hc. lia.
Qed.

Lemma heappush_ok (heap heap' : list A) (item : A) :
  heap_ok lt heap → heappush lt heap item = Ok heap' → heap_ok lt heap'.
Proof.
  unfold heappush, siftdown. intros Hok H.
  rewrite lookup_app_r, Nat.sub_diag in H by done. cbn in H.
  apply siftdown_loop_ok in H; [done|done|rewrite length_app; cbn; lia|].
  split; [split|].
  - intros p c x y Hc Hp Hc0 Hx Hy.
    apply lookup_app_Some in Hx as [Hx|[? Hx]];
      [|apply list_lookup_singleton_Some in Hx as [? _]; lia].
    apply lookup_app_Some in Hy as [Hy|[? Hy]];
      [|apply list_lookup_singleton_Some in Hy as [? _]; lia].
    by apply (Hok p c).
  - intros p c x y _ Hc _ Hy. apply child_above in Hc.
    apply lookup_lt_Some in Hy. rewrite length_app in Hy. cbn in Hy. lia.
  - intros c y Hc Hy. apply child_above in Hc.
    apply lookup_lt_Some in Hy. rewrite length_app in Hy. cbn in Hy. lia.
Qed.

Lemma siftup_loop_ok (fuel : nat) (heap heap' : list A) (endpos pos pos' : nat)
    (newitem : A) :
  endpos = length heap → pos < endpos → endpos ≤ pos + fuel →
  hole_down lt heap pos →
  siftup_loop lt fuel heap endpos pos newitem = Ok (heap', pos') →
  hole_down lt heap' pos' ∧ length heap' = endpos ∧ pos' < endpos ∧ endpos ≤ 2 * pos' + 1.
Proof.
  revert heap pos. induction fuel as [|fuel IH]; intros heap pos Hend Hlen Hfuel Hole H;
    [lia|].
  cbn [siftup_loop] in H. cbv zeta in H.
  destruct (decide (2 * pos + 1 < endpos)) as [Hleft|Hleft];
    [|simplify_eq H; intros <- <-; split; [done|]; lia].
  destruct (lookup_lt_is_Some_2 heap (2 * pos + 1)) as [l Hl]; [lia|].
  bind_inv H.
  assert (Hchoice : ∃ v, heap !! r = Some v ∧ child r pos ∧
            ∀ c y, child c pos → c ≠ r → heap !! c = Some y → not_above lt v y).
  { destruct (decide (2 * pos + 1 + 1 < endpos)) as [Hright|Hright].
    - destruct (lookup_lt_is_Some_2 heap (2 * pos + 1 + 1)) as [x Hx]; [lia|].
      rewrite Hl, Hx in Hr. cbn [default] in Hr. bind_inv Hr.
      simplify_eq Hr; intros <-. destruct r0.
      + exists l. split; [done|]. split; [left; lia|]. intros c y [->| ->] Hne Hy; [done|].
        replace (2 * pos + 2) with (2 * pos + 1 + 1) in Hy by lia.
        rewrite Hx in Hy. simplify_eq Hy; intros <-. by apply lt_asym.
      + exists x. split; [done|]. split; [right; lia|].
        intros c y [->| ->] Hne Hy; [|lia].
        rewrite Hl in Hy. by simplify_eq Hy; intros <-.
    - simplify_eq Hr; intros <-. exists l. split; [done|]. split; [left; lia|].
      intros c y [->| ->] Hne Hy; [done|]. apply lookup_lt_Some in Hy. lia. }
  destruct Hchoice as (v & Hv & Hchild & Hsibling). rewrite Hv in H. cbn [default] in H.
  pose proof (child_above _ _ Hchild) as Hgt.
  assert (Hr_len : r < endpos) by (apply lookup_lt_Some in Hv; lia).
  apply IH in H; [done|by rewrite length_insert|done|lia|].
  destruct Hole as [Hrest Hacross]. split.
  - intros p c x y Hcp Hp Hc Hx Hy.
    destruct (decide (c = pos)) as [->|Hcpos].
    + apply list_lookup_insert_Some in Hy as [(_ & <- & _)|[? _]]; [|done].
      pose proof (child_above _ _ Hcp). rewrite list_lookup_insert_ne in Hx by lia.
      by apply (Hacross p r).
    + rewrite list_lookup_insert_ne in Hy by done.
      destruct (decide (p = pos)) as [->|Hppos].
      * apply list_lookup_insert_Some in Hx as [(_ & <- & _)|[? _]]; [|done].
        by apply (Hsibling c).
      * rewrite list_lookup_insert_ne in Hx by done. by apply (Hrest p c).
  - intros p c x y Hrp Hcr Hx Hy.
    rewrite (child_inj _ _ _ Hrp Hchild) in Hx.
    apply list_lookup_insert_Some in Hx as [(_ & <- & _)|[? _]]; [|done].
    pose proof (child_above _ _ Hcr). rewrite list_lookup_insert_ne in Hy by lia.
    apply (Hrest r c); try done; lia.
Qed.

(** The root is not above any other item of the heap. *)
Lemma heap_ok_root (heap : list A) (root : A) (i : nat) (y : A) :
  heap_ok lt heap → heap !! 0 = Some root → 0 < i → heap !! i = Some y →
  not_above lt root y.
Proof.
  intros Hok Hroot. revert y. induction (lt_wf i) as [i _ IH]. intros y Hi Hy.
  pose proof (child_parent i Hi) as Hc. pose proof (child_above _ _ Hc) as Hlt.
  destruct (lookup_lt_is_Some_2 heap ((i - 1) / 2)) as [x Hx];
    [apply lookup_lt_Some in Hy; lia|].
  pose proof (Hok _ _ _ _ Hc Hx Hy) as Hxy.
  destruct (decide ((i - 1) / 2 = 0)) as [E|E].
  - rewrite E, Hroot in Hx. by simplify_eq Hx; intros <-.
  - apply (lt_trans _ x); [|done]. apply (IH ((i - 1) / 2)); [done|lia|done].
Qed.

Lemma heappop_ok (heap heap' : list A) (item : A) :
  heap_ok lt heap → heappop lt heap = Ok (item, heap') →
  heap_ok lt heap' ∧ ∀ y, y ∈ heap' → not_above lt item y.
Proof.
  intros Hok H. pose proof (heappop_items lt _ _ _ H) as Hperm.
  unfold heappop in H. destruct (last heap) as [lastelt|] eqn:Hlast; [|done].
  destruct (removelast heap) as [|returnitem rest] eqn:Hfront.
  { simplify_eq H; intros <- <-. split; [by intros p c x y _ Hp|].
    intros y Hy. by apply elem_of_nil in Hy. }
  bind_inv H. simplify_eq H; intros <- <-.
  assert (Hheap : heap = (returnitem :: rest) ++ [lastelt]).
  { rewrite <- Hfront. destruct heap as [|a heap] using rev_ind; [done|].
    rewrite last_snoc in Hlast. simplify_eq Hlast; intros <-.
    by rewrite removelast_last. }
  split.
  - unfold siftup in Hr. cbn [lookup list_lookup insert list_insert] in Hr.
    bind_inv Hr. destruct r0 as [h1 pos1].
    apply siftup_loop_ok in Hr0 as (Hole & Hlen & Hpos & Hleaf); [|done|cbn; lia..| ].
    + unfold siftdown in Hr.
      rewrite list_lookup_insert_eq in Hr by lia.
      apply siftdown_loop_ok in Hr; [done|done|rewrite length_insert; lia|].
      split; [split|].
      * intros p c x y Hc Hp Hc0 Hx Hy.
        rewrite list_lookup_insert_ne in Hx, Hy by done.
        by apply (proj1 Hole p c).
      * intros p c x y _ Hc _ Hy. apply lookup_lt_Some in Hy.
        rewrite length_insert in Hy. unfold child in Hc. lia.
      * intros c y Hc Hy. apply lookup_lt_Some in Hy.
        rewrite length_insert in Hy. unfold child in Hc. lia.
    + split.
      * intros p c x y Hc Hp Hc0 Hx Hy.
        destruct p as [|p]; [done|]. destruct c as [|c]; [done|].
        cbn in Hx, Hy. apply (Hok (S p) (S c)); [done|..]; rewrite Hheap; cbn;
          by apply lookup_app_l_Some.
      * intros p c x y Hc. apply child_above in Hc. lia.
  - intros y Hy. rewrite Hheap in Hperm. cbn in Hperm.
    apply Permutation_cons_inv in Hperm. rewrite <- Hperm in Hy.
    apply list_elem_of_lookup in Hy as [i Hi].
    apply (heap_ok_root heap returnitem (S i)); [done|by rewrite Hheap|lia|].
    by rewrite Hheap.
Qed.
End HeapqOrder.

(** ** The order of the events *)

Lemma ascii_compare_lt (a b : Ascii.ascii) :
  Ascii.compare a b = Lt ↔ (Ascii.N_of_ascii a < Ascii.N_of_ascii b)%N.
Proof. unfold Ascii.compare. apply N.compare_lt_iff. Qed.

Lemma name_lt_cons (x y : Ascii.ascii) (a b : string) :
  name_lt (String x a) (String y b)
  ↔ (Ascii.N_of_ascii x < Ascii.N_of_ascii y)%N ∨ (x = y ∧ name_lt a b).
Proof.
  unfold name_lt. cbn [String.compare]. rewrite <- ascii_compare_lt.
  destruct (Ascii.compare x y) eqn:E.
  - apply Ascii.compare_eq_iff in E as ->. split; [auto|].
    by intros [H|[_ H]].
  - split; auto.
  - split; [done|]. intros [H|[-> _]]; [done|].
    unfold Ascii.compare in E. by rewrite N.compare_refl in E.
Qed.

Lemma name_lt_irrefl (a : string) : ¬ name_lt a a.
Proof.
  induction a as [|x a IH]; [done|]. rewrite name_lt_cons. intros [H|[_ H]]; [lia|done].
Qed.

Lemma name_lt_trans (a b c : string) : name_lt a b → name_lt b c → name_lt a c.
Proof.
  revert b c. induction a as [|x a IH]; intros [|y b] [|z c]; try done.
  rewrite !name_lt_cons. intros [H1|[-> H1]] [H2|[-> H2]]; eauto. left. lia.
Qed.

Lemma name_lt_total (a b : string) : a ≠ b → name_lt a b ∨ name_lt b a.
Proof.
  intros H. unfold name_lt. rewrite (String.compare_antisym b a).
  destruct (a ?= b)%string eqn:E; cbn; auto.
  by apply String.compare_eq_iff in E.
Qed.

Lemma string_ltb_lt (a b : string) : String.ltb a b = true ↔ name_lt a b.
Proof. unfold String.ltb, name_lt. by destruct (a ?= b)%string. Qed.

Lemma string_ltb_ge (a b : string) : a ≠ b → String.ltb a b = false ↔ name_lt b a.
Proof.
  intros Hne. split; intros H.
  - destruct (name_lt_total a b Hne) as [Hlt|]; [|done].
    apply string_ltb_lt in Hlt. congruence.
  - destruct (String.ltb a b) eqn:E; [|done]. apply string_ltb_lt in E.
    destruct (name_lt_irrefl a). by apply (name_lt_trans a b a).
Qed.

Lemma event_kind_name_inj (a b : EventKind) :
  event_kind_name a = event_kind_name b → a = b.
Proof. destruct a, b; intros H; first [reflexivity | discriminate H]. Qed.

Lemma event_data_lt_false (a b : option Z) : event_data_lt a b = Ok false ↔ a = b.
Proof.
  destruct a as [x|], b as [y|]; cbn; try done.
  destruct (Z.eqb_spec x y) as [->|Hne]; [done|]. split; [done|]. intros H. congruence.
Qed.

Lemma event_data_lt_true (a b : option Z) : event_data_lt a b ≠ Ok true.
Proof. destruct a as [x|], b as [y|]; cbn; try done. by destruct (x =? y). Qed.

Lemma event_lt_true (a b : Event) : event_lt a b = Ok true ↔ event_before a b.
Proof.
  unfold event_lt, event_before.
  destruct (Qeq_bool (fire_time a) (fire_time b)) eqn:Et; cbn [negb].
  - apply Qeq_bool_iff in Et.
    destruct (String.eqb (event_kind_name (kind a)) (event_kind_name (kind b))) eqn:En;
      cbn [negb].
    + apply String.eqb_eq in En. pose proof (event_kind_name_inj _ _ En) as Hk.
      assert (Hn : ¬ name_lt (event_kind_name (kind a)) (event_kind_name (kind b))).
      { rewrite En. apply name_lt_irrefl. }
      destruct (patient_id a) as [x|], (patient_id b) as [y|].
      * destruct (String.eqb x y) eqn:Ep.
        -- apply String.eqb_eq in Ep as ->. split.
           ++ intros H. by apply event_data_lt_true in H.
           ++ intros [H|[_ [H|(_ & x' & y' & Hx & Hy & H)]]]; [lra|done|].
              simplify_eq Hx; simplify_eq Hy; intros <- <-. by apply name_lt_irrefl in H.
        -- split.
           ++ intros H. injection H as H. apply string_ltb_lt in H.
              right. split; [done|]. right. split; [done|]. by exists x, y.
           ++ intros [H|[_ [H|(_ & x' & y' & Hx & Hy & H)]]]; [lra|done|].
              simplify_eq Hx; simplify_eq Hy; intros <- <-.
              apply string_ltb_lt in H. by rewrite H.
      * split; [done|]. intros [H|[_ [H|(_ & x' & y' & Hx & Hy & H)]]]; [lra|done|done].
      * split; [done|]. intros [H|[_ [H|(_ & x' & y' & Hx & Hy & H)]]]; [lra|done|done].
      * split.
        -- intros H. by apply event_data_lt_true in H.
        -- intros [H|[_ [H|(_ & x' & y' & Hx & Hy & H)]]]; [lra|done|done].
    + apply String.eqb_neq in En. split.
      * intros H. injection H as H. apply string_ltb_lt in H. auto.
      * intros [H|[_ [H|(Hk & _)]]]; [lra| |by rewrite Hk in En].
        apply string_ltb_lt in H. by rewrite H.
  - assert (Hne : ¬ (fire_time a == fire_time b)%Q).
    { intros H. apply Qeq_bool_iff in H. congruence. }
    split.
    + intros H. injection H as H. apply Qltb_lt in H. auto.
    + intros [H|[H _]]; [|done]. apply Qltb_lt in H. by rewrite H.
Qed.

Lemma event_lt_false (a b : Event) :
  event_lt a b = Ok false ↔ event_before b a ∨ event_same a b.
Proof.
  unfold event_lt, event_before, event_same.
  destruct (Qeq_bool (fire_time a) (fire_time b)) eqn:Et; cbn [negb].
  - apply Qeq_bool_iff in Et.
    destruct (String.eqb (event_kind_name (kind a)) (event_kind_name (kind b))) eqn:En;
      cbn [negb].
    + apply String.eqb_eq in En. pose proof (event_kind_name_inj _ _ En) as Hk.
      assert (Hn : ¬ name_lt (event_kind_name (kind b)) (event_kind_name (kind a))).
      { rewrite En. apply name_lt_irrefl. }
      destruct (patient_id a) as [x|], (patient_id b) as [y|].
      * destruct (String.eqb x y) eqn:Ep.
        -- apply String.eqb_eq in Ep as ->. rewrite event_data_lt_false. split.
           ++ intros H. by right.
           ++ intros [[H|[_ [H|(_ & x' & y' & Hx & Hy & H)]]]|(_ & _ & _ & H)];
                [lra|done| |done].
              simplify_eq Hx; simplify_eq Hy; intros <- <-. by apply name_lt_irrefl in H.
        -- apply String.eqb_neq in Ep. split.
           ++ intros H. injection H as H. apply string_ltb_ge in H; [|done].
              left. right. split; [lra|]. right. split; [done|]. by exists y, x.
           ++ intros [[H|[_ [H|(_ & x' & y' & Hx & Hy & H)]]]|(_ & _ & H & _)];
                [lra|done| |congruence].
              simplify_eq Hx; simplify_eq Hy; intros <- <-.
              apply (string_ltb_ge x y) in H; [|done]. by rewrite H.
      * split; [done|].
        intros [[H|[_ [H|(_ & x' & y' & Hx & Hy & H)]]]|(_ & _ & H & _)];
          [lra|done|done|done].
      * split; [done|].
        intros [[H|[_ [H|(_ & x' & y' & Hx & Hy & H)]]]|(_ & _ & H & _)];
          [lra|done|done|done].
      * rewrite event_data_lt_false. split.
        -- intros H. by right.
        -- intros [[H|[_ [H|(_ & x' & y' & Hx & Hy & H)]]]|(_ & _ & _ & H)];
             [lra|done|done|done].
    + apply String.eqb_neq in En. split.
      * intros H. injection H as H. apply string_ltb_ge in H; [|done].
        left. right. split; [lra|]. by left.
      * intros [[H|[_ [H|(Hk & _)]]]|(_ & Hk & _)];
          [lra| |by rewrite Hk in En|by rewrite Hk in En].
        apply (string_ltb_ge _ _ En) in H. by rewrite H.
  - assert (Hne : ¬ (fire_time a == fire_time b)%Q).
    { intros H. apply Qeq_bool_iff in H. congruence. }
    split.
    + intros H. injection H as H. apply Qltb_ge in H. left. left. lra.
    + intros [[H|[H _]]|[H _]]; [|lra|done].
      assert (Hge : (fire_time b <= fire_time a)%Q) by lra.
      apply Qltb_ge in Hge. by rewrite Hge.
Qed.

Lemma event_before_trans (a b c : Event) :
  event_before a b → event_before b c → event_before a c.
Proof.
  unfold event_before.
  intros [H1|[T1 H1]] [H2|[T2 H2]]; [left; lra..|].
  right. split; [lra|].
  destruct H1 as [H1|(K1 & x & y & Hx & Hy & H1)],
           H2 as [H2|(K2 & x' & y' & Hx' & Hy' & H2)].
  - left. by apply (name_lt_trans _ (event_kind_name (kind b))).
  - left. by rewrite <- K2.
  - left. by rewrite K1.
  - right. split; [congruence|]. exists x, y'. split; [done|]. split; [done|].
    rewrite Hy in Hx'. simplify_eq Hx'; intros <-. by apply (name_lt_trans _ y).
Qed.

Lemma event_before_same (a b c : Event) :
  event_before a b → event_same c b → event_before a c.
Proof.
  unfold event_before, event_same.
  intros [H1|[T1 H1]] (T & K & P & _); [left; lra|].
  right. split; [lra|]. rewrite K, P. done.
Qed.

Lemma event_same_before (a b c : Event) :
  event_same b a → event_before b c → event_before a c.
Proof.
  unfold event_before, event_same.
  intros (T & K & P & _) [H1|[T1 H1]]; [left; lra|].
  right. split; [lra|]. rewrite <- K, <- P. done.
Qed.

Lemma event_lt_asym (a b : Event) :
  event_lt a b = Ok true → not_above event_lt a b.
Proof. unfold not_above. rewrite event_lt_true, event_lt_false. auto. Qed.

Lemma event_lt_trans (a b c : Event) :
  not_above event_lt a b → not_above event_lt b c → not_above event_lt a c.
Proof.
  unfold not_above. rewrite !event_lt_false. intros [H1|H1] [H2|H2].
  - left. by apply (event_before_trans a b c).
  - left. by apply (event_before_same a b c).
  - left. by apply (event_same_before a b c).
  - right. destruct H1 as (T1 & K1 & P1 & D1), H2 as (T2 & K2 & P2 & D2).
    repeat split; [lra|congruence..].
Qed.

(** ** Staff cost accrual *)

Lemma add_assignment_cost_normal (d : Q) (s : Staff) :
  total_normal_cost (add_assignment_cost d s)
  == total_normal_cost s + (4 # 5) * cost_per_minute (type s) * Qmax 0 d.
Proof.
  unfold add_assignment_cost, Qmax.
  destruct (Qltb 0 d) eqn:E; [apply Qltb_lt in E | apply Qltb_ge in E];
    cbn [total_normal_cost set_total_normal_cost set_total_overtime_cost type];
    Qcases; try lra; ring.
Qed.

Lemma add_assignment_cost_overtime (d : Q) (s : Staff) :
  total_overtime_cost (add_assignment_cost d s)
  == total_overtime_cost s + (1 # 5) * cost_per_minute (type s) * Qmax 0 d * (3 # 2).
Proof.
  unfold add_assignment_cost, Qmax.
  destruct (Qltb 0 d) eqn:E; [apply Qltb_lt in E | apply Qltb_ge in E];
    cbn [total_overtime_cost set_total_normal_cost set_total_overtime_cost type];
    change (OVERTIME_MULTIPLIER Config_base) with (3 # 2);
    Qcases; try lra; ring.
Qed.

Lemma add_assignment_cost_fields (d : Q) (s : Staff) :
  type (add_assignment_cost d s) = type s ∧
  busy_until (add_assignment_cost d s) = busy_until s ∧
  last_assignment_start_time (add_assignment_cost d s) = last_assignment_start_time s.
Proof. unfold add_assignment_cost. by destruct (Qltb 0 d). Qed.

Lemma Qmax_0_of_nonneg (x : Q) : (0 <= x)%Q → Qmax 0 x == x.
Proof. intros H. unfold Qmax. Qcases; lra. Qed.

Lemma Qmax_0_compat (x y : Q) : x == y → Qmax 0 x == Qmax 0 y.
Proof. intros H. unfold Qmax. Qcases; lra. Qed.

Lemma Qmin_compat_r (a x y : Q) : x == y → Qmin a x == Qmin a y.
Proof. intros H. unfold Qmin. Qcases; lra. Qed.

(** The state of a staff member in the middle of a history: the assignment
    [(start, duration)] is the one in progress. *)
Lemma accrual_in_progress (final : Q) (rest : list (Q * Q * string * option UnitName))
    (start duration : Q) (details : string) (unit_name : option UnitName) (s : Staff) :
  last_assignment_start_time s = Some start →
  busy_until s == start + duration →
  (0 <= duration)%Q →
  assigned_when_free (start + duration) rest →
  let s' := accrue_remaining_cost final (work rest s) in
  let w := worked_minutes final ((start, duration, details, unit_name) :: rest) in
  type s' = type s ∧
  total_normal_cost s' == total_normal_cost s + (4 # 5) * cost_per_minute (type s) * w ∧
  total_overtime_cost s'
    == total_overtime_cost s + (1 # 5) * cost_per_minute (type s) * w * (3 # 2).
Proof.
  revert start duration details unit_name s.
  induction rest as [|[[[t1 d1] det1] u1] rest IH];
    intros start duration details unit_name s Hstart Hbusy Hd Hfree.
  - cbn [work fold_left worked_minutes]. unfold accrue_remaining_cost. rewrite Hstart.
    destruct (add_assignment_cost_fields (Qmin final (busy_until s) - start) s)
      as (E1 & _ & _).
    cbn [type total_normal_cost total_overtime_cost set_last_assignment_start_time].
    rewrite add_assignment_cost_normal, add_assignment_cost_overtime.
    assert (Qmax 0 (Qmin final (busy_until s) - start)
            == Qmax 0 (Qmin final (start + duration) - start)) as ->.
    { apply Qmax_0_compat. rewrite (Qmin_compat_r final _ _ Hbusy). reflexivity. }
    split; [done|]. split; reflexivity.
  - destruct Hfree as (Hle & Hd1 & Hfree).
    change (work ((t1, d1, det1, u1) :: rest) s)
      with (work rest (assign t1 d1 det1 u1 s)).
    set (s1 := assign t1 d1 det1 u1 s).
    assert (type s1 = type s ∧
            total_normal_cost s1
              == total_normal_cost s + (4 # 5) * cost_per_minute (type s) * duration ∧
            total_overtime_cost s1
              == total_overtime_cost s
                 + (1 # 5) * cost_per_minute (type s) * duration * (3 # 2) ∧
            last_assignment_start_time s1 = Some t1 ∧
            busy_until s1 = (t1 + d1)%Q) as (Hty & Hn & Ho & Hs1 & Hb1).
    { unfold s1, assign, accrue_cost_for_completed_task. rewrite Hstart.
      assert (Qle_bool (busy_until s) t1 = true) as ->.
      { apply Qle_bool_iff. lra. }
      destruct (add_assignment_cost_fields (busy_until s - start) s) as (E1 & E2 & E3).
      cbn [type total_normal_cost total_overtime_cost busy_until
           last_assignment_start_time set_last_assigned_unit
           set_current_assignment_details set_last_assignment_start_time
           set_busy_until].
      assert (Qmax 0 (busy_until s - start) == duration) as Hw.
      { rewrite Qmax_0_of_nonneg; lra. }
      repeat split; try done.
      - rewrite add_assignment_cost_normal, Hw. reflexivity.
      - rewrite add_assignment_cost_overtime, Hw. reflexivity. }
    destruct (IH t1 d1 det1 u1 s1 Hs1 ltac:(rewrite Hb1; reflexivity) Hd1 Hfree)
      as (Hty' & Hn' & Ho').
    cbv zeta in *. split; [by rewrite Hty'|].
    rewrite Hn', Ho', Hty, Hn, Ho.
    change (worked_minutes final ((start, duration, details, unit_name)
                                   :: (t1, d1, det1, u1) :: rest))
      with (duration + worked_minutes final ((t1, d1, det1, u1) :: rest))%Q.
    split; ring.
Qed.

Lemma worked_minutes_complete (final : Q)
    (history : list (Q * Q * string * option UnitName)) (busy : Q) :
  assigned_when_free busy history →
  (∀ start duration details unit_name,
     last history = Some (start, duration, details, unit_name) →
     (start + duration <= final)%Q) →
  worked_minutes final history == total_duration history.
Proof.
  revert busy. induction history as [|[[[t d] det] u] rest IH]; intros busy Hfree Hlast.
  - reflexivity.
  - destruct Hfree as (_ & Hd & Hfree). destruct rest as [|a rest'].
    + specialize (Hlast t d det u eq_refl).
      cbn [worked_minutes total_duration fold_right].
      unfold Qmin. Qcases; unfold Qmax; Qcases; lra.
    + change (worked_minutes final ((t, d, det, u) :: a :: rest'))
        with (d + worked_minutes final (a :: rest'))%Q.
      change (total_duration ((t, d, det, u) :: a :: rest'))
        with (d + total_duration (a :: rest'))%Q.
      rewrite (IH (t + d)%Q Hfree); [reflexivity|].
      intros start duration details unit_name E. apply (Hlast _ _ details unit_name).
      by rewrite last_cons_cons.
Qed.

(** C3 (amended): for every staff member whose assignments are handed out
    when it is free, once the remaining cost is accrued each assignment of
    completed duration [d] has contributed the normal cost
    [(1 - 0.20) * rate * d] and the overtime cost [0.20 * rate * d * 1.5], so
    the accrued [normal_cost + overtime_cost] is [1.1 * rate] times the
    minutes worked, which are the sum of the durations when the last
    assignment ends by the final time. *)
Theorem staff_cost_accrual (t : StaffType) (id : string)
    (history : list (Q * Q * string * option UnitName)) (final : Q) :
  assigned_when_free 0 history →
  let s := accrue_remaining_cost final (work history (new_Staff t id)) in
  let w := worked_minutes final history in
  total_normal_cost s == (1 - (1 # 5)) * cost_per_minute t * w ∧
  total_overtime_cost s == (1 # 5) * cost_per_minute t * w * (3 # 2) ∧
  total_cost s == (11 # 10) * cost_per_minute t * w ∧
  ((∀ start duration details unit_name,
      last history = Some (start, duration, details, unit_name) →
      (start + duration <= final)%Q) →
   w == total_duration history).
Proof.
  intros Hfree s w.
  assert (total_normal_cost s == (4 # 5) * cost_per_minute t * w ∧
          total_overtime_cost s == (1 # 5) * cost_per_minute t * w * (3 # 2))
    as (Hn & Ho).
  { unfold s, w. destruct history as [|[[[t1 d1] det1] u1] rest].
    - cbn. split; ring.
    - destruct Hfree as (Hle & Hd & Hfree).
      change (work ((t1, d1, det1, u1) :: rest) (new_Staff t id))
        with (work rest (assign t1 d1 det1 u1 (new_Staff t id))).
      destruct (accrual_in_progress final rest t1 d1 det1 u1
                  (assign t1 d1 det1 u1 (new_Staff t id)))
        as (_ & Hn & Ho); [done| |done|done|].
      { cbn. reflexivity. }
      rewrite Hn, Ho. cbn [assign accrue_cost_for_completed_task new_Staff
        last_assignment_start_time type total_normal_cost total_overtime_cost
        set_last_assigned_unit set_current_assignment_details
        set_last_assignment_start_time set_busy_until].
      split; ring. }
  repeat split.
  - rewrite Hn. ring.
  - exact Ho.
  - unfold total_cost. rewrite Hn, Ho. ring.
  - intros Hlast. exact (worked_minutes_complete final history 0 Hfree Hlast).
Qed.

Lemma staff_cost_accrual_witness :
  let s := accrue_remaining_cost 10081 (work demo_history (new_Staff PHYSICIAN "dr")) in
  let w := worked_minutes 10081 demo_history in
  total_normal_cost s == (1 - (1 # 5)) * cost_per_minute PHYSICIAN * w ∧
  total_overtime_cost s == (1 # 5) * cost_per_minute PHYSICIAN * w * (3 # 2) ∧
  total_cost s == (11 # 10) * cost_per_minute PHYSICIAN * w ∧
  ((∀ start duration details unit_name,
      last demo_history = Some (start, duration, details, unit_name) →
      (start + duration <= 10081)%Q) →
   w == total_duration demo_history).
Proof.
  apply (staff_cost_accrual PHYSICIAN "dr" demo_history 10081).
  cbn. repeat split; lra.
Defined.

(** C3 as stated fails: a physician (rate 3 per minute) who completes one
    assignment of 10 minutes has accrued 24 + 9 = 33, not 3 * 10 = 30. *)
Lemma staff_cost_claim_counterexample :
  let history := [(0%Q, 10%Q, "Assess Patient a", Some ED)] in
  let s := accrue_remaining_cost 10081 (work history (new_Staff PHYSICIAN "dr")) in
  assigned_when_free 0 history ∧
  total_normal_cost s == 24 ∧ total_overtime_cost s == 9 ∧
  ¬ total_cost s == cost_per_minute PHYSICIAN * total_duration history.
Proof.
  cbv zeta. repeat split; try (cbn; lra); try reflexivity.
  intros H. vm_compute in H. discriminate H.
Qed.

(** ** The transport broker *)

Lemma min_by_busy_until_elem (l : list Staff) (m : Staff) :
  min_by_busy_until l = Some m → m ∈ l.
Proof.
  revert m. induction l as [|x l IH]; intros m H; [done|].
  cbn in H. destruct (min_by_busy_until l) as [y|].
  - destruct (Qltb (busy_until y) (busy_until x)); inversion H; subst.
    + apply list_elem_of_further. by apply IH.
    + apply list_elem_of_here.
  - inversion H. apply list_elem_of_here.
Qed.

Lemma min_by_busy_until_None (l : list Staff) :
  min_by_busy_until l = None → l = [].
Proof.
  destruct l as [|x l]; [done|]. cbn.
  destruct (min_by_busy_until l) as [y|]; [|done].
  by destruct (Qltb (busy_until y) (busy_until x)).
Qed.

Lemma sorted_head_elem (priority : Z) (l : list Staff) (m : Staff) :
  sorted_head priority l = Some m → m ∈ l.
Proof.
  revert m. induction l as [|x l IH]; intros m H; [done|].
  cbn in H. destruct (sorted_head priority l) as [y|].
  - destruct (priority_key_lt _ _); inversion H; subst.
    + apply list_elem_of_further. by apply IH.
    + apply list_elem_of_here.
  - inversion H. apply list_elem_of_here.
Qed.

Lemma sorted_head_None (priority : Z) (l : list Staff) :
  sorted_head priority l = None → l = [].
Proof.
  destruct l as [|x l]; [done|]. cbn.
  destruct (sorted_head priority l) as [y|]; [|done].
  by destruct (priority_key_lt _ _).
Qed.

Lemma elem_of_available (s : HospitalSimulator) (t : StaffType) (now : Q) (m : Staff) :
  m ∈ available s t now ↔ m ∈ all_staff s ∧ type m = t ∧ (busy_until m <= now)%Q.
Proof.
  unfold available. rewrite !list_elem_of_filter. unfold is_free.
  rewrite Qle_bool_iff. tauto.
Qed.

Lemma free_staff_available (s : HospitalSimulator) (t : StaffType) (now : Q) :
  free_staff s t now ↔ available s t now ≠ [].
Proof.
  split.
  - intros (m & Hm) E. apply elem_of_available in Hm. rewrite E in Hm.
    by apply not_elem_of_nil in Hm.
  - intros H. destruct (available s t now) as [|m l] eqn:E; [done|].
    exists m. apply elem_of_available. rewrite E. apply list_elem_of_here.
Qed.

Lemma pulley_viable_test (s : HospitalSimulator) (patient : Patient)
    (destination : UnitName) :
  bool_decide (current_unit patient ∈ (Some <$> PULLEY_ELIGIBLE_UNITS (config s)))
  && bool_decide (destination ∈ PULLEY_ELIGIBLE_DESTINATIONS (config s))
  && (pulley_in_use s <? PULLEY_SYSTEM_CAPACITY (config s)) = true
  ↔ pulley_viable s patient destination.
Proof.
  unfold pulley_viable.
  rewrite !andb_true_iff, !bool_decide_eq_true, Z.ltb_lt, list_elem_of_fmap.
  split.
  - intros [[(u & Hu & Hin) ?] ?]. eauto.
  - intros ((u & Hu & Hin) & ? & ?). eauto.
Qed.

Lemma volunteer_viable_test (s : HospitalSimulator) (patient : Patient) (now : Q) :
  SIM_MINUTES_PER_DAY (config s) = 1440 →
  VOLUNTEER_ACUITY_ELIGIBILITY (config s) = [URGENT_OBS; NON_URGENT] →
  (Qle_bool (inject_Z (VOLUNTEER_HOURS_START (config s)))
     (Qmod now (SIM_MINUTES_PER_DAY (config s)))
   && Qltb (Qmod now (SIM_MINUTES_PER_DAY (config s)))
        (inject_Z (VOLUNTEER_HOURS_END (config s)))
   && bool_decide (acuity patient ∈ VOLUNTEER_ACUITY_ELIGIBILITY (config s)) = true
   ∧ available s VOLUNTEER_TRANSPORT now ≠ [])
  ↔ volunteer_viable s patient now.
Proof.
  intros -> ->. unfold volunteer_viable.
  rewrite !andb_true_iff, bool_decide_eq_true, Qle_bool_iff, Qltb_lt,
    free_staff_available, !elem_of_cons, elem_of_nil.
  tauto.
Qed.

(** What the staffed branches have in common. *)
Lemma staffed_transport_effect (s : HospitalSimulator) (patient : Patient) (now : Q)
    (pid : string) (raw : Z) (range : Z * Z) (details : string)
    (transport : TransportType) (t : StaffType) (member : Staff)
    (way : option TransportType) (sid : option string) (dur : option Z)
    (patient' : Patient) (s' : HospitalSimulator) :
  member ∈ available s t now →
  (randint range raw ≫= λ duration,
     push_event (now + inject_Z duration)%Q STAFF_TRANSPORT_COMPLETE (Some pid)
       (Some duration)
       (set_all_staff
          (update_staff (staff_id member)
             (λ _, assign now (inject_Z duration) details (current_unit patient) member)
             (all_staff s)) s)
     ≫= λ s2,
       Ok (Some transport, Some (staff_id member), Some duration,
           set_transport_type (Some transport)
             (set_transport_assigned_time (Some now)
                (set_assigned_staff_id (Some (staff_id member)) patient)), s2))
  = Ok (way, sid, dur, patient', s') →
  way = Some transport ∧ pulley_in_use s' = pulley_in_use s ∧
  transport_type patient' = Some transport ∧
  ∃ m, m ∈ all_staff s ∧ type m = t ∧ (busy_until m <= now)%Q ∧ sid = Some (staff_id m).
Proof.
  intros Hm H. bind_inv H. bind_inv H.
  apply push_event_inv in Hr0 as (q & _ & ->). inversion H; subst.
  repeat split. exists member. apply elem_of_available in Hm. tauto.
Qed.

(** C4: a transport request takes the first viable option of the chain
    pulley, paid staff for a CRITICAL patient, volunteer (time of day
    [now mod 1440] in the volunteer window and acuity URGENT_OBS or
    NON_URGENT), any free paid staff; when no option is viable it fails and
    changes neither the patient nor the state. *)
Theorem transport_priority_chain (raw : Z) (pid : string) (patient : Patient) (now : Q)
    (destination : UnitName) (s : HospitalSimulator) :
  SIM_MINUTES_PER_DAY (config s) = 1440 →
  VOLUNTEER_ACUITY_ELIGIBILITY (config s) = [URGENT_OBS; NON_URGENT] →
  (∀ transport staff duration patient' s',
     _request_transport_resource raw pid patient now destination s
     = Ok (transport, staff, duration, patient', s') →
     first_viable s patient now destination transport ∧
     transport_effect s patient now transport staff patient' s') ∧
  (first_viable s patient now destination None →
   _request_transport_resource raw pid patient now destination s
   = Ok (None, None, None, patient, s)).
Proof.
  intros Hday Hacuity.
  pose proof (pulley_viable_test s patient destination) as Hpulley.
  pose proof (volunteer_viable_test s patient now Hday Hacuity) as Hvol.
  pose proof (free_staff_available s TRANSPORT now) as Hpaid.
  unfold _request_transport_resource.
  fold (available s TRANSPORT now). fold (available s VOLUNTEER_TRANSPORT now).
  fold (available s TRANSPORT now) in Hpaid.
  set (pulley_test := _ && _ && (pulley_in_use s <? _)) in *.
  set (window_test := Qle_bool _ _ && Qltb _ _) in *.
  destruct pulley_test.
  { (* pulley *)
    split.
    - intros way sid dur p' s' H. bind_inv H. bind_inv H.
      apply push_event_inv in Hr0 as (q & _ & ->). inversion H; subst.
      split; [apply viable_pulley; by apply Hpulley|]. by cbn.
    - intros H. inversion H as [| | | |Hn _ _]. destruct Hn. by apply Hpulley. }
  assert (¬ pulley_viable s patient destination) as Hnp.
  { intros H. apply Hpulley in H. done. }
  destruct (bool_decide (acuity patient = CRITICAL)) eqn:Hcrit.
  - apply bool_decide_eq_true in Hcrit.
    destruct (min_by_busy_until (available s TRANSPORT now)) as [m|] eqn:Hmin.
    { apply min_by_busy_until_elem in Hmin. split.
      - intros way sid dur p' s' H.
        destruct (staffed_transport_effect _ _ _ _ _ _ _ _ _ _ _ _ _ _ _ Hmin H)
          as (-> & Hp & Ht & Hex).
        split; [|by cbn].
        apply viable_paid_critical; [done..|]. apply Hpaid. intros E.
        rewrite E in Hmin. by apply not_elem_of_nil in Hmin.
      - intros H. inversion H as [| | | |_ _ Hn]. destruct Hn. apply Hpaid.
        intros E. rewrite E in Hmin. by apply not_elem_of_nil in Hmin. }
    apply min_by_busy_until_None in Hmin.
    assert (¬ free_staff s TRANSPORT now) as Hnf by (rewrite Hpaid; tauto).
    rewrite Hcrit in Hvol. rewrite Hcrit, Hacuity.
    rewrite (bool_decide_eq_false_2 (CRITICAL ∈ [URGENT_OBS; NON_URGENT]))
      by (rewrite !elem_of_cons, elem_of_nil; intros [?|[?|?]]; done).
    rewrite andb_false_r. rewrite Hmin. cbn [sorted_head].
    split.
    + intros way sid dur p' s' H. inversion H; subst. split; [|by cbn].
      apply viable_none; [done| |done]. intros (_ & _ & [?|?] & _); congruence.
    + done.
  - apply bool_decide_eq_false in Hcrit.
    destruct (window_test
              && bool_decide (acuity patient ∈ VOLUNTEER_ACUITY_ELIGIBILITY (config s)))
      eqn:Hv.
    + destruct (min_by_busy_until (available s VOLUNTEER_TRANSPORT now))
        as [m|] eqn:Hmin.
      { pose proof (min_by_busy_until_elem _ _ Hmin) as Hel. split.
        - intros way sid dur p' s' H.
          destruct (staffed_transport_effect _ _ _ _ _ _ _ _ _ _ _ _ _ _ _ Hel H)
            as (-> & Hp & Ht & Hex).
          split; [|by cbn].
          apply viable_volunteer; [done|tauto|]. apply Hvol. split; [done|].
          intros E. rewrite E in Hel. by apply not_elem_of_nil in Hel.
        - intros H. inversion H as [| | | |_ Hn _]. destruct Hn. apply Hvol.
          split; [done|]. intros E. rewrite E in Hmin. done. }
      apply min_by_busy_until_None in Hmin.
      assert (¬ volunteer_viable s patient now) as Hnv by (rewrite <- Hvol; tauto).
      destruct (sorted_head _ (available s TRANSPORT now)) as [m|] eqn:Hhead.
      { apply sorted_head_elem in Hhead. split.
        - intros way sid dur p' s' H.
          destruct (staffed_transport_effect _ _ _ _ _ _ _ _ _ _ _ _ _ _ _ Hhead H)
            as (-> & Hp & Ht & Hex).
          split; [|by cbn].
          apply viable_paid; [done|tauto|done|]. apply Hpaid. intros E.
          rewrite E in Hhead. by apply not_elem_of_nil in Hhead.
        - intros H. inversion H as [| | | |_ _ Hn]. destruct Hn. apply Hpaid.
          intros E. rewrite E in Hhead. by apply not_elem_of_nil in Hhead. }
      apply sorted_head_None in Hhead. split.
      * intros way sid dur p' s' H. inversion H; subst. split; [|by cbn].
        apply viable_none; [done..|]. rewrite Hpaid. tauto.
      * done.
    + assert (¬ volunteer_viable s patient now) as Hnv.
      { rewrite <- Hvol. intros [E _]. congruence. }
      destruct (sorted_head _ (available s TRANSPORT now)) as [m|] eqn:Hhead.
      { apply sorted_head_elem in Hhead. split.
        - intros way sid dur p' s' H.
          destruct (staffed_transport_effect _ _ _ _ _ _ _ _ _ _ _ _ _ _ _ Hhead H)
            as (-> & Hp & Ht & Hex).
          split; [|by cbn].
          apply viable_paid; [done|tauto|done|]. apply Hpaid. intros E.
          rewrite E in Hhead. by apply not_elem_of_nil in Hhead.
        - intros H. inversion H as [| | | |_ _ Hn]. destruct Hn. apply Hpaid.
          intros E. rewrite E in Hhead. by apply not_elem_of_nil in Hhead. }
      apply sorted_head_None in Hhead. split.
      * intros way sid dur p' s' H. inversion H; subst. split; [|by cbn].
        apply viable_none; [done..|]. rewrite Hpaid. tauto.
      * done.
Qed.

Lemma transport_priority_chain_witness :
  (∀ transport staff duration patient' s',
     _request_transport_resource 3 "p" demo_patient 540 LAB demo_simulator
     = Ok (transport, staff, duration, patient', s') →
     first_viable demo_simulator demo_patient 540 LAB transport ∧
     transport_effect demo_simulator demo_patient 540 transport staff patient' s') ∧
  (first_viable demo_simulator demo_patient 540 LAB None →
   _request_transport_resource 3 "p" demo_patient 540 LAB demo_simulator
   = Ok (None, None, None, demo_patient, demo_simulator)).
Proof.
  apply (transport_priority_chain 3 "p" demo_patient 540 LAB demo_simulator);
    reflexivity.
Defined.

(** ** Units never exceed their capacity *)

Lemma update_unit_lookup (n m : UnitName) (u : Unit) (us : UnitName → Unit) :
  update_unit n u us m = if decide (m = n) then u else us m.
Proof. by destruct m. Qed.

Lemma size_add_occupant (pid : string) (X : gset string) :
  (size ({[pid]} ∪ X) ≤ S (size X))%nat.
Proof.
  destruct (decide (pid ∈ X)) as [Hin|Hout].
  - rewrite (subseteq_union_1_L {[pid]} X) by by apply singleton_subseteq_l. lia.
  - rewrite size_union by by apply disjoint_singleton_l.
    rewrite size_singleton. lia.
Qed.

Lemma patient_lt_total (a b : QueueEntry) : ∃ r, patient_lt a b = Ok r.
Proof. unfold patient_lt. eauto. Qed.

(** [admit_patient] never raises; it admits exactly when there is room. *)
Lemma admit_patient_inv (u : Unit) (pid : string) (patient : Patient) (sim_time : Q) :
  ∃ (b : bool) (u' : Unit) (patient' : Patient),
    admit_patient u pid patient sim_time = Ok (b, u', patient') ∧
    capacity u' = capacity u ∧ name u' = name u ∧
    staff_assigned u' = staff_assigned u ∧
    (b = true ↔ Z.of_nat (size (patients_in_unit u)) < capacity u) ∧
    patients_in_unit u'
      = (if b then {[pid]} ∪ patients_in_unit u else patients_in_unit u) ∧
    patient'
      = (if b then
           add_event sim_time ("ADMITTED_TO_" +:+ unit_str (name u))
             (Some (unit_str (name u))) (set_current_unit (Some (name u)) patient)
         else patient).
Proof.
  unfold admit_patient.
  destruct (Z.of_nat (size (patients_in_unit u)) <? capacity u) eqn:E.
  - apply Z.ltb_lt in E. cbn [queue set_patients_in_unit].
    destruct (in_queue pid (queue u)).
    + destruct (heapify_total patient_lt patient_lt_total (queue_remove pid (queue u)))
        as [q Hq].
      rewrite Hq. cbn [mbind result_mbind result_bind].
      eexists true, _, _. split; [reflexivity|]. cbn. done.
    + cbn [mbind result_mbind result_bind].
      eexists true, _, _. split; [reflexivity|]. cbn. done.
  - apply Z.ltb_ge in E. exists false, u, patient. repeat split; try done. lia.
Qed.

Lemma admit_patient_within (u u' : Unit) (pid : string) (patient patient' : Patient)
    (sim_time : Q) (b : bool) :
  admit_patient u pid patient sim_time = Ok (b, u', patient') →
  capacity u' = capacity u ∧ name u' = name u ∧
  (within_capacity u → within_capacity u').
Proof.
  intros H.
  destruct (admit_patient_inv u pid patient sim_time)
    as (b0 & u0 & p0 & H0 & Hcap & Hname & _ & Hb & Hin & _).
  rewrite H in H0. inversion H0; subst. repeat split; [done..|].
  unfold within_capacity. rewrite Hin, Hcap. destruct b0; [|done].
  intros _. pose proof (size_add_occupant pid (patients_in_unit u)).
  destruct Hb as [Hb _]. specialize (Hb eq_refl). lia.
Qed.

Lemma discharge_patient_within (u u' : Unit) (pid : string) (patient patient' : Patient)
    (sim_time : Q) (b : bool) :
  discharge_patient u pid patient sim_time = (b, u', patient') →
  capacity u' = capacity u ∧ name u' = name u ∧
  (within_capacity u → within_capacity u').
Proof.
  unfold discharge_patient, within_capacity.
  destruct (decide (pid ∈ patients_in_unit u)); intros H; inversion H; subst;
    cbn; repeat split; try done.
  intros Hw. assert (size (patients_in_unit u ∖ {[pid]}) ≤ size (patients_in_unit u))%nat.
  { apply subseteq_size, subseteq_difference_l. done. }
  lia.
Qed.

Lemma units_step_refl (s : HospitalSimulator) : units_step s s.
Proof. by intros n. Qed.

Lemma units_step_trans (s1 s2 s3 : HospitalSimulator) :
  units_step s1 s2 → units_step s2 s3 → units_step s1 s3.
Proof.
  intros H12 H23 n. destruct (H12 n) as (? & ? & ?), (H23 n) as (? & ? & ?).
  repeat split; [congruence..|tauto].
Qed.

(** A state that differs in its units by one replaced unit. *)
Lemma units_step_update (s s' : HospitalSimulator) (n : UnitName) (u : Unit) :
  units s' = update_unit n u (units s) →
  capacity u = capacity (units s n) ∧ name u = name (units s n) ∧
  (within_capacity (units s n) → within_capacity u) →
  units_step s s'.
Proof.
  intros Hu Hfacts m. rewrite Hu, update_unit_lookup.
  destruct (decide (m = n)) as [->|]; [done|by repeat split].
Qed.

Lemma units_step_same (s s' : HospitalSimulator) : units s' = units s → units_step s s'.
Proof. intros Hu n. by rewrite Hu. Qed.

Lemma leave_current_unit_inv (pid : string) (patient patient' : Patient) (event_time : Q)
    (s s' : HospitalSimulator) :
  leave_current_unit pid patient event_time s = (patient', s') →
  (s' = s ∧ patient' = patient) ∨
  ∃ n,
    current_unit patient = Some n ∧ pid ∈ patients_in_unit (units s n) ∧
    s' = put_unit n (set_patients_in_unit (patients_in_unit (units s n) ∖ {[pid]})
                       (units s n)) s ∧
    patient' = add_event event_time ("DISCHARGED_FROM_" +:+ unit_str (name (units s n)))
                 (Some (unit_str (name (units s n)))) patient.
Proof.
  unfold leave_current_unit. intros H.
  destruct (current_unit patient) as [n|]; [|left; by inversion H].
  destruct (decide (pid ∈ patients_in_unit (units s n))) as [Hin|];
    [|left; by inversion H].
  unfold discharge_patient in H. rewrite decide_True in H by done.
  inversion H; subst. right. by exists n.
Qed.

Lemma leave_current_unit_units (pid : string) (patient patient' : Patient)
    (event_time : Q) (s s' : HospitalSimulator) :
  leave_current_unit pid patient event_time s = (patient', s') → units_step s s'.
Proof.
  intros H. apply leave_current_unit_inv in H as [[-> _]|(n & _ & _ & -> & _)].
  - apply units_step_refl.
  - eapply units_step_update; [reflexivity|]. cbn. repeat split.
    unfold within_capacity. cbn. intros Hw.
    assert (size (patients_in_unit (units s n) ∖ {[pid]})
            ≤ size (patients_in_unit (units s n)))%nat.
    { apply subseteq_size, subseteq_difference_l. done. }
    lia.
Qed.

Lemma units_step_through (s a b s' : HospitalSimulator) :
  units a = units s → units_step a b → units s' = units b → units_step s s'.
Proof. intros Ha Hab Hb n. rewrite Hb, <- Ha. apply Hab. Qed.

Lemma process_event_units (d : Draws) (event_time : Q) (k : EventKind)
    (pid : option string) (payload : option Z) (s s' : HospitalSimulator) :
  _process_event d event_time k pid payload s = Ok s' → units_step s s'.
Proof.
  intros H. open_handlers H k.
  all: exec.
  all: frames.
  all: sim_fields.
  all: try match goal with
       | H : leave_current_unit _ _ _ ?a = (_, ?b) |- units_step ?s _ =>
           apply leave_current_unit_units in H;
           apply (units_step_through s a b); [reflexivity | exact H | reflexivity]
       end.
  all: try (apply units_step_same; reflexivity).
  all: try (eapply units_step_update; [reflexivity|];
            first [ eapply admit_patient_within; eassumption
                  | eapply discharge_patient_within; eassumption
                  | by (unfold within_capacity; cbn) ]).
Qed.

Lemma seed_events_units (s s' : HospitalSimulator) :
  seed_events s = Ok s' → units s' = units s.
Proof. unfold seed_events. intros H. exec; frames; reflexivity. Qed.

Lemma loop_iteration_units (d : Draws) (s s' : HospitalSimulator) :
  loop_iteration d s = Ok (Some s') → units_step s s'.
Proof.
  unfold loop_iteration. intros H. exec.
  - by apply units_step_same.
  - apply process_event_units in Hr0. intros n. apply (Hr0 n).
Qed.

Lemma event_loop_units (n : nat) (draws : nat → Draws) (s s' : HospitalSimulator)
    (over : bool) :
  event_loop n draws s = Ok (over, s') → units_step s s'.
Proof.
  revert draws s. induction n as [|n IH]; intros draws s H.
  - cbn in H. inversion H; subst. apply units_step_refl.
  - cbn [event_loop] in H. bind_inv H. destruct r as [s1|].
    + eapply units_step_trans; [by eapply loop_iteration_units|by eapply IH].
    + inversion H; subst. apply units_step_refl.
Qed.

(** Hiring only touches the rosters. *)
Lemma hire_units (count : nat) (t : StaffType) (unit_name : option UnitName)
    (ids : nat → string) (st : nat * list Staff * (UnitName → Unit)) (n : UnitName) :
  capacity ((hire count t unit_name ids st).2 n) = capacity (st.2 n) ∧
  patients_in_unit ((hire count t unit_name ids st).2 n) = patients_in_unit (st.2 n).
Proof.
  revert st. induction count as [|count IH]; intros [[next staff] us]; [done|].
  cbn [hire]. destruct (IH (S next, staff ++ [new_Staff t (ids next)],
    match unit_name with
    | Some m => update_unit m (append_to_roster t (ids next) (us m)) us
    | None => us
    end)) as [-> ->].
  cbn [snd]. destruct unit_name as [m|]; [|done].
  rewrite update_unit_lookup. by destruct (decide (n = m)) as [->|].
Qed.

Lemma initialize_staff_units (cfg : Config) (ids : nat → string) (us : UnitName → Unit)
    (n : UnitName) :
  capacity ((_initialize_staff cfg ids us).2 n) = capacity (us n) ∧
  patients_in_unit ((_initialize_staff cfg ids us).2 n) = patients_in_unit (us n).
Proof.
  unfold _initialize_staff.
  set (per_unit := λ (st : nat * list Staff * (UnitName → Unit))
                     '(unit_name, staff_config), fold_left _ staff_config st).
  assert (∀ l st,
            capacity ((fold_left per_unit l st).2 n) = capacity (st.2 n) ∧
            patients_in_unit ((fold_left per_unit l st).2 n) = patients_in_unit (st.2 n))
    as Hfold.
  { induction l as [|[m staff_config] l IH]; intros st; [done|].
    cbn [fold_left]. destruct (IH (per_unit st (m, staff_config))) as [-> ->].
    unfold per_unit. clear IH. revert st.
    induction staff_config as [|[t count] staff_config IH]; intros st; [done|].
    cbn [fold_left]. destruct (IH (hire (Z.to_nat count) t (Some m) ids st)) as [-> ->].
    apply hire_units. }
  destruct (hire _ VOLUNTEER_TRANSPORT None ids _) as [[next staff] us1] eqn:E.
  cbn [snd]. change us1 with ((next, staff, us1).2). rewrite <- E.
  destruct (hire_units (Z.to_nat (VOLUNTEER_TRANSPORT_STAFF cfg)) VOLUNTEER_TRANSPORT None
              ids (hire (Z.to_nat (TRANSPORT_STAFF cfg)) TRANSPORT None ids
                     (fold_left per_unit (STAFF_PER_UNIT cfg) (0%nat, [], us))) n)
    as [-> ->].
  destruct (hire_units (Z.to_nat (TRANSPORT_STAFF cfg)) TRANSPORT None ids
              (fold_left per_unit (STAFF_PER_UNIT cfg) (0%nat, [], us)) n) as [-> ->].
  apply Hfold.
Qed.

Lemma new_simulator_units (cfg : Config) (ids : nat → string)
    (cdu ai_imaging ai_staffing amenities ai_entertainment : bool) (n : UnitName) :
  let s := new_HospitalSimulator cfg ids cdu ai_imaging ai_staffing amenities
             ai_entertainment in
  capacity (units s n) = configured_capacity cfg cdu n ∧ patients_in_unit (units s n) = ∅.
Proof.
  unfold new_HospitalSimulator.
  pose proof (initialize_staff_units cfg ids (_initialize_units cfg cdu) n) as H.
  destruct (_initialize_staff cfg ids (_initialize_units cfg cdu)) as [staff us].
  cbn [units snd] in *. destruct H as [-> ->]. by destruct n.
Qed.

(** C5: [admit_patient] returns true and inserts the patient exactly when
    the occupant count is strictly below the capacity at the call, and at
    every event boundary of a run every unit holds at most its capacity of
    patients (the capacity being the one of the configuration). *)
Theorem unit_capacity_invariant :
  (∀ (u : Unit) (pid : string) (patient : Patient) (sim_time : Q),
     (∃ u' patient',
        admit_patient u pid patient sim_time = Ok (true, u', patient') ∧
        pid ∈ patients_in_unit u')
     ↔ Z.of_nat (size (patients_in_unit u)) < capacity u) ∧
  (∀ (cfg : Config) (ids : nat → string)
     (cdu ai_imaging ai_staffing amenities ai_entertainment : bool)
     (n : nat) (draws : nat → Draws) (over : bool) (s : HospitalSimulator),
     (∀ u, 0 ≤ UNIT_CAPACITY cfg u) → 0 ≤ CDU_BEDS cfg →
     boundary cfg ids cdu ai_imaging ai_staffing amenities ai_entertainment n draws
     = Ok (over, s) →
     ∀ u, capacity (units s u) = configured_capacity cfg cdu u ∧
          Z.of_nat (size (patients_in_unit (units s u))) ≤ capacity (units s u)).
Proof.
  split.
  - intros u pid patient sim_time.
    destruct (admit_patient_inv u pid patient sim_time)
      as (b & u' & p' & H & _ & _ & _ & Hb & Hin & _).
    split.
    + intros (u1 & p1 & H1 & _). rewrite H in H1. inversion H1; subst. by apply Hb.
    + intros Hlt. apply Hb in Hlt as ->. exists u', p'. split; [done|].
      rewrite Hin. apply elem_of_union_l. by apply elem_of_singleton.
  - intros cfg ids cdu ai_imaging ai_staffing amenities ai_entertainment n draws over s
      Hcap Hcdu H u.
    unfold boundary in H. bind_inv H.
    apply seed_events_units in Hr. apply event_loop_units in H.
    destruct (H u) as (Hc & _ & Hw).
    destruct (new_simulator_units cfg ids cdu ai_imaging ai_staffing amenities
                ai_entertainment u) as [Hc0 He0].
    cbv zeta in Hc0, He0. rewrite Hr in Hc, Hw. split; [congruence|].
    apply Hw. unfold within_capacity. rewrite He0, Hc0, size_empty.
    destruct u; cbn; try apply Hcap. destruct cdu; [done|lia].
Qed.

Lemma unit_capacity_invariant_witness :
  match boundary Config_base demo_ids true true true true true 60 demo_draws with
  | Ok (_, s) =>
      ∀ u, capacity (units s u) = configured_capacity Config_base true u ∧
           Z.of_nat (size (patients_in_unit (units s u))) ≤ capacity (units s u)
  | Raise _ => False
  end.
Proof.
  destruct (boundary Config_base demo_ids true true true true true 60 demo_draws)
    as [[over s]|e] eqn:E.
  - apply (proj2 unit_capacity_invariant Config_base demo_ids true true true true true
             60%nat demo_draws over s); [by intros []|done|exact E].
  - vm_compute in E. discriminate E.
Defined.

(** ** The pulley counter stays within its bounds *)

Lemma count_pulley_cons (e : Event) (q : list Event) :
  Z.of_nat (count_pulley (e :: q))
  = Z.of_nat (count_pulley q) + is_pulley_complete (kind e).
Proof.
  unfold count_pulley, is_pulley_complete. rewrite filter_cons.
  destruct (kind e); (rewrite decide_False by done) || (rewrite decide_True by done);
    cbn [length]; lia.
Qed.

Lemma count_pulley_perm (q q' : list Event) :
  q ≡ₚ q' → count_pulley q = count_pulley q'.
Proof. intros H. unfold count_pulley. by rewrite H. Qed.

Lemma count_pulley_push (q q' : list Event) (e : Event) :
  heappush event_lt q e = Ok q' →
  Z.of_nat (count_pulley q') = Z.of_nat (count_pulley q) + is_pulley_complete (kind e).
Proof.
  intros H. apply heappush_items in H.
  rewrite (count_pulley_perm _ _ H). apply count_pulley_cons.
Qed.

Lemma count_pulley_pop (q q' : list Event) (e : Event) :
  heappop event_lt q = Ok (e, q') →
  Z.of_nat (count_pulley q) = Z.of_nat (count_pulley q') + is_pulley_complete (kind e).
Proof.
  intros H. apply heappop_items in H.
  rewrite (count_pulley_perm _ _ H). apply count_pulley_cons.
Qed.

(** Turns every push into its effect on the number of pulley events. *)
Ltac count_pushes :=
  repeat match goal with
  | H : heappush event_lt _ _ = Ok _ |- _ =>
      apply count_pulley_push in H; cbn [kind] in H
  end.

Lemma process_event_pulley (d : Draws) (event_time : Q) (k : EventKind)
    (pid : option string) (payload : option Z) (s s' : HospitalSimulator) :
  _process_event d event_time k pid payload s = Ok s' → pulley_step k s s'.
Proof.
  intros H. open_handlers H k.
  all: exec.
  all: frames.
  all: repeat match goal with
       | H : leave_current_unit _ _ _ _ = _ |- _ =>
           apply leave_current_unit_inv in H as [[-> ->]|(? & ? & ? & -> & ->)]
       end.
  all: sim_fields.
  all: count_pushes.
  all: unfold pulley_step; sim_fields.
  all: repeat match goal with
       | H : _ ∈ _ :: _ |- _ => apply elem_of_cons in H as [->|H]
       | H : _ ∈ [] |- _ => by apply elem_of_nil in H
       end.
  all: repeat match goal with t : TransportType |- _ => destruct t end.
  all: subst; cbn [is_pulley_complete] in *.
  all: repeat match goal with H : ?a = ?a → _ |- _ => specialize (H eq_refl) end.
  all: try (split; [reflexivity|]; split; lia).
Qed.

Lemma seed_events_pulley (s s' : HospitalSimulator) :
  seed_events s = Ok s' →
  config s' = config s ∧ pulley_in_use s' = pulley_in_use s ∧
  count_pulley (event_queue s') = count_pulley (event_queue s).
Proof.
  unfold seed_events. intros H. exec; frames; sim_fields; count_pushes;
    cbn [is_pulley_complete] in *; repeat split; lia.
Qed.

Lemma loop_iteration_pulley (d : Draws) (s s' : HospitalSimulator) :
  loop_iteration d s = Ok (Some s') →
  pulley_ok s → pulley_ok s' ∧ config s' = config s.
Proof.
  unfold loop_iteration, pulley_ok. intros H [Hcount Hcap]. exec.
  - apply count_pulley_pop in Hr. sim_fields.
    assert (0 ≤ is_pulley_complete (kind e)) by (by destruct (kind e)).
    split; [lia|done].
  - apply count_pulley_pop in Hr. apply process_event_pulley in Hr0 as (Hc & Hle & Heq).
    sim_fields. rewrite Hc. split; [|done]. lia.
Qed.

Lemma event_loop_pulley (n : nat) (draws : nat → Draws) (s s' : HospitalSimulator)
    (over : bool) :
  event_loop n draws s = Ok (over, s') →
  pulley_ok s → pulley_ok s' ∧ config s' = config s.
Proof.
  revert draws s. induction n as [|n IH]; intros draws s H Hok.
  - cbn in H. by inversion H; subst.
  - cbn [event_loop] in H. bind_inv H. destruct r as [s1|].
    + apply loop_iteration_pulley in Hr as [Hok1 Hc1]; [|done].
      apply IH in H as [Hok' Hc']; [|done]. split; [done|congruence].
    + by inversion H; subst.
Qed.

Lemma new_simulator_pulley (cfg : Config) (ids : nat → string)
    (cdu ai_imaging ai_staffing amenities ai_entertainment : bool) :
  let s := new_HospitalSimulator cfg ids cdu ai_imaging ai_staffing amenities
             ai_entertainment in
  config s = cfg ∧ pulley_in_use s = 0 ∧ event_queue s = [] ∧ patients s = ∅.
Proof.
  unfold new_HospitalSimulator.
  by destruct (_initialize_staff cfg ids (_initialize_units cfg cdu)).
Qed.

(** C6: the broker increments the pulley counter only when it is strictly
    below the capacity, and at every event boundary of every run the counter
    lies between the number of pulley transports still under way (so every
    decrement matches an earlier increment) and the capacity; in particular
    [0 <= pulley_in_use <= PULLEY_SYSTEM_CAPACITY]. *)
Theorem pulley_counter_invariant :
  (∀ raw pid patient now destination s transport staff duration patient' s',
     _request_transport_resource raw pid patient now destination s
     = Ok (transport, staff, duration, patient', s') →
     match transport with
     | Some PULLEY =>
         pulley_in_use s < PULLEY_SYSTEM_CAPACITY (config s) ∧
         pulley_in_use s' = pulley_in_use s + 1
     | _ => pulley_in_use s' = pulley_in_use s
     end) ∧
  (∀ (cfg : Config) (ids : nat → string)
     (cdu ai_imaging ai_staffing amenities ai_entertainment : bool)
     (n : nat) (draws : nat → Draws) (over : bool) (s : HospitalSimulator),
     0 ≤ PULLEY_SYSTEM_CAPACITY cfg →
     boundary cfg ids cdu ai_imaging ai_staffing amenities ai_entertainment n draws
     = Ok (over, s) →
     0 ≤ pulley_in_use s ∧ pulley_in_use s ≤ PULLEY_SYSTEM_CAPACITY cfg ∧
     Z.of_nat (count_pulley (event_queue s)) ≤ pulley_in_use s).
Proof.
  split.
  - intros raw pid patient now destination s transport staff duration patient' s' H.
    apply request_transport_inv in H. destruct transport as [way|].
    + destruct H as (l & q & d & k & -> & _ & _ & Hlt & _).
      destruct way; sim_fields; [split; [by apply Hlt|done]|done..].
    + by destruct H as [-> _].
  - intros cfg ids cdu ai_imaging ai_staffing amenities ai_entertainment n draws over s
      Hcap H.
    unfold boundary in H. bind_inv H.
    destruct (new_simulator_pulley cfg ids cdu ai_imaging ai_staffing amenities
                ai_entertainment) as (Hc0 & Hp0 & Hq0 & _).
    cbv zeta in Hc0, Hp0, Hq0.
    apply seed_events_pulley in Hr as (Hc1 & Hp1 & Hq1).
    apply event_loop_pulley in H as [[Hcount Hle] Hc].
    + rewrite Hc, Hc1, Hc0 in Hle. lia.
    + unfold pulley_ok. rewrite Hq1, Hq0, Hp1, Hp0, Hc1, Hc0. cbn. lia.
Qed.

Lemma pulley_counter_invariant_witness :
  match boundary (with_pulley_capacity 2 Config_base) demo_ids true true true true true
          45 imaging_draws with
  | Ok (_, s) =>
      0 ≤ pulley_in_use s ∧ pulley_in_use s ≤ 2 ∧
      Z.of_nat (count_pulley (event_queue s)) ≤ pulley_in_use s
  | Raise _ => False
  end.
Proof.
  destruct (boundary (with_pulley_capacity 2 Config_base) demo_ids true true true true
              true 45 imaging_draws) as [[over s]|e] eqn:E.
  - apply (proj2 pulley_counter_invariant (with_pulley_capacity 2 Config_base) demo_ids
             true true true true true 45%nat imaging_draws over s); [done|exact E].
  - vm_compute in E. discriminate E.
Defined.

(** ** Patient satisfaction score *)

(** C7: for every ED length of stay [L] the score is the base score (100 up
    to 30 minutes, 1 from 480 minutes on, the linear interpolation
    [100 - ((L - 30) / 450) * 99] in between) plus 10 when amenities are
    enabled and plus 15 when entertainment is enabled, clamped into
    [[1, 100]]. *)
Theorem satisfaction_score_spec (s : HospitalSimulator) (L : Q) :
  SATISFACTION_AMENITIES_BONUS (config s) = 10 →
  SATISFACTION_ENTERTAINMENT_BONUS (config s) = 15 →
  ∃ base : Q,
    is_base_score L base ∧
    is_clamped
      (base + satisfaction_bonus (enable_amenities s) (enable_ai_entertainment s))
      (_get_patient_satisfaction_score s L).
Proof.
  intros Ha He. unfold _get_patient_satisfaction_score. rewrite Ha, He.
  exists (if Qle_bool L 30 then 100%Q
          else if Qle_bool 480 L then 1%Q else (100 - (L - 30) / (480 - 30) * 99)%Q).
  split.
  - unfold is_base_score. Qcases; repeat split; intros; lra.
  - unfold is_clamped, satisfaction_bonus, Qmin.
    destruct (enable_amenities s), (enable_ai_entertainment s);
      cbv [inject_Z]; Qcases; unfold Qmax; Qcases; repeat split; intros; lra.
Qed.

Lemma satisfaction_score_spec_witness :
  ∃ base : Q,
    is_base_score 255 base ∧
    is_clamped (base + satisfaction_bonus true true)
      (_get_patient_satisfaction_score demo_simulator 255).
Proof. apply (satisfaction_score_spec demo_simulator 255); reflexivity. Defined.

(** ** Time-weighted occupancy and utilization *)

Lemma occupancy_step_shift (a : Q * Z) (l : list (Q * Z)) (k m : nat) (acc : Q) :
  (1 ≤ k)%nat →
  fold_left (occupancy_step (a :: l)) (seq (S k) m) acc
  = fold_left (occupancy_step l) (seq k m) acc.
Proof.
  revert k acc. induction m as [|m IH]; intros k acc Hk; [done|].
  simpl. rewrite IH by lia. f_equal.
  unfold occupancy_step, occ_count, occ_time.
  destruct k as [|k]; [lia|]. simpl. by rewrite Nat.sub_0_r.
Qed.

Lemma occupancy_fold_area (l : list (Q * Z)) (acc : Q) :
  fold_left (occupancy_step l) (seq 1 (length l - 1)) acc == acc + stepwise_area l.
Proof.
  revert acc. induction l as [|[t0 c0] l IH]; intros acc; [simpl; lra|].
  destruct l as [|[t1 c1] l']; [simpl; lra|].
  change (length ((t0, c0) :: (t1, c1) :: l') - 1)%nat with (S (length l')).
  change (seq 1 (S (length l'))) with (1%nat :: seq 2 (length l')).
  cbn [fold_left].
  rewrite (occupancy_step_shift (t0, c0) ((t1, c1) :: l') 1 (length l')) by lia.
  specialize (IH (occupancy_step ((t0, c0) :: (t1, c1) :: l') acc 1)).
  change (length ((t1, c1) :: l') - 1)%nat with (length l' - 0)%nat in IH.
  rewrite Nat.sub_0_r in IH. rewrite IH.
  change (stepwise_area ((t0, c0) :: (t1, c1) :: l'))
    with (inject_Z c0 * (t1 - t0) + stepwise_area ((t1, c1) :: l'))%Q.
  unfold occupancy_step, occ_count, occ_time. simpl nth. simpl fst. simpl snd. lra.
Qed.

Lemma nth_last_point (l : list (Q * Z)) (x d : Q * Z) :
  last l = Some x → nth (length l - 1) l d = x.
Proof.
  intros H. rewrite last_lookup in H. rewrite nth_lookup.
  replace (length l - 1)%nat with (Nat.pred (length l)) by lia. by rewrite H.
Qed.

Lemma weighted_average_spec (l : list (Q * Z)) :
  calculate_weighted_average_occupancy l
    (SIM_END_TIME Config_base - SIM_START_TIME Config_base)
  == time_weighted_average (inject_Z (SIM_END_TIME Config_base)) l.
Proof.
  unfold calculate_weighted_average_occupancy, time_weighted_average.
  destruct l as [|[t0 c0] [|[t1 c1] l']]; [reflexivity..|].
  set (l := (t0, c0) :: (t1, c1) :: l').
  destruct (decide (1 < length l)%nat) as [_|Hn]; [|simpl in Hn; lia].
  destruct (last l) as [[tn cn]|] eqn:Hlast; [|by apply last_None in Hlast].
  unfold occ_count, occ_time.
  rewrite (nth_last_point l (tn, cn)) by done.
  change (0 <? SIM_END_TIME Config_base - SIM_START_TIME Config_base) with true.
  cbv iota. change (SIM_END_TIME Config_base - SIM_START_TIME Config_base) with 10080.
  change (SIM_END_TIME Config_base) with 10080.
  rewrite occupancy_fold_area.
  simpl fst. simpl snd. field.
Qed.

Lemma utilization_spec (avg : Q) (beds : Z) :
  utilization avg beds == utilization_percentage avg beds.
Proof.
  unfold utilization, utilization_percentage.
  destruct (decide (0 < beds)) as [H|H].
  - rewrite (proj2 (Z.ltb_lt 0 beds) H). field.
    intros E. unfold Qeq in E. simpl in E. lia.
  - rewrite (proj2 (Z.ltb_ge 0 beds)) by lia. reflexivity.
Qed.

(** C8: over the horizon [H] the average of a series of points [(t_i, c_i)]
    is [(1/H) * (sum of c_{i-1} * (t_i - t_{i-1}) + c_{n-1} * (H - t_{n-1}))],
    the count of the only point for a one-point series and 0 for an empty
    one; each utilization of the report is [100 * average / capacity] when
    the capacity is positive and 0 otherwise. *)
Theorem report_occupancy_spec :
  let H := inject_Z (SIM_END_TIME Config_base) in
  (∀ l : list (Q * Z),
     calculate_weighted_average_occupancy l
       (SIM_END_TIME Config_base - SIM_START_TIME Config_base)
     == time_weighted_average H l) ∧
  (∀ m : MetricsTracker,
     let r := report m in
     cdu_avg_occupancy r == time_weighted_average H (cdu_occupancy_times m) ∧
     avg_inpatient_occupancy r
       == time_weighted_average H (inpatient_occupancy_times m) ∧
     pulley_avg_occupancy r == time_weighted_average H (pulley_utilization_times m) ∧
     cdu_avg_utilization r
       == utilization_percentage (cdu_avg_occupancy r) (CDU_BEDS Config_base) ∧
     inpatient_avg_utilization r
       == utilization_percentage (avg_inpatient_occupancy r) (INPATIENT_BEDS Config_base) ∧
     pulley_avg_utilization r
       == utilization_percentage (pulley_avg_occupancy r)
            (PULLEY_SYSTEM_CAPACITY Config_base)).
Proof.
  split; [exact weighted_average_spec|].
  intros m r. unfold r, report. cbn [cdu_avg_occupancy avg_inpatient_occupancy
    pulley_avg_occupancy cdu_avg_utilization inpatient_avg_utilization
    pulley_avg_utilization].
  repeat split; first [apply weighted_average_spec | apply utilization_spec].
Qed.

(** ** Disposition is recorded once *)

Lemma disposition_metrics (u : Q) (pid : string) (patient patient' : Patient)
    (event_time : Q) (s s' : HospitalSimulator) :
  _determine_patient_disposition u pid patient event_time s = Ok (patient', s') →
  enable_amenities s' = enable_amenities s ∧
  enable_ai_entertainment s' = enable_ai_entertainment s ∧
  config s' = config s ∧
  match ed_disposition_time patient with
  | Some t0 =>
      ed_disposition_time patient' = Some t0 ∧
      ed_los_list (metrics s') = ed_los_list (metrics s) ∧
      patient_satisfaction_scores (metrics s') = patient_satisfaction_scores (metrics s)
  | None =>
      ed_disposition_time patient' = Some event_time ∧
      ed_los_list (metrics s')
        = ed_los_list (metrics s) ++ [(event_time - arrival_time patient)%Q] ∧
      patient_satisfaction_scores (metrics s')
        = patient_satisfaction_scores (metrics s)
          ++ [_get_patient_satisfaction_score s (event_time - arrival_time patient)%Q]
  end ∧
  arrival_time patient' = arrival_time patient.
Proof.
  unfold _determine_patient_disposition. intros H.
  destruct (ed_disposition_time patient) as [t0|] eqn:Ht;
    cbn [acuity set_ed_disposition_time] in H;
    destruct (acuity patient);
    repeat match type of H with
    | (if ?c then _ else _) = _ => destruct c
    end;
    bind_inv H; apply push_event_inv in Hr as (q & _ & ->);
    inversion H; subst; cbn; by rewrite ?Ht.
Qed.

Lemma dispositions_after_first (calls : list (Q * Q)) (pid : string)
    (patient patient' : Patient) (s s' : HospitalSimulator) (t0 : Q) :
  ed_disposition_time patient = Some t0 →
  dispositions calls pid patient s = Ok (patient', s') →
  ed_disposition_time patient' = Some t0 ∧
  ed_los_list (metrics s') = ed_los_list (metrics s) ∧
  patient_satisfaction_scores (metrics s') = patient_satisfaction_scores (metrics s).
Proof.
  revert patient s. induction calls as [|[u t] calls IH]; intros patient s Ht H.
  - cbn in H. by inversion H; subst.
  - cbn [dispositions] in H. bind_inv H. destruct r as [p1 s1].
    apply disposition_metrics in Hr as (_ & _ & _ & Hr & _). rewrite Ht in Hr.
    destruct Hr as (Ht1 & Hl & Hs).
    destruct (IH p1 s1 Ht1 H) as (? & ? & ?). repeat split; congruence.
Qed.

(** C9: however many times the disposition routine runs for a patient,
    [ed_disposition_time] is the time of the first run and never changes
    afterwards, and exactly one ED length of stay and one satisfaction score
    are recorded for the patient (none when the time was already set). *)
Theorem disposition_recorded_once (calls : list (Q * Q)) (u event_time : Q)
    (pid : string) (patient patient' : Patient) (s s' : HospitalSimulator) :
  dispositions ((u, event_time) :: calls) pid patient s = Ok (patient', s') →
  match ed_disposition_time patient with
  | None =>
      let ed_los := (event_time - arrival_time patient)%Q in
      ed_disposition_time patient' = Some event_time ∧
      ed_los_list (metrics s') = ed_los_list (metrics s) ++ [ed_los] ∧
      patient_satisfaction_scores (metrics s')
        = patient_satisfaction_scores (metrics s)
          ++ [_get_patient_satisfaction_score s ed_los]
  | Some t0 =>
      ed_disposition_time patient' = Some t0 ∧
      ed_los_list (metrics s') = ed_los_list (metrics s) ∧
      patient_satisfaction_scores (metrics s') = patient_satisfaction_scores (metrics s)
  end.
Proof.
  intros H. destruct (ed_disposition_time patient) as [t0|] eqn:Ht.
  - exact (dispositions_after_first _ pid patient patient' s s' t0 Ht H).
  - cbn [dispositions] in H. bind_inv H. destruct r as [p1 s1].
    apply disposition_metrics in Hr as (_ & _ & _ & Hr & _). rewrite Ht in Hr.
    destruct Hr as (Ht1 & Hl & Hs).
    destruct (dispositions_after_first _ pid p1 patient' s1 s' event_time Ht1 H)
      as (? & ? & ?).
    cbv zeta. repeat split; congruence.
Qed.

Lemma disposition_recorded_once_witness :
  match dispositions demo_calls "p" demo_patient demo_simulator with
  | Ok (patient', s') =>
      ed_disposition_time patient' = Some 45%Q ∧
      ed_los_list (metrics s') = [(45 - 0)%Q] ∧
      patient_satisfaction_scores (metrics s')
        = [_get_patient_satisfaction_score demo_simulator (45 - 0)%Q]
  | Raise _ => False
  end.
Proof.
  destruct (dispositions demo_calls "p" demo_patient demo_simulator)
    as [[patient' s']|e] eqn:E.
  - exact (disposition_recorded_once _ _ _ _ _ _ _ _ E).
  - vm_compute in E. discriminate E.
Defined.

(** ** Completion of an admission transport *)

Lemma transport_complete_keeps_boarding (is_pulley : bool) (d : Draws)
    (event_time : Q) (payload : option Z) (pid : string) (patient : Patient)
    (s s' : HospitalSimulator) (target : UnitName) :
  status patient = St_IN_TRANSIT_TO_INPATIENT
  ∨ status patient = St_IN_TRANSIT_TO_CDU →
  current_unit patient = Some target →
  target ≠ ED →
  name (units s target) = target →
  process_TRANSPORT_COMPLETE is_pulley d event_time payload pid patient s = Ok s' →
  ed_boarding_times (metrics s') = ed_boarding_times (metrics s) ∧
  patients_in_unit (units s' target)
    = (if Z.of_nat (size (patients_in_unit (units s target))) <? capacity (units s target)
       then {[pid]} ∪ patients_in_unit (units s target)
       else patients_in_unit (units s target)) ∧
  ∃ patient', patients s' !! pid = Some patient' ∧
              boarding_start_time patient' = boarding_start_time patient.
Proof.
  intros Hst Hcur Hne Hname H. unfold process_TRANSPORT_COMPLETE in H.
  cbv zeta in H.
  cbn [status current_unit add_event set_events boarding_start_time transport_type
       transport_request_time transport_assigned_time] in H.
  match type of H with
  | context [set_metrics ?m (set_pulley_in_use ?p s)] =>
      assert (Hm : ed_boarding_times m = ed_boarding_times (metrics s));
      [|set (s0 := set_metrics m (set_pulley_in_use p s)) in H;
        assert (Hs0 : metrics s0 = m ∧ units s0 = units s) by done;
        clearbody s0; destruct Hs0 as [Hm0 Hu0]; rewrite <- Hm0 in Hm; clear Hm0]
  end.
  { unfold add_transport_type_count.
    destruct (transport_request_time patient), (transport_assigned_time patient),
      (transport_type patient) as [[]|]; try reflexivity;
      by destruct (bool_decide _). }
  rewrite Hcur in H.
  destruct (decide (status patient = St_IN_TRANSIT_TO_IMAGING)) as [E|_];
    [destruct Hst; congruence|].
  destruct (decide (status patient = St_IN_TRANSIT_TO_LAB)) as [E|_];
    [destruct Hst; congruence|].
  replace (bool_decide (status patient = St_IN_TRANSIT_TO_INPATIENT)
           || bool_decide (status patient = St_IN_TRANSIT_TO_CDU)) with true in H
    by (destruct Hst as [-> | ->]; reflexivity).
  bind_inv H. destruct r as [[b u] p1].
  destruct (admit_patient_inv (units s0 target) pid
              (add_event event_time ("ARRIVED_AT_" +:+ opt_unit_str (Some target))
                 (unit_str <$> Some target) patient) event_time)
    as (b' & u' & p' & Hadm & _ & _ & _ & Hb & Hin & Hp).
  rewrite Hadm in Hr. simplify_eq Hr; clear Hr; intros <- <- <-.
  assert (Hcur1 : current_unit p' = Some target).
  { rewrite Hp. destruct b'; cbn; [|done]. by rewrite Hu0, Hname. }
  assert (Hb1 : boarding_start_time p' = boarding_start_time patient).
  { rewrite Hp. by destruct b'. }
  cbn [add_event set_events current_unit boarding_start_time] in H.
  rewrite Hcur1, Hb1 in H.
  rewrite (bool_decide_eq_false_2 (Some target = Some ED)) in H by congruence.
  assert (Hin' : patients_in_unit u'
                 = if Z.of_nat (size (patients_in_unit (units s target)))
                      <? capacity (units s target)
                   then {[pid]} ∪ patients_in_unit (units s target)
                   else patients_in_unit (units s target)).
  { rewrite Hin, Hu0. destruct b'.
    - by rewrite (proj2 (Z.ltb_lt _ _)) by (rewrite <- Hu0; by apply Hb).
    - rewrite (proj2 (Z.ltb_ge _ _)); [done|].
      destruct (Z.ltb_spec (Z.of_nat (size (patients_in_unit (units s target))))
                  (capacity (units s target))) as [Hlt|]; [|done].
      rewrite <- Hu0 in Hlt. by apply Hb in Hlt. }
  rewrite <- Hin'. clear Hin' Hin Hb Hadm Hp.
  destruct (boarding_start_time patient) as [b0|] eqn:Eb;
    rewrite ?andb_false_r in H;
    destruct target; try done; exec; frames; sim_fields;
    (split; [done|]; split; [by rewrite update_unit_lookup, decide_True|]);
    (eexists; split; [by simplify_map_eq|done]).
Qed.

(** C1 (as the code has it): when a PULLEY_TRANSPORT_COMPLETE or
    STAFF_TRANSPORT_COMPLETE event fires for a patient in transit to
    [target] (INPATIENT or CDU, in any case not the ED), the handler calls
    [admit_patient], which inserts the patient only if the unit has a free
    bed, and it neither records an ED boarding interval nor clears
    [boarding_start_time]: by then [current_unit] is the target, so the
    guard [patient.current_unit == 'ED'] is false. *)
Theorem admission_transport_keeps_boarding (d : Draws) (event_time : Q)
    (k : EventKind) (payload : option Z) (pid : string) (patient : Patient)
    (s s' : HospitalSimulator) (target : UnitName) :
  k = PULLEY_TRANSPORT_COMPLETE ∨ k = STAFF_TRANSPORT_COMPLETE →
  patients s !! pid = Some patient →
  status patient = St_IN_TRANSIT_TO_INPATIENT
  ∨ status patient = St_IN_TRANSIT_TO_CDU →
  current_unit patient = Some target →
  target ≠ ED →
  name (units s target) = target →
  _process_event d event_time k (Some pid) payload s = Ok s' →
  ed_boarding_times (metrics s') = ed_boarding_times (metrics s) ∧
  patients_in_unit (units s' target)
    = (if Z.of_nat (size (patients_in_unit (units s target))) <? capacity (units s target)
       then {[pid]} ∪ patients_in_unit (units s target)
       else patients_in_unit (units s target)) ∧
  ∃ patient', patients s' !! pid = Some patient' ∧
              boarding_start_time patient' = boarding_start_time patient.
Proof.
  intros Hk Hp Hst Hcur Hne Hname H.
  unfold _process_event, get_patient in H. cbv zeta in H. sim_fields.
  rewrite Hp in H.
  destruct Hk as [-> | ->]; cbn [deref mbind result_mbind result_bind] in H;
    by apply (transport_complete_keeps_boarding _ _ _ _ _ _ _ _ target) in H.
Qed.

Lemma admission_transport_keeps_boarding_witness :
  let s := store_patient "patient-5" boarded_patient ward in
  match _process_event (ward_draws 0) 2316 STAFF_TRANSPORT_COMPLETE (Some "patient-5")
          (Some 15) s with
  | Ok s' =>
      ed_boarding_times (metrics s') = ed_boarding_times (metrics s) ∧
      patients_in_unit (units s' INPATIENT)
        = (if Z.of_nat (size (patients_in_unit (units s INPATIENT)))
              <? capacity (units s INPATIENT)
           then {["patient-5"]} ∪ patients_in_unit (units s INPATIENT)
           else patients_in_unit (units s INPATIENT)) ∧
      ∃ patient', patients s' !! "patient-5" = Some patient' ∧
                  boarding_start_time patient' = boarding_start_time boarded_patient
  | Raise _ => False
  end.
Proof.
  cbv zeta.
  destruct (_process_event (ward_draws 0) 2316 STAFF_TRANSPORT_COMPLETE
              (Some "patient-5") (Some 15)
              (store_patient "patient-5" boarded_patient ward)) as [s'|e] eqn:E.
  - apply (admission_transport_keeps_boarding (ward_draws 0) 2316
             STAFF_TRANSPORT_COMPLETE (Some 15) "patient-5" boarded_patient
             (store_patient "patient-5" boarded_patient ward) s' INPATIENT);
      [by right|reflexivity|by left|reflexivity|discriminate|reflexivity|exact E].
  - vm_compute in E. discriminate E.
Defined.

(** The same in a whole run on the small ward: patient-5 boards in the ED
    from minute 51, is taken to the inpatient bed at minute 2301 and
    admitted at minute 2316; the run records no ED boarding interval and
    the patient's [boarding_start_time] is still set. *)
Lemma boarding_interval_lost_in_run :
  match boundary SmallWardConfig demo_ids false false false false false 1700
          ward_draws with
  | Ok (_, s) =>
      (event_log <$> patients s !! "patient-5")
        = Some [(6%Q, "QUEUED_FOR_ED"); (6%Q, "ARRIVED_AT_ED");
                (16%Q, "ED_TRIAGE_COMPLETE_EVENT"); (16%Q, "ADMITTED_TO_ED");
                (16%Q, "ED_BED_ASSIGNED"); (16%Q, "ED_WAIT_FOR_PHYSICIAN");
                (51%Q, "ED_PHYSICIAN_ASSESSMENT_COMPLETE_EVENT");
                (51%Q, "ED_BOARDING"); (2301%Q, "DISCHARGED_FROM_ED");
                (2316%Q, "ARRIVED_AT_INPATIENT"); (2316%Q, "ADMITTED_TO_INPATIENT");
                (2316%Q, "ADMITTED_TO_INPATIENT")] ∧
      (status <$> patients s !! "patient-5") = Some St_INPATIENT_STAY ∧
      elements (patients_in_unit (units s INPATIENT)) = ["patient-5"] ∧
      (boarding_start_time <$> patients s !! "patient-5") = Some (Some 51%Q) ∧
      ed_boarding_times (metrics s) = []
  | Raise _ => False
  end.
Proof. vm_compute. repeat split; reflexivity. Qed.

(** ** The order of dispatch *)

Lemma process_event_queue_ok (d : Draws) (event_time : Q) (k : EventKind)
    (pid : option string) (payload : option Z) (s s' : HospitalSimulator) :
  _process_event d event_time k pid payload s = Ok s' →
  heap_ok event_lt (event_queue s) → heap_ok event_lt (event_queue s').
Proof.
  intros H Hok. open_handlers H k.
  all: exec.
  all: frames.
  all: repeat match goal with
       | H : leave_current_unit _ _ _ _ = _ |- _ =>
           apply leave_current_unit_inv in H as [[-> ->]|(? & ? & ? & -> & ->)]
       end.
  all: sim_fields.
  all: repeat match goal with
       | H : heappush event_lt ?q _ = Ok _, Hq : heap_ok event_lt ?q |- _ =>
           apply (heappush_ok event_lt event_lt_asym event_lt_trans _ _ _ Hq) in H
       end.
  all: done.
Qed.

Lemma seed_events_queue_ok (s s' : HospitalSimulator) :
  seed_events s = Ok s' → event_queue s = [] → heap_ok event_lt (event_queue s').
Proof.
  unfold seed_events. intros H Hq.
  assert (Hok : heap_ok event_lt (event_queue s)).
  { rewrite Hq. by intros p c x y _ Hp. }
  exec; frames; sim_fields;
    repeat match goal with
    | H : heappush event_lt ?q _ = Ok _, Hq : heap_ok event_lt ?q |- _ =>
        apply (heappush_ok event_lt event_lt_asym event_lt_trans _ _ _ Hq) in H
    end; done.
Qed.

Lemma loop_iteration_queue_ok (d : Draws) (s s' : HospitalSimulator) :
  loop_iteration d s = Ok (Some s') →
  heap_ok event_lt (event_queue s) → heap_ok event_lt (event_queue s').
Proof.
  unfold loop_iteration. intros H Hok. exec;
    apply (heappop_ok event_lt event_lt_asym event_lt_trans) in Hr as [Hrest _];
    try done.
  by apply process_event_queue_ok in Hr0.
Qed.

Lemma event_loop_queue_ok (n : nat) (draws : nat → Draws) (s s' : HospitalSimulator)
    (over : bool) :
  event_loop n draws s = Ok (over, s') →
  heap_ok event_lt (event_queue s) → heap_ok event_lt (event_queue s').
Proof.
  revert draws s. induction n as [|n IH]; intros draws s H Hok.
  - cbn in H. by inversion H; subst.
  - cbn [event_loop] in H. bind_inv H. destruct r as [s1|].
    + apply loop_iteration_queue_ok in Hr; [|done]. by apply IH in H.
    + by inversion H; subst.
Qed.

(** C2 (as the code has it): the queue is a [heapq] of plain tuples, so
    the event a pass of the loop dispatches is a least one in the order of
    the tuples (fire time, name of the kind, patient id), whatever the order
    of insertion: no queued event comes before it, and among the queued
    events with the same fire time and another kind it has the least kind
    name in the order of the strings. *)
Theorem dispatch_in_tuple_order (cfg : Config) (ids : nat → string)
    (cdu ai_imaging ai_staffing amenities ai_entertainment : bool)
    (n : nat) (draws : nat → Draws) (over : bool) (s : HospitalSimulator)
    (e : Event) (q : list Event) :
  boundary cfg ids cdu ai_imaging ai_staffing amenities ai_entertainment n draws
  = Ok (over, s) →
  heappop event_lt (event_queue s) = Ok (e, q) →
  ∀ e', e' ∈ q →
    (event_before e e' ∨ event_same e' e) ∧
    ((fire_time e' == fire_time e)%Q → kind e' ≠ kind e →
     name_lt (event_kind_name (kind e)) (event_kind_name (kind e'))).
Proof.
  intros H Hpop e' He'.
  assert (Hok : heap_ok event_lt (event_queue s)).
  { unfold boundary in H. bind_inv H.
    destruct (new_simulator_pulley cfg ids cdu ai_imaging ai_staffing amenities
                ai_entertainment) as (_ & _ & Hq0 & _).
    cbv zeta in Hq0. apply seed_events_queue_ok in Hr; [|done].
    by apply event_loop_queue_ok in H. }
  apply (heappop_ok event_lt event_lt_asym event_lt_trans) in Hpop as [_ Hleast];
    [|done].
  specialize (Hleast e' He'). unfold not_above in Hleast.
  apply event_lt_false in Hleast. split; [done|].
  intros Ht Hk. destruct Hleast as [[Hlt|[_ [Hn|[Hkk _]]]]|(_ & Hkk & _)];
    [lra|done|congruence..].
Qed.

Lemma dispatch_in_tuple_order_witness :
  match boundary SmallWardConfig demo_ids false false false false false 2 tie_draws with
  | Ok (_, s) =>
      match heappop event_lt (event_queue s) with
      | Ok (e, q) =>
          ∀ e', e' ∈ q →
            (event_before e e' ∨ event_same e' e) ∧
            ((fire_time e' == fire_time e)%Q → kind e' ≠ kind e →
             name_lt (event_kind_name (kind e)) (event_kind_name (kind e')))
      | Raise _ => False
      end
  | Raise _ => False
  end.
Proof.
  assert (Hrun :
    match boundary SmallWardConfig demo_ids false false false false false 2
            tie_draws with
    | Ok (_, s) =>
        match heappop event_lt (event_queue s) with Ok _ => true | Raise _ => false end
    | Raise _ => false
    end = true) by (vm_compute; reflexivity).
  destruct (boundary SmallWardConfig demo_ids false false false false false 2 tie_draws)
    as [[over s]|err] eqn:E; [|discriminate Hrun].
  destruct (heappop event_lt (event_queue s)) as [[e q]|err] eqn:E2;
    [|discriminate Hrun].
  exact (dispatch_in_tuple_order SmallWardConfig demo_ids false false false false false
           2%nat tie_draws over s e q E E2).
Defined.

(** C2 as stated fails.  On the small ward the seeding enqueues the pulley
    check for minute 5; the first pass then enqueues an arrival for the same
    minute.  Two passes later the arrival is dispatched while the pulley
    check, enqueued before it, still waits: PATIENT_ARRIVAL precedes
    PULLEY_UTILIZATION_METRIC_CHECK in the order of the strings. *)
Lemma fifo_tie_break_counterexample :
  match seed_events ward with
  | Ok s0 =>
      queue_view (event_queue s0)
        = [(0%Q, SCHEDULE_PATIENT_ARRIVAL); (5%Q, INPATIENT_OCCUPANCY_METRIC_CHECK);
           (5%Q, PULLEY_UTILIZATION_METRIC_CHECK)] ∧
      match event_loop 2 tie_draws s0 with
      | Ok (_, s2) =>
          match heappop event_lt (event_queue s2) with
          | Ok (e, q) =>
              (fire_time e, kind e) = (5%Q, PATIENT_ARRIVAL) ∧
              queue_view q
                = [(5%Q, PULLEY_UTILIZATION_METRIC_CHECK);
                   (35%Q, INPATIENT_OCCUPANCY_METRIC_CHECK);
                   (5%Q, SCHEDULE_PATIENT_ARRIVAL)]
          | Raise _ => False
          end
      | Raise _ => False
      end
  | Raise _ => False
  end.
Proof. vm_compute. repeat split; reflexivity. Qed.

(** ** Transport requests on the admission path *)

Lemma weight_same (f : EventKind → bool) (pid : string) (t : Q) (k : EventKind)
    (payload : option Z) :
  weight f pid (Build_Event t k (Some pid) payload) = if f k then 1 else 0.
Proof. unfold weight. cbn. rewrite bool_decide_eq_true_2 by done. by destruct (f k). Qed.

Lemma weight_other (f : EventKind → bool) (pid other : string) (t : Q) (k : EventKind)
    (payload : option Z) :
  pid ≠ other → weight f pid (Build_Event t k (Some other) payload) = 0.
Proof.
  intros H. unfold weight. cbn. rewrite bool_decide_eq_false_2 by congruence.
  by rewrite andb_false_r.
Qed.

Lemma weight_nobody (f : EventKind → bool) (pid : string) (t : Q) (k : EventKind)
    (payload : option Z) :
  weight f pid (Build_Event t k None payload) = 0.
Proof. unfold weight. cbn. by rewrite andb_false_r. Qed.

Lemma weight_bounds (f : EventKind → bool) (pid : string) (e : Event) :
  0 ≤ weight f pid e ≤ 1.
Proof. unfold weight. destruct (_ && _); lia. Qed.

Lemma weight_step_flow (pid : string) (e : Event) :
  weight is_step pid e ≤ weight is_flow pid e.
Proof.
  unfold weight, is_step. destruct (is_flow (kind e)), (is_transport_complete (kind e)),
    (bool_decide _); cbn; lia.
Qed.

Lemma pending_nonneg (f : EventKind → bool) (pid : string) (q : list Event) :
  0 ≤ pending f pid q.
Proof.
  induction q as [|e q IH]; [done|]. change (0 ≤ weight f pid e + pending f pid q).
  pose proof (weight_bounds f pid e). lia.
Qed.

Lemma pending_step_flow (pid : string) (q : list Event) :
  pending is_step pid q ≤ pending is_flow pid q.
Proof.
  induction q as [|e q IH]; [done|].
  change (weight is_step pid e + pending is_step pid q
          ≤ weight is_flow pid e + pending is_flow pid q).
  pose proof (weight_step_flow pid e). lia.
Qed.

Lemma pending_perm (f : EventKind → bool) (pid : string) (q q' : list Event) :
  q ≡ₚ q' → pending f pid q = pending f pid q'.
Proof. unfold pending. induction 1; cbn [foldr]; lia. Qed.

Lemma pending_push (f : EventKind → bool) (pid : string) (q q' : list Event) (e : Event) :
  heappush event_lt q e = Ok q' → pending f pid q' = pending f pid q + weight f pid e.
Proof.
  intros H. apply heappush_items in H. rewrite (pending_perm _ _ _ _ H).
  change (pending f pid (e :: q)) with (weight f pid e + pending f pid q). lia.
Qed.

Lemma pending_pop (f : EventKind → bool) (pid : string) (q q' : list Event) (e : Event) :
  heappop event_lt q = Ok (e, q') → pending f pid q = pending f pid q' + weight f pid e.
Proof.
  intros H. apply heappop_items in H. rewrite (pending_perm _ _ _ _ H).
  change (pending f pid (e :: q')) with (weight f pid e + pending f pid q'). lia.
Qed.
Lemma get_patient_Some (s : HospitalSimulator) (pid : option string) (i : string)
    (patient : Patient) :
  get_patient s pid = Some (i, patient) → pid = Some i ∧ patients s !! i = Some patient.
Proof.
  unfold get_patient. destruct pid as [j|]; [|done].
  destruct (patients s !! j) eqn:E; [|done]. intros H. by inversion H; subst.
Qed.

Lemma admit_patient_patient (u u' : Unit) (pid : string) (patient patient' : Patient)
    (sim_time : Q) (b : bool) :
  admit_patient u pid patient sim_time = Ok (b, u', patient') →
  patient' = patient
  ∨ patient' = add_event sim_time ("ADMITTED_TO_" +:+ unit_str (name u))
                 (Some (unit_str (name u))) (set_current_unit (Some (name u)) patient).
Proof.
  intros H. destruct (admit_patient_inv u pid patient sim_time)
    as (b' & u1 & p1 & H1 & _ & _ & _ & _ & _ & Hp).
  rewrite H1 in H. simplify_eq H; intros <- <- <-. rewrite Hp. destruct b'; auto.
Qed.

(** Turns every push into its effect on the events queued for [p0]. *)
Ltac pending_pushes p0 :=
  repeat match goal with
  | H : heappush event_lt _ _ = Ok _ |- _ =>
      pose proof (pending_push is_flow p0 _ _ _ H);
      pose proof (pending_push is_step p0 _ _ _ H);
      clear H
  end.

(** The patient whose record the handler left alone. *)
Ltac untouched_patient :=
  match goal with
  | Hpre : match ?o with _ => _ end |- match ?o with _ => _ end =>
      destruct o;
      [destruct Hpre as [? Hin]; split;
       [lia|intros Ht; destruct (Hin Ht) as [? ?]; split; [lia|done]]
      |lia]
  end.

(** The patient of the event, with the new record spelt out in the goal. *)
Ltac handled_patient :=
  repeat match goal with
         | |- context [if ?c then _ else _] => destruct c eqn:?
         | |- context [match ?c with left _ => _ | right _ => _ end] => destruct c eqn:?
         end;
  (split; [lia|]);
  let Ht := fresh "Ht" in
  intros Ht; cbn in Ht;
  first
    [ discriminate Ht
    | match goal with
      | E : status _ = _ |- _ => cbn in E; rewrite E in Ht; discriminate Ht
      end
    | match goal with
      | Hpre : _ ∧ (in_transit_admit _ = true → _) |- _ =>
          destruct Hpre as [_ Hin];
          destruct (Hin Ht) as [? (t & ? & ?)];
          first [exfalso; lia|split; [lia|exists t; cbn; by split]]
      end
    | (split; [lia|eexists; cbn; split; reflexivity]) ].

Lemma process_event_admissions (d : Draws) (event_time : Q) (k : EventKind)
    (pid : option string) (payload : option Z) (s s' : HospitalSimulator) (p0 : string) :
  _process_event d event_time k pid payload s = Ok s' →
  patients s !! uuid4 d = None →
  patient_ok
    (pending is_flow p0 (event_queue s)
     + weight is_flow p0 (Build_Event event_time k pid payload))
    (pending is_step p0 (event_queue s)
     + weight is_step p0 (Build_Event event_time k pid payload))
    (patients s !! p0) →
  patient_ok (pending is_flow p0 (event_queue s')) (pending is_step p0 (event_queue s'))
    (patients s' !! p0)
  ∧ (patients s !! p0 = None → p0 ≠ uuid4 d → patients s' !! p0 = None).
Proof.
  intros H Hfresh Hpre.
  pose proof (pending_nonneg is_flow p0 (event_queue s)) as Hf0.
  pose proof (pending_nonneg is_step p0 (event_queue s)) as Hs0.
  pose proof (pending_step_flow p0 (event_queue s)) as Hsf.
  open_handlers H k.
  all: exec.
  all: frames.
  all: repeat match goal with
       | H : leave_current_unit _ _ _ _ = _ |- _ =>
           apply leave_current_unit_inv in H as [[-> ->]|(? & ? & ? & -> & ->)]
       end.
  all: repeat match goal with
       | H : get_patient _ _ = Some _ |- _ => apply get_patient_Some in H as [-> H]
       end.
  all: sim_fields.
  all: pending_pushes p0.
  all: repeat match goal with
       | H : admit_patient _ _ _ _ = Ok _ |- _ => apply admit_patient_patient in H
       end.
  all: repeat match goal with
       | H : _ ∈ _ :: _ |- _ => apply elem_of_cons in H as [->|H]
       | H : _ ∈ [] |- _ => by apply elem_of_nil in H
       | H : _ ∨ _ |- _ => destruct H as [H|H]
       | H : ∃ _, _ |- _ => destruct H as [? H]
       | t : TransportType |- _ => destruct t
       end.
  all: subst.
  all: try match goal with
       | |- context [<[?i := _]> _ !! ?p] => destruct (decide (p = i)) as [->|Hne]
       | Hpre : context [weight _ ?p (Build_Event _ _ (Some ?i) _)] |- _ =>
           destruct (decide (p = i)) as [->|Hne]
       end.
  all: rewrite ?lookup_insert_eq, ?lookup_insert_ne by congruence.
  all: rewrite ?weight_nobody, ?weight_same, ?weight_other in * by done.
  all: unfold weight in *.
  all: cbn [kind is_flow is_step is_transport_complete andb negb] in *.
  all: repeat match goal with
       | H : patients ?s !! ?i = _, Hpre : context [patients ?s !! ?i] |- _ =>
           rewrite H in Hpre
       | H : patients ?s !! ?i = _ |- context [patients ?s !! ?i] => rewrite H
       end.
  all: (split; [|intros ? ?; congruence]).
  all: unfold patient_ok in *.
  all: try lia.
  all: try untouched_patient.
  all: try handled_patient.
  destruct (bool_decide _); untouched_patient.
Qed.

Lemma patient_ok_fewer (flows steps flows' steps' : Z) (found : option Patient) :
  patient_ok flows steps found →
  0 ≤ flows' ≤ flows → 0 ≤ steps' ≤ steps → patient_ok flows' steps' found.
Proof.
  unfold patient_ok. destruct found as [patient|]; [|lia].
  intros [Hle Hin] ? ?. split; [lia|]. intros Ht. destruct (Hin Ht) as [? ?].
  split; [lia|done].
Qed.

Lemma loop_iteration_admissions (d : Draws) (s s' : HospitalSimulator) :
  loop_iteration d s = Ok (Some s') →
  patients s !! uuid4 d = None →
  admissions_ok s →
  admissions_ok s'
  ∧ (∀ i, patients s !! i = None → i ≠ uuid4 d → patients s' !! i = None).
Proof.
  unfold loop_iteration, admissions_ok. intros H Hfresh Hok. exec.
  - sim_fields. split; [|done]. intros p0.
    apply (patient_ok_fewer _ _ _ _ _ (Hok p0)).
    + pose proof (pending_pop is_flow p0 _ _ _ Hr).
      pose proof (weight_bounds is_flow p0 e). pose proof (pending_nonneg is_flow p0 l). lia.
    + pose proof (pending_pop is_step p0 _ _ _ Hr).
      pose proof (weight_bounds is_step p0 e). pose proof (pending_nonneg is_step p0 l). lia.
  - assert (Hall : ∀ p0,
      patient_ok (pending is_flow p0 (event_queue s')) (pending is_step p0 (event_queue s'))
        (patients s' !! p0)
      ∧ (patients s !! p0 = None → p0 ≠ uuid4 d → patients s' !! p0 = None)).
    { intros p0. destruct e as [t k pid payload].
      cbn [fire_time kind patient_id event_data] in Hr0.
      apply (process_event_admissions d t k pid payload _ s' p0 Hr0); sim_fields; [done|].
      rewrite <- (pending_pop is_flow p0 _ _ _ Hr), <- (pending_pop is_step p0 _ _ _ Hr).
      apply Hok. }
    split; intros p0; by destruct (Hall p0).
Qed.

Lemma event_loop_admissions (n : nat) (draws : nat → Draws) (s s' : HospitalSimulator)
    (over : bool) :
  event_loop n draws s = Ok (over, s') →
  (∀ i j, uuid4 (draws i) = uuid4 (draws j) → i = j) →
  (∀ i, patients s !! uuid4 (draws i) = None) →
  admissions_ok s → admissions_ok s'.
Proof.
  revert draws s. induction n as [|n IH]; intros draws s H Hinj Hfresh Hok.
  - cbn in H. by inversion H; subst.
  - cbn [event_loop] in H. bind_inv H. destruct r as [s1|].
    + apply loop_iteration_admissions in Hr as [Hok1 Hdom]; [|done..].
      apply IH in H; [done| |  |done].
      * intros i j Hij. apply Hinj in Hij. lia.
      * intros i. apply Hdom; [done|]. intros Hij. apply Hinj in Hij. lia.
    + by inversion H; subst.
Qed.

Lemma seed_events_admissions (s s' : HospitalSimulator) :
  seed_events s = Ok s' → patients s = ∅ → event_queue s = [] →
  patients s' = ∅ ∧ admissions_ok s'.
Proof.
  unfold seed_events. intros H Hp Hq.
  assert (Hs : patients s' = ∅ ∧ ∀ p0, pending is_flow p0 (event_queue s') = 0).
  { exec; frames; sim_fields; (split; [done|]); intros p0; pending_pushes p0;
      rewrite ?weight_nobody in *; rewrite Hq in *; cbn [pending foldr] in *; lia. }
  destruct Hs as [Hp' Hz]. split; [done|]. intros p0.
  rewrite Hp', lookup_empty. apply Hz.
Qed.

Lemma transport_complete_sample (is_pulley : bool) (d : Draws) (event_time : Q)
    (payload : option Z) (pid : string) (patient : Patient) (s s' : HospitalSimulator) :
  in_transit_admit (status patient) = true →
  process_TRANSPORT_COMPLETE is_pulley d event_time payload pid patient s = Ok s' →
  ed_wait_times_for_transport (metrics s')
  = ed_wait_times_for_transport (metrics s)
    ++ match transport_request_time patient, transport_assigned_time patient with
       | Some requested, Some assigned =>
           if bool_decide (transport_type patient ≠ Some PULLEY)
           then [(assigned - requested)%Q] else []
       | _, _ => []
       end.
Proof.
  intros Hst H. unfold process_TRANSPORT_COMPLETE in H. cbv zeta in H.
  cbn [status current_unit add_event set_events boarding_start_time transport_type
       transport_request_time transport_assigned_time] in H.
  match type of H with
  | context [set_metrics ?m (set_pulley_in_use ?p s)] =>
      assert (Hm : ed_wait_times_for_transport m
                   = ed_wait_times_for_transport (metrics s)
                     ++ match transport_request_time patient,
                              transport_assigned_time patient with
                        | Some requested, Some assigned =>
                            if bool_decide (transport_type patient ≠ Some PULLEY)
                            then [(assigned - requested)%Q] else []
                        | _, _ => []
                        end);
      [|set (s0 := set_metrics m (set_pulley_in_use p s)) in H;
        assert (Hm0 : metrics s0 = m) by done;
        clearbody s0; rewrite <- Hm0 in Hm; clear Hm0]
  end.
  { unfold add_transport_type_count.
    destruct (transport_request_time patient), (transport_assigned_time patient),
      (transport_type patient) as [[]|]; rewrite ?app_nil_r; try reflexivity;
      by destruct (bool_decide _). }
  rewrite <- Hm. clear Hm.
  destruct (status patient); try discriminate Hst; cbn in H;
    exec; try apply admit_patient_patient in Hr;
    repeat match goal with H : _ ∨ _ |- _ => destruct H as [H|H] end;
    subst; exec; frames; sim_fields; reflexivity.
Qed.

Lemma admit_request_time (d : Draws) (event_time : Q) (k : EventKind) (pid : string)
    (payload : option Z) (patient : Patient) (s s' : HospitalSimulator) :
  k = ADMIT_TO_INPATIENT ∨ k = ADMIT_TO_CDU →
  patients s !! pid = Some patient →
  _process_event d event_time k (Some pid) payload s = Ok s' →
  ∃ patient',
    patients s' !! pid = Some patient' ∧
    if _get_free_bed s (Some (admit_target k)) then
      transport_request_time patient' = Some event_time ∧
      (in_transit_admit (status patient) = false →
       in_transit_admit (status patient') = true →
       transport_assigned_time patient' = Some event_time)
    else transport_request_time patient' = transport_request_time patient.
Proof.
  intros Hk Hp H.
  assert (H' : process_ADMIT k d event_time pid patient (set_sim_time event_time s)
               = Ok s').
  { unfold _process_event, get_patient in H. cbv zeta in H. sim_fields.
    rewrite Hp in H. by destruct Hk as [-> | ->]. }
  clear H. unfold process_ADMIT in H'. cbv zeta in H'.
  change (_get_free_bed (set_sim_time event_time s)) with (_get_free_bed s) in H'.
  fold (admit_target k) in H'.
  destruct (_get_free_bed s (Some (admit_target k))); cbn [negb] in H'.
  - exec; frames;
      repeat match goal with
      | H : leave_current_unit _ _ _ _ = _ |- _ =>
          apply leave_current_unit_inv in H as [[-> ->]|(? & ? & ? & -> & ->)]
      | H : ∃ _, _ |- _ => destruct H as [? H]
      end; subst; sim_fields; eexists; (split; [apply lookup_insert_eq|]);
      try destruct (_ && _); cbn; (split; [done|]); intros Hf Ht; congruence.
  - exec; frames; sim_fields. eexists. split; [apply lookup_insert_eq|].
    by destruct (_ && _).
Qed.

(** C10: an [ADMIT_TO_INPATIENT] or [ADMIT_TO_CDU] event that finds a free
    bed sets [transport_request_time] to its own time, at every retry, and
    one that finds none leaves it alone; a transport it is granted is
    assigned at that very time.  In every run whose patient ids are pairwise
    distinct, a patient on the way to an inpatient or CDU bed has
    [transport_assigned_time = transport_request_time] at every event
    boundary, and the pass that completes such a transport, when it is not by
    pulley, records one ED wait-for-transport sample, equal to 0. *)
Theorem admission_transport_wait :
  (∀ (d : Draws) (event_time : Q) (k : EventKind) (pid : string) (payload : option Z)
     (patient : Patient) (s s' : HospitalSimulator),
     k = ADMIT_TO_INPATIENT ∨ k = ADMIT_TO_CDU →
     patients s !! pid = Some patient →
     _process_event d event_time k (Some pid) payload s = Ok s' →
     ∃ patient',
       patients s' !! pid = Some patient' ∧
       if _get_free_bed s (Some (admit_target k)) then
         transport_request_time patient' = Some event_time ∧
         (in_transit_admit (status patient) = false →
          in_transit_admit (status patient') = true →
          transport_assigned_time patient' = Some event_time)
       else transport_request_time patient' = transport_request_time patient) ∧
  (∀ (cfg : Config) (ids : nat → string)
     (cdu ai_imaging ai_staffing amenities ai_entertainment : bool)
     (n : nat) (draws : nat → Draws) (over : bool) (s : HospitalSimulator),
     (∀ i j, uuid4 (draws i) = uuid4 (draws j) → i = j) →
     boundary cfg ids cdu ai_imaging ai_staffing amenities ai_entertainment n draws
     = Ok (over, s) →
     (∀ pid patient,
        patients s !! pid = Some patient →
        in_transit_admit (status patient) = true →
        ∃ t, transport_request_time patient = Some t
             ∧ transport_assigned_time patient = Some t) ∧
     (∀ s',
        admission_transport_due s = true →
        loop_iteration (draws n) s = Ok (Some s') →
        ∃ w, ed_wait_times_for_transport (metrics s')
             = ed_wait_times_for_transport (metrics s) ++ [w]
             ∧ (w == 0)%Q)).
Proof.
  split; [exact admit_request_time|].
  intros cfg ids cdu ai_imaging ai_staffing amenities ai_entertainment n draws over s
    Hinj H.
  assert (Hok : admissions_ok s).
  { unfold boundary in H. bind_inv H.
    destruct (new_simulator_pulley cfg ids cdu ai_imaging ai_staffing amenities
                ai_entertainment) as (_ & _ & Hq0 & Hp0).
    cbv zeta in Hq0, Hp0.
    apply seed_events_admissions in Hr as [Hp1 Hok1]; [|done..].
    apply event_loop_admissions in H; [done|done| |done].
    intros i. by rewrite Hp1, lookup_empty. }
  assert (Hsame : ∀ pid patient,
            patients s !! pid = Some patient →
            in_transit_admit (status patient) = true →
            ∃ t, transport_request_time patient = Some t
                 ∧ transport_assigned_time patient = Some t).
  { intros pid patient Hp Ht. specialize (Hok pid). rewrite Hp in Hok.
    destruct Hok as [_ Hin]. by destruct (Hin Ht). }
  split; [exact Hsame|].
  intros s' Hdue Hloop. unfold admission_transport_due in Hdue.
  unfold loop_iteration in Hloop.
  destruct (heappop event_lt (event_queue s)) as [[e q]|] eqn:Hpop; [|done].
  destruct (get_patient s (patient_id e)) as [[pid patient]|] eqn:Hg;
    [|by rewrite andb_false_r in Hdue].
  apply get_patient_Some in Hg as [Hpid Hp].
  apply andb_true_iff in Hdue as [Hdue Hpat].
  apply andb_true_iff in Hdue as [Hkind Hin].
  apply andb_true_iff in Hpat as [Ht Hway]. apply bool_decide_eq_true in Hway.
  apply negb_true_iff in Hin.
  destruct (Hsame pid patient Hp Ht) as (t & Hreq & Hass).
  destruct (_ && _); [|done]. cbn [mbind result_mbind result_bind] in Hloop.
  sim_fields. rewrite Hin in Hloop. bind_inv Hloop. simplify_eq Hloop; intros <-.
  assert (∃ is_pulley,
            process_TRANSPORT_COMPLETE is_pulley (draws n) (fire_time e) (event_data e)
              pid patient
              (set_sim_time (fire_time e)
                 (set_sim_time (fire_time e) (set_event_queue q s))) = Ok r)
    as [is_pulley Hrun].
  { unfold _process_event, get_patient in Hr. cbv zeta in Hr. sim_fields.
    rewrite Hpid, Hp in Hr.
    destruct (kind e); try discriminate Hkind;
      cbn [deref mbind result_mbind result_bind] in Hr; eauto. }
  apply transport_complete_sample in Hrun; [|done].
  rewrite Hreq, Hass, bool_decide_eq_true_2 in Hrun by done.
  exists (t - t)%Q. split; [exact Hrun|ring].
Qed.

Lemma ward_draws_distinct (i j : nat) :
  uuid4 (ward_draws i) = uuid4 (ward_draws j) → i = j.
Proof.
  cbn [uuid4 ward_draws]. intros H. apply (inj pretty).
  cbn in H. by simplify_eq H.
Qed.

Lemma admission_transport_wait_witness :
  match boundary SmallWardConfig demo_ids false false false false false 32 ward_draws with
  | Ok (_, s) =>
      match loop_iteration (ward_draws 32) s with
      | Ok (Some s') =>
          ∃ w, ed_wait_times_for_transport (metrics s')
               = ed_wait_times_for_transport (metrics s) ++ [w]
               ∧ (w == 0)%Q
      | _ => False
      end
  | Raise _ => False
  end.
Proof.
  assert (Hrun :
    match boundary SmallWardConfig demo_ids false false false false false 32
            ward_draws with
    | Ok (_, s) =>
        admission_transport_due s
        && match loop_iteration (ward_draws 32) s with
           | Ok (Some _) => true
           | _ => false
           end
    | Raise _ => false
    end = true) by (vm_compute; reflexivity).
  destruct (boundary SmallWardConfig demo_ids false false false false false 32
              ward_draws) as [[over s]|e] eqn:E; [|discriminate Hrun].
  apply andb_true_iff in Hrun as [Hdue Hnext].
  destruct (loop_iteration (ward_draws 32) s) as [[s'|]|e] eqn:E2;
    [|discriminate Hnext..].
  exact (proj2 (proj2 admission_transport_wait SmallWardConfig demo_ids false false
                  false false false 32%nat ward_draws over s ward_draws_distinct E)
           s' Hdue E2).
Defined.

(** * More of the program: verification *)

(** ** Units: beds and the waiting queue *)

Lemma in_queue_elem (pid : string) (q : list QueueEntry) :
  in_queue pid q = true ↔ pid ∈ qe_id <$> q.
Proof.
  unfold in_queue. induction q as [|e q IH]; cbn.
  - split; [done|]. intros H. by apply elem_of_nil in H.
  - rewrite orb_true_iff, IH, elem_of_cons, String.eqb_eq.
    split; (intros [H|H]; [left|right]); done.
Qed.

Lemma queue_remove_sublist (pid : string) (q : list QueueEntry) :
  queue_remove pid q `sublist_of` q.
Proof.
  induction q as [|e q IH]; [done|]. cbn [queue_remove].
  destruct (String.eqb (qe_id e) pid).
  - by apply sublist_cons.
  - by apply sublist_skip.
Qed.

Lemma queue_remove_elem (pid : string) (q : list QueueEntry) (e : QueueEntry) :
  NoDup (qe_id <$> q) →
  e ∈ queue_remove pid q ↔ e ∈ q ∧ qe_id e ≠ pid.
Proof.
  induction q as [|e0 q IH]; cbn [queue_remove fmap list_fmap].
  - intros _. split; [|by intros [H _]]. intros H. by apply elem_of_nil in H.
  - intros Hnd. apply NoDup_cons in Hnd as [Hout Hnd].
    destruct (String.eqb (qe_id e0) pid) eqn:E.
    + apply String.eqb_eq in E. rewrite elem_of_cons. split.
      * intros He. split; [by right|]. intros Heq. apply Hout.
        rewrite E, <- Heq. by apply list_elem_of_fmap_2.
      * intros [[->|He] Hne]; [done|done].
    + apply String.eqb_neq in E. rewrite !elem_of_cons, (IH Hnd). split.
      * intros [->|[He Hne]]; [split; [by left|done]|split; [by right|done]].
      * intros [[->|He] Hne]; [by left|by right].
Qed.

Lemma demo_unit_distinct : NoDup (qe_id <$> queue demo_unit).
Proof.
  cbn. apply NoDup_cons. split; [|apply NoDup_singleton].
  rewrite list_elem_of_singleton. done.
Qed.

Lemma heappush_patient_total (q : list QueueEntry) (e : QueueEntry) :
  ∃ q', heappush patient_lt q e = Ok q'.
Proof.
  unfold heappush. apply siftdown_total; [apply patient_lt_total|].
  rewrite length_app. cbn. lia.
Qed.

(** X1: a patient admitted to a unit with a free bed and discharged again
    leaves the occupants as they were; both calls log their event, the
    discharge does not clear the patient's [current_unit], and a second
    discharge is refused without any effect. *)
Theorem admit_discharge_round_trip (u : Unit) (pid : string) (patient : Patient)
    (t t' : Q) :
  Z.of_nat (size (patients_in_unit u)) < capacity u →
  pid ∉ patients_in_unit u →
  ∃ u1 p1 u2 p2,
    admit_patient u pid patient t = Ok (true, u1, p1) ∧
    discharge_patient u1 pid p1 t' = (true, u2, p2) ∧
    patients_in_unit u2 = patients_in_unit u ∧
    current_unit p2 = Some (name u) ∧
    events p2
    = events patient
      ++ [Build_PatientEvent t ("ADMITTED_TO_" +:+ unit_str (name u))
            (Some (unit_str (name u)));
          Build_PatientEvent t' ("DISCHARGED_FROM_" +:+ unit_str (name u))
            (Some (unit_str (name u)))] ∧
    discharge_patient u2 pid p2 t' = (false, u2, p2).
Proof.
  intros Hroom Hout.
  destruct (admit_patient_inv u pid patient t)
    as (b & u1 & p1 & H & _ & Hname & _ & Hb & Hin & Hp).
  apply Hb in Hroom as ->.
  assert (pid ∈ patients_in_unit u1) as Hin1.
  { rewrite Hin. by apply elem_of_union_l, elem_of_singleton. }
  eexists u1, p1, _, _. split; [exact H|].
  unfold discharge_patient at 1. rewrite decide_True by done.
  split; [reflexivity|].
  assert (patients_in_unit u1 ∖ {[pid]} = patients_in_unit u) as Hback.
  { rewrite Hin, difference_union_distr_l_L, difference_diag_L, union_empty_l_L.
    apply difference_disjoint_L. by apply disjoint_singleton_r. }
  split; [exact Hback|]. rewrite Hp, Hname. cbn.
  split; [done|]. split; [by rewrite <- app_assoc|].
  unfold discharge_patient. cbn [patients_in_unit set_patients_in_unit].
  rewrite Hback. by rewrite decide_False.
Qed.

Lemma admit_discharge_round_trip_witness :
  ∃ u1 p1 u2 p2,
    admit_patient demo_unit "c" demo_patient 5 = Ok (true, u1, p1) ∧
    discharge_patient u1 "c" p1 9 = (true, u2, p2) ∧
    patients_in_unit u2 = patients_in_unit demo_unit ∧
    current_unit p2 = Some (name demo_unit) ∧
    events p2
    = events demo_patient
      ++ [Build_PatientEvent 5 ("ADMITTED_TO_" +:+ unit_str (name demo_unit))
            (Some (unit_str (name demo_unit)));
          Build_PatientEvent 9 ("DISCHARGED_FROM_" +:+ unit_str (name demo_unit))
            (Some (unit_str (name demo_unit)))] ∧
    discharge_patient u2 "c" p2 9 = (false, u2, p2).
Proof.
  apply (admit_discharge_round_trip demo_unit "c" demo_patient 5 9).
  - cbn. rewrite size_empty. lia.
  - cbn. apply not_elem_of_empty.
Defined.

(** X2: [add_patient_to_queue] never raises and keeps the ids of the
    waiting queue distinct: afterwards the patient is in the queue, nobody
    else came or went, the occupants are untouched, and adding the same
    patient again changes neither the unit nor the patient. *)
Theorem waiting_queue_no_duplicates (u : Unit) (pid : string) (patient : Patient)
    (t : Q) :
  NoDup (qe_id <$> queue u) →
  ∃ u1 p1,
    add_patient_to_queue u pid patient t = Ok (u1, p1) ∧
    NoDup (qe_id <$> queue u1) ∧
    (∀ i, i ∈ qe_id <$> queue u1 ↔ i = pid ∨ i ∈ qe_id <$> queue u) ∧
    patients_in_unit u1 = patients_in_unit u ∧
    ∀ t' p, add_patient_to_queue u1 pid p t' = Ok (u1, p).
Proof.
  intros Hnd. unfold add_patient_to_queue.
  destruct (in_queue pid (queue u)) eqn:E.
  - exists u, patient. split; [done|]. split; [done|].
    apply in_queue_elem in E as Hin. split; [intros i; split; [by right|by intros [->|?]]|]. split; [done|].
    intros t' p. by rewrite E.
  - destruct (heappush_patient_total (queue u)
                (Build_QueueEntry pid (arrival_time patient))) as [q Hq].
    rewrite Hq. cbn [mbind result_mbind result_bind].
    eexists _, _. split; [reflexivity|]. cbn [queue set_queue patients_in_unit].
    apply heappush_items in Hq.
    assert (qe_id <$> q ≡ₚ pid :: (qe_id <$> queue u)) as Hids by (by rewrite Hq).
    assert (pid ∉ qe_id <$> queue u) as Hout.
    { intros Hin. apply in_queue_elem in Hin. congruence. }
    split; [rewrite Hids; by apply NoDup_cons|].
    split; [intros i; by rewrite Hids, elem_of_cons|]. split; [done|].
    intros t' p.
    assert (in_queue pid q = true) as ->; [|done].
    apply in_queue_elem. rewrite Hids. by left.
Qed.

Lemma waiting_queue_no_duplicates_witness :
  ∃ u1 p1,
    add_patient_to_queue demo_unit "c" demo_patient 5 = Ok (u1, p1) ∧
    NoDup (qe_id <$> queue u1) ∧
    (∀ i, i ∈ qe_id <$> queue u1 ↔ i = "c" ∨ i ∈ qe_id <$> queue demo_unit) ∧
    patients_in_unit u1 = patients_in_unit demo_unit ∧
    ∀ t' p, add_patient_to_queue u1 "c" p t' = Ok (u1, p).
Proof.
  apply (waiting_queue_no_duplicates demo_unit "c" demo_patient 5).
  exact demo_unit_distinct.
Defined.

(** X3: an admission that finds a bed takes the patient out of the waiting
    queue of the unit and keeps every other entry; the ids of the queue stay
    distinct. *)
Theorem admission_leaves_queue (u u1 : Unit) (pid : string) (patient p1 : Patient)
    (t : Q) :
  NoDup (qe_id <$> queue u) →
  admit_patient u pid patient t = Ok (true, u1, p1) →
  (pid ∉ qe_id <$> queue u1) ∧
  NoDup (qe_id <$> queue u1) ∧
  ∀ e, e ∈ queue u1 ↔ e ∈ queue u ∧ qe_id e ≠ pid.
Proof.
  intros Hnd H. unfold admit_patient in H.
  destruct (Z.of_nat (size (patients_in_unit u)) <? capacity u); [|by inversion H].
  cbn [queue set_patients_in_unit] in H.
  destruct (in_queue pid (queue u)) eqn:E.
  - bind_inv H. bind_inv Hr. inversion Hr; subst. inversion H; subst.
    cbn [queue set_queue]. apply heapify_from_items in Hr0.
    assert (∀ e, e ∈ r0 ↔ e ∈ queue u ∧ qe_id e ≠ pid) as Hall.
    { intros e. rewrite Hr0. by apply queue_remove_elem. }
    split; [|split; [|done]].
    + intros Hin. apply list_elem_of_fmap in Hin as (e & -> & He).
      apply Hall in He as [_ He]. done.
    + rewrite Hr0. eapply sublist_NoDup; [exact Hnd|].
      apply fmap_sublist, queue_remove_sublist.
  - bind_inv H. inversion Hr; subst. inversion H; subst.
    cbn [queue set_patients_in_unit].
    assert (pid ∉ qe_id <$> queue u) as Hout.
    { intros Hin. apply in_queue_elem in Hin. congruence. }
    split; [done|]. split; [done|]. intros e. split; [|by intros [? _]].
    intros He. split; [done|]. intros <-. apply Hout. by apply list_elem_of_fmap_2.
Qed.

Lemma admission_leaves_queue_witness :
  match admit_patient demo_unit "a" demo_patient 5 with
  | Ok (true, u1, _) =>
      ("a" ∉ qe_id <$> queue u1) ∧
      NoDup (qe_id <$> queue u1) ∧
      ∀ e, e ∈ queue u1 ↔ e ∈ queue demo_unit ∧ qe_id e ≠ "a"
  | _ => False
  end.
Proof.
  destruct (admit_patient demo_unit "a" demo_patient 5) as [[[[] u1] p1]|e] eqn:E.
  - apply (admission_leaves_queue demo_unit u1 "a" demo_patient p1 5);
      [exact demo_unit_distinct|exact E].
  - vm_compute in E. discriminate E.
  - vm_compute in E. discriminate E.
Defined.

(** ** Staff: what the accrual charges *)

Lemma cost_per_minute_nonneg (t : StaffType) : (0 <= cost_per_minute t)%Q.
Proof. destruct t; unfold Qle; cbn; lia. Qed.

Lemma Qmax_0_nonneg (x : Q) : (0 <= Qmax 0 x)%Q.
Proof. unfold Qmax. Qcases; lra. Qed.

Lemma add_assignment_cost_total (d : Q) (s : Staff) :
  total_cost (add_assignment_cost d s)
  == total_cost s + (11 # 10) * cost_per_minute (type s) * Qmax 0 d.
Proof.
  unfold total_cost. rewrite add_assignment_cost_normal, add_assignment_cost_overtime.
  ring.
Qed.

Lemma add_assignment_cost_id (d : Q) (s : Staff) :
  staff_id (add_assignment_cost d s) = staff_id s.
Proof. unfold add_assignment_cost. by destruct (Qltb 0 d). Qed.

Lemma add_assignment_cost_grows (d : Q) (s : Staff) :
  (total_normal_cost s <= total_normal_cost (add_assignment_cost d s))%Q ∧
  (total_overtime_cost s <= total_overtime_cost (add_assignment_cost d s))%Q.
Proof.
  rewrite add_assignment_cost_normal, add_assignment_cost_overtime.
  pose proof (cost_per_minute_nonneg (type s)). pose proof (Qmax_0_nonneg d).
  split; nra.
Qed.

(** One assignment: nothing is lost from the accumulators, and the total with
    the minutes in progress grows by the assigned minutes at most. *)
Lemma assign_cost_step (start duration : Q) (details : string)
    (unit_name : option UnitName) (s : Staff) :
  let s' := assign start duration details unit_name s in
  staff_id s' = staff_id s ∧ type s' = type s ∧
  (total_normal_cost s <= total_normal_cost s')%Q ∧
  (total_overtime_cost s <= total_overtime_cost s')%Q ∧
  (total_cost s' + (11 # 10) * cost_per_minute (type s) * in_progress_minutes s'
   <= total_cost s + (11 # 10) * cost_per_minute (type s) * in_progress_minutes s
      + (11 # 10) * cost_per_minute (type s) * Qmax 0 duration)%Q.
Proof.
  cbv zeta. unfold assign, accrue_cost_for_completed_task, in_progress_minutes.
  pose proof (cost_per_minute_nonneg (type s)) as Hr.
  pose proof (Qmax_0_nonneg duration) as Hd.
  assert (Qmax 0 (start + duration - start) == Qmax 0 duration) as Hnew.
  { apply Qmax_0_compat. ring. }
  destruct (last_assignment_start_time s) as [t0|] eqn:Hs.
  - destruct (Qle_bool (busy_until s) start).
    + destruct (add_assignment_cost_fields (busy_until s - t0) s) as (E1 & _ & _).
      destruct (add_assignment_cost_grows (busy_until s - t0) s) as [Hn Ho].
      pose proof (add_assignment_cost_total (busy_until s - t0) s) as Ht.
      pose proof (add_assignment_cost_id (busy_until s - t0) s) as Hi.
      unfold total_cost in *.
      cbn [staff_id type total_normal_cost total_overtime_cost busy_until
           last_assignment_start_time set_last_assigned_unit
           set_current_assignment_details set_last_assignment_start_time
           set_busy_until] in *.
      repeat split; try done. rewrite Hnew. lra.
    + unfold total_cost.
      cbn [staff_id type total_normal_cost total_overtime_cost busy_until
           last_assignment_start_time set_last_assigned_unit
           set_current_assignment_details set_last_assignment_start_time
           set_busy_until].
      pose proof (Qmax_0_nonneg (busy_until s - t0)).
      repeat split; try done; try lra. rewrite Hnew. nra.
  - unfold total_cost.
    cbn [staff_id type total_normal_cost total_overtime_cost busy_until
         last_assignment_start_time set_last_assigned_unit
         set_current_assignment_details set_last_assignment_start_time
         set_busy_until].
    repeat split; try done; try lra. rewrite Hnew. lra.
Qed.

Lemma accrue_remaining_cost_step (final : Q) (s : Staff) :
  let s' := accrue_remaining_cost final s in
  staff_id s' = staff_id s ∧ type s' = type s ∧
  last_assignment_start_time s' = None ∧
  (total_normal_cost s <= total_normal_cost s')%Q ∧
  (total_overtime_cost s <= total_overtime_cost s')%Q ∧
  (total_cost s'
   <= total_cost s + (11 # 10) * cost_per_minute (type s) * in_progress_minutes s)%Q.
Proof.
  cbv zeta. unfold accrue_remaining_cost, in_progress_minutes.
  pose proof (cost_per_minute_nonneg (type s)) as Hr.
  destruct (last_assignment_start_time s) as [t0|] eqn:Hs.
  - destruct (add_assignment_cost_fields (Qmin final (busy_until s) - t0) s)
      as (E1 & _ & _).
    destruct (add_assignment_cost_grows (Qmin final (busy_until s) - t0) s) as [Hn Ho].
    pose proof (add_assignment_cost_total (Qmin final (busy_until s) - t0) s) as Ht.
    pose proof (add_assignment_cost_id (Qmin final (busy_until s) - t0) s) as Hi.
    unfold total_cost in *.
    cbn [staff_id type total_normal_cost total_overtime_cost
         last_assignment_start_time set_last_assignment_start_time] in *.
    repeat split; try done.
    assert (Qmax 0 (Qmin final (busy_until s) - t0) <= Qmax 0 (busy_until s - t0))%Q.
    { unfold Qmin. Qcases; unfold Qmax; Qcases; lra. }
    nra.
  - repeat split; try done; lra.
Qed.

Lemma work_cost_steps (history : list (Q * Q * string * option UnitName)) (s : Staff) :
  let s' := work history s in
  staff_id s' = staff_id s ∧ type s' = type s ∧
  (total_normal_cost s <= total_normal_cost s')%Q ∧
  (total_overtime_cost s <= total_overtime_cost s')%Q ∧
  (total_cost s' + (11 # 10) * cost_per_minute (type s) * in_progress_minutes s'
   <= total_cost s + (11 # 10) * cost_per_minute (type s) * in_progress_minutes s
      + (11 # 10) * cost_per_minute (type s) * assigned_minutes history)%Q.
Proof.
  cbv zeta. revert s. induction history as [|[[[t d] det] u] rest IH]; intros s.
  - cbn. repeat split; try done; lra.
  - change (work ((t, d, det, u) :: rest) s) with (work rest (assign t d det u s)).
    change (assigned_minutes ((t, d, det, u) :: rest))
      with (Qmax 0 d + assigned_minutes rest)%Q.
    destruct (assign_cost_step t d det u s) as (Hi & Ht & Hn & Ho & Hc).
    destruct (IH (assign t d det u s)) as (Hi' & Ht' & Hn' & Ho' & Hc').
    cbv zeta in *. rewrite Ht in Hc'.
    repeat split; try congruence; try lra.
Qed.

(** X4: whatever the assignments and their order, the accrual keeps the id
    and the type of a staff member and never lowers either accumulator; for
    a staff member hired with zero cost the accrued total never exceeds
    [1.1 * rate] times the minutes the assignments hand out. *)
Theorem staff_cost_bounds (history : list (Q * Q * string * option UnitName))
    (final : Q) :
  (∀ s : Staff,
     let s' := accrue_remaining_cost final (work history s) in
     staff_id s' = staff_id s ∧ type s' = type s ∧
     (total_normal_cost s <= total_normal_cost s')%Q ∧
     (total_overtime_cost s <= total_overtime_cost s')%Q) ∧
  (∀ (t : StaffType) (id : string),
     (total_cost (accrue_remaining_cost final (work history (new_Staff t id)))
      <= (11 # 10) * cost_per_minute t * assigned_minutes history)%Q).
Proof.
  split.
  - intros s. cbv zeta.
    destruct (work_cost_steps history s) as (Hi & Ht & Hn & Ho & _).
    destruct (accrue_remaining_cost_step final (work history s))
      as (Hi' & Ht' & _ & Hn' & Ho' & _).
    cbv zeta in *. repeat split; try congruence; lra.
  - intros t id.
    destruct (work_cost_steps history (new_Staff t id)) as (_ & Ht & _ & _ & Hc).
    destruct (accrue_remaining_cost_step final (work history (new_Staff t id)))
      as (_ & _ & _ & _ & _ & Hc').
    cbv zeta in *. rewrite Ht in Hc'.
    change (type (new_Staff t id)) with t in *.
    change (total_cost (new_Staff t id)) with (0 + 0)%Q in Hc.
    change (in_progress_minutes (new_Staff t id)) with 0%Q in Hc.
    lra.
Qed.

Lemma accrue_remaining_cost_settled (final : Q) (m : Staff) :
  last_assignment_start_time (accrue_remaining_cost final m) = None.
Proof. by destruct (accrue_remaining_cost_step final m) as (_ & _ & H & _). Qed.

Lemma accrue_remaining_cost_again (final final' : Q) (m : Staff) :
  accrue_remaining_cost final' (accrue_remaining_cost final m)
  = accrue_remaining_cost final m.
Proof.
  unfold accrue_remaining_cost at 1. by rewrite accrue_remaining_cost_settled.
Qed.

Lemma accrue_all_again (final : Q) (l : list Staff) :
  accrue_remaining_cost final <$> (accrue_remaining_cost final <$> l)
  = accrue_remaining_cost final <$> l.
Proof.
  induction l as [|m l IH]; [done|].
  rewrite !fmap_cons, IH. by rewrite accrue_remaining_cost_again.
Qed.

(** X5: once [run] has accrued the remaining cost no staff member has an
    assignment left to charge, and accruing a second time (with the
    entertainment cost set again) changes nothing: nobody is charged twice. *)
Theorem finish_run_settles (s : HospitalSimulator) :
  Forall (λ m, last_assignment_start_time m = None) (all_staff (finish_run s)) ∧
  finish_run (finish_run s) = finish_run s.
Proof.
  split.
  - unfold finish_run. destruct (enable_ai_entertainment _); sim_fields;
      apply Forall_fmap, Forall_true; intros m; apply accrue_remaining_cost_settled.
  - unfold finish_run. destruct s as [c t h p q u staff m f1 f2 f3 f4 [] n k];
      sim_fields; rewrite accrue_all_again; reflexivity.
Qed.

(** ** The satisfaction score falls with the length of stay *)

Lemma interpolation_slope (L : Q) : (L - 30) / (480 - 30) * 99 == (L - 30) * (11 # 50).
Proof. field. Qed.

Lemma clamp_monotone (x y : Q) :
  (x <= y)%Q → (Qmax 1 (Qmin 100 x) <= Qmax 1 (Qmin 100 y))%Q.
Proof. intros H. unfold Qmin. Qcases; unfold Qmax; Qcases; lra. Qed.

(** X6: a longer ED stay never earns a higher satisfaction score, whatever
    the feature flags and the bonuses of the configuration are. *)
Theorem satisfaction_score_monotone (s : HospitalSimulator) (L1 L2 : Q) :
  (L1 <= L2)%Q →
  (_get_patient_satisfaction_score s L2 <= _get_patient_satisfaction_score s L1)%Q.
Proof.
  intros Hle. unfold _get_patient_satisfaction_score. cbv zeta.
  assert ((if Qle_bool L2 30 then 100
           else if Qle_bool 480 L2 then 1 else 100 - (L2 - 30) / (480 - 30) * 99)
          <= (if Qle_bool L1 30 then 100
              else if Qle_bool 480 L1 then 1 else 100 - (L1 - 30) / (480 - 30) * 99))%Q
    as Hbase by (Qcases; rewrite ?interpolation_slope; lra).
  revert Hbase.
  generalize (if Qle_bool L2 30 then 100
              else if Qle_bool 480 L2 then 1 else 100 - (L2 - 30) / (480 - 30) * 99)%Q.
  generalize (if Qle_bool L1 30 then 100
              else if Qle_bool 480 L1 then 1 else 100 - (L1 - 30) / (480 - 30) * 99)%Q.
  intros b1 b2 Hbase.
  destruct (enable_amenities s), (enable_ai_entertainment s);
    apply clamp_monotone; lra.
Qed.

Lemma satisfaction_score_monotone_witness :
  (_get_patient_satisfaction_score demo_simulator 240
   <= _get_patient_satisfaction_score demo_simulator 90)%Q.
Proof. apply (satisfaction_score_monotone demo_simulator 90 240). lra. Defined.

(** ** The metrics tracker *)

(** X7: [reset] puts every field of the tracker back to the value
    [__init__] gives it, whatever was recorded before. *)
Theorem reset_restores_initial_state (m : MetricsTracker) :
  reset m = new_MetricsTracker.
Proof. by destruct m. Qed.

Lemma inject_Z_le (a b : Z) : a ≤ b → (inject_Z a <= inject_Z b)%Q.
Proof. intros H. by rewrite <- Zle_Qle. Qed.

(** The area under a series that stays within its bounds. *)
Lemma area_within (from horizon : Q) (cap : Z) (l : list (Q * Z)) (t0 tn : Q)
    (c0 cn : Z) :
  sampled_within from horizon cap l →
  head l = Some (t0, c0) → last l = Some (tn, cn) →
  (0 <= stepwise_area l + inject_Z cn * (horizon - tn))%Q ∧
  (stepwise_area l + inject_Z cn * (horizon - tn)
   <= inject_Z cap * (horizon - t0))%Q.
Proof.
  revert from t0 c0. induction l as [|[t c] rest IH]; intros from t0 c0 Hok Hhd Hlast;
    [done|].
  destruct Hok as (Hfrom & Hhor & Hc & Hok). cbn in Hhd. inversion Hhd; subst.
  pose proof (inject_Z_le 0 c0 (proj1 Hc)) as Hc0.
  pose proof (inject_Z_le c0 cap (proj2 Hc)) as Hc1.
  change (inject_Z 0) with 0%Q in Hc0.
  destruct rest as [|[t1 c1] rest'].
  - cbn in Hlast. inversion Hlast; subst. cbn [stepwise_area]. split; nra.
  - rewrite last_cons_cons in Hlast.
    destruct (IH t0 t1 c1 Hok eq_refl Hlast) as [Hlo Hhi].
    destruct Hok as (Ht1 & Hh1 & _ & _).
    change (stepwise_area ((t0, c0) :: (t1, c1) :: rest'))
      with (inject_Z c0 * (t1 - t0) + stepwise_area ((t1, c1) :: rest'))%Q.
    split; nra.
Qed.

Lemma weighted_average_bounds (l : list (Q * Z)) (cap : Z) :
  sampled_within 0 (inject_Z (SIM_END_TIME Config_base)) cap l →
  0 ≤ cap →
  let average :=
    calculate_weighted_average_occupancy l
      (SIM_END_TIME Config_base - SIM_START_TIME Config_base) in
  (0 <= average)%Q ∧ (average <= inject_Z cap)%Q.
Proof.
  intros Hok Hcap. cbv zeta. rewrite weighted_average_spec.
  pose proof (inject_Z_le 0 cap Hcap) as Hcap'. change (inject_Z 0) with 0%Q in Hcap'.
  unfold time_weighted_average.
  destruct l as [|[t0 c0] rest]; [split; [lra|done]|].
  destruct rest as [|[t1 c1] rest'].
  - destruct Hok as (_ & _ & Hc & _).
    pose proof (inject_Z_le 0 c0 (proj1 Hc)) as H0.
    pose proof (inject_Z_le c0 cap (proj2 Hc)) as H1.
    change (inject_Z 0) with 0%Q in H0. done.
  - set (l := (t0, c0) :: (t1, c1) :: rest') in *.
    destruct (last l) as [[tn cn]|] eqn:Hlast; [|by apply last_None in Hlast].
    destruct (area_within 0 _ cap l t0 tn c0 cn Hok eq_refl Hlast) as [Hlo Hhi].
    destruct Hok as (Ht0 & _).
    change (inject_Z (SIM_END_TIME Config_base)) with 10080%Q in *.
    set (area := (stepwise_area l + inject_Z cn * (10080 - tn))%Q) in *.
    assert (1 / 10080 * area == area * (1 # 10080))%Q as -> by field.
    split; nra.
Qed.

(** X8: for a series sampled in time order between minute 0 and the end
    of the simulated week whose counts never exceed a capacity, the
    time-weighted average lies between 0 and that capacity. *)
Theorem average_occupancy_within_capacity (l : list (Q * Z)) (cap : Z) :
  sampled_within 0 (inject_Z (SIM_END_TIME Config_base)) cap l →
  0 ≤ cap →
  let average :=
    calculate_weighted_average_occupancy l
      (SIM_END_TIME Config_base - SIM_START_TIME Config_base) in
  (0 <= average)%Q ∧ (average <= inject_Z cap)%Q.
Proof. apply weighted_average_bounds. Qed.

Lemma average_occupancy_within_capacity_witness :
  let average :=
    calculate_weighted_average_occupancy demo_series
      (SIM_END_TIME Config_base - SIM_START_TIME Config_base) in
  (0 <= average)%Q ∧ (average <= inject_Z 4)%Q.
Proof.
  apply (average_occupancy_within_capacity demo_series 4).
  - cbn. repeat split; (lra || lia || (unfold Qle; cbn; lia)).
  - lia.
Defined.

(** ** Staffing: who is hired, and who is found for a task *)

Lemma roster_new_Unit (n : UnitName) (cap : Z) (staff_config : list (StaffType * Z))
    (t : StaffType) (r : list string) :
  roster (new_Unit n cap staff_config) t = Some r → r = [].
Proof.
  unfold roster, new_Unit. cbn [staff_assigned].
  induction staff_config as [|[t0 c0] l IH]; [done|].
  cbn. destruct (bool_decide (t0 = t)); [|exact IH].
  cbn. intros H. by inversion H.
Qed.

Lemma roster_append (t : StaffType) (sid : string) (u : Unit) (t' : StaffType)
    (r' : list string) :
  roster (append_to_roster t sid u) t' = Some r' →
  ∃ r, roster u t' = Some r ∧ (r' = r ∨ (t' = t ∧ r' = r ++ [sid])).
Proof.
  unfold roster, append_to_roster. cbn [staff_assigned set_staff_assigned].
  induction (staff_assigned u) as [|[t0 r0] l IH]; [done|].
  cbn [fmap list_fmap find fst snd].
  destruct (bool_decide (t0 = t)) eqn:E0; cbn [fst snd].
  - destruct (bool_decide (t0 = t')) eqn:E1; [|exact IH].
    cbn. intros H. inversion H; subst. exists r0. split; [done|]. right.
    apply bool_decide_eq_true in E0, E1. split; [congruence|done].
  - destruct (bool_decide (t0 = t')) eqn:E1; [|exact IH].
    cbn. intros H. inversion H; subst. exists r'. split; [done|]. by left.
Qed.


Lemma hire_one_ok (ids : nat → string) (tys : list StaffType) (t : StaffType)
    (unit_name : option UnitName) (next : nat) (staff : list Staff)
    (us : UnitName → Unit) :
  hiring_ok ids tys (next, staff, us) →
  hiring_ok ids (tys ++ [t])
    (S next, staff ++ [new_Staff t (ids next)],
     match unit_name with
     | Some n => update_unit n (append_to_roster t (ids next) (us n)) us
     | None => us
     end).
Proof.
  unfold hiring_ok. intros (Hn & Hs & Hr). cbn [fst snd] in *. subst next.
  split; [rewrite length_app; cbn; lia|]. split.
  - rewrite length_app. cbn [length]. rewrite Nat.add_1_r, seq_S, fmap_app.
    rewrite zip_with_app by (by rewrite length_fmap, length_seq).
    by rewrite Hs.
  - intros n t' r i Hros Hi.
    assert (∀ k, tys !! k = Some t' → (tys ++ [t]) !! k = Some t') as Hkeep.
    { intros k Hk. by apply lookup_app_l_Some. }
    destruct unit_name as [m|].
    + rewrite update_unit_lookup in Hros. destruct (decide (n = m)) as [->|].
      * apply roster_append in Hros as (r0 & Hr0 & [->|[-> ->]]).
        { destruct (Hr m t' r0 i Hr0 Hi) as (k & -> & Hk). eauto. }
        apply elem_of_app in Hi as [Hi|Hi].
        { destruct (Hr m t r0 i Hr0 Hi) as (k & -> & Hk). eauto. }
        apply list_elem_of_singleton in Hi as ->. exists (length tys).
        split; [done|]. by rewrite lookup_app_r, Nat.sub_diag.
      * destruct (Hr n t' r i Hros Hi) as (k & -> & Hk). eauto.
    + destruct (Hr n t' r i Hros Hi) as (k & -> & Hk). eauto.
Qed.

Lemma hire_ok (ids : nat → string) (count : nat) (t : StaffType)
    (unit_name : option UnitName) (tys : list StaffType)
    (st : nat * list Staff * (UnitName → Unit)) :
  hiring_ok ids tys st →
  hiring_ok ids (tys ++ replicate count t) (hire count t unit_name ids st).
Proof.
  revert tys st. induction count as [|count IH]; intros tys [[next staff] us] H.
  - cbn. by rewrite app_nil_r.
  - cbn [hire replicate]. rewrite cons_middle, app_assoc.
    apply IH. by apply hire_one_ok.
Qed.

Lemma initialize_staff_ok (cfg : Config) (ids : nat → string) (us : UnitName → Unit) :
  hiring_ok ids [] (O, [], us) →
  ∃ next, hiring_ok ids (hired_types cfg)
            (next, (_initialize_staff cfg ids us).1, (_initialize_staff cfg ids us).2).
Proof.
  intros H0. unfold _initialize_staff, hired_types.
  set (per_type := λ (unit_name : UnitName) (st : nat * list Staff * (UnitName → Unit))
                     '(t, count), hire (Z.to_nat count) t (Some unit_name) ids st).
  set (per_unit := λ (st : nat * list Staff * (UnitName → Unit))
                     '(unit_name, staff_config),
                     fold_left (per_type unit_name) staff_config st).
  set (types_of := λ '(t, count), replicate (Z.to_nat count) t).
  assert (∀ n l tys st,
            hiring_ok ids tys st →
            hiring_ok ids (tys ++ concat (types_of <$> l)) (fold_left (per_type n) l st))
    as Hinner.
  { intros n l. induction l as [|[t count] l IH]; intros tys st H.
    - cbn. by rewrite app_nil_r.
    - cbn [fold_left fmap list_fmap concat]. rewrite app_assoc. apply IH.
      by apply hire_ok. }
  assert (∀ l tys st,
            hiring_ok ids tys st →
            hiring_ok ids
              (tys ++ concat ((λ '(_, staff_config), concat (types_of <$> staff_config))
                                <$> l))
              (fold_left per_unit l st))
    as Houter.
  { induction l as [|[n staff_config] l IH]; intros tys st H.
    - cbn. by rewrite app_nil_r.
    - cbn [fold_left fmap list_fmap concat]. rewrite app_assoc. apply IH.
      by apply Hinner. }
  specialize (Houter (STAFF_PER_UNIT cfg) [] _ H0). rewrite app_nil_l in Houter.
  apply (hire_ok ids (Z.to_nat (TRANSPORT_STAFF cfg)) TRANSPORT None) in Houter.
  apply (hire_ok ids (Z.to_nat (VOLUNTEER_TRANSPORT_STAFF cfg)) VOLUNTEER_TRANSPORT None)
    in Houter.
  rewrite <- app_assoc in Houter.
  destruct (hire _ VOLUNTEER_TRANSPORT None ids _) as [[next staff] us1].
  by exists next.
Qed.

Lemma initialize_units_rosters (cfg : Config) (cdu_enabled : bool) (n : UnitName)
    (t : StaffType) (r : list string) :
  roster (_initialize_units cfg cdu_enabled n) t = Some r → r = [].
Proof.
  unfold _initialize_units. destruct n; cbn [unit_table]; apply roster_new_Unit.
Qed.

Lemma new_simulator_hiring (cfg : Config) (ids : nat → string)
    (cdu ai_imaging ai_staffing amenities ai_entertainment : bool) :
  let s := new_HospitalSimulator cfg ids cdu ai_imaging ai_staffing amenities
             ai_entertainment in
  all_staff s
  = zip_with new_Staff (hired_types cfg) (ids <$> seq 0 (length (hired_types cfg))) ∧
  ∀ n t r i, roster (units s n) t = Some r → i ∈ r →
             ∃ k, i = ids k ∧ hired_types cfg !! k = Some t.
Proof.
  cbv zeta. unfold new_HospitalSimulator.
  destruct (initialize_staff_ok cfg ids (_initialize_units cfg cdu))
    as (next & _ & Hs & Hr).
  { split; [done|]. split; [done|]. cbn [snd]. intros n t r i Hros Hi.
    apply initialize_units_rosters in Hros as ->. by apply elem_of_nil in Hi. }
  destruct (_initialize_staff cfg ids (_initialize_units cfg cdu)) as [staff us].
  cbn [fst snd all_staff units] in *. by split.
Qed.


Lemma staff_by_id_Some (l : list Staff) (i : string) (m : Staff) :
  staff_by_id l i = Some m → m ∈ l ∧ staff_id m = i.
Proof.
  unfold staff_by_id. induction l as [|x l IH]; [done|]. cbn [find].
  destruct (String.eqb (staff_id x) i) eqn:E.
  - intros H. inversion H; subst. apply String.eqb_eq in E.
    split; [apply list_elem_of_here|done].
  - intros H. destruct (IH H) as [Hin Hid]. split; [by apply list_elem_of_further|done].
Qed.

Lemma staff_by_id_NoDup (l : list Staff) (m : Staff) :
  NoDup (staff_id <$> l) → m ∈ l → staff_by_id l (staff_id m) = Some m.
Proof.
  unfold staff_by_id. induction l as [|x l IH]; intros Hnd Hin.
  - by apply elem_of_nil in Hin.
  - rewrite fmap_cons in Hnd. apply NoDup_cons in Hnd as [Hout Hnd]. cbn [find].
    apply elem_of_cons in Hin as [->|Hin].
    + by rewrite String.eqb_refl.
    + destruct (String.eqb (staff_id x) (staff_id m)) eqn:E; [|by apply IH].
      apply String.eqb_eq in E. exfalso. apply Hout. rewrite E.
      by apply list_elem_of_fmap_2.
Qed.

Lemma min_by_busy_until_least (l : list Staff) (m x : Staff) :
  min_by_busy_until l = Some m → x ∈ l → (busy_until m <= busy_until x)%Q.
Proof.
  revert m. induction l as [|y l IH]; intros m H Hx; [done|].
  cbn [min_by_busy_until] in H. destruct (min_by_busy_until l) as [z|] eqn:Hz.
  - destruct (Qltb (busy_until z) (busy_until y)) eqn:E;
      [apply Qltb_lt in E | apply Qltb_ge in E]; inversion H; subst;
      apply elem_of_cons in Hx as [->|Hx]; try lra.
    + by apply IH.
    + specialize (IH z eq_refl Hx). lra.
  - inversion H; subst. apply min_by_busy_until_None in Hz as ->.
    apply list_elem_of_singleton in Hx as ->. lra.
Qed.

Lemma update_staff_ids (sid : string) (a : Staff) (l : list Staff) :
  staff_id a = sid →
  staff_id <$> update_staff sid (λ _, a) l = staff_id <$> l.
Proof.
  intros Ha. unfold update_staff. rewrite <- list_fmap_compose.
  apply list_fmap_ext. intros i x _. cbn.
  destruct (String.eqb (staff_id x) sid) eqn:E; [|done].
  apply String.eqb_eq in E. congruence.
Qed.

Lemma update_staff_lookup (sid : string) (a : Staff) (l : list Staff) (i : string) :
  staff_id a = sid →
  staff_by_id (update_staff sid (λ _, a) l) i
  = if decide (i = sid) then (λ _, a) <$> staff_by_id l i else staff_by_id l i.
Proof.
  intros Ha. unfold staff_by_id, update_staff.
  induction l as [|x l IH]; [by destruct (decide (i = sid))|].
  cbn [fmap list_fmap find].
  destruct (String.eqb (staff_id x) sid) eqn:E.
  - apply String.eqb_eq in E. rewrite Ha.
    destruct (decide (i = sid)) as [->|Hne].
    + rewrite E. by rewrite !String.eqb_refl.
    + rewrite E. assert (String.eqb sid i = false) as ->; [|exact IH].
      apply String.eqb_neq. congruence.
  - destruct (String.eqb (staff_id x) i) eqn:E'; [|exact IH].
    apply String.eqb_eq in E'. apply String.eqb_neq in E.
    by rewrite decide_False by congruence.
Qed.

(** Replacing a staff member by itself after [assign] keeps the staff in
    order. *)
Lemma staff_ok_update (s : HospitalSimulator) (m a : Staff) :
  staff_ok s → m ∈ all_staff s → staff_id a = staff_id m → type a = type m →
  staff_ok (set_all_staff (update_staff (staff_id m) (λ _, a) (all_staff s)) s).
Proof.
  intros [Hnd Hty] Hm Hid Htype. split.
  - cbn [all_staff set_all_staff]. by rewrite update_staff_ids.
  - intros n t r i m' Hros Hi Hfind. cbn [all_staff set_all_staff units] in *.
    rewrite update_staff_lookup in Hfind by done.
    destruct (decide (i = staff_id m)) as [->|Hne]; [|by eapply Hty].
    rewrite (staff_by_id_NoDup _ m Hnd Hm) in Hfind. cbn in Hfind.
    inversion Hfind; subst. rewrite Htype.
    eapply Hty; [exact Hros|exact Hi|]. by apply staff_by_id_NoDup.
Qed.

Lemma assign_id_type (now duration : Q) (details : string) (unit_name : option UnitName)
    (m : Staff) :
  staff_id (assign now duration details unit_name m) = staff_id m ∧
  type (assign now duration details unit_name m) = type m ∧
  busy_until (assign now duration details unit_name m) = (now + duration)%Q.
Proof.
  destruct (assign_cost_step now duration details unit_name m) as (Hi & Ht & _).
  cbv zeta in *. repeat split; try done.
Qed.

(** X10: with distinct staff ids and typed rosters, [_find_and_assign_staff]
    finds nobody exactly when no staff member of the type is free; otherwise it
    assigns a free staff member of the type whose [busy_until] is the least
    among the free ones (the preferred unit only breaks ties), who is then
    busy until [sim_time + duration], leaves every other staff member as it
    was and records the id on the patient. *)
Theorem find_and_assign_staff_spec (t : StaffType) (preferred : option UnitName)
    (now : Q) (duration : Z) (details pid : string) (patient : Patient)
    (s : HospitalSimulator) :
  staff_ok s →
  match _find_and_assign_staff t preferred now duration details pid patient s with
  | (None, patient', s') =>
      (∀ m, m ∈ all_staff s → type m = t → is_free m now = false) ∧
      s' = s ∧ patient' = patient
  | (Some a, patient', s') =>
      ∃ m, m ∈ all_staff s ∧ type m = t ∧ is_free m now = true ∧
           (∀ m', m' ∈ all_staff s → type m' = t → is_free m' now = true →
                  (busy_until m <= busy_until m')%Q) ∧
           a = assign now (inject_Z duration) details preferred m ∧
           busy_until a = (now + inject_Z duration)%Q ∧
           staff_by_id (all_staff s') (staff_id m) = Some a ∧
           (∀ i, i ≠ staff_id m →
                 staff_by_id (all_staff s') i = staff_by_id (all_staff s) i) ∧
           staff_ok s' ∧
           patient'
           = (if String.eqb pid "" then patient
              else set_assigned_staff_id (Some (staff_id m)) patient)
  end.
Proof.
  intros Hok. pose proof Hok as [Hnd Hty]. unfold _find_and_assign_staff. cbv zeta.
  set (preferred_ids := match preferred with
                        | Some n => default [] (roster (units s n) t)
                        | None => []
                        end).
  set (preferred_pool := omap (staff_by_id (all_staff s)) preferred_ids).
  set (pool := preferred_pool ++ _).
  assert (∀ m, m ∈ pool ↔ m ∈ all_staff s ∧ type m = t) as Hpool.
  { intros m. unfold pool. rewrite elem_of_app, list_elem_of_filter, list_elem_of_filter.
    split.
    - intros [Hm|(_ & Ht & Hm)]; [|done].
      apply list_elem_of_omap in Hm as (i & Hi & Hfind).
      split; [by apply staff_by_id_Some in Hfind as [? _]|].
      unfold preferred_ids in Hi. destruct preferred as [n|]; [|by apply elem_of_nil in Hi].
      destruct (roster (units s n) t) as [r|] eqn:Hros; [|by apply elem_of_nil in Hi].
      by eapply Hty.
    - intros [Hm Ht].
      destruct (decide (staff_id m ∈ staff_id <$> preferred_pool)) as [Hin|Hout];
        [left|by right].
      apply list_elem_of_fmap in Hin as (p & Hid & Hp).
      assert (p ∈ all_staff s) as Hpin.
      { apply list_elem_of_omap in Hp as (i & _ & Hfind).
        by apply staff_by_id_Some in Hfind as [? _]. }
      assert (p = m) as <-; [|done].
      pose proof (staff_by_id_NoDup _ p Hnd Hpin) as H1.
      pose proof (staff_by_id_NoDup _ m Hnd Hm) as H2. congruence. }
  destruct (min_by_busy_until (filter (λ x, is_free x now = true) pool))
    as [m|] eqn:Hmin.
  - pose proof (min_by_busy_until_elem _ _ Hmin) as Hm.
    apply list_elem_of_filter in Hm as [Hfree Hm]. apply Hpool in Hm as [Hm Ht].
    destruct (assign_id_type now (inject_Z duration) details preferred m)
      as (Hid & Htype & Hbusy).
    exists m. split; [done|]. split; [done|]. split; [done|]. split.
    { intros m' Hm' Ht' Hfree'. apply (min_by_busy_until_least _ _ _ Hmin).
      apply list_elem_of_filter. split; [done|]. by apply Hpool. }
    split; [done|]. split; [done|]. cbn [all_staff set_all_staff].
    split.
    { rewrite update_staff_lookup by done. rewrite decide_True by done.
      by rewrite (staff_by_id_NoDup _ m Hnd Hm). }
    split.
    { intros i Hne. rewrite update_staff_lookup by done. by rewrite decide_False. }
    split; [by apply staff_ok_update|done].
  - apply min_by_busy_until_None in Hmin. split; [|done].
    intros m Hm Ht. destruct (is_free m now) eqn:Hfree; [|done].
    assert (m ∈ filter (λ x, is_free x now = true) pool) as Hin.
    { apply list_elem_of_filter. split; [done|]. by apply Hpool. }
    rewrite Hmin in Hin. by apply elem_of_nil in Hin.
Qed.

Lemma zip_new_Staff_ids (ids : nat → string) (tys : list StaffType) (start : nat) :
  staff_id <$> zip_with new_Staff tys (ids <$> seq start (length tys))
  = ids <$> seq start (length tys).
Proof.
  revert start. induction tys as [|t tys IH]; intros start; [done|].
  cbn. by rewrite IH.
Qed.

Lemma new_simulator_staff_ok (cfg : Config) (ids : nat → string)
    (cdu ai_imaging ai_staffing amenities ai_entertainment : bool) :
  (∀ j k, ids j = ids k → j = k) →
  staff_ok (new_HospitalSimulator cfg ids cdu ai_imaging ai_staffing amenities
              ai_entertainment).
Proof.
  intros Hinj.
  destruct (new_simulator_hiring cfg ids cdu ai_imaging ai_staffing amenities
              ai_entertainment) as [Hs Hr].
  cbv zeta in *. split.
  - rewrite Hs, zip_new_Staff_ids. apply NoDup_fmap_2; [exact Hinj|apply NoDup_seq].
  - intros n t r i m Hros Hi Hfind.
    destruct (Hr n t r i Hros Hi) as (k & -> & Hk).
    apply staff_by_id_Some in Hfind as [Hm Hid]. rewrite Hs in Hm.
    apply list_elem_of_lookup in Hm as [j Hj].
    apply lookup_zip_with_Some in Hj as (tj & ij & -> & Htj & Hij).
    rewrite list_lookup_fmap in Hij.
    destruct (seq 0 (length (hired_types cfg)) !! j) as [j'|] eqn:Hseq; [|done].
    apply lookup_seq in Hseq as [-> _]. cbn in Hij. inversion Hij; subst.
    cbn in Hid. apply Hinj in Hid as ->. cbn. congruence.
Qed.

Lemma demo_ids_distinct (j k : nat) : demo_ids j = demo_ids k → j = k.
Proof.
  unfold demo_ids. intros H. apply (inj pretty). cbn in H. by simplify_eq H.
Qed.

Lemma find_and_assign_staff_spec_witness :
  match _find_and_assign_staff PHYSICIAN (Some ED) 7 12 "Assess Patient p" "p"
          demo_patient ward with
  | (None, patient', s') =>
      (∀ m, m ∈ all_staff ward → type m = PHYSICIAN → is_free m 7 = false) ∧
      s' = ward ∧ patient' = demo_patient
  | (Some a, patient', s') =>
      ∃ m, m ∈ all_staff ward ∧ type m = PHYSICIAN ∧ is_free m 7 = true ∧
           (∀ m', m' ∈ all_staff ward → type m' = PHYSICIAN → is_free m' 7 = true →
                  (busy_until m <= busy_until m')%Q) ∧
           a = assign 7 (inject_Z 12) "Assess Patient p" (Some ED) m ∧
           busy_until a = (7 + inject_Z 12)%Q ∧
           staff_by_id (all_staff s') (staff_id m) = Some a ∧
           (∀ i, i ≠ staff_id m →
                 staff_by_id (all_staff s') i = staff_by_id (all_staff ward) i) ∧
           staff_ok s' ∧
           patient'
           = (if String.eqb "p" "" then demo_patient
              else set_assigned_staff_id (Some (staff_id m)) demo_patient)
  end.
Proof.
  apply (find_and_assign_staff_spec PHYSICIAN (Some ED) 7 12 "Assess Patient p" "p"
           demo_patient ward).
  apply new_simulator_staff_ok. exact demo_ids_distinct.
Defined.

(** ** The run neither hires nor retypes staff *)

Lemma staff_id_inj (l : list Staff) (x y : Staff) :
  NoDup (staff_id <$> l) → x ∈ l → y ∈ l → staff_id x = staff_id y → x = y.
Proof.
  intros Hnd Hx Hy E.
  pose proof (staff_by_id_NoDup l x Hnd Hx) as H1.
  pose proof (staff_by_id_NoDup l y Hnd Hy) as H2. congruence.
Qed.

Lemma update_staff_payroll (l : list Staff) (m a : Staff) :
  NoDup (staff_id <$> l) → m ∈ l → staff_id a = staff_id m → type a = type m →
  payroll (update_staff (staff_id m) (λ _, a) l) = payroll l.
Proof.
  intros Hnd Hm Hid Hty. unfold payroll, update_staff. rewrite <- list_fmap_compose.
  apply list_fmap_ext. intros i x Hx. cbn.
  destruct (String.eqb (staff_id x) (staff_id m)) eqn:E; [|done].
  apply String.eqb_eq in E.
  assert (x = m) as -> by (eapply staff_id_inj; eauto using list_elem_of_lookup_2).
  congruence.
Qed.

Lemma assigned_payroll (l : list Staff) (m : Staff) (now duration : Q)
    (details : string) (unit_name : option UnitName) :
  NoDup (staff_id <$> l) → m ∈ l →
  payroll (update_staff (staff_id m)
             (λ _, assign now duration details unit_name m) l) = payroll l.
Proof.
  intros Hnd Hm.
  destruct (assign_id_type now duration details unit_name m) as (Hid & Hty & _).
  rewrite <- Hid at 1. rewrite Hid. by apply update_staff_payroll.
Qed.

Lemma find_and_assign_staff_payroll (t : StaffType) (preferred : option UnitName)
    (sim_time : Q) (duration : Z) (details pid : string) (patient patient' : Patient)
    (s s' : HospitalSimulator) (found : option Staff) :
  NoDup (staff_id <$> all_staff s) →
  _find_and_assign_staff t preferred sim_time duration details pid patient s
  = (found, patient', s') →
  ∃ l, s' = set_all_staff l s ∧ payroll l = payroll (all_staff s).
Proof.
  intros Hnd. unfold _find_and_assign_staff. cbv zeta.
  destruct (min_by_busy_until _) as [m|] eqn:Hmin; intros H; inversion H; subst.
  - eexists. split; [reflexivity|]. apply assigned_payroll; [done|].
    apply min_by_busy_until_elem in Hmin.
    apply list_elem_of_filter in Hmin as [_ Hmin].
    apply elem_of_app in Hmin as [Hmin|Hmin].
    + apply list_elem_of_omap in Hmin as (i & _ & Hfind).
      by apply staff_by_id_Some in Hfind as [? _].
    + apply list_elem_of_filter in Hmin as [_ Hmin].
      by apply list_elem_of_filter in Hmin as [_ Hmin].
  - exists (all_staff s'). by rewrite set_all_staff_same.
Qed.

Lemma staffed_transport_payroll (s : HospitalSimulator) (patient : Patient) (now : Q)
    (pid : string) (raw : Z) (range : Z * Z) (details : string)
    (way : TransportType) (member : Staff)
    (transport : option TransportType) (sid : option string) (dur : option Z)
    (patient' : Patient) (s' : HospitalSimulator) :
  NoDup (staff_id <$> all_staff s) → member ∈ all_staff s →
  (randint range raw ≫= λ duration,
     push_event (now + inject_Z duration)%Q STAFF_TRANSPORT_COMPLETE (Some pid)
       (Some duration)
       (set_all_staff
          (update_staff (staff_id member)
             (λ _, assign now (inject_Z duration) details (current_unit patient) member)
             (all_staff s)) s)
     ≫= λ s2,
       Ok (Some way, Some (staff_id member), Some duration,
           set_transport_type (Some way)
             (set_transport_assigned_time (Some now)
                (set_assigned_staff_id (Some (staff_id member)) patient)), s2))
  = Ok (transport, sid, dur, patient', s') →
  ∃ l q pu, s' = set_event_queue q (set_all_staff l (set_pulley_in_use pu s)) ∧
            payroll l = payroll (all_staff s).
Proof.
  intros Hnd Hm H. exec. apply push_event_inv in Hr0 as (q & Hq & ->).
  eexists _, q, (pulley_in_use s). split; [by destruct s|].
  by apply assigned_payroll.
Qed.

Lemma request_transport_payroll (raw : Z) (pid : string) (patient patient' : Patient)
    (now : Q) (destination : UnitName) (s s' : HospitalSimulator)
    (transport : option TransportType) (staff : option string) (duration : option Z) :
  NoDup (staff_id <$> all_staff s) →
  _request_transport_resource raw pid patient now destination s
  = Ok (transport, staff, duration, patient', s') →
  ∃ l q pu, s' = set_event_queue q (set_all_staff l (set_pulley_in_use pu s)) ∧
            payroll l = payroll (all_staff s).
Proof.
  intros Hnd. unfold _request_transport_resource. cbv zeta.
  destruct (_ && _ && (pulley_in_use s <? _)) eqn:Hp.
  { intros H. exec. apply push_event_inv in Hr0 as (q & Hq & ->).
    exists (all_staff s), q, (pulley_in_use s + 1). split; [by destruct s|done]. }
  destruct (if bool_decide (acuity patient = CRITICAL) then _ else None) as [m|] eqn:E1.
  { intros H. eapply staffed_transport_payroll; [done| |exact H].
    destruct (bool_decide (acuity patient = CRITICAL)); [|done].
    apply min_by_busy_until_elem in E1.
    apply list_elem_of_filter in E1 as [_ E1].
    by apply list_elem_of_filter in E1 as [_ E1]. }
  destruct (if _ && bool_decide (acuity patient ∈ _) then _ else None) as [m|] eqn:E2.
  { intros H. eapply staffed_transport_payroll; [done| |exact H].
    destruct (_ && bool_decide (acuity patient ∈ _)); [|done].
    apply min_by_busy_until_elem in E2.
    apply list_elem_of_filter in E2 as [_ E2].
    by apply list_elem_of_filter in E2 as [_ E2]. }
  destruct (sorted_head _ _) as [m|] eqn:E3.
  { intros H. eapply staffed_transport_payroll; [done| |exact H].
    apply sorted_head_elem in E3.
    apply list_elem_of_filter in E3 as [_ E3].
    by apply list_elem_of_filter in E3 as [_ E3]. }
  intros H. inversion H; subst. exists (all_staff s'), (event_queue s'), (pulley_in_use s').
  split; [by destruct s'|done].
Qed.

Lemma same_staffing_refl (s : HospitalSimulator) : same_staffing s s.
Proof. by split. Qed.

Lemma same_staffing_trans (s1 s2 s3 : HospitalSimulator) :
  same_staffing s1 s2 → same_staffing s2 s3 → same_staffing s1 s3.
Proof.
  intros [H1 H2] [H3 H4]. split; [congruence|]. intros n. by rewrite H4.
Qed.

Lemma admit_patient_roster (u u' : Unit) (pid : string) (patient patient' : Patient)
    (sim_time : Q) (b : bool) :
  admit_patient u pid patient sim_time = Ok (b, u', patient') →
  staff_assigned u' = staff_assigned u.
Proof.
  intros H.
  destruct (admit_patient_inv u pid patient sim_time)
    as (b0 & u0 & p0 & H0 & _ & _ & Hs & _).
  rewrite H in H0. by inversion H0; subst.
Qed.

Lemma discharge_patient_roster (u u' : Unit) (pid : string) (patient patient' : Patient)
    (sim_time : Q) (b : bool) :
  discharge_patient u pid patient sim_time = (b, u', patient') →
  staff_assigned u' = staff_assigned u.
Proof.
  unfold discharge_patient.
  destruct (decide (pid ∈ patients_in_unit u)); intros H; by inversion H; subst.
Qed.

Lemma put_unit_roster (s : HospitalSimulator) (n m : UnitName) (u : Unit) :
  staff_assigned u = staff_assigned (units s n) →
  staff_assigned (units (put_unit n u s) m) = staff_assigned (units s m).
Proof.
  intros H. unfold put_unit. cbn [units set_units]. rewrite update_unit_lookup.
  by destruct (decide (m = n)) as [->|].
Qed.

Lemma process_event_staffing (d : Draws) (event_time : Q) (k : EventKind)
    (pid : option string) (payload : option Z) (s s' : HospitalSimulator) :
  NoDup (staff_id <$> all_staff s) →
  _process_event d event_time k pid payload s = Ok s' → same_staffing s s'.
Proof.
  intros Hnd H. open_handlers H k.
  all: exec.
  all: repeat match goal with
       | H : _find_and_assign_staff _ _ _ _ _ _ _ _ = _ |- _ =>
           apply find_and_assign_staff_payroll in H as (? & -> & ?);
           [|sim_fields; assumption]
       | H : _request_transport_resource _ _ _ _ _ _ = Ok _ |- _ =>
           apply request_transport_payroll in H as (? & ? & ? & -> & ?);
           [|sim_fields; assumption]
       | H : leave_current_unit _ _ _ _ = _ |- _ =>
           apply leave_current_unit_inv in H as [[-> ->]|(? & ? & ? & -> & ->)]
       | H : admit_patient _ _ _ _ = Ok _ |- _ => apply admit_patient_roster in H
       | H : discharge_patient _ _ _ _ = _ |- _ => apply discharge_patient_roster in H
       end.
  all: frames.
  all: sim_fields.
  all: split; sim_fields; try done.
  all: intros unit_name; rewrite ?update_unit_lookup;
    repeat match goal with
    | |- context [decide (unit_name = ?m)] =>
        destruct (decide (unit_name = m)) as [->|]
    end;
    cbn [staff_assigned set_patients_in_unit set_queue]; congruence.
Qed.

Lemma payroll_ids (l l' : list Staff) :
  payroll l' = payroll l → staff_id <$> l' = staff_id <$> l.
Proof.
  intros H. apply (f_equal (fmap fst)) in H. unfold payroll in H.
  rewrite <- !list_fmap_compose in H. exact H.
Qed.

Lemma staff_by_id_payroll (l l' : list Staff) (i : string) (m' : Staff) :
  payroll l' = payroll l → staff_by_id l' i = Some m' →
  ∃ m, staff_by_id l i = Some m ∧ type m = type m'.
Proof.
  unfold staff_by_id. revert l. induction l' as [|x' l' IH]; intros l Hp Hf; [done|].
  destruct l as [|x l]; [done|]. unfold payroll in Hp. rewrite !fmap_cons in Hp.
  inversion Hp as [[Hid Hty Hrest]]. cbn [find] in *. rewrite <- Hid.
  destruct (String.eqb (staff_id x') i).
  - inversion Hf; subst. by exists x.
  - by apply IH.
Qed.

Lemma same_staffing_ok (s s' : HospitalSimulator) :
  same_staffing s s' → staff_ok s → staff_ok s'.
Proof.
  intros [Hp Hr] [Hnd Hty]. split.
  - by rewrite (payroll_ids _ _ Hp).
  - intros n t r i m' Hros Hi Hfind. unfold roster in Hros. rewrite Hr in Hros.
    destruct (staff_by_id_payroll _ _ i m' Hp Hfind) as (m & Hm & <-).
    by eapply Hty.
Qed.

Lemma seed_events_staffing (s s' : HospitalSimulator) :
  seed_events s = Ok s' → same_staffing s s'.
Proof. unfold seed_events. intros H. exec; frames; by split. Qed.

Lemma loop_iteration_staffing (d : Draws) (s s' : HospitalSimulator) :
  NoDup (staff_id <$> all_staff s) →
  loop_iteration d s = Ok (Some s') → same_staffing s s'.
Proof.
  unfold loop_iteration. intros Hnd H. exec.
  - by split.
  - apply process_event_staffing in Hr0; [|by sim_fields]. exact Hr0.
Qed.

Lemma event_loop_staffing (n : nat) (draws : nat → Draws) (s s' : HospitalSimulator)
    (over : bool) :
  NoDup (staff_id <$> all_staff s) →
  event_loop n draws s = Ok (over, s') → same_staffing s s'.
Proof.
  revert draws s. induction n as [|n IH]; intros draws s Hnd H.
  - cbn in H. inversion H; subst. apply same_staffing_refl.
  - cbn [event_loop] in H. bind_inv H. destruct r as [s1|].
    + pose proof (loop_iteration_staffing _ _ _ Hnd Hr) as H1.
      eapply same_staffing_trans; [exact H1|]. eapply IH; [|exact H].
      by rewrite (payroll_ids _ _ (proj1 H1)).
    + inversion H; subst. apply same_staffing_refl.
Qed.

Lemma finish_run_staffing (s : HospitalSimulator) : same_staffing s (finish_run s).
Proof.
  unfold finish_run. split.
  - destruct (enable_ai_entertainment _); sim_fields; unfold payroll;
      rewrite <- list_fmap_compose; apply list_fmap_ext; intros i m _; cbn;
      by destruct (accrue_remaining_cost_step (inject_Z (total_sim_minutes s + 1)) m)
        as (-> & -> & _).
  - intros n. by destruct (enable_ai_entertainment _).
Qed.

Lemma boundary_staffing (cfg : Config) (ids : nat → string)
    (cdu ai_imaging ai_staffing amenities ai_entertainment : bool)
    (n : nat) (draws : nat → Draws) (over : bool) (s : HospitalSimulator) :
  (∀ j k, ids j = ids k → j = k) →
  boundary cfg ids cdu ai_imaging ai_staffing amenities ai_entertainment n draws
  = Ok (over, s) →
  same_staffing
    (new_HospitalSimulator cfg ids cdu ai_imaging ai_staffing amenities ai_entertainment)
    s.
Proof.
  intros Hinj H. unfold boundary in H. bind_inv H.
  pose proof (new_simulator_staff_ok cfg ids cdu ai_imaging ai_staffing amenities
                ai_entertainment Hinj) as [Hnd _].
  apply seed_events_staffing in Hr.
  eapply same_staffing_trans; [exact Hr|]. eapply event_loop_staffing; [|exact H].
  by rewrite (payroll_ids _ _ (proj1 Hr)).
Qed.

(** X11: when the ids drawn for the staff are distinct, a run neither
    hires nor drops nor retypes anybody: at every event boundary, and after
    the final accrual, the staff list carries the ids and types of the new
    simulator in the same order, every roster of every unit is as it was
    set up, and the ids stay distinct with typed rosters. *)
Theorem staffing_never_changes (cfg : Config) (ids : nat → string)
    (cdu ai_imaging ai_staffing amenities ai_entertainment : bool)
    (n : nat) (draws : nat → Draws) (over : bool) (s : HospitalSimulator) :
  (∀ j k, ids j = ids k → j = k) →
  boundary cfg ids cdu ai_imaging ai_staffing amenities ai_entertainment n draws
  = Ok (over, s) →
  let s0 := new_HospitalSimulator cfg ids cdu ai_imaging ai_staffing amenities
              ai_entertainment in
  same_staffing s0 s ∧ same_staffing s0 (finish_run s) ∧ staff_ok s ∧
  payroll (all_staff s)
  = zip (ids <$> seq 0 (length (hired_types cfg))) (hired_types cfg).
Proof.
  intros Hinj H. cbv zeta.
  pose proof (boundary_staffing _ _ _ _ _ _ _ _ _ _ _ Hinj H) as Hs.
  pose proof (new_simulator_staff_ok cfg ids cdu ai_imaging ai_staffing amenities
                ai_entertainment Hinj) as Hok.
  split; [done|]. split.
  { eapply same_staffing_trans; [exact Hs|apply finish_run_staffing]. }
  split; [by eapply same_staffing_ok|].
  rewrite (proj1 Hs).
  destruct (new_simulator_hiring cfg ids cdu ai_imaging ai_staffing amenities
              ai_entertainment) as [-> _].
  generalize (hired_types cfg) 0%nat. clear.
  induction l as [|t l IH]; intros start; [done|].
  cbn. unfold payroll in IH. by rewrite IH.
Qed.

Lemma staffing_never_changes_witness :
  match boundary SmallWardConfig demo_ids false false false false false 32 ward_draws with
  | Ok (_, s) =>
      same_staffing ward s ∧ same_staffing ward (finish_run s) ∧ staff_ok s ∧
      payroll (all_staff s)
      = zip (demo_ids <$> seq 0 (length (hired_types SmallWardConfig)))
          (hired_types SmallWardConfig)
  | Raise _ => False
  end.
Proof.
  destruct (boundary SmallWardConfig demo_ids false false false false false 32 ward_draws)
    as [[over s]|e] eqn:E.
  - exact (staffing_never_changes SmallWardConfig demo_ids false false false false false
             32%nat ward_draws over s demo_ids_distinct E).
  - vm_compute in E. discriminate E.
Defined.

(** ** What a run records *)

Lemma Qsum_from (l : list Q) (acc : Q) : (fold_left Qplus l acc == acc + Qsum l)%Q.
Proof.
  unfold Qsum. revert acc. induction l as [|x l IH]; intros acc; cbn [fold_left].
  - ring.
  - rewrite (IH (acc + x)%Q), (IH (0 + x)%Q). ring.
Qed.

Lemma Qsum_snoc (l : list Q) (x : Q) : (Qsum (l ++ [x]) == Qsum l + x)%Q.
Proof. unfold Qsum. rewrite fold_left_app. cbn [fold_left]. reflexivity. Qed.

Lemma no_repeat_snoc (l : list (Q * Z)) (t : Q) (c : Z) :
  no_repeat l → count_changed l c = true → no_repeat (l ++ [(t, c)]).
Proof.
  unfold count_changed. induction l as [|[t0 c0] l IH]; [done|].
  destruct l as [|[t1 c1] l'].
  - cbn. intros _ H. split; [|done]. apply negb_true_iff, Z.eqb_neq in H. done.
  - intros [Hne Hok] H. rewrite last_cons_cons in H.
    change (((t0, c0) :: (t1, c1) :: l') ++ [(t, c)])
      with ((t0, c0) :: (((t1, c1) :: l') ++ [(t, c)])).
    cbn [no_repeat app]. split; [done|]. by apply IH.
Qed.

Section MetricsOk.
Context (score : Q → Q) (m : MetricsTracker).
Hypothesis Hok : metrics_ok score m.

Lemma ok_disposition (L x : Q) :
  x = score L →
  metrics_ok score (add_patient_satisfaction_score x (add_ed_los L m)).
Proof.
  intros ->. destruct Hok as (Hs & Hrest). split; [|exact Hrest].
  cbn. by rewrite Hs, fmap_app.
Qed.

Lemma ok_boarding (b : Q) : metrics_ok score (add_ed_boarding_time b m).
Proof.
  destruct Hok as (Hs & Hb & Hrest). split; [exact Hs|]. split; [|exact Hrest].
  change (total_ed_boarding_time m + b == Qsum (ed_boarding_times m ++ [b]))%Q.
  rewrite Qsum_snoc, Hb. reflexivity.
Qed.

Lemma ok_cdu_conversion (converted : bool) :
  metrics_ok score (add_cdu_conversion converted m).
Proof.
  destruct Hok as (Hs & Hb & Hc & Hrest). unfold add_cdu_conversion.
  destruct converted; (split; [exact Hs|]; split; [exact Hb|]; split; [cbn; lia|]);
    exact Hrest.
Qed.

Lemma ok_cdu_occupancy (t : Q) (c : Z) : metrics_ok score (add_cdu_occupancy t c m).
Proof.
  unfold add_cdu_occupancy. destruct (count_changed _ c) eqn:E; [|done].
  destruct Hok as (Hs & Hb & Hc & Ht & Hp & H1 & H2 & H3).
  repeat (split; [done|]). split; [|done]. cbn. by apply no_repeat_snoc.
Qed.

Lemma ok_inpatient_occupancy (t : Q) (c : Z) :
  metrics_ok score (add_inpatient_occupancy t c m).
Proof.
  unfold add_inpatient_occupancy. destruct (count_changed _ c) eqn:E; [|done].
  destruct Hok as (Hs & Hb & Hc & Ht & Hp & H1 & H2 & H3).
  repeat (split; [done|]). split; [|done]. cbn. by apply no_repeat_snoc.
Qed.

Lemma ok_pulley_utilization (t : Q) (c : Z) :
  metrics_ok score (add_pulley_utilization t c m).
Proof.
  unfold add_pulley_utilization. destruct (count_changed _ c) eqn:E; [|done].
  destruct Hok as (Hs & Hb & Hc & Ht & Hp & H1 & H2 & H3).
  repeat (split; [done|]). cbn. by apply no_repeat_snoc.
Qed.

Lemma ok_overall_tat (x : Q) : metrics_ok score (add_overall_imaging_tat x m).
Proof. exact Hok. Qed.

Lemma ok_critical_tat (x : Q) : metrics_ok score (add_critical_imaging_tat x m).
Proof. exact Hok. Qed.

Lemma ok_ed_cdu_tat (x : Q) : metrics_ok score (add_ed_cdu_imaging_tat x m).
Proof. exact Hok. Qed.

Lemma ok_hospital_los (x : Q) : metrics_ok score (add_total_hospital_los x m).
Proof. exact Hok. Qed.

Lemma ok_ed_wait (x : Q) : metrics_ok score (add_ed_wait_time_for_transport x m).
Proof. exact Hok. Qed.

Lemma ok_amenities (x : Q) : metrics_ok score (set_total_amenities_cost x m).
Proof. exact Hok. Qed.

Lemma ok_entertainment (x : Q) : metrics_ok score (set_total_ai_entertainment_cost x m).
Proof. exact Hok. Qed.

Lemma ok_transport (way : option TransportType) (duration : Z) :
  metrics_ok score (add_transfer_time_to_admit duration (add_transport_type_count way m)).
Proof.
  destruct Hok as (Hs & Hb & Hc & Ht & Hrest).
  destruct way as [[]|];
    (split; [exact Hs|]; split; [exact Hb|]; split; [exact Hc|]; split; [|exact Hrest]);
    cbn; rewrite length_app; cbn; lia.
Qed.
End MetricsOk.

Lemma determine_disposition_metrics (u : Q) (pid : string) (patient patient' : Patient)
    (event_time : Q) (s s' : HospitalSimulator) :
  _determine_patient_disposition u pid patient event_time s = Ok (patient', s') →
  ∃ q m,
    s' = set_event_queue q (set_metrics m s) ∧
    (m = metrics s ∨
     m = add_patient_satisfaction_score
           (_get_patient_satisfaction_score s (event_time - arrival_time patient)%Q)
           (add_ed_los (event_time - arrival_time patient)%Q (metrics s))).
Proof.
  unfold _determine_patient_disposition. intros H.
  destruct (ed_disposition_time patient) as [t0|];
    cbn [acuity set_ed_disposition_time] in H;
    destruct (acuity patient); exec;
    apply push_event_inv in Hr as (qq & Hq & ->);
    exists qq;
    match goal with
    | |- ∃ m, set_event_queue _ ?x = _ ∧ _ => exists (metrics x)
    end;
    (split; [first [reflexivity | by destruct s]|]);
    first [by left | by right].
Qed.

Lemma process_event_metrics (d : Draws) (event_time : Q) (k : EventKind)
    (pid : option string) (payload : option Z) (s s' : HospitalSimulator)
    (score : Q → Q) :
  _process_event d event_time k pid payload s = Ok s' →
  (∀ L, _get_patient_satisfaction_score s L = score L) →
  metrics_ok score (metrics s) →
  metrics_ok score (metrics s') ∧ ∀ L, _get_patient_satisfaction_score s' L = score L.
Proof.
  intros H Hsc Hok. open_handlers H k.
  all: exec.
  all: repeat match goal with
       | H : _determine_patient_disposition _ _ _ _ _ = Ok _ |- _ =>
           apply determine_disposition_metrics in H as (? & ? & -> & [->| ->])
       | H : leave_current_unit _ _ _ _ = _ |- _ =>
           apply leave_current_unit_inv in H as [[-> ->]|(? & ? & ? & -> & ->)]
       end.
  all: frames.
  all: sim_fields.
  all: (split; [|intros L; rewrite <- Hsc; reflexivity]).
  all: sim_fields.
  all: repeat first
         [ assumption
         | match goal with
           | |- metrics_ok _ (if ?c then _ else _) => destruct c
           | |- metrics_ok _ (match ?x with _ => _ end) => destruct x
           end
         | apply ok_disposition; [|rewrite <- Hsc; reflexivity]
         | apply ok_boarding | apply ok_cdu_conversion | apply ok_cdu_occupancy
         | apply ok_inpatient_occupancy | apply ok_pulley_utilization
         | apply ok_overall_tat | apply ok_critical_tat | apply ok_ed_cdu_tat
         | apply ok_hospital_los | apply ok_ed_wait | apply ok_amenities
         | apply ok_transport ].
Qed.

Lemma seed_events_metrics (s s' : HospitalSimulator) :
  seed_events s = Ok s' →
  metrics s' = metrics s ∧
  ∀ L, _get_patient_satisfaction_score s' L = _get_patient_satisfaction_score s L.
Proof. unfold seed_events. intros H. exec; frames; by split. Qed.

Lemma loop_iteration_metrics (d : Draws) (s s' : HospitalSimulator) (score : Q → Q) :
  loop_iteration d s = Ok (Some s') →
  (∀ L, _get_patient_satisfaction_score s L = score L) →
  metrics_ok score (metrics s) →
  metrics_ok score (metrics s') ∧ ∀ L, _get_patient_satisfaction_score s' L = score L.
Proof.
  unfold loop_iteration. intros H Hsc Hok. exec.
  - by split.
  - eapply process_event_metrics; [exact Hr0|exact Hsc|exact Hok].
Qed.

Lemma event_loop_metrics (n : nat) (draws : nat → Draws) (s s' : HospitalSimulator)
    (over : bool) (score : Q → Q) :
  event_loop n draws s = Ok (over, s') →
  (∀ L, _get_patient_satisfaction_score s L = score L) →
  metrics_ok score (metrics s) →
  metrics_ok score (metrics s') ∧ ∀ L, _get_patient_satisfaction_score s' L = score L.
Proof.
  revert draws s. induction n as [|n IH]; intros draws s H Hsc Hok.
  - cbn in H. by inversion H; subst.
  - cbn [event_loop] in H. bind_inv H. destruct r as [s1|].
    + destruct (loop_iteration_metrics _ _ _ _ Hr Hsc Hok) as [Hok1 Hsc1].
      by eapply IH.
    + by inversion H; subst.
Qed.

Lemma new_simulator_metrics (cfg : Config) (ids : nat → string)
    (cdu ai_imaging ai_staffing amenities ai_entertainment : bool) :
  metrics (new_HospitalSimulator cfg ids cdu ai_imaging ai_staffing amenities
             ai_entertainment) = new_MetricsTracker.
Proof.
  unfold new_HospitalSimulator.
  by destruct (_initialize_staff cfg ids (_initialize_units cfg cdu)).
Qed.

Lemma boundary_metrics (cfg : Config) (ids : nat → string)
    (cdu ai_imaging ai_staffing amenities ai_entertainment : bool)
    (n : nat) (draws : nat → Draws) (over : bool) (s : HospitalSimulator) :
  boundary cfg ids cdu ai_imaging ai_staffing amenities ai_entertainment n draws
  = Ok (over, s) →
  metrics_ok (_get_patient_satisfaction_score s) (metrics s).
Proof.
  intros H. unfold boundary in H. bind_inv H.
  apply seed_events_metrics in Hr as [Hm Hsc].
  pose proof (new_simulator_metrics cfg ids cdu ai_imaging ai_staffing amenities
                ai_entertainment) as Hnew.
  destruct (event_loop_metrics n draws r s over (_get_patient_satisfaction_score r) H)
    as [Hok Hsc']; [done| |].
  { rewrite Hm, Hnew. repeat split; try done; cbn; lia. }
  destruct Hok as (Hs & Hrest). split; [|exact Hrest].
  rewrite Hs. apply list_fmap_ext. intros i L _. by rewrite Hsc'.
Qed.

Lemma satisfaction_score_range (s : HospitalSimulator) (L : Q) :
  (1 <= _get_patient_satisfaction_score s L)%Q ∧
  (_get_patient_satisfaction_score s L <= 100)%Q.
Proof.
  unfold _get_patient_satisfaction_score. cbv zeta.
  match goal with |- (1 <= Qmax 1 (Qmin 100 ?b))%Q ∧ _ => generalize b end.
  intros b. unfold Qmin. Qcases; unfold Qmax; Qcases; split; lra.
Qed.

(** X12: at every event boundary of every run the tracker holds one
    satisfaction score for each recorded ED length of stay, in the same
    order, and it is the score of that stay; every recorded score lies in
    [[1, 100]]. *)
Theorem satisfaction_scores_follow_stays (cfg : Config) (ids : nat → string)
    (cdu ai_imaging ai_staffing amenities ai_entertainment : bool)
    (n : nat) (draws : nat → Draws) (over : bool) (s : HospitalSimulator) :
  boundary cfg ids cdu ai_imaging ai_staffing amenities ai_entertainment n draws
  = Ok (over, s) →
  patient_satisfaction_scores (metrics s)
  = _get_patient_satisfaction_score s <$> ed_los_list (metrics s) ∧
  Forall (λ x, (1 <= x)%Q ∧ (x <= 100)%Q) (patient_satisfaction_scores (metrics s)).
Proof.
  intros H. apply boundary_metrics in H as (Hs & _). split; [exact Hs|].
  rewrite Hs. apply Forall_fmap, Forall_true. intros L.
  apply satisfaction_score_range.
Qed.

(** X13: at every event boundary of every run the accumulators of the
    tracker agree: [total_ed_boarding_time] is the sum of
    [ed_boarding_times], the CDU conversions do not exceed the CDU patients
    counted, the three transport counters together do not exceed the number of
    recorded transfer times, and [total_patient_count] is still 0, as
    nothing ever counts a patient. *)
Theorem accumulators_consistent (cfg : Config) (ids : nat → string)
    (cdu ai_imaging ai_staffing amenities ai_entertainment : bool)
    (n : nat) (draws : nat → Draws) (over : bool) (s : HospitalSimulator) :
  boundary cfg ids cdu ai_imaging ai_staffing amenities ai_entertainment n draws
  = Ok (over, s) →
  let m := metrics s in
  (total_ed_boarding_time m == Qsum (ed_boarding_times m))%Q ∧
  0 ≤ cdu_conversion_count m ≤ cdu_total_patients m ∧
  (0 ≤ volunteer_transport_count m ∧ 0 ≤ paid_transport_count m
   ∧ 0 ≤ pulley_transport_count m
   ∧ volunteer_transport_count m + paid_transport_count m + pulley_transport_count m
     ≤ Z.of_nat (length (transfer_times_to_admit m))) ∧
  total_patient_count m = 0.
Proof.
  intros H. apply boundary_metrics in H as (_ & Hb & Hc & Ht & Hp & _). done.
Qed.

(** X14: at every event boundary of every run each of the three occupancy
    series (CDU, inpatient, pulley) holds change points only: no two
    consecutive samples carry the same count. *)
Theorem occupancy_series_record_changes (cfg : Config) (ids : nat → string)
    (cdu ai_imaging ai_staffing amenities ai_entertainment : bool)
    (n : nat) (draws : nat → Draws) (over : bool) (s : HospitalSimulator) :
  boundary cfg ids cdu ai_imaging ai_staffing amenities ai_entertainment n draws
  = Ok (over, s) →
  no_repeat (cdu_occupancy_times (metrics s)) ∧
  no_repeat (inpatient_occupancy_times (metrics s)) ∧
  no_repeat (pulley_utilization_times (metrics s)).
Proof.
  intros H. apply boundary_metrics in H as (_ & _ & _ & _ & _ & H1 & H2 & H3). done.
Qed.

Lemma satisfaction_scores_follow_stays_witness :
  match boundary Config_base demo_ids true true true true true 60 demo_draws with
  | Ok (_, s) =>
      patient_satisfaction_scores (metrics s)
      = _get_patient_satisfaction_score s <$> ed_los_list (metrics s) ∧
      Forall (λ x, (1 <= x)%Q ∧ (x <= 100)%Q) (patient_satisfaction_scores (metrics s))
  | Raise _ => False
  end.
Proof.
  destruct (boundary Config_base demo_ids true true true true true 60 demo_draws)
    as [[over s]|e] eqn:E.
  - exact (satisfaction_scores_follow_stays Config_base demo_ids true true true true true
             60%nat demo_draws over s E).
  - vm_compute in E. discriminate E.
Defined.

Lemma accumulators_consistent_witness :
  match boundary SmallWardConfig demo_ids false false false false false 32 ward_draws with
  | Ok (_, s) =>
      let m := metrics s in
      (total_ed_boarding_time m == Qsum (ed_boarding_times m))%Q ∧
      0 ≤ cdu_conversion_count m ≤ cdu_total_patients m ∧
      (0 ≤ volunteer_transport_count m ∧ 0 ≤ paid_transport_count m
       ∧ 0 ≤ pulley_transport_count m
       ∧ volunteer_transport_count m + paid_transport_count m
         + pulley_transport_count m
         ≤ Z.of_nat (length (transfer_times_to_admit m))) ∧
      total_patient_count m = 0
  | Raise _ => False
  end.
Proof.
  destruct (boundary SmallWardConfig demo_ids false false false false false 32 ward_draws)
    as [[over s]|e] eqn:E.
  - exact (accumulators_consistent SmallWardConfig demo_ids false false false false false
             32%nat ward_draws over s E).
  - vm_compute in E. discriminate E.
Defined.

Lemma occupancy_series_record_changes_witness :
  match boundary (with_pulley_capacity 2 Config_base) demo_ids true true true true true
          45 imaging_draws with
  | Ok (_, s) =>
      no_repeat (cdu_occupancy_times (metrics s)) ∧
      no_repeat (inpatient_occupancy_times (metrics s)) ∧
      no_repeat (pulley_utilization_times (metrics s))
  | Raise _ => False
  end.
Proof.
  destruct (boundary (with_pulley_capacity 2 Config_base) demo_ids true true true true
              true 45 imaging_draws) as [[over s]|e] eqn:E.
  - exact (occupancy_series_record_changes (with_pulley_capacity 2 Config_base) demo_ids
             true true true true true 45%nat imaging_draws over s E).
  - vm_compute in E. discriminate E.
Defined.

(** ** The summary of the report *)

Lemma Qsum_cons (x : Q) (l : list Q) : (Qsum (x :: l) == x + Qsum l)%Q.
Proof. unfold Qsum at 1. cbn [fold_left]. rewrite Qsum_from. ring. Qed.

Lemma inject_length_cons {A : Type} (x : A) (l : list A) :
  (inject_Z (Z.of_nat (length (x :: l))) == inject_Z (Z.of_nat (length l)) + 1)%Q.
Proof.
  cbn [length]. rewrite Nat2Z.inj_succ. unfold Z.succ. by rewrite inject_Z_plus.
Qed.

Lemma Qsum_bounds (l : list Q) (a b : Q) :
  Forall (λ x, (a <= x)%Q ∧ (x <= b)%Q) l →
  (inject_Z (Z.of_nat (length l)) * a <= Qsum l)%Q ∧
  (Qsum l <= inject_Z (Z.of_nat (length l)) * b)%Q.
Proof.
  induction 1 as [|x l [Hlo Hhi] _ [IHlo IHhi]].
  - change (inject_Z (Z.of_nat (length (@nil Q)))) with 0%Q.
    change (Qsum []) with 0%Q. split; lra.
  - rewrite Qsum_cons, inject_length_cons. split; nra.
Qed.

Lemma length_positive {A : Type} (x : A) (l : list A) :
  (0 < inject_Z (Z.of_nat (length (x :: l))))%Q.
Proof. change 0%Q with (inject_Z 0). rewrite <- Zlt_Qlt. cbn [length]. lia. Qed.

Lemma finish_run_metrics_ok (s : HospitalSimulator) (score : Q → Q) :
  metrics_ok score (metrics s) → metrics_ok score (metrics (finish_run s)).
Proof.
  intros Hok. unfold finish_run. destruct (enable_ai_entertainment _); sim_fields;
    [by apply ok_entertainment|done].
Qed.

(** X15: whatever the staff handed to it, the summary that [report] builds
    from the tracker of a finished run has a CDU discharge rate between 0 and
    100 percent, an average boarding time that is the mean of the recorded
    boarding times, and an average satisfaction score in [[1, 100]], which
    is missing only when no ED stay was recorded. *)
Theorem report_rates_in_range (cfg : Config) (ids : nat → string)
    (cdu ai_imaging ai_staffing amenities ai_entertainment : bool)
    (n : nat) (draws : nat → Draws) (over : bool) (s : HospitalSimulator)
    (all_staff_members : option (list Staff)) :
  boundary cfg ids cdu ai_imaging ai_staffing amenities ai_entertainment n draws
  = Ok (over, s) →
  let m := metrics (finish_run s) in
  let r := report_summary m all_staff_members in
  (0 <= cdu_discharge_rate r)%Q ∧ (cdu_discharge_rate r <= 100)%Q ∧
  (avg_ed_boarding r == average (ed_boarding_times m))%Q ∧
  match avg_patient_satisfaction_score r with
  | Some a => (1 <= a)%Q ∧ (a <= 100)%Q
  | None => ed_los_list m = []
  end.
Proof.
  intros H. apply boundary_metrics in H.
  apply finish_run_metrics_ok in H. cbv zeta.
  destruct H as (Hs & Hb & Hc & _).
  set (m := metrics (finish_run s)) in *.
  unfold report_summary.
  cbn [cdu_discharge_rate avg_ed_boarding avg_patient_satisfaction_score].
  assert (Forall (λ x, (1 <= x)%Q ∧ (x <= 100)%Q) (patient_satisfaction_scores m))
    as Hrange.
  { rewrite Hs. apply Forall_fmap, Forall_true. intros L.
    apply satisfaction_score_range. }
  repeat split.
  - destruct (cdu_total_patients m =? 0) eqn:E; [lra|]. apply Z.eqb_neq in E.
    assert (0 < inject_Z (cdu_total_patients m))%Q as Hpos.
    { change 0%Q with (inject_Z 0). rewrite <- Zlt_Qlt. lia. }
    assert (0 <= inject_Z (cdu_conversion_count m))%Q as Hnn.
    { change 0%Q with (inject_Z 0). rewrite <- Zle_Qle. lia. }
    assert (0 <= inject_Z (cdu_conversion_count m) / inject_Z (cdu_total_patients m))%Q.
    { apply Qle_shift_div_l; [done|]. lra. }
    lra.
  - destruct (cdu_total_patients m =? 0) eqn:E; [lra|]. apply Z.eqb_neq in E.
    assert (0 < inject_Z (cdu_total_patients m))%Q as Hpos.
    { change 0%Q with (inject_Z 0). rewrite <- Zlt_Qlt. lia. }
    assert (inject_Z (cdu_conversion_count m) <= inject_Z (cdu_total_patients m))%Q
      as Hle by (rewrite <- Zle_Qle; lia).
    assert (inject_Z (cdu_conversion_count m) / inject_Z (cdu_total_patients m) <= 1)%Q.
    { apply Qle_shift_div_r; [done|]. lra. }
    lra.
  - unfold average. destruct (ed_boarding_times m) as [|x l]; [reflexivity|].
    by rewrite Hb.
  - destruct (patient_satisfaction_scores m) as [|x l] eqn:E.
    + symmetry in Hs. by apply fmap_nil_inv in Hs.
    + destruct (Qsum_bounds _ 1 100 Hrange) as [Hlo Hhi].
      pose proof (length_positive x l) as Hpos. split.
      * apply Qle_shift_div_l; [done|]. lra.
      * apply Qle_shift_div_r; [done|]. lra.
Qed.

Lemma report_rates_in_range_witness :
  match boundary Config_base demo_ids true true true true true 60 demo_draws with
  | Ok (_, s) =>
      let m := metrics (finish_run s) in
      let r := report_summary m (Some (all_staff (finish_run s))) in
      (0 <= cdu_discharge_rate r)%Q ∧ (cdu_discharge_rate r <= 100)%Q ∧
      (avg_ed_boarding r == average (ed_boarding_times m))%Q ∧
      match avg_patient_satisfaction_score r with
      | Some a => (1 <= a)%Q ∧ (a <= 100)%Q
      | None => ed_los_list m = []
      end
  | Raise _ => False
  end.
Proof.
  destruct (boundary Config_base demo_ids true true true true true 60 demo_draws)
    as [[over s]|e] eqn:E.
  - exact (report_rates_in_range Config_base demo_ids true true true true true
             60%nat demo_draws over s (Some (all_staff (finish_run s))) E).
  - vm_compute in E. discriminate E.
Defined.

(** ** The clock and the schedule *)

Lemma randint_lower (range : Z * Z) (raw r : Z) :
  randint range raw = Ok r → range.1 ≤ r.
Proof.
  unfold randint. destruct range as [lo hi]. destruct (hi <? lo) eqn:E; [done|].
  apply Z.ltb_ge in E. intros H. inversion H; subst. cbn [fst].
  pose proof (Z.mod_pos_bound raw (hi - lo + 1)). lia.
Qed.

Lemma inject_Z_nonneg (z : Z) : 0 ≤ z → (0 <= inject_Z z)%Q.
Proof. intros H. change 0%Q with (inject_Z 0). by rewrite <- Zle_Qle. Qed.

Lemma ai_reduced_nonneg (enabled : bool) (reduction : Q) (duration : Z) :
  0 ≤ duration → (reduction <= 1)%Q → 0 ≤ ai_reduced enabled reduction duration.
Proof.
  intros Hd Hr. unfold ai_reduced. destruct enabled; [|done]. unfold py_int.
  pose proof (inject_Z_nonneg duration Hd) as Hq.
  assert (0 <= inject_Z duration * (1 - reduction))%Q as Hx by nra.
  destruct (Qle_bool 0 _) eqn:E; [|apply Qle_bool_iff in Hx; congruence].
  change 0 with (Qfloor 0). by apply Qfloor_resp_le.
Qed.

Lemma later_by (t : Q) (z : Z) : 0 ≤ z → (t <= t + inject_Z z)%Q.
Proof. intros H. pose proof (inject_Z_nonneg z H). lra. Qed.

Lemma Forall_heappush (P : Event → Prop) (q q' : list Event) (e : Event) :
  heappush event_lt q e = Ok q' → P e → Forall P q → Forall P q'.
Proof.
  intros H He Hq. apply heappush_items in H. rewrite H. by apply Forall_cons.
Qed.

Lemma find_and_assign_staff_busy (t : StaffType) (preferred : option UnitName)
    (now : Q) (duration : Z) (details pid : string) (patient patient' : Patient)
    (s s' : HospitalSimulator) (found : option Staff) :
  _find_and_assign_staff t preferred now duration details pid patient s
  = (found, patient', s') →
  (∃ l, s' = set_all_staff l s) ∧
  match found with
  | Some a => busy_until a = (now + inject_Z duration)%Q
  | None => True
  end.
Proof.
  unfold _find_and_assign_staff. cbv zeta.
  destruct (min_by_busy_until _) as [m|]; intros H; inversion H; subst.
  - split; [eauto|]. by destruct (assign_id_type now (inject_Z duration) details
                                     preferred m) as (_ & _ & ->).
  - split; [|done]. exists (all_staff s'). by rewrite set_all_staff_same.
Qed.

Lemma staffed_transport_delay (s : HospitalSimulator) (patient : Patient) (now : Q)
    (pid : string) (raw : Z) (range : Z * Z) (details : string)
    (way : TransportType) (member : Staff)
    (transport : option TransportType) (sid : option string) (dur : option Z)
    (patient' : Patient) (s' : HospitalSimulator) :
  (randint range raw ≫= λ duration,
     push_event (now + inject_Z duration)%Q STAFF_TRANSPORT_COMPLETE (Some pid)
       (Some duration)
       (set_all_staff
          (update_staff (staff_id member)
             (λ _, assign now (inject_Z duration) details (current_unit patient) member)
             (all_staff s)) s)
     ≫= λ s2,
       Ok (Some way, Some (staff_id member), Some duration,
           set_transport_type (Some way)
             (set_transport_assigned_time (Some now)
                (set_assigned_staff_id (Some (staff_id member)) patient)), s2))
  = Ok (transport, sid, dur, patient', s') →
  transport = Some way ∧
  ∃ l q pu d k,
    s' = set_event_queue q (set_all_staff l (set_pulley_in_use pu s)) ∧
    heappush event_lt (event_queue s)
      (Build_Event (now + inject_Z d)%Q k (Some pid) (Some d)) = Ok q ∧
    k ≠ AI_STAFFING_ADJUSTMENT ∧ range.1 ≤ d.
Proof.
  intros H. exec. apply push_event_inv in Hr0 as (q & Hq & ->).
  apply randint_lower in Hr. split; [done|].
  eexists _, q, (pulley_in_use s), r, STAFF_TRANSPORT_COMPLETE.
  split; [by destruct s|]. by repeat split.
Qed.

Lemma request_transport_delay (raw : Z) (pid : string) (patient patient' : Patient)
    (now : Q) (destination : UnitName) (s s' : HospitalSimulator)
    (transport : option TransportType) (staff : option string) (duration : option Z) :
  _request_transport_resource raw pid patient now destination s
  = Ok (transport, staff, duration, patient', s') →
  match transport with
  | None => s' = s
  | Some _ =>
      ∃ l q pu d k,
        s' = set_event_queue q (set_all_staff l (set_pulley_in_use pu s)) ∧
        heappush event_lt (event_queue s)
          (Build_Event (now + inject_Z d)%Q k (Some pid) (Some d)) = Ok q ∧
        k ≠ AI_STAFFING_ADJUSTMENT ∧
        (durations_nonneg (config s) → 0 ≤ d)
  end.
Proof.
  unfold _request_transport_resource. cbv zeta.
  destruct (_ && _ && (pulley_in_use s <? _)) eqn:Hp.
  { intros H. exec. apply push_event_inv in Hr0 as (q & Hq & ->).
    apply randint_lower in Hr.
    exists (all_staff s), q, (pulley_in_use s + 1), r, PULLEY_TRANSPORT_COMPLETE.
    split; [by destruct s|]. split; [done|]. split; [done|].
    intros Hcfg. destruct Hcfg as (_ & _ & _ & _ & _ & _ & _ & _ & _ & _ & _ & _ & C & _).
    lia. }
  destruct (if bool_decide (acuity patient = CRITICAL) then _ else None) as [m|].
  { intros H. apply staffed_transport_delay in H as (-> & l & q & pu & d & k & -> & Hq & Hk & Hd).
    exists l, q, pu, d, k. split; [done|]. split; [done|]. split; [done|].
    intros Hcfg. destruct Hcfg as (_ & _ & _ & _ & _ & _ & _ & _ & _ & _ & C & _). lia. }
  destruct (if _ && bool_decide (acuity patient ∈ _) then _ else None) as [m|].
  { intros H. apply staffed_transport_delay in H as (-> & l & q & pu & d & k & -> & Hq & Hk & Hd).
    exists l, q, pu, d, k. split; [done|]. split; [done|]. split; [done|].
    intros Hcfg.
    destruct Hcfg as (_ & _ & _ & _ & _ & _ & _ & _ & _ & _ & _ & C & _). lia. }
  destruct (sorted_head _ _) as [m|].
  { intros H. apply staffed_transport_delay in H as (-> & l & q & pu & d & k & -> & Hq & Hk & Hd).
    exists l, q, pu, d, k. split; [done|]. split; [done|]. split; [done|].
    intros Hcfg. destruct Hcfg as (_ & _ & _ & _ & _ & _ & _ & _ & _ & _ & C & _). lia. }
  intros H. by inversion H.
Qed.

(** Solves [0 ≤ z] for a duration drawn from the configuration. *)
Ltac duration_nonneg :=
  repeat match goal with
  | H : context [if ?c then _ else _] |- _ => destruct c
  end;
  first
    [ assumption
    | apply ai_reduced_nonneg;
      [ duration_nonneg
      | unfold imaging_reduction;
        repeat match goal with |- context [if ?c then _ else _] => destruct c end;
        assumption ]
    | eapply Z.le_trans; [|eassumption]; auto ].

Lemma process_event_schedule (d : Draws) (event_time : Q) (k : EventKind)
    (pid : option string) (payload : option Z) (s s' : HospitalSimulator) :
  _process_event d event_time k pid payload s = Ok s' →
  k ≠ AI_STAFFING_ADJUSTMENT →
  (config s' = config s ∧ total_sim_minutes s' = total_sim_minutes s ∧
   ai_staffing_next_adjustment_time s' = ai_staffing_next_adjustment_time s ∧
   sim_time s' = event_time) ∧
  (Forall (λ e, kind e ≠ AI_STAFFING_ADJUSTMENT) (event_queue s) →
   Forall (λ e, kind e ≠ AI_STAFFING_ADJUSTMENT) (event_queue s')) ∧
  (durations_nonneg (config s) → (0 <= expovariate d)%Q →
   Forall (λ e, (event_time <= fire_time e)%Q) (event_queue s) →
   Forall (λ e, (event_time <= fire_time e)%Q) (event_queue s')).
Proof.
  intros H Hk. open_handlers H k; try done.
  all: exec.
  all: repeat match goal with
       | H : _find_and_assign_staff _ _ _ _ _ _ _ _ = _ |- _ =>
           apply find_and_assign_staff_busy in H as ((? & ->) & ?)
       | H : _request_transport_resource _ _ _ _ _ _ = Ok (None, _, _, _, _) |- _ =>
           apply request_transport_delay in H as ->
       | H : _request_transport_resource _ _ _ _ _ _ = Ok (Some _, _, _, _, _) |- _ =>
           apply request_transport_delay in H as (? & ? & ? & ? & ? & -> & ? & ? & ?)
       | H : leave_current_unit _ _ _ _ = _ |- _ =>
           apply leave_current_unit_inv in H as [[-> ->]|(? & ? & ? & -> & ->)]
       | H : randint _ _ = Ok _ |- _ => apply randint_lower in H
       end.
  all: frames.
  all: sim_fields.
  all: repeat match goal with
       | H : _ ∈ _ :: _ |- _ => apply elem_of_cons in H as [->|H]
       | H : _ ∈ [] |- _ => by apply elem_of_nil in H
       end.
  all: (split; [by repeat split|]).
  all: split.
  all: try (intros HF;
            repeat match goal with
            | H : heappush event_lt ?q ?e = Ok ?x |- Forall _ ?x =>
                apply (Forall_heappush _ _ _ _ H); [by cbn|]
            end; exact HF).
  all: intros Hcfg Hexp HF.
  all: repeat match goal with
       | H : durations_nonneg _ → _ |- _ => specialize (H Hcfg)
       end.
  all: destruct Hcfg as (C1 & C2 & C3 & C4 & C5 & C6 & C7 & C8 & C9 & C10 & C11 & C12
                         & C13 & C14 & C15 & C16).
  all: repeat match goal with
       | H : heappush event_lt ?q ?e = Ok ?x |- Forall _ ?x =>
           apply (Forall_heappush _ _ _ _ H);
           [cbn [fire_time];
            first [ apply Qle_refl
                  | lra
                  | apply later_by; duration_nonneg
                  | match goal with
                    | Hb : busy_until ?a = _ |- (_ <= busy_until ?a)%Q =>
                        rewrite Hb; apply later_by; duration_nonneg
                    end ]|]
       end.
  all: try exact HF.
Qed.

Lemma seed_events_schedule (s s' : HospitalSimulator) :
  seed_events s = Ok s' →
  event_queue s = [] →
  (config s' = config s ∧ total_sim_minutes s' = total_sim_minutes s ∧
   ai_staffing_next_adjustment_time s' = ai_staffing_next_adjustment_time s ∧
   sim_time s' = sim_time s) ∧
  Forall (λ e, kind e ≠ AI_STAFFING_ADJUSTMENT) (event_queue s') ∧
  (0 ≤ TICK_INTERVAL_MINUTES (config s) →
   Forall (λ e, (sim_time s <= fire_time e)%Q) (event_queue s')).
Proof.
  unfold seed_events. intros H Hq. exec; frames; sim_fields.
  all: (split; [by repeat split|]).
  all: split.
  all: try (repeat match goal with
            | H : heappush event_lt ?q ?e = Ok ?x |- Forall _ ?x =>
                apply (Forall_heappush _ _ _ _ H); [by cbn|]
            end; rewrite Hq; apply Forall_nil_2).
  all: intros Htick.
  all: repeat match goal with
       | H : heappush event_lt ?q ?e = Ok ?x |- Forall _ ?x =>
           apply (Forall_heappush _ _ _ _ H);
           [cbn [fire_time]; first [apply Qle_refl | by apply later_by]|]
       end.
  all: rewrite Hq; apply Forall_nil_2.
Qed.

Lemma popped_first (s : HospitalSimulator) (e : Event) (q : list Event) :
  heap_ok event_lt (event_queue s) →
  heappop event_lt (event_queue s) = Ok (e, q) →
  e ∈ event_queue s ∧ (∀ y, y ∈ q → y ∈ event_queue s) ∧
  Forall (λ y, (fire_time e <= fire_time y)%Q) q.
Proof.
  intros Hok Hpop. pose proof (heappop_items event_lt _ _ _ Hpop) as Hperm.
  split; [rewrite Hperm; apply list_elem_of_here|].
  split; [intros y Hy; rewrite Hperm; by apply list_elem_of_further|].
  apply (heappop_ok event_lt event_lt_asym event_lt_trans) in Hpop as [_ Hmin];
    [|done].
  apply Forall_forall. intros y Hy. specialize (Hmin y Hy). unfold not_above in Hmin.
  apply event_lt_false in Hmin as [Hb|Hs].
  - destruct Hb as [Hlt|[Heq _]]; lra.
  - destruct Hs as (Heq & _). lra.
Qed.

Lemma loop_iteration_schedule (d : Draws) (s s' : HospitalSimulator) :
  loop_iteration d s = Ok (Some s') →
  heap_ok event_lt (event_queue s) →
  Forall (λ e, kind e ≠ AI_STAFFING_ADJUSTMENT) (event_queue s) →
  (config s' = config s ∧ total_sim_minutes s' = total_sim_minutes s ∧
   ai_staffing_next_adjustment_time s' = ai_staffing_next_adjustment_time s) ∧
  Forall (λ e, kind e ≠ AI_STAFFING_ADJUSTMENT) (event_queue s') ∧
  ((sim_time s <= inject_Z (total_sim_minutes s))%Q →
   (sim_time s' <= inject_Z (total_sim_minutes s))%Q) ∧
  (durations_nonneg (config s) → (0 <= expovariate d)%Q →
   Forall (λ e, (sim_time s <= fire_time e)%Q) (event_queue s) →
   Forall (λ e, (sim_time s' <= fire_time e)%Q) (event_queue s') ∧
   (sim_time s <= sim_time s')%Q).
Proof.
  unfold loop_iteration. intros H Hok Hkinds. exec.
  - destruct (popped_first s e l Hok Hr) as (He & Hsub & Hmin).
    sim_fields. split; [done|].
    assert (∀ P : Event → Prop, Forall P (event_queue s) → Forall P l) as Hrest.
    { intros P HP. rewrite Forall_forall in HP. apply Forall_forall.
      intros y Hy. by apply HP, Hsub. }
    split; [by apply Hrest|]. split; [done|].
    intros _ _ HF. split; [by apply Hrest|lra].
  - destruct (popped_first s e l Hok Hr) as (He & Hsub & Hmin).
    assert (∀ P : Event → Prop, Forall P (event_queue s) → Forall P l) as Hrest.
    { intros P HP. rewrite Forall_forall in HP. apply Forall_forall.
      intros y Hy. by apply HP, Hsub. }
    assert (kind e ≠ AI_STAFFING_ADJUSTMENT) as Hk.
    { rewrite Forall_forall in Hkinds. by apply Hkinds. }
    apply process_event_schedule in Hr0 as ((Hc & Ht & Ha & Hclock) & HA & HB);
      [|done].
    sim_fields. split; [done|]. split; [by apply HA, Hrest|].
    apply Qltb_ge in Heqb0. split; [intros _; by rewrite Hclock|].
    intros Hcfg Hexp HF. rewrite Hclock. split; [by apply HB|].
    rewrite Forall_forall in HF. by apply HF.
Qed.

Lemma event_loop_schedule (n : nat) (draws : nat → Draws) (s s' : HospitalSimulator)
    (over : bool) :
  event_loop n draws s = Ok (over, s') →
  heap_ok event_lt (event_queue s) →
  Forall (λ e, kind e ≠ AI_STAFFING_ADJUSTMENT) (event_queue s) →
  (config s' = config s ∧ total_sim_minutes s' = total_sim_minutes s ∧
   ai_staffing_next_adjustment_time s' = ai_staffing_next_adjustment_time s) ∧
  heap_ok event_lt (event_queue s') ∧
  Forall (λ e, kind e ≠ AI_STAFFING_ADJUSTMENT) (event_queue s') ∧
  ((sim_time s <= inject_Z (total_sim_minutes s))%Q →
   (sim_time s' <= inject_Z (total_sim_minutes s))%Q) ∧
  (durations_nonneg (config s) → (∀ i, 0 <= expovariate (draws i))%Q →
   Forall (λ e, (sim_time s <= fire_time e)%Q) (event_queue s) →
   Forall (λ e, (sim_time s' <= fire_time e)%Q) (event_queue s') ∧
   (sim_time s <= sim_time s')%Q).
Proof.
  revert draws s. induction n as [|n IH]; intros draws s H Hok Hkinds.
  - cbn in H. inversion H; subst. repeat split; try done. lra.
  - cbn [event_loop] in H. bind_inv H. destruct r as [s1|].
    + pose proof (loop_iteration_queue_ok _ _ _ Hr Hok) as Hok1.
      destruct (loop_iteration_schedule _ _ _ Hr Hok Hkinds)
        as ((Hc & Ht & Ha) & Hk1 & Hh1 & HB1).
      destruct (IH _ _ H Hok1 Hk1) as ((Hc' & Ht' & Ha') & Hok' & Hk' & Hh' & HB').
      rewrite Hc, Ht in *. split; [repeat split; congruence|].
      split; [done|]. split; [done|]. split; [intros Hs; by apply Hh', Hh1|].
      intros Hcfg Hexp HF. destruct (HB1 Hcfg (Hexp O) HF) as [HF1 Hle1].
      destruct (HB' Hcfg (λ i, Hexp (S i)) HF1) as [HF' Hle'].
      split; [done|lra].
    + inversion H; subst. repeat split; try done. lra.
Qed.

Lemma new_simulator_clock (cfg : Config) (ids : nat → string)
    (cdu ai_imaging ai_staffing amenities ai_entertainment : bool) :
  let s := new_HospitalSimulator cfg ids cdu ai_imaging ai_staffing amenities
             ai_entertainment in
  config s = cfg ∧ event_queue s = [] ∧
  sim_time s = inject_Z (SIM_START_TIME cfg) ∧
  total_sim_minutes s = SIM_END_TIME cfg ∧
  ai_staffing_next_adjustment_time s = AI_STAFFING_ADJUSTMENT_INTERVAL_MINUTES cfg.
Proof.
  unfold new_HospitalSimulator.
  by destruct (_initialize_staff cfg ids (_initialize_units cfg cdu)).
Qed.

Lemma boundary_schedule (cfg : Config) (ids : nat → string)
    (cdu ai_imaging ai_staffing amenities ai_entertainment : bool)
    (n : nat) (draws : nat → Draws) (over : bool) (s : HospitalSimulator) :
  boundary cfg ids cdu ai_imaging ai_staffing amenities ai_entertainment n draws
  = Ok (over, s) →
  (config s = cfg ∧ total_sim_minutes s = SIM_END_TIME cfg ∧
   ai_staffing_next_adjustment_time s = AI_STAFFING_ADJUSTMENT_INTERVAL_MINUTES cfg) ∧
  heap_ok event_lt (event_queue s) ∧
  Forall (λ e, kind e ≠ AI_STAFFING_ADJUSTMENT) (event_queue s) ∧
  (SIM_START_TIME cfg ≤ SIM_END_TIME cfg →
   (sim_time s <= inject_Z (SIM_END_TIME cfg))%Q) ∧
  (durations_nonneg cfg → (∀ i, 0 <= expovariate (draws i))%Q →
   Forall (λ e, (sim_time s <= fire_time e)%Q) (event_queue s) ∧
   (inject_Z (SIM_START_TIME cfg) <= sim_time s)%Q).
Proof.
  intros H. unfold boundary in H. bind_inv H.
  destruct (new_simulator_clock cfg ids cdu ai_imaging ai_staffing amenities
              ai_entertainment) as (Hc0 & Hq0 & Ht0 & He0 & Ha0).
  cbv zeta in *.
  pose proof (seed_events_queue_ok _ _ Hr Hq0) as Hok.
  apply seed_events_schedule in Hr as ((Hc & Ht & Ha & Hclock) & Hk & HF); [|done].
  destruct (event_loop_schedule _ _ _ _ _ H Hok Hk)
    as ((Hc' & Ht' & Ha') & Hok' & Hk' & Hh' & HB').
  split; [repeat split; congruence|]. split; [done|]. split; [done|]. split.
  - intros Hle. rewrite Ht, He0, Hclock, Ht0 in Hh'. apply Hh'.
    by rewrite <- Zle_Qle.
  - intros Hcfg Hexp. rewrite Hc, Hc0, Hclock, Ht0 in HB'.
    destruct (HB' Hcfg Hexp) as [HF' Hle]; [|done].
    rewrite Hc0, Ht0 in HF. apply HF. by destruct Hcfg as (C1 & _).
Qed.

(** X16: no run ever queues an [AI_STAFFING_ADJUSTMENT] event, with or
    without [enable_ai_staffing]: [run] seeds none and only the handler of
    that event schedules one, so [_adjust_ai_staffing] never runs and
    [ai_staffing_next_adjustment_time] keeps the value [__init__] gave it. *)
Theorem ai_staffing_adjustment_never_runs (cfg : Config) (ids : nat → string)
    (cdu ai_imaging ai_staffing amenities ai_entertainment : bool)
    (n : nat) (draws : nat → Draws) (over : bool) (s : HospitalSimulator) :
  boundary cfg ids cdu ai_imaging ai_staffing amenities ai_entertainment n draws
  = Ok (over, s) →
  Forall (λ e, kind e ≠ AI_STAFFING_ADJUSTMENT) (event_queue s) ∧
  ai_staffing_next_adjustment_time s = AI_STAFFING_ADJUSTMENT_INTERVAL_MINUTES cfg.
Proof.
  intros H. apply boundary_schedule in H as ((_ & _ & Ha) & _ & Hk & _). done.
Qed.

Lemma ai_staffing_adjustment_never_runs_witness :
  match boundary Config_base demo_ids true true true true true 60 demo_draws with
  | Ok (_, s) =>
      Forall (λ e, kind e ≠ AI_STAFFING_ADJUSTMENT) (event_queue s) ∧
      ai_staffing_next_adjustment_time s
      = AI_STAFFING_ADJUSTMENT_INTERVAL_MINUTES Config_base
  | Raise _ => False
  end.
Proof.
  destruct (boundary Config_base demo_ids true true true true true 60 demo_draws)
    as [[over s]|e] eqn:E.
  - exact (ai_staffing_adjustment_never_runs Config_base demo_ids true true true true
             true 60%nat demo_draws over s E).
  - vm_compute in E. discriminate E.
Defined.

(** X17: when the simulation does not start after its end, the clock of a
    run never passes the horizon: at every event boundary [sim_time] is at
    most [SIM_END_TIME], since an event due later is dropped unhandled. *)
Theorem clock_within_horizon (cfg : Config) (ids : nat → string)
    (cdu ai_imaging ai_staffing amenities ai_entertainment : bool)
    (n : nat) (draws : nat → Draws) (over : bool) (s : HospitalSimulator) :
  SIM_START_TIME cfg ≤ SIM_END_TIME cfg →
  boundary cfg ids cdu ai_imaging ai_staffing amenities ai_entertainment n draws
  = Ok (over, s) →
  (sim_time s <= inject_Z (SIM_END_TIME cfg))%Q ∧
  total_sim_minutes s = SIM_END_TIME cfg.
Proof.
  intros Hle H. apply boundary_schedule in H as ((_ & Ht & _) & _ & _ & Hh & _).
  split; [by apply Hh|done].
Qed.

Lemma clock_within_horizon_witness :
  match boundary SmallWardConfig demo_ids false false false false false 32 ward_draws with
  | Ok (_, s) =>
      (sim_time s <= inject_Z (SIM_END_TIME SmallWardConfig))%Q ∧
      total_sim_minutes s = SIM_END_TIME SmallWardConfig
  | Raise _ => False
  end.
Proof.
  destruct (boundary SmallWardConfig demo_ids false false false false false 32 ward_draws)
    as [[over s]|e] eqn:E.
  - apply (clock_within_horizon SmallWardConfig demo_ids false false false false false
             32%nat ward_draws over s); [cbn; lia|exact E].
  - vm_compute in E. discriminate E.
Defined.

(** X18: when no interval, duration range or inter-arrival draw is
    negative and no AI reduction exceeds 1, the clock of a run never goes
    back: at every event boundary nothing is queued for a time before
    [sim_time], the clock is at or after [SIM_START_TIME], and the next pass
    of the loop leaves it where it is or moves it forward. *)
Theorem clock_never_goes_back (cfg : Config) (ids : nat → string)
    (cdu ai_imaging ai_staffing amenities ai_entertainment : bool)
    (n : nat) (draws : nat → Draws) (over : bool) (s : HospitalSimulator) :
  durations_nonneg cfg →
  (∀ i, 0 <= expovariate (draws i))%Q →
  boundary cfg ids cdu ai_imaging ai_staffing amenities ai_entertainment n draws
  = Ok (over, s) →
  (inject_Z (SIM_START_TIME cfg) <= sim_time s)%Q ∧
  Forall (λ e, (sim_time s <= fire_time e)%Q) (event_queue s) ∧
  ∀ d s', (0 <= expovariate d)%Q → loop_iteration d s = Ok (Some s') →
          (sim_time s <= sim_time s')%Q.
Proof.
  intros Hcfg Hexp H.
  apply boundary_schedule in H as ((Hc & _ & _) & Hok & Hk & _ & HB).
  destruct (HB Hcfg Hexp) as [HF Hstart]. split; [done|]. split; [done|].
  intros d s' Hd Hnext.
  destruct (loop_iteration_schedule _ _ _ Hnext Hok Hk) as (_ & _ & _ & HB').
  rewrite Hc in HB'. by destruct (HB' Hcfg Hd HF).
Qed.

Lemma small_ward_durations : durations_nonneg SmallWardConfig.
Proof.
  repeat split; try (cbn; lia); try (intros []; cbn; lia);
    unfold Qle; cbn; lia.
Qed.

Lemma clock_never_goes_back_witness :
  match boundary SmallWardConfig demo_ids false false false false false 32 ward_draws with
  | Ok (_, s) =>
      (inject_Z (SIM_START_TIME SmallWardConfig) <= sim_time s)%Q ∧
      Forall (λ e, (sim_time s <= fire_time e)%Q) (event_queue s) ∧
      ∀ d s', (0 <= expovariate d)%Q → loop_iteration d s = Ok (Some s') →
              (sim_time s <= sim_time s')%Q
  | Raise _ => False
  end.
Proof.
  destruct (boundary SmallWardConfig demo_ids false false false false false 32 ward_draws)
    as [[over s]|e] eqn:E.
  - apply (clock_never_goes_back SmallWardConfig demo_ids false false false false false
             32%nat ward_draws over s); [exact small_ward_durations| |exact E].
    intros i. cbn. destruct (decide (i < 6)%nat); unfold Qle; cbn; lia.
  - vm_compute in E. discriminate E.
Defined.

(** ** The queue names stored patients only *)

Lemma is_Some_store (pid i : string) (patient : Patient) (store : gmap string Patient) :
  is_Some (store !! i) → is_Some (<[pid := patient]> store !! i).
Proof.
  intros H. destruct (decide (pid = i)) as [->|Hne].
  - rewrite lookup_insert_eq. eauto.
  - by rewrite lookup_insert_ne.
Qed.

Lemma names_patient_store (pid : string) (patient : Patient)
    (store : gmap string Patient) (e : Event) :
  names_patient store e → names_patient (<[pid := patient]> store) e.
Proof.
  unfold names_patient. destruct (patient_id e) as [i|]; [|done].
  intros [H1 H2]. split; [by apply is_Some_store|done].
Qed.

Lemma names_patient_stored (pid : string) (patient : Patient)
    (store : gmap string Patient) (t : Q) (k : EventKind) (payload : option Z) :
  no_patient_event k = false →
  names_patient (<[pid := patient]> store) (Build_Event t k (Some pid) payload).
Proof.
  intros Hk. unfold names_patient. cbn [patient_id kind].
  rewrite lookup_insert_eq. split; [eauto|done].
Qed.

Lemma process_event_names (d : Draws) (event_time : Q) (k : EventKind)
    (pid : option string) (payload : option Z) (s s' : HospitalSimulator) :
  _process_event d event_time k pid payload s = Ok s' →
  (∀ i, is_Some (patients s !! i) → is_Some (patients s' !! i)) ∧
  (Forall (names_patient (patients s)) (event_queue s) →
   Forall (names_patient (patients s')) (event_queue s')).
Proof.
  intros H. open_handlers H k.
  all: exec.
  all: frames.
  all: repeat match goal with
       | H : leave_current_unit _ _ _ _ = _ |- _ =>
           apply leave_current_unit_inv in H as [[-> ->]|(? & ? & ? & -> & ->)]
       end.
  all: sim_fields.
  all: repeat match goal with
       | H : _ ∈ _ :: _ |- _ => apply elem_of_cons in H as [->|H]
       | H : _ ∈ [] |- _ => by apply elem_of_nil in H
       end.
  all: repeat match goal with t : TransportType |- _ => destruct t end.
  all: subst.
  all: split; [intros i Hi; by repeat apply is_Some_store|].
  all: intros HF.
  all: repeat match goal with
       | H : heappush event_lt ?q ?e = Ok ?x |- Forall _ ?x =>
           apply (Forall_heappush _ _ _ _ H);
           [first [ by repeat apply names_patient_store
                  | by apply names_patient_stored
                  | by apply names_patient_store, names_patient_stored
                  | done ]|]
       end.
  all: try (eapply Forall_impl; [exact HF|]; intros queued Hqueued;
            by repeat apply names_patient_store).
Qed.

Lemma seed_events_names (s s' : HospitalSimulator) :
  seed_events s = Ok s' → event_queue s = [] →
  patients s' = patients s ∧ Forall (names_patient (patients s')) (event_queue s').
Proof.
  unfold seed_events. intros H Hq. exec; frames; sim_fields.
  all: split; [done|].
  all: repeat match goal with
       | H : heappush event_lt ?q ?e = Ok ?x |- Forall _ ?x =>
           apply (Forall_heappush _ _ _ _ H); [done|]
       end.
  all: rewrite Hq; apply Forall_nil_2.
Qed.

Lemma loop_iteration_names (d : Draws) (s s' : HospitalSimulator) :
  loop_iteration d s = Ok (Some s') →
  (∀ i, is_Some (patients s !! i) → is_Some (patients s' !! i)) ∧
  (Forall (names_patient (patients s)) (event_queue s) →
   Forall (names_patient (patients s')) (event_queue s')).
Proof.
  unfold loop_iteration. intros H. exec.
  - apply heappop_items in Hr. sim_fields. split; [done|].
    intros HF. rewrite Hr in HF. by apply Forall_cons in HF as [_ HF].
  - apply heappop_items in Hr. apply process_event_names in Hr0 as [Hmono HF'].
    sim_fields. split; [done|].
    intros HF. rewrite Hr in HF. apply Forall_cons in HF as [_ HF]. by apply HF'.
Qed.

Lemma event_loop_names (n : nat) (draws : nat → Draws) (s s' : HospitalSimulator)
    (over : bool) :
  event_loop n draws s = Ok (over, s') →
  Forall (names_patient (patients s)) (event_queue s) →
  Forall (names_patient (patients s')) (event_queue s').
Proof.
  revert draws s. induction n as [|n IH]; intros draws s H HF.
  - cbn in H. by inversion H; subst.
  - cbn [event_loop] in H. bind_inv H. destruct r as [s1|].
    + apply loop_iteration_names in Hr as [_ Hr]. eapply IH; [exact H|]. by apply Hr.
    + by inversion H; subst.
Qed.

(** X19: at every event boundary of every run, each queued event of a
    kind that is handled with a patient carries the id of a patient in the
    store, and each event of the six other kinds carries no id; a pass of the
    loop never takes a patient out of the store.  So the handlers never
    look up a patient that is missing. *)
Theorem queued_events_name_stored_patients (cfg : Config) (ids : nat → string)
    (cdu ai_imaging ai_staffing amenities ai_entertainment : bool)
    (n : nat) (draws : nat → Draws) (over : bool) (s : HospitalSimulator) :
  boundary cfg ids cdu ai_imaging ai_staffing amenities ai_entertainment n draws
  = Ok (over, s) →
  Forall (names_patient (patients s)) (event_queue s) ∧
  ∀ d s', loop_iteration d s = Ok (Some s') →
          ∀ i, is_Some (patients s !! i) → is_Some (patients s' !! i).
Proof.
  intros H. split.
  - unfold boundary in H. bind_inv H.
    destruct (new_simulator_clock cfg ids cdu ai_imaging ai_staffing amenities
                ai_entertainment) as (_ & Hq0 & _).
    apply seed_events_names in Hr as [_ HF]; [|done].
    by eapply event_loop_names.
  - intros d s' Hnext. by apply loop_iteration_names in Hnext as [Hmono _].
Qed.

Lemma queued_events_name_stored_patients_witness :
  match boundary SmallWardConfig demo_ids false false false false false 32 ward_draws with
  | Ok (_, s) =>
      Forall (names_patient (patients s)) (event_queue s) ∧
      ∀ d s', loop_iteration d s = Ok (Some s') →
              ∀ i, is_Some (patients s !! i) → is_Some (patients s' !! i)
  | Raise _ => False
  end.
Proof.
  destruct (boundary SmallWardConfig demo_ids false false false false false 32 ward_draws)
    as [[over s]|e] eqn:E.
  - exact (queued_events_name_stored_patients SmallWardConfig demo_ids false false false
             false false 32%nat ward_draws over s E).
  - vm_compute in E. discriminate E.
Defined.

(** ** A run without the CDU *)

Lemma determine_disposition_effect (u : Q) (pid : string) (patient patient' : Patient)
    (event_time : Q) (s s' : HospitalSimulator) :
  _determine_patient_disposition u pid patient event_time s = Ok (patient', s') →
  ∃ q m k st,
    s' = set_event_queue q (set_metrics m s) ∧
    heappush event_lt (event_queue s) (Build_Event event_time k (Some pid) None) = Ok q ∧
    (m = metrics s ∨
     m = add_patient_satisfaction_score
           (_get_patient_satisfaction_score s (event_time - arrival_time patient)%Q)
           (add_ed_los (event_time - arrival_time patient)%Q (metrics s))) ∧
    (enable_cdu s = false → is_cdu_event k = false) ∧
    (patient' = set_status st patient ∨
     patient' = set_status st (set_ed_disposition_time (Some event_time) patient)).
Proof.
  unfold _determine_patient_disposition. intros H.
  destruct (ed_disposition_time patient) as [t0|];
    cbn [acuity set_ed_disposition_time] in H;
    destruct (acuity patient); exec;
    apply push_event_inv in Hr as (qq & Hq & ->);
    exists qq;
    match goal with
    | |- ∃ m k st, set_event_queue _ ?x = _ ∧ _ => exists (metrics x)
    end;
    eexists _, _;
    (split; [first [reflexivity | by destruct s]|]);
    (split; [exact Hq|]);
    (split; [first [by left | by right]|]);
    (split; [|first [by left | by right]]);
    sim_fields; intros Hcdu; try done;
    rewrite Hcdu in *; done.
Qed.

Lemma outside_cdu_found (s : HospitalSimulator) (pid : option string) (i : string)
    (patient : Patient) :
  map_Forall (λ _ patient, outside_cdu patient) (patients s) →
  get_patient s pid = Some (i, patient) → outside_cdu patient.
Proof.
  intros HP H. apply get_patient_Some in H as [_ H]. by apply (HP i).
Qed.

Lemma outside_cdu_stored (pid : string) (patient : Patient)
    (store : gmap string Patient) :
  outside_cdu patient →
  map_Forall (λ _ patient, outside_cdu patient) store →
  map_Forall (λ _ patient, outside_cdu patient) (<[pid := patient]> store).
Proof. intros H HP. by apply map_Forall_insert_2. Qed.

Section CduIdle.
Context (m : MetricsTracker).
Hypothesis Hidle : cdu_idle m.

Lemma idle_ed_los (x : Q) : cdu_idle (add_ed_los x m).
Proof. exact Hidle. Qed.

Lemma idle_score (x : Q) : cdu_idle (add_patient_satisfaction_score x m).
Proof. exact Hidle. Qed.

Lemma idle_boarding (x : Q) : cdu_idle (add_ed_boarding_time x m).
Proof. exact Hidle. Qed.

Lemma idle_inpatient_occupancy (t : Q) (c : Z) :
  cdu_idle (add_inpatient_occupancy t c m).
Proof. unfold add_inpatient_occupancy. by destruct (count_changed _ c). Qed.

Lemma idle_pulley_utilization (t : Q) (c : Z) :
  cdu_idle (add_pulley_utilization t c m).
Proof. unfold add_pulley_utilization. by destruct (count_changed _ c). Qed.

Lemma idle_overall_tat (x : Q) : cdu_idle (add_overall_imaging_tat x m).
Proof. exact Hidle. Qed.

Lemma idle_critical_tat (x : Q) : cdu_idle (add_critical_imaging_tat x m).
Proof. exact Hidle. Qed.

Lemma idle_ed_cdu_tat (x : Q) : cdu_idle (add_ed_cdu_imaging_tat x m).
Proof. exact Hidle. Qed.

Lemma idle_hospital_los (x : Q) : cdu_idle (add_total_hospital_los x m).
Proof. exact Hidle. Qed.

Lemma idle_ed_wait (x : Q) : cdu_idle (add_ed_wait_time_for_transport x m).
Proof. exact Hidle. Qed.

Lemma idle_transfer_time (x : Z) : cdu_idle (add_transfer_time_to_admit x m).
Proof. exact Hidle. Qed.

Lemma idle_transport_count (way : option TransportType) :
  cdu_idle (add_transport_type_count way m).
Proof. by destruct way as [[]|]. Qed.

Lemma idle_amenities (x : Q) : cdu_idle (set_total_amenities_cost x m).
Proof. exact Hidle. Qed.
End CduIdle.

Lemma process_event_cdu_unused (d : Draws) (event_time : Q) (k : EventKind)
    (pid : option string) (payload : option Z) (s s' : HospitalSimulator) :
  _process_event d event_time k pid payload s = Ok s' →
  enable_cdu s = false → (∀ n, name (units s n) = n) → is_cdu_event k = false →
  cdu_unused s → cdu_unused s' ∧ enable_cdu s' = false.
Proof.
  intros H Hcdu Hnames Hk (HF & HP & Hidle). open_handlers H k; try done.
  all: exec.
  all: try match goal with
       | H : get_patient _ _ = Some _ |- _ =>
           pose proof (outside_cdu_found _ _ _ _ HP H) as [Hcu Hio]
       end.
  all: repeat match goal with
       | H : _determine_patient_disposition _ _ _ _ _ = Ok _ |- _ =>
           apply determine_disposition_effect in H
             as (? & ? & ? & ? & -> & ? & [->| ->] & ? & [->| ->])
       | H : leave_current_unit _ _ _ _ = _ |- _ =>
           apply leave_current_unit_inv in H as [[-> ->]|(? & ? & ? & -> & ->)]
       | H : admit_patient _ _ _ _ = Ok _ |- _ =>
           apply admit_patient_patient in H as [->| ->]
       | H : discharge_patient _ _ _ _ = _ |- _ =>
           unfold discharge_patient in H
       end.
  all: exec.
  all: frames.
  all: sim_fields.
  all: rewrite ?Hnames in *.
  all: repeat match goal with
       | H : _ = _ ∨ _ |- _ => destruct H as [->|[? ->]]
       | H : ∃ _, _ = _ |- _ => destruct H as [? ->]
       end.
  all: repeat match goal with t : TransportType |- _ => destruct t end.
  all: subst.
  all: repeat match goal with
       | H : (if ?c then ?x else None) = Some _ |- _ => destruct c; [|discriminate H]
       end.
  all: repeat match goal with
       | H : imaging_unit ?m = Some _ |- _ =>
           destruct m as [[]|]; cbn [imaging_unit] in H; [| |discriminate H]
       end.
  all: repeat match goal with
       | H : Some _ = Some _ |- _ => inversion H; clear H; subst
       end.
  all: try match goal with
       | H : current_unit _ = Some CDU |- _ => exfalso; cbn in H; congruence
       end.
  all: (split; [|assumption]).
  all: unfold cdu_unused; sim_fields.
  all: (split; [|split]).
  all: try match goal with
       | |- Forall _ _ =>
           repeat match goal with
           | H : heappush event_lt ?q ?e = Ok ?x |- Forall _ ?x =>
               apply (Forall_heappush _ _ _ _ H); [cbn [kind]; by auto|]
           end; exact HF
       end.
  all: try match goal with
       | |- map_Forall _ _ =>
           repeat match goal with
           | |- context [if ?c then _ else _] => destruct c
           end;
           repeat (apply outside_cdu_stored;
                   [split; cbn [current_unit imaging_order_unit_id]; cbn;
                    first [done | congruence]|]);
           exact HP
       end.
  all: repeat first
         [ assumption
         | match goal with
           | |- cdu_idle (if ?c then _ else _) => destruct c
           | |- cdu_idle (match ?x with _ => _ end) => destruct x
           end
         | apply idle_ed_los | apply idle_score | apply idle_boarding
         | apply idle_inpatient_occupancy | apply idle_pulley_utilization
         | apply idle_overall_tat | apply idle_critical_tat | apply idle_ed_cdu_tat
         | apply idle_hospital_los | apply idle_ed_wait | apply idle_transfer_time
         | apply idle_transport_count | apply idle_amenities ].
Qed.

Lemma hire_names (count : nat) (t : StaffType) (unit_name : option UnitName)
    (ids : nat → string) (st : nat * list Staff * (UnitName → Unit)) (n : UnitName) :
  name ((hire count t unit_name ids st).2 n) = name (st.2 n).
Proof.
  revert st. induction count as [|count IH]; intros [[next staff] us]; [done|].
  cbn [hire]. rewrite IH. cbn [snd]. destruct unit_name as [m|]; [|done].
  rewrite update_unit_lookup. by destruct (decide (n = m)) as [->|].
Qed.

Lemma initialize_staff_names (cfg : Config) (ids : nat → string) (us : UnitName → Unit)
    (n : UnitName) :
  name ((_initialize_staff cfg ids us).2 n) = name (us n).
Proof.
  unfold _initialize_staff.
  set (per_unit := λ (st : nat * list Staff * (UnitName → Unit))
                     '(unit_name, staff_config), fold_left _ staff_config st).
  assert (∀ l st, name ((fold_left per_unit l st).2 n) = name (st.2 n)) as Hfold.
  { induction l as [|[m staff_config] l IH]; intros st; [done|].
    cbn [fold_left]. rewrite IH. unfold per_unit. clear IH. revert st.
    induction staff_config as [|[t count] staff_config IH]; intros st; [done|].
    cbn [fold_left]. rewrite IH. apply hire_names. }
  destruct (hire _ VOLUNTEER_TRANSPORT None ids _) as [[next staff] us1] eqn:E.
  cbn [snd]. change us1 with ((next, staff, us1).2). rewrite <- E.
  rewrite !hire_names. apply Hfold.
Qed.

Lemma new_simulator_unit_names (cfg : Config) (ids : nat → string)
    (cdu ai_imaging ai_staffing amenities ai_entertainment : bool) (n : UnitName) :
  name (units (new_HospitalSimulator cfg ids cdu ai_imaging ai_staffing amenities
                 ai_entertainment) n) = n.
Proof.
  unfold new_HospitalSimulator.
  pose proof (initialize_staff_names cfg ids (_initialize_units cfg cdu) n) as H.
  destruct (_initialize_staff cfg ids (_initialize_units cfg cdu)) as [staff us].
  cbn [units snd] in *. rewrite H. by destruct n.
Qed.

Lemma seed_events_cdu_unused (s s' : HospitalSimulator) :
  seed_events s = Ok s' → enable_cdu s = false → event_queue s = [] →
  patients s = ∅ → metrics s = new_MetricsTracker →
  cdu_unused s' ∧ enable_cdu s' = false.
Proof.
  unfold seed_events. intros H Hcdu Hq Hp Hm. exec; frames; sim_fields;
    try congruence.
  all: split; [|done].
  all: unfold cdu_unused; sim_fields.
  all: split; [|split; [rewrite Hp; apply map_Forall_empty|by rewrite Hm]].
  all: repeat match goal with
       | H : heappush event_lt ?q ?e = Ok ?x |- Forall _ ?x =>
           apply (Forall_heappush _ _ _ _ H); [done|]
       end.
  all: rewrite Hq; apply Forall_nil_2.
Qed.

Lemma loop_iteration_cdu_unused (d : Draws) (s s' : HospitalSimulator) :
  loop_iteration d s = Ok (Some s') →
  enable_cdu s = false → (∀ n, name (units s n) = n) →
  cdu_unused s → cdu_unused s' ∧ enable_cdu s' = false.
Proof.
  unfold loop_iteration. intros H Hcdu Hnames (HF & HP & Hidle). exec.
  - apply heappop_items in Hr. rewrite Hr in HF. apply Forall_cons in HF as [_ HF].
    split; [|done]. unfold cdu_unused. sim_fields. by split.
  - apply heappop_items in Hr. rewrite Hr in HF. apply Forall_cons in HF as [He HF].
    eapply process_event_cdu_unused; [exact Hr0|done|done|done|].
    unfold cdu_unused. sim_fields. by split.
Qed.

Lemma event_loop_cdu_unused (n : nat) (draws : nat → Draws) (s s' : HospitalSimulator)
    (over : bool) :
  event_loop n draws s = Ok (over, s') →
  enable_cdu s = false → (∀ n, name (units s n) = n) →
  cdu_unused s → cdu_unused s' ∧ enable_cdu s' = false.
Proof.
  revert draws s. induction n as [|n IH]; intros draws s H Hcdu Hnames Hun.
  - cbn in H. by inversion H; subst.
  - cbn [event_loop] in H. bind_inv H. destruct r as [s1|].
    + pose proof (loop_iteration_units _ _ _ Hr) as Hstep.
      destruct (loop_iteration_cdu_unused _ _ _ Hr Hcdu Hnames Hun) as [Hun1 Hcdu1].
      eapply IH; [exact H|done| |done].
      intros u. destruct (Hstep u) as (_ & -> & _). apply Hnames.
    + by inversion H; subst.
Qed.

(** X20: in a run with [enable_cdu] off nothing ever has to do with the
    CDU: at every event boundary no [ADMIT_TO_CDU], [CDU_OBSERVATION_COMPLETE]
    or [CDU_OCCUPANCY_METRIC_CHECK] event is queued, no stored patient is
    recorded in the CDU or has ordered diagnostics from there, the tracker
    has counted no CDU patient and sampled no CDU occupancy, and the CDU
    holds nobody. *)
Theorem cdu_disabled_never_used (cfg : Config) (ids : nat → string)
    (ai_imaging ai_staffing amenities ai_entertainment : bool)
    (n : nat) (draws : nat → Draws) (over : bool) (s : HospitalSimulator) :
  boundary cfg ids false ai_imaging ai_staffing amenities ai_entertainment n draws
  = Ok (over, s) →
  cdu_unused s ∧ patients_in_unit (units s CDU) = ∅ ∧ enable_cdu s = false.
Proof.
  intros H. unfold boundary in H. bind_inv H.
  set (s0 := new_HospitalSimulator cfg ids false ai_imaging ai_staffing amenities
               ai_entertainment) in *.
  destruct (new_simulator_clock cfg ids false ai_imaging ai_staffing amenities
              ai_entertainment) as (_ & Hq0 & _).
  destruct (new_simulator_pulley cfg ids false ai_imaging ai_staffing amenities
              ai_entertainment) as (_ & _ & _ & Hp0).
  pose proof (new_simulator_metrics cfg ids false ai_imaging ai_staffing amenities
                ai_entertainment) as Hm0.
  destruct (new_simulator_units cfg ids false ai_imaging ai_staffing amenities
              ai_entertainment CDU) as [Hcap0 Hin0].
  cbv zeta in *. fold s0 in Hq0, Hp0, Hm0, Hcap0, Hin0.
  assert (enable_cdu s0 = false) as Hcdu0.
  { unfold s0, new_HospitalSimulator.
    by destruct (_initialize_staff cfg ids (_initialize_units cfg false)). }
  pose proof (seed_events_units _ _ Hr) as Hu.
  destruct (seed_events_cdu_unused _ _ Hr Hcdu0 Hq0 Hp0 Hm0) as [Hun Hcdu].
  assert (∀ u, name (units r u) = u) as Hnames.
  { intros u. rewrite Hu. apply new_simulator_unit_names. }
  destruct (event_loop_cdu_unused _ _ _ _ _ H Hcdu Hnames Hun) as [Hun' Hcdu'].
  split; [done|]. split; [|done].
  destruct (event_loop_units _ _ _ _ _ H CDU) as (Hcap & _ & Hw).
  rewrite Hu in Hcap, Hw. unfold within_capacity in Hw.
  rewrite Hcap, Hcap0, Hin0, size_empty in Hw. cbn in Hw.
  specialize (Hw ltac:(lia)).
  assert (size (patients_in_unit (units s CDU)) = 0%nat) as E by lia.
  apply size_empty_inv in E. by apply leibniz_equiv.
Qed.

Lemma cdu_disabled_never_used_witness :
  match boundary SmallWardConfig demo_ids false false false false false 32 ward_draws with
  | Ok (_, s) =>
      cdu_unused s ∧ patients_in_unit (units s CDU) = ∅ ∧ enable_cdu s = false
  | Raise _ => False
  end.
Proof.
  destruct (boundary SmallWardConfig demo_ids false false false false false 32 ward_draws)
    as [[over s]|e] eqn:E.
  - exact (cdu_disabled_never_used SmallWardConfig demo_ids false false false false
             32%nat ward_draws over s E).
  - vm_compute in E. discriminate E.
Defined.
(** ** The occupancy series of a run and the reported utilisation *)

Lemma sampled_within_later (from h h' : Q) (cap : Z) (l : list (Q * Z)) :
  sampled_within from h cap l → (h <= h')%Q → sampled_within from h' cap l.
Proof.
  revert from. induction l as [|[t c] l IH]; intros from Hl Hh; [done|].
  destruct Hl as (H1 & H2 & H3 & H4). cbn.
  split; [done|]. split; [lra|]. split; [done|]. by apply IH.
Qed.

Lemma sampled_within_earlier (from from' h : Q) (cap : Z) (l : list (Q * Z)) :
  sampled_within from h cap l → (from' <= from)%Q → sampled_within from' h cap l.
Proof.
  destruct l as [|[t c] l]; [done|]. intros (H1 & H2 & H3 & H4) Hf.
  cbn. split; [lra|]. by split.
Qed.

Lemma sampled_within_wider (from h : Q) (cap cap' : Z) (l : list (Q * Z)) :
  sampled_within from h cap l → cap ≤ cap' → sampled_within from h cap' l.
Proof.
  revert from. induction l as [|[t c] l IH]; intros from Hl Hc; [done|].
  destruct Hl as (H1 & H2 & H3 & H4). cbn.
  split; [done|]. split; [done|]. split; [lia|]. by apply IH.
Qed.

Lemma sampled_within_snoc (from h t : Q) (cap c : Z) (l : list (Q * Z)) :
  sampled_within from h cap l → (from <= h)%Q → (h <= t)%Q → 0 ≤ c ≤ cap →
  sampled_within from t cap (l ++ [(t, c)]).
Proof.
  revert from. induction l as [|[t0 c0] l IH]; intros from Hl Hf Hh Hc.
  - cbn. split; [lra|]. split; [lra|]. by split.
  - destruct Hl as (H1 & H2 & H3 & H4). cbn.
    split; [done|]. split; [lra|]. split; [done|]. by apply IH.
Qed.

Section SameSeries.
Context (m0 m : MetricsTracker).
Hypothesis Hsame : same_series m0 m.

Lemma kept_ed_los (x : Q) : same_series m0 (add_ed_los x m).
Proof. exact Hsame. Qed.

Lemma kept_score (x : Q) : same_series m0 (add_patient_satisfaction_score x m).
Proof. exact Hsame. Qed.

Lemma kept_boarding (x : Q) : same_series m0 (add_ed_boarding_time x m).
Proof. exact Hsame. Qed.

Lemma kept_cdu_conversion (converted : bool) :
  same_series m0 (add_cdu_conversion converted m).
Proof. unfold add_cdu_conversion. by destruct converted. Qed.

Lemma kept_pulley_utilization (t : Q) (c : Z) :
  same_series m0 (add_pulley_utilization t c m).
Proof. unfold add_pulley_utilization. by destruct (count_changed _ c). Qed.

Lemma kept_overall_tat (x : Q) : same_series m0 (add_overall_imaging_tat x m).
Proof. exact Hsame. Qed.

Lemma kept_critical_tat (x : Q) : same_series m0 (add_critical_imaging_tat x m).
Proof. exact Hsame. Qed.

Lemma kept_ed_cdu_tat (x : Q) : same_series m0 (add_ed_cdu_imaging_tat x m).
Proof. exact Hsame. Qed.

Lemma kept_hospital_los (x : Q) : same_series m0 (add_total_hospital_los x m).
Proof. exact Hsame. Qed.

Lemma kept_ed_wait (x : Q) : same_series m0 (add_ed_wait_time_for_transport x m).
Proof. exact Hsame. Qed.

Lemma kept_transfer_time (x : Z) : same_series m0 (add_transfer_time_to_admit x m).
Proof. exact Hsame. Qed.

Lemma kept_transport_count (way : option TransportType) :
  same_series m0 (add_transport_type_count way m).
Proof. by destruct way as [[]|]. Qed.

Lemma kept_amenities (x : Q) : same_series m0 (set_total_amenities_cost x m).
Proof. exact Hsame. Qed.
End SameSeries.

Lemma same_series_refl (m : MetricsTracker) : same_series m m.
Proof. by split. Qed.

Lemma same_series_step (t : Q) (s s' : HospitalSimulator) :
  same_series (metrics s) (metrics s') → series_step t s s'.
Proof. intros [H1 H2]. split; by left. Qed.

Lemma process_event_series (d : Draws) (event_time : Q) (k : EventKind)
    (pid : option string) (payload : option Z) (s s' : HospitalSimulator) :
  _process_event d event_time k pid payload s = Ok s' → series_step event_time s s'.
Proof.
  intros H. open_handlers H k.
  all: exec.
  all: repeat match goal with
       | H : _determine_patient_disposition _ _ _ _ _ = Ok _ |- _ =>
           apply determine_disposition_metrics in H as (? & ? & -> & [->| ->])
       | H : leave_current_unit _ _ _ _ = _ |- _ =>
           apply leave_current_unit_inv in H as [[-> ->]|(? & ? & ? & -> & ->)]
       end.
  all: frames.
  all: sim_fields.
  all: try (apply same_series_step; sim_fields;
            repeat first
              [ apply same_series_refl
              | match goal with
                | |- same_series _ (if ?c then _ else _) => destruct c
                | |- same_series _ (match ?x with _ => _ end) => destruct x
                end
              | apply kept_ed_los | apply kept_score | apply kept_boarding
              | apply kept_cdu_conversion | apply kept_pulley_utilization
              | apply kept_overall_tat | apply kept_critical_tat | apply kept_ed_cdu_tat
              | apply kept_hospital_los | apply kept_ed_wait | apply kept_transfer_time
              | apply kept_transport_count | apply kept_amenities ]; fail).
  all: unfold series_step; sim_fields.
  all: unfold add_cdu_occupancy, add_inpatient_occupancy.
  all: match goal with |- context [count_changed ?l ?c] => destruct (count_changed l c) end.
  all: split; first [by left | by right].
Qed.

Lemma loop_iteration_series (d : Draws) (s s' : HospitalSimulator) :
  loop_iteration d s = Ok (Some s') →
  heap_ok event_lt (event_queue s) →
  Forall (λ e, kind e ≠ AI_STAFFING_ADJUSTMENT) (event_queue s) →
  series_step (sim_time s') s s'.
Proof.
  unfold loop_iteration. intros H Hok Hkinds. exec.
  - apply same_series_step. by split.
  - destruct (popped_first s e l Hok Hr) as (He & _ & _).
    rewrite Forall_forall in Hkinds. specialize (Hkinds e He).
    destruct (process_event_schedule _ _ _ _ _ _ _ Hr0 Hkinds) as ((_ & _ & _ & ->) & _).
    apply process_event_series in Hr0. exact Hr0.
Qed.

Lemma series_step_ok (cfg : Config) (cdu_enabled : bool) (s s' : HospitalSimulator) :
  series_step (sim_time s') s s' →
  (inject_Z (SIM_START_TIME cfg) <= sim_time s)%Q → (sim_time s <= sim_time s')%Q →
  capacity (units s INPATIENT) = configured_capacity cfg cdu_enabled INPATIENT →
  capacity (units s CDU) = configured_capacity cfg cdu_enabled CDU →
  within_capacity (units s INPATIENT) → within_capacity (units s CDU) →
  series_ok cfg cdu_enabled s → series_ok cfg cdu_enabled s'.
Proof.
  intros [Hi Hc] Hstart Hle Hcap_i Hcap_c Hin_i Hin_c [Hok_i Hok_c].
  unfold within_capacity in *. rewrite Hcap_i in Hin_i. rewrite Hcap_c in Hin_c.
  split.
  - destruct Hi as [->| ->].
    + by apply (sampled_within_later _ (sim_time s)).
    + apply (sampled_within_snoc _ (sim_time s)); [done..|lia].
  - destruct Hc as [->| ->].
    + by apply (sampled_within_later _ (sim_time s)).
    + apply (sampled_within_snoc _ (sim_time s)); [done..|lia].
Qed.

Lemma event_loop_series (cfg : Config) (cdu_enabled : bool) (n : nat)
    (draws : nat → Draws) (s s' : HospitalSimulator) (over : bool) :
  event_loop n draws s = Ok (over, s') →
  heap_ok event_lt (event_queue s) → clock_ok s →
  config s = cfg → durations_nonneg cfg → (∀ i, 0 <= expovariate (draws i))%Q →
  (inject_Z (SIM_START_TIME cfg) <= sim_time s)%Q →
  capacity (units s INPATIENT) = configured_capacity cfg cdu_enabled INPATIENT →
  capacity (units s CDU) = configured_capacity cfg cdu_enabled CDU →
  within_capacity (units s INPATIENT) → within_capacity (units s CDU) →
  series_ok cfg cdu_enabled s → series_ok cfg cdu_enabled s'.
Proof.
  revert draws s. induction n as [|n IH];
    intros draws s H Hok [Hkinds Htimes] Hcfg Hdur Hexp Hstart Hcap_i Hcap_c Hin_i Hin_c Hs.
  - cbn in H. by inversion H; subst.
  - cbn [event_loop] in H. bind_inv H. destruct r as [s1|]; [|by inversion H; subst].
    pose proof (loop_iteration_queue_ok _ _ _ Hr Hok) as Hok1.
    destruct (loop_iteration_schedule _ _ _ Hr Hok Hkinds)
      as ((Hc1 & _ & _) & Hk1 & _ & HB1).
    destruct HB1 as [Htimes1 Hle]; [by rewrite Hcfg|done|done|].
    pose proof (loop_iteration_units _ _ _ Hr) as Hunits.
    pose proof (loop_iteration_series _ _ _ Hr Hok Hkinds) as Hstep.
    destruct (Hunits INPATIENT) as (Hi1 & _ & Hi2).
    destruct (Hunits CDU) as (Hc1' & _ & Hc2).
    apply (IH _ _ H); try done.
    + by rewrite Hc1.
    + lra.
    + by rewrite Hi1.
    + by rewrite Hc1'.
    + by apply Hi2.
    + by apply Hc2.
    + by apply (series_step_ok cfg cdu_enabled s s1).
Qed.

Lemma boundary_series (cfg : Config) (ids : nat → string)
    (cdu ai_imaging ai_staffing amenities ai_entertainment : bool)
    (n : nat) (draws : nat → Draws) (over : bool) (s : HospitalSimulator) :
  boundary cfg ids cdu ai_imaging ai_staffing amenities ai_entertainment n draws
  = Ok (over, s) →
  durations_nonneg cfg → (∀ i, 0 <= expovariate (draws i))%Q →
  0 ≤ UNIT_CAPACITY cfg INPATIENT → 0 ≤ CDU_BEDS cfg →
  series_ok cfg cdu s.
Proof.
  intros H Hdur Hexp Hcap_i Hcap_c. unfold boundary in H. bind_inv H.
  destruct (new_simulator_clock cfg ids cdu ai_imaging ai_staffing amenities
              ai_entertainment) as (Hc0 & Hq0 & Ht0 & He0 & Ha0).
  pose proof (new_simulator_units cfg ids cdu ai_imaging ai_staffing amenities
                ai_entertainment) as Hu0.
  pose proof (new_simulator_metrics cfg ids cdu ai_imaging ai_staffing amenities
                ai_entertainment) as Hm0.
  cbv zeta in *.
  pose proof (seed_events_queue_ok _ _ Hr Hq0) as Hok.
  pose proof (seed_events_units _ _ Hr) as Hu.
  pose proof (seed_events_metrics _ _ Hr) as [Hm _].
  apply seed_events_schedule in Hr as ((Hc & _ & _ & Hclock) & Hk & HF); [|done].
  destruct (Hu0 INPATIENT) as [Hi1 Hi2]. destruct (Hu0 CDU) as [Hc1 Hc2].
  apply (event_loop_series cfg cdu n draws r s over H); try done.
  - split; [done|]. rewrite Hclock. apply HF. rewrite Hc0. apply Hdur.
  - by rewrite Hc.
  - rewrite Hclock, Ht0. lra.
  - by rewrite Hu.
  - by rewrite Hu.
  - unfold within_capacity. rewrite Hu, Hi1, Hi2. cbn. done.
  - unfold within_capacity. rewrite Hu, Hc1, Hc2. cbn. by destruct cdu.
  - unfold series_ok. by rewrite Hm, Hm0.
Qed.

Lemma finish_run_series (s : HospitalSimulator) :
  same_series (metrics s) (metrics (finish_run s)).
Proof.
  unfold finish_run. destruct (enable_ai_entertainment _); sim_fields; by split.
Qed.

Lemma utilization_range (avg : Q) (cap beds : Z) :
  (0 <= avg)%Q → (avg <= inject_Z cap)%Q → cap ≤ beds →
  (0 <= utilization avg beds)%Q ∧ (utilization avg beds <= 100)%Q.
Proof.
  intros H0 Hcap Hbeds. unfold utilization.
  destruct (0 <? beds) eqn:E; [|split; lra]. apply Z.ltb_lt in E.
  assert (0 < inject_Z beds)%Q as Hpos.
  { change 0%Q with (inject_Z 0). rewrite <- Zlt_Qlt. lia. }
  assert (inject_Z cap <= inject_Z beds)%Q as Hle by (by apply inject_Z_le).
  assert (0 <= avg / inject_Z beds)%Q by (apply Qle_shift_div_l; [done|lra]).
  assert (avg / inject_Z beds <= 1)%Q by (apply Qle_shift_div_r; [done|lra]).
  split; lra.
Qed.

(** X21: when no interval, duration range or inter-arrival draw is negative,
    the run starts at or after minute 0 and ends by the end of the week of
    the class [Config], and its inpatient and CDU capacities are not negative
    and do not exceed the beds of the class [Config], then the report of the
    finished run gives average occupancies between 0 and the capacities of
    the run and utilisations between 0 and 100 percent.  The pulley
    utilisation it gives is 0 whatever the run did. *)
Theorem reported_utilization_in_range (cfg : Config) (ids : nat → string)
    (cdu ai_imaging ai_staffing amenities ai_entertainment : bool)
    (n : nat) (draws : nat → Draws) (over : bool) (s : HospitalSimulator) :
  durations_nonneg cfg →
  (∀ i, 0 <= expovariate (draws i))%Q →
  0 ≤ SIM_START_TIME cfg ≤ SIM_END_TIME cfg →
  SIM_END_TIME cfg ≤ SIM_END_TIME Config_base →
  0 ≤ UNIT_CAPACITY cfg INPATIENT ≤ INPATIENT_BEDS Config_base →
  0 ≤ CDU_BEDS cfg ≤ CDU_BEDS Config_base →
  boundary cfg ids cdu ai_imaging ai_staffing amenities ai_entertainment n draws
  = Ok (over, s) →
  let r := report (metrics (finish_run s)) in
  ((0 <= avg_inpatient_occupancy r)%Q ∧
   (avg_inpatient_occupancy r <= inject_Z (UNIT_CAPACITY cfg INPATIENT))%Q) ∧
  ((0 <= cdu_avg_occupancy r)%Q ∧ (cdu_avg_occupancy r <= inject_Z (CDU_BEDS cfg))%Q) ∧
  ((0 <= inpatient_avg_utilization r)%Q ∧ (inpatient_avg_utilization r <= 100)%Q) ∧
  ((0 <= cdu_avg_utilization r)%Q ∧ (cdu_avg_utilization r <= 100)%Q) ∧
  (pulley_avg_utilization r == 0)%Q.
Proof.
  intros Hdur Hexp Htime Hend Hcap_i Hcap_c H.
  pose proof (boundary_series _ _ _ _ _ _ _ _ _ _ _ H Hdur Hexp
                (proj1 Hcap_i) (proj1 Hcap_c)) as [Hi Hc].
  apply boundary_schedule in H as (_ & _ & _ & Hclock & _).
  specialize (Hclock (proj2 Htime)).
  destruct (finish_run_series s) as [Ei Ec].
  assert (∀ cap l,
            sampled_within (inject_Z (SIM_START_TIME cfg)) (sim_time s) cap l →
            sampled_within 0 (inject_Z (SIM_END_TIME Config_base)) cap l) as Hwide.
  { intros cap l Hl.
    apply (sampled_within_earlier (inject_Z (SIM_START_TIME cfg))).
    - apply (sampled_within_later _ (sim_time s)); [done|].
      pose proof (inject_Z_le _ _ Hend). lra.
    - change 0%Q with (inject_Z 0). apply inject_Z_le. lia. }
  apply Hwide in Hi. apply Hwide in Hc.
  assert (0 ≤ configured_capacity cfg cdu CDU ≤ CDU_BEDS cfg) as Hcdu.
  { cbn. destruct cdu; lia. }
  cbn [configured_capacity] in Hi.
  pose proof (weighted_average_bounds _ _ Hi (proj1 Hcap_i)) as [Hi0 Hi1].
  pose proof (weighted_average_bounds _ _ Hc (proj1 Hcdu)) as [Hc0 Hc1].
  cbv zeta in *. unfold report.
  cbn [avg_inpatient_occupancy cdu_avg_occupancy inpatient_avg_utilization
       cdu_avg_utilization pulley_avg_utilization].
  rewrite Ei, Ec.
  pose proof (inject_Z_le _ _ (proj2 Hcdu)) as Hcdu'.
  split; [by split|]. split; [split; [done|lra]|].
  split; [apply (utilization_range _ (UNIT_CAPACITY cfg INPATIENT)); [done|done|lia]|].
  split; [apply (utilization_range _ (configured_capacity cfg cdu CDU));
          [done|done|lia]|].
  reflexivity.
Qed.

Lemma reported_utilization_in_range_witness :
  match boundary SmallWardConfig demo_ids false false false false false 32 ward_draws with
  | Ok (_, s) =>
      let r := report (metrics (finish_run s)) in
      ((0 <= avg_inpatient_occupancy r)%Q ∧
       (avg_inpatient_occupancy r <= inject_Z (UNIT_CAPACITY SmallWardConfig INPATIENT))%Q) ∧
      ((0 <= cdu_avg_occupancy r)%Q ∧
       (cdu_avg_occupancy r <= inject_Z (CDU_BEDS SmallWardConfig))%Q) ∧
      ((0 <= inpatient_avg_utilization r)%Q ∧ (inpatient_avg_utilization r <= 100)%Q) ∧
      ((0 <= cdu_avg_utilization r)%Q ∧ (cdu_avg_utilization r <= 100)%Q) ∧
      (pulley_avg_utilization r == 0)%Q
  | Raise _ => False
  end.
Proof.
  destruct (boundary SmallWardConfig demo_ids false false false false false 32 ward_draws)
    as [[over s]|e] eqn:E.
  - apply (reported_utilization_in_range SmallWardConfig demo_ids false false false false
             false 32%nat ward_draws over s);
      [exact small_ward_durations| |cbn; lia|cbn; lia|cbn; lia|cbn; lia|exact E].
    intros i. cbn. destruct (decide (i < 6)%nat); unfold Qle; cbn; lia.
  - vm_compute in E. discriminate E.
Defined.
